(** * Minirel storage core: buffer pool manager and heap files

    A shallow embedding of [buf.C] (the clock buffer manager) and of the two
    variants of [heapfile.C] found in the repository, together with the
    properties of the storage specification that were checked against them.

    Layout of the file:
    - statuses, record identifiers, the page layer and the file provider
      (the external collaborators, taken as interfaces);
    - a state-and-failure monad: every C++ member function becomes a
      computation over the explicit system state that may also be
      _undefined_ (a null or out-of-bounds dereference, a function that
      falls off its end);
    - [BufMgr]: [allocBuf], [readPage], [unPinPage], [allocPage],
      [disposePage], [flushFile];
    - the heap file layer, once per variant (modules [Stage4] and [Var2]);
    - a small concrete page layer and provider used to run the model;
    - the theorems. *)

From stdpp Require Import gmap strings list fin_maps.
From Stdlib Require Import ZArith Lia.

Local Open Scope Z_scope.

(** ** Statuses and identifiers *)

(** The closed status set of [error.h].  [OK] is the zero enumerator, so the
    C++ test [if (status)] reads [status <> OK]. *)
Inductive Status : Set :=
| OK | FILEEXISTS | FILEEOF | BUFFEREXCEEDED | PAGENOTPINNED | PAGEPINNED
| HASHNOTFOUND | HASHTBLERROR | UNIXERR | BADPAGENO | BADRID | BADSCANPARM
| BADSCANID | BADBUFFER | INVALIDRECLEN | NOSPACE | ENDOFPAGE | NORECORDS
| BADFILE | INSUFMEM | ATTRTYPEMISMATCH | ATTRNOTFOUND | ATTRTOOLONG
| BADCATPARM.

#[global] Instance Status_eq_dec : EqDecision Status.
Proof. solve_decision. Defined.

Definition isOK (st : Status) : bool := bool_decide (st = OK).

(** A [File*] that points to an open file object.  A nullable [File*] is an
    [option File]; dereferencing [None] is undefined. *)
Definition File := nat.

(** [RID]: page number and slot number; [NULLRID] is [(-1, -1)]. *)
Record RID : Set := mkRID { ridPageNo : Z; ridSlotNo : Z }.

Definition NULLRID : RID := mkRID (-1) (-1).

#[global] Instance RID_eq_dec : EqDecision RID.
Proof. solve_decision. Defined.

(** [struct Record]: the bytes of a record and its length (an [int]). *)
Record RecordT : Set := mkRecord { recData : list Z; recLength : Z }.

#[global] Instance RecordT_eq_dec : EqDecision RecordT.
Proof. solve_decision. Defined.

(** [FileHdrPage]: the header stored in the first page of a heap file.  The
    name field is kept as the C string it holds. *)
Record FileHdrPage : Set := mkHdr {
  fileName : string;
  pageCnt : Z;
  recCnt : Z;
  firstPage : Z;
  lastPage : Z
}.

#[global] Instance FileHdrPage_eq_dec : EqDecision FileHdrPage.
Proof. solve_decision. Defined.

(** [enum Datatype] and [enum Operator].  A C++ enumeration can hold a value
    outside its enumerators (the query layer casts an [int] to [Datatype]);
    the last constructor stands for such a value. *)
Inductive Datatype : Set := STRING | INTEGER | FLOAT | DatatypeOther (n : Z).

Inductive Operator : Set := LT | LTE | EQ | GTE | GT | NE | OperatorOther (n : Z).

#[global] Instance Datatype_eq_dec : EqDecision Datatype.
Proof. solve_decision. Defined.

#[global] Instance Operator_eq_dec : EqDecision Operator.
Proof. solve_decision. Defined.

(** ** The page layer (external)

    [page.h]/[page.C] are not part of the sources: the slotted page is an
    interface.  Each operation returns its status together with what it
    writes through its reference parameters.  [hdrOf]/[hdrSet] are the two
    directions of [reinterpret_cast<FileHdrPage *>] on a frame.  [PAGESIZE],
    [DPFIXED] and [MAXNAMESIZE] are the compile-time constants of the layer.
    [fieldDiff type offset length rec filter] is the sign of the difference
    that [matchRec] computes in floating point from the bytes of the record
    and of the filter ([None] when it is not a number). *)
Class PageLayer := {
  Page : Type;
  PAGESIZE : Z;
  DPFIXED : Z;
  MAXNAMESIZE : nat;
  fieldDiff : Datatype -> Z -> Z -> RecordT -> list Z -> option comparison;
  zeroPage : Page;
  pageInit : Z -> Page -> Page;
  pageInsertRecord : RecordT -> Page -> Status * RID * Page;
  pageDeleteRecord : RID -> Page -> Status * Page;
  pageGetRecord : RID -> Page -> Status * RecordT;
  pageFirstRecord : Page -> Status * RID;
  pageNextRecord : RID -> Page -> Status * RID;
  pageGetNextPage : Page -> Status * Z;
  pageSetNextPage : Z -> Page -> Status * Page;
  hdrOf : Page -> FileHdrPage;
  hdrSet : FileHdrPage -> Page -> Page;
  hdrOf_hdrSet : forall h p, hdrOf (hdrSet h p) = h;
  hdrSet_hdrSet : forall h h' p, hdrSet h (hdrSet h' p) = hdrSet h p
}.

(** ** The file provider (external)

    [db.h]/[db.C] are not part of the sources either.  The provider is a
    state ([World]) with the operations of the file-provider contract; every
    one may fail.  [fpReadPage] receives the old contents of the destination
    buffer and returns the new ones. *)
Class FileProvider {PL : PageLayer} := {
  World : Type;
  fpOpenFile : string -> World -> Status * File * World;
  fpCreateFile : string -> World -> Status * World;
  fpDestroyFile : string -> World -> Status * World;
  fpCloseFile : File -> World -> Status * World;
  fpGetFirstPage : File -> World -> Status * Z * World;
  fpAllocatePage : File -> World -> Status * Z * World;
  fpDisposePage : File -> Z -> World -> Status * World;
  fpReadPage : File -> Z -> Page -> World -> Status * Page * World;
  fpWritePage : File -> Z -> Page -> World -> Status * World
}.

(** The calls made to the provider, in order: a ghost log that makes
    "was written back" and "was closed" observable. *)
Inductive Call {PL : PageLayer} : Type :=
| COpenFile (name : string)
| CCreateFile (name : string)
| CDestroyFile (name : string)
| CCloseFile (f : File)
| CGetFirstPage (f : File)
| CAllocatePage (f : File)
| CDisposePage (f : File) (p : Z)
| CReadPage (f : File) (p : Z)
| CWritePage (f : File) (p : Z) (pg : Page).

(** ** The state-and-failure monad *)

Definition M (S A : Type) : Type := S -> option (A * S).

Definition ret {S A} (a : A) : M S A := fun s => Some (a, s).

Definition bind {S A B} (m : M S A) (k : A -> M S B) : M S B :=
  fun s => match m s with
           | Some (a, s') => k a s'
           | None => None
           end.

(** Undefined behaviour of the C++ program. *)
Definition undef {S A} : M S A := fun _ => None.

Definition gets {S A} (f : S -> A) : M S A := fun s => Some (f s, s).

Definition modify {S} (f : S -> S) : M S unit := fun s => Some (tt, f s).

(** The computations use stdpp's monad notation: [x ← c; k] and [c ;; k]. *)
#[global] Instance M_ret {S} : MRet (M S) := fun A a => ret a.
#[global] Instance M_bind {S} : MBind (M S) := fun A B k m => bind m k.

(** ** Buffer descriptors and the buffer manager state *)

Record BufDesc : Set := mkBufDesc {
  file : option File;
  pageNo : Z;
  frameNo : nat;
  pinCnt : Z;
  dirty : bool;
  valid : bool;
  refbit : bool
}.

#[global] Instance BufDesc_eq_dec : EqDecision BufDesc.
Proof. solve_decision. Defined.

(** Modelled from the spec: [BufDesc::Clear] ([buf.h] is not part of the
    sources).  The spec fixes [valid=false, pinCnt=0, dirty=false,
    refbit=false]; the owner fields are reset the way [flushFile] resets them
    ("clear the frame metadata"). *)
Definition BufDesc_Clear (d : BufDesc) : BufDesc :=
  {| file := None; pageNo := -1; frameNo := frameNo d; pinCnt := 0;
     dirty := false; valid := false; refbit := false |}.

(** Modelled from the spec: [BufDesc::Set(file, pageNo)] establishes
    [valid=true, pinCnt=1, refbit=true, dirty=false]. *)
Definition BufDesc_Set (f : File) (p : Z) (d : BufDesc) : BufDesc :=
  {| file := Some f; pageNo := p; frameNo := frameNo d; pinCnt := 1;
     dirty := false; valid := true; refbit := true |}.

Definition setRefbit (b : bool) (d : BufDesc) : BufDesc :=
  {| file := file d; pageNo := pageNo d; frameNo := frameNo d;
     pinCnt := pinCnt d; dirty := dirty d; valid := valid d; refbit := b |}.

Definition setDirty (b : bool) (d : BufDesc) : BufDesc :=
  {| file := file d; pageNo := pageNo d; frameNo := frameNo d;
     pinCnt := pinCnt d; dirty := b; valid := valid d; refbit := refbit d |}.

Definition setPinCnt (n : Z) (d : BufDesc) : BufDesc :=
  {| file := file d; pageNo := pageNo d; frameNo := frameNo d;
     pinCnt := n; dirty := dirty d; valid := valid d; refbit := refbit d |}.

(** The three assignments at the end of a [flushFile] iteration. *)
Definition invalidate (d : BufDesc) : BufDesc :=
  {| file := None; pageNo := -1; frameNo := frameNo d;
     pinCnt := pinCnt d; dirty := dirty d; valid := false; refbit := refbit d |}.

Section Model.
Context {PL : PageLayer} {FP : FileProvider}.

(** [class BufMgr]: the descriptor table, the frame pool, the hash table
    (modelled from the spec as a finite map from [(file, pageNo)] to the frame
    number) and the clock hand.  Frame indices are naturals. *)
Record BufMgr : Type := mkBufMgr {
  numBufs : nat;
  bufTable : list BufDesc;
  bufPool : list Page;
  hashTable : gmap (File * Z) nat;
  clockHand : nat
}.

(** The whole system: the pool, the provider's state and the call log. *)
Record Sys : Type := mkSys {
  bm : BufMgr;
  world : World;
  calls : list Call
}.

Definition withBufTable (t : list BufDesc) (b : BufMgr) : BufMgr :=
  mkBufMgr (numBufs b) t (bufPool b) (hashTable b) (clockHand b).
Definition withBufPool (p : list Page) (b : BufMgr) : BufMgr :=
  mkBufMgr (numBufs b) (bufTable b) p (hashTable b) (clockHand b).
Definition withHashTable (h : gmap (File * Z) nat) (b : BufMgr) : BufMgr :=
  mkBufMgr (numBufs b) (bufTable b) (bufPool b) h (clockHand b).
Definition withClockHand (c : nat) (b : BufMgr) : BufMgr :=
  mkBufMgr (numBufs b) (bufTable b) (bufPool b) (hashTable b) c.
Definition withBm (f : BufMgr -> BufMgr) (s : Sys) : Sys :=
  mkSys (f (bm s)) (world s) (calls s).

(** [bufTable[i]] and [bufPool[i]]: an index outside the array is
    undefined. *)
Definition getDesc (i : nat) : M Sys BufDesc :=
  fun s => match bufTable (bm s) !! i with
           | Some d => Some (d, s)
           | None => None
           end.

Definition putDesc (i : nat) (d : BufDesc) : M Sys unit :=
  modify (withBm (fun b => withBufTable (<[i := d]> (bufTable b)) b)).

Definition getFrame (i : nat) : M Sys Page :=
  fun s => match bufPool (bm s) !! i with
           | Some p => Some (p, s)
           | None => None
           end.

Definition putFrame (i : nat) (p : Page) : M Sys unit :=
  modify (withBm (fun b => withBufPool (<[i := p]> (bufPool b)) b)).

(** Calls into the provider: run the operation on the world and log it.  A
    method call through a null [File*] is undefined. *)
Definition callWorld {A} (c : Call) (op : World -> A * World) : M Sys A :=
  fun s => let '(a, w) := op (world s) in
           Some (a, mkSys (bm s) w (calls s ++ [c])).

Definition fileWritePage (f : option File) (p : Z) (pg : Page) : M Sys Status :=
  match f with
  | Some f => callWorld (CWritePage f p pg) (fpWritePage f p pg)
  | None => undef
  end.

Definition fileReadPage (f : option File) (p : Z) (old : Page) : M Sys (Status * Page) :=
  match f with
  | Some f => callWorld (CReadPage f p)
                (fun w => let '(st, pg, w') := fpReadPage f p old w in ((st, pg), w'))
  | None => undef
  end.

Definition fileAllocatePage (f : option File) : M Sys (Status * Z) :=
  match f with
  | Some f => callWorld (CAllocatePage f)
                (fun w => let '(st, p, w') := fpAllocatePage f w in ((st, p), w'))
  | None => undef
  end.

Definition fileDisposePage (f : option File) (p : Z) : M Sys Status :=
  match f with
  | Some f => callWorld (CDisposePage f p) (fpDisposePage f p)
  | None => undef
  end.

(** Modelled from the spec: [BufHashTbl] ([bufHash.C] is not part of the
    sources).  [insert] fails with [HASHTBLERROR] on a duplicate, [lookup] and
    [remove] report [HASHNOTFOUND] on a miss.  No entry is ever keyed by a
    null file. *)
Definition hashLookup (f : option File) (p : Z) : M Sys (Status * option nat) :=
  fun s => match f with
           | Some f =>
             match hashTable (bm s) !! (f, p) with
             | Some i => Some ((OK, Some i), s)
             | None => Some ((HASHNOTFOUND, None), s)
             end
           | None => Some ((HASHNOTFOUND, None), s)
           end.

Definition hashInsert (f : File) (p : Z) (i : nat) : M Sys Status :=
  fun s => match hashTable (bm s) !! (f, p) with
           | Some _ => Some (HASHTBLERROR, s)
           | None => Some (OK, withBm (fun b => withHashTable (<[(f, p) := i]> (hashTable b)) b) s)
           end.

Definition hashRemove (f : option File) (p : Z) : M Sys Status :=
  fun s => match f with
           | Some f =>
             match hashTable (bm s) !! (f, p) with
             | Some _ => Some (OK, withBm (fun b => withHashTable (delete (f, p) (hashTable b)) b) s)
             | None => Some (HASHNOTFOUND, s)
             end
           | None => Some (HASHNOTFOUND, s)
           end.

(** [BufMgr::BufMgr(bufs)]: all descriptors zeroed and invalid, the hand on
    the last frame. *)
Definition newBufDesc (i : nat) : BufDesc :=
  {| file := None; pageNo := 0; frameNo := i; pinCnt := 0;
     dirty := false; valid := false; refbit := false |}.

Definition BufMgr_new (bufs : nat) : BufMgr :=
  {| numBufs := bufs;
     bufTable := map newBufDesc (seq 0 bufs);
     bufPool := replicate bufs zeroPage;
     hashTable := ∅;
     clockHand := (bufs - 1)%nat |}.

(** Modelled from the spec: [advanceClock] ([buf.h]) walks the clock
    circularly. *)
Definition advanceClock : M Sys unit :=
  modify (withBm (fun b => withClockHand ((clockHand b + 1) mod numBufs b)%nat b)).

(** One turn of the [for] loop of [allocBuf]: [Some r] when the turn returns
    [r] (status and the value written to [frame], if any), [None] when the
    loop goes on. *)
Definition allocBuf_turn : M Sys (option (Status * option nat)) :=
  hand ← gets (fun s => clockHand (bm s));
  tmpbuf ← getDesc hand;
  if negb (valid tmpbuf) then
    advanceClock ;;
    ret (Some (OK, Some hand))
  else if refbit tmpbuf then
    putDesc hand (setRefbit false tmpbuf) ;;
    advanceClock ;;
    ret None
  else if pinCnt tmpbuf =? 0 then
    st ← (if dirty tmpbuf then
             pg ← getFrame hand;
             fileWritePage (file tmpbuf) (pageNo tmpbuf) pg
           else ret OK);
    if negb (isOK st) then ret (Some (UNIXERR, None))
    else
      st ← hashRemove (file tmpbuf) (pageNo tmpbuf);
      if negb (isOK st) then ret (Some (HASHTBLERROR, None))
      else
        putDesc hand (BufDesc_Clear tmpbuf) ;;
        ret (Some (OK, Some hand))
  else
    advanceClock ;;
    ret None.

Fixpoint allocBuf_loop (n : nat) : M Sys (Status * option nat) :=
  match n with
  | O => ret (BUFFEREXCEEDED, None)
  | S n' =>
    r ← allocBuf_turn;
    match r with
    | Some out => ret out
    | None => allocBuf_loop n'
    end
  end.

(** [BufMgr::allocBuf(int &frame)]: the status, and the frame number when one
    was written to [frame]. *)
Definition allocBuf : M Sys (Status * option nat) :=
  n ← gets (fun s => numBufs (bm s));
  allocBuf_loop (n * 2).

(** [BufMgr::readPage(file, PageNo, page)].  The result is the status and,
    when [page] was assigned, the frame it points to.  After a miss only
    [BUFFEREXCEEDED] is tested: with any other failure of [allocBuf],
    [frameNo] is still [-1] and [bufPool[frameNo]] is undefined. *)
Definition readPage (f : option File) (PageNo : Z) : M Sys (Status * option nat) :=
  '(err, frameNo) ← hashLookup f PageNo;
  if bool_decide (err = HASHNOTFOUND) then
    '(err, frameNo) ← allocBuf;
    if bool_decide (err = BUFFEREXCEEDED) then ret (err, None)
    else
      match frameNo with
      | None => undef
      | Some fr =>
        old ← getFrame fr;
        '(err, pg) ← fileReadPage f PageNo old;
        putFrame fr pg ;;
        if negb (isOK err) then ret (UNIXERR, None)
        else
          match f with
          | None => undef
          | Some fh =>
            err ← hashInsert fh PageNo fr;
            if negb (isOK err) then ret (HASHTBLERROR, None)
            else
              d ← getDesc fr;
              putDesc fr (BufDesc_Set fh PageNo d) ;;
              ret (OK, Some fr)
          end
      end
  else
    match frameNo with
    | None => undef
    | Some fr =>
      d ← getDesc fr;
      putDesc fr (setPinCnt (pinCnt d + 1) (setRefbit true d)) ;;
      ret (OK, Some fr)
    end.

(** [BufMgr::unPinPage(file, PageNo, dirty)]. *)
Definition unPinPage (f : option File) (PageNo : Z) (dirty_ : bool) : M Sys Status :=
  '(cache_status, frameNo) ← hashLookup f PageNo;
  if bool_decide (cache_status = HASHNOTFOUND) then ret HASHNOTFOUND
  else
    match frameNo with
    | None => undef
    | Some fr =>
      tmpbuf ← getDesc fr;
      if pinCnt tmpbuf =? 0 then ret PAGENOTPINNED
      else
        putDesc fr (setDirty (dirty tmpbuf || dirty_) (setPinCnt (pinCnt tmpbuf - 1) tmpbuf)) ;;
        ret OK
    end.

(** [BufMgr::allocPage(file, pageNo, page)]: the status, the page number the
    provider wrote to [pageNo], and the frame [page] points to when it was
    assigned. *)
Definition allocPage (f : option File) : M Sys (Status * Z * option nat) :=
  '(err, pageNo_) ← fileAllocatePage f;
  if negb (isOK err) then ret (err, pageNo_, None)
  else
    '(err, frameNo) ← allocBuf;
    if negb (isOK err) then ret (err, pageNo_, None)
    else
      match f, frameNo with
      | Some fh, Some fr =>
        err ← hashInsert fh pageNo_ fr;
        if negb (isOK err) then ret (err, pageNo_, None)
        else
          d ← getDesc fr;
          putDesc fr (BufDesc_Set fh pageNo_ d) ;;
          ret (OK, pageNo_, Some fr)
      | _, _ => undef
      end.

(** [BufMgr::disposePage(file, pageNo)]. *)
Definition disposePage (f : option File) (pageNo_ : Z) : M Sys Status :=
  '(status, frameNo) ← hashLookup f pageNo_;
  (if isOK status then
     match frameNo with
     | None => undef
     | Some fr =>
       d ← getDesc fr;
       putDesc fr (BufDesc_Clear d)
     end
   else ret tt) ;;
  hashRemove f pageNo_ ;;
  fileDisposePage f pageNo_.

(** One turn of the [for] loop of [flushFile] on frame [i]: [Some st] when
    the turn returns [st]. *)
Definition flushFile_turn (f : option File) (i : nat) : M Sys (option Status) :=
  tmpbuf ← getDesc i;
  if valid tmpbuf && bool_decide (file tmpbuf = f) then
    if 0 <? pinCnt tmpbuf then ret (Some PAGEPINNED)
    else
      status ← (if dirty tmpbuf then
                  pg ← getFrame i;
                  fileWritePage (file tmpbuf) (pageNo tmpbuf) pg
                else ret OK);
      if negb (isOK status) then ret (Some status)
      else
        hashRemove f (pageNo tmpbuf) ;;
        putDesc i (invalidate (setDirty false tmpbuf)) ;;
        ret None
  else if negb (valid tmpbuf) && bool_decide (file tmpbuf = f) then
    ret (Some BADBUFFER)
  else ret None.

(** The loop over the frames [i, i+1, ..., i+n-1]. *)
Fixpoint flushFile_loop (f : option File) (i n : nat) : M Sys Status :=
  match n with
  | O => ret OK
  | S n' =>
    r ← flushFile_turn f i;
    match r with
    | Some st => ret st
    | None => flushFile_loop f (S i) n'
    end
  end.

(** [BufMgr::flushFile(file)]. *)
Definition flushFile (f : option File) : M Sys Status :=
  n ← gets (fun s => numBufs (bm s));
  flushFile_loop f 0 n.

(** [BufMgr::~BufMgr()]: one turn of its loop on frame [i], the loop over
    the frames [i, ..., i+n-1], and the destructor.  The status of
    [writePage] is dropped.  The arrays are deleted afterwards; the state
    that is left is the one before the deletion. *)
Definition BufMgr_dtor_turn (i : nat) : M Sys unit :=
  tmpbuf ← getDesc i;
  if valid tmpbuf && dirty tmpbuf then
    pg ← getFrame i;
    fileWritePage (file tmpbuf) (pageNo tmpbuf) pg ;;
    ret tt
  else ret tt.

Fixpoint BufMgr_dtor_loop (i n : nat) : M Sys unit :=
  match n with
  | O => ret tt
  | S n' =>
    BufMgr_dtor_turn i ;;
    BufMgr_dtor_loop (S i) n'
  end.

Definition BufMgr_dtor : M Sys unit :=
  n ← gets (fun s => numBufs (bm s));
  BufMgr_dtor_loop 0 n.

End Model.

(** ** Heap files: the object state and its access to the pool

    [HeapFile] holds the data members of [class HeapFile] and of
    [class HeapFileScan], which extends it ([offset], [length], [type],
    [filter] and [op] carry the prefix [scan]).  [headerPage] and [curPage]
    are pointers into the frame pool: a frame index, or [None] for [NULL].
    The header and the pages are read and written through these pointers, in
    the pool, so that the heap file and the buffer manager see the same
    bytes. *)

Record HeapFile : Set := mkHeapFile {
  filePtr : option File;
  headerPage : option nat;
  headerPageNo : Z;
  hdrDirtyFlag : bool;
  curPage : option nat;
  curPageNo : Z;
  curDirtyFlag : bool;
  curRec : RID;
  scanOffset : Z;
  scanLength : Z;
  scanType : Datatype;
  scanFilter : option (list Z);
  scanOp : Operator;
  markedPageNo : Z;
  markedRec : RID
}.

Definition set_filePtr (v : option File) (h : HeapFile) : HeapFile :=
  mkHeapFile v (headerPage h) (headerPageNo h) (hdrDirtyFlag h) (curPage h) (curPageNo h) (curDirtyFlag h) (curRec h) (scanOffset h) (scanLength h) (scanType h) (scanFilter h) (scanOp h) (markedPageNo h) (markedRec h).
Definition set_headerPage (v : option nat) (h : HeapFile) : HeapFile :=
  mkHeapFile (filePtr h) v (headerPageNo h) (hdrDirtyFlag h) (curPage h) (curPageNo h) (curDirtyFlag h) (curRec h) (scanOffset h) (scanLength h) (scanType h) (scanFilter h) (scanOp h) (markedPageNo h) (markedRec h).
Definition set_headerPageNo (v : Z) (h : HeapFile) : HeapFile :=
  mkHeapFile (filePtr h) (headerPage h) v (hdrDirtyFlag h) (curPage h) (curPageNo h) (curDirtyFlag h) (curRec h) (scanOffset h) (scanLength h) (scanType h) (scanFilter h) (scanOp h) (markedPageNo h) (markedRec h).
Definition set_hdrDirtyFlag (v : bool) (h : HeapFile) : HeapFile :=
  mkHeapFile (filePtr h) (headerPage h) (headerPageNo h) v (curPage h) (curPageNo h) (curDirtyFlag h) (curRec h) (scanOffset h) (scanLength h) (scanType h) (scanFilter h) (scanOp h) (markedPageNo h) (markedRec h).
Definition set_curPage (v : option nat) (h : HeapFile) : HeapFile :=
  mkHeapFile (filePtr h) (headerPage h) (headerPageNo h) (hdrDirtyFlag h) v (curPageNo h) (curDirtyFlag h) (curRec h) (scanOffset h) (scanLength h) (scanType h) (scanFilter h) (scanOp h) (markedPageNo h) (markedRec h).
Definition set_curPageNo (v : Z) (h : HeapFile) : HeapFile :=
  mkHeapFile (filePtr h) (headerPage h) (headerPageNo h) (hdrDirtyFlag h) (curPage h) v (curDirtyFlag h) (curRec h) (scanOffset h) (scanLength h) (scanType h) (scanFilter h) (scanOp h) (markedPageNo h) (markedRec h).
Definition set_curDirtyFlag (v : bool) (h : HeapFile) : HeapFile :=
  mkHeapFile (filePtr h) (headerPage h) (headerPageNo h) (hdrDirtyFlag h) (curPage h) (curPageNo h) v (curRec h) (scanOffset h) (scanLength h) (scanType h) (scanFilter h) (scanOp h) (markedPageNo h) (markedRec h).
Definition set_curRec (v : RID) (h : HeapFile) : HeapFile :=
  mkHeapFile (filePtr h) (headerPage h) (headerPageNo h) (hdrDirtyFlag h) (curPage h) (curPageNo h) (curDirtyFlag h) v (scanOffset h) (scanLength h) (scanType h) (scanFilter h) (scanOp h) (markedPageNo h) (markedRec h).
Definition set_scanOffset (v : Z) (h : HeapFile) : HeapFile :=
  mkHeapFile (filePtr h) (headerPage h) (headerPageNo h) (hdrDirtyFlag h) (curPage h) (curPageNo h) (curDirtyFlag h) (curRec h) v (scanLength h) (scanType h) (scanFilter h) (scanOp h) (markedPageNo h) (markedRec h).
Definition set_scanLength (v : Z) (h : HeapFile) : HeapFile :=
  mkHeapFile (filePtr h) (headerPage h) (headerPageNo h) (hdrDirtyFlag h) (curPage h) (curPageNo h) (curDirtyFlag h) (curRec h) (scanOffset h) v (scanType h) (scanFilter h) (scanOp h) (markedPageNo h) (markedRec h).
Definition set_scanType (v : Datatype) (h : HeapFile) : HeapFile :=
  mkHeapFile (filePtr h) (headerPage h) (headerPageNo h) (hdrDirtyFlag h) (curPage h) (curPageNo h) (curDirtyFlag h) (curRec h) (scanOffset h) (scanLength h) v (scanFilter h) (scanOp h) (markedPageNo h) (markedRec h).
Definition set_scanFilter (v : option (list Z)) (h : HeapFile) : HeapFile :=
  mkHeapFile (filePtr h) (headerPage h) (headerPageNo h) (hdrDirtyFlag h) (curPage h) (curPageNo h) (curDirtyFlag h) (curRec h) (scanOffset h) (scanLength h) (scanType h) v (scanOp h) (markedPageNo h) (markedRec h).
Definition set_scanOp (v : Operator) (h : HeapFile) : HeapFile :=
  mkHeapFile (filePtr h) (headerPage h) (headerPageNo h) (hdrDirtyFlag h) (curPage h) (curPageNo h) (curDirtyFlag h) (curRec h) (scanOffset h) (scanLength h) (scanType h) (scanFilter h) v (markedPageNo h) (markedRec h).
Definition set_markedPageNo (v : Z) (h : HeapFile) : HeapFile :=
  mkHeapFile (filePtr h) (headerPage h) (headerPageNo h) (hdrDirtyFlag h) (curPage h) (curPageNo h) (curDirtyFlag h) (curRec h) (scanOffset h) (scanLength h) (scanType h) (scanFilter h) (scanOp h) v (markedRec h).
Definition set_markedRec (v : RID) (h : HeapFile) : HeapFile :=
  mkHeapFile (filePtr h) (headerPage h) (headerPageNo h) (hdrDirtyFlag h) (curPage h) (curPageNo h) (curDirtyFlag h) (curRec h) (scanOffset h) (scanLength h) (scanType h) (scanFilter h) (scanOp h) (markedPageNo h) v.

(** The members as the initialiser list of the constructor leaves them.  The
    scan members are not initialised by the first variant; they are given the
    values the second variant gives them. *)
Definition HeapFile_init : HeapFile :=
  mkHeapFile None None (-1) false None (-1) false NULLRID 0 0 STRING None EQ (-1) NULLRID.

Section HeapCommon.
Context {PL : PageLayer} {FP : FileProvider}.

(** A heap file object together with the system it lives in. *)
Record Heap : Type := mkHeap { obj : HeapFile; sys : Sys }.

Definition liftSys {A} (m : M Sys A) : M Heap A :=
  fun h => match m (sys h) with
           | Some (a, s') => Some (a, mkHeap (obj h) s')
           | None => None
           end.

Definition getObj : M Heap HeapFile := gets obj.

Definition setObj (f : HeapFile -> HeapFile) : M Heap unit :=
  modify (fun h => mkHeap (f (obj h)) (sys h)).

(** [*p] for a page pointer [p]: undefined for [NULL] and outside the pool. *)
Definition deref (p : option nat) : M Heap Page :=
  match p with
  | Some i => liftSys (getFrame i)
  | None => undef
  end.

Definition store (p : option nat) (pg : Page) : M Heap unit :=
  match p with
  | Some i => liftSys (getFrame i ;; putFrame i pg)
  | None => undef
  end.

(** Calls of the [DB] object and of [File::getFirstPage]. *)
Definition dbOpenFile (name : string) : M Sys (Status * File) :=
  callWorld (COpenFile name)
    (fun w => let '(st, f, w') := fpOpenFile name w in ((st, f), w')).

Definition dbCreateFile (name : string) : M Sys Status :=
  callWorld (CCreateFile name) (fpCreateFile name).

Definition dbDestroyFile (name : string) : M Sys Status :=
  callWorld (CDestroyFile name) (fpDestroyFile name).

Definition dbCloseFile (f : option File) : M Sys Status :=
  match f with
  | Some f => callWorld (CCloseFile f) (fpCloseFile f)
  | None => undef
  end.

Definition fileGetFirstPage (f : option File) : M Sys (Status * Z) :=
  match f with
  | Some f => callWorld (CGetFirstPage f)
                (fun w => let '(st, p, w') := fpGetFirstPage f w in ((st, p), w'))
  | None => undef
  end.

(** The C string a [std::string] passes to [strncpy]: its characters up to
    the first NUL. *)
Fixpoint c_str (s : string) : string :=
  match s with
  | EmptyString => EmptyString
  | String c s' => if Ascii.eqb c Ascii.zero then EmptyString else String c (c_str s')
  end.

Fixpoint takeString (n : nat) (s : string) : string :=
  match n, s with
  | S n', String c s' => String c (takeString n' s')
  | _, _ => EmptyString
  end.

(** What [fileName] holds after [strncpy] of the name and the write of the
    terminator to [fileName[MAXNAMESIZE - 1]], in a zeroed header. *)
Definition truncName (name : string) : string :=
  takeString (MAXNAMESIZE - 1) (c_str name).

Definition zeroHdr : FileHdrPage := mkHdr "" 0 0 0 0.

Definition setFileName (n : string) (h : FileHdrPage) : FileHdrPage :=
  mkHdr n (pageCnt h) (recCnt h) (firstPage h) (lastPage h).
Definition setPageCnt (n : Z) (h : FileHdrPage) : FileHdrPage :=
  mkHdr (fileName h) n (recCnt h) (firstPage h) (lastPage h).
Definition setRecCnt (n : Z) (h : FileHdrPage) : FileHdrPage :=
  mkHdr (fileName h) (pageCnt h) n (firstPage h) (lastPage h).
Definition setFirstPage (n : Z) (h : FileHdrPage) : FileHdrPage :=
  mkHdr (fileName h) (pageCnt h) (recCnt h) n (lastPage h).
Definition setLastPage (n : Z) (h : FileHdrPage) : FileHdrPage :=
  mkHdr (fileName h) (pageCnt h) (recCnt h) (firstPage h) n.

(** Update of the header through a [FileHdrPage*]. *)
Definition updHdr (p : option nat) (f : FileHdrPage -> FileHdrPage) : M Heap unit :=
  pg ← deref p;
  store p (hdrSet (f (hdrOf pg)) pg).

Definition readHdr (p : option nat) : M Heap FileHdrPage :=
  pg ← deref p;
  ret (hdrOf pg).

(** [(unsigned int) n] for an [int] [n]. *)
Definition uint32 (n : Z) : Z := n mod 2 ^ 32.

(** [sizeof(int)] and [sizeof(float)]. *)
Definition sizeof_int : Z := 4.
Definition sizeof_float : Z := 4.

(** The test of [startScan] on its parameters; both variants have it. *)
Definition badScanParm (offset_ length_ : Z) (type_ : Datatype) (op_ : Operator) : bool :=
  ((offset_ <? 0) || (length_ <? 1)) ||
  (negb (bool_decide (type_ = STRING)) && negb (bool_decide (type_ = INTEGER)) &&
   negb (bool_decide (type_ = FLOAT))) ||
  ((bool_decide (type_ = INTEGER) && negb (length_ =? sizeof_int)) ||
   (bool_decide (type_ = FLOAT) && negb (length_ =? sizeof_float))) ||
  (negb (bool_decide (op_ = LT)) && negb (bool_decide (op_ = LTE)) &&
   negb (bool_decide (op_ = EQ)) && negb (bool_decide (op_ = GTE)) &&
   negb (bool_decide (op_ = GT)) && negb (bool_decide (op_ = NE))).

(** [HeapFileScan::matchRec], the same in both variants.  The comparison of
    the field with the filter is done in floating point in the source and is
    left to [fieldDiff]. *)
Definition matchRec (o : HeapFile) (rec : RecordT) : bool :=
  match scanFilter o with
  | None => true
  | Some flt =>
    if scanOffset o + scanLength o - 1 >=? recLength rec then false
    else
      let diff :=
        match scanType o with
        | DatatypeOther _ => Some Eq
        | ty => fieldDiff ty (scanOffset o) (scanLength o) rec flt
        end in
      match scanOp o with
      | LT => bool_decide (diff = Some Lt)
      | LTE => bool_decide (diff = Some Lt \/ diff = Some Eq)
      | EQ => bool_decide (diff = Some Eq)
      | GTE => bool_decide (diff = Some Gt \/ diff = Some Eq)
      | GT => bool_decide (diff = Some Gt)
      | NE => bool_decide (diff <> Some Eq)
      | OperatorOther _ => false
      end
  end.

(** [HeapFileScan::markDirty], the same in both variants. *)
Definition markDirty : M Heap Status :=
  setObj (set_curDirtyFlag true) ;;
  ret OK.

End HeapCommon.

(** ** The heap file layer, first variant ([stage4/heapfile.C]) *)

Module Stage4.
Section Stage4.
Context {PL : PageLayer} {FP : FileProvider}.

(** [createHeapFile(fileName)]. *)
Definition createHeapFile (name : string) : M Sys Status :=
  '(status, file_) ← dbOpenFile name;
  if isOK status then
    dbCloseFile (Some file_) ;;
    ret FILEEXISTS
  else
    status ← dbCreateFile name;
    if negb (isOK status) then ret status
    else
      '(status, file_) ← dbOpenFile name;
      if negb (isOK status) then ret status
      else
        '(status, hdrPageNo, newPage) ← allocPage (Some file_);
        if negb (isOK status) then ret status
        else
          match newPage with
          | None => undef
          | Some hdrPage =>
            pg ← getFrame hdrPage;
            putFrame hdrPage (hdrSet (setFileName (truncName name) zeroHdr) pg) ;;
            '(status, newPageNo, newPage) ← allocPage (Some file_);
            if negb (isOK status) then ret status
            else
              match newPage with
              | None => undef
              | Some dataPage =>
                pg ← getFrame dataPage;
                putFrame dataPage (pageInit newPageNo pg) ;;
                pg ← getFrame hdrPage;
                putFrame hdrPage
                  (hdrSet (setLastPage newPageNo (setFirstPage newPageNo
                             (setRecCnt 0 (setPageCnt 1 (hdrOf pg))))) pg) ;;
                status ← unPinPage (Some file_) hdrPageNo true;
                if negb (isOK status) then ret status
                else
                  status ← unPinPage (Some file_) newPageNo true;
                  if negb (isOK status) then ret status
                  else
                    status ← dbCloseFile (Some file_);
                    if negb (isOK status) then ret status
                    else ret OK
              end
          end.

(** [destroyHeapFile(fileName)]. *)
Definition destroyHeapFile (name : string) : M Sys Status := dbDestroyFile name.

(** [HeapFile::HeapFile(fileName, returnStatus)], run on the object as the
    initialiser list leaves it; the result is [returnStatus].  On a failed
    open the out-parameter [filePtr] is taken to be left as it was. *)
Definition HeapFile_ctor (name : string) : M Heap Status :=
  '(status, file_) ← liftSys (dbOpenFile name);
  if isOK status then
    setObj (set_filePtr (Some file_)) ;;
    '(status, hdrNo) ← liftSys (fileGetFirstPage (Some file_));
    setObj (set_headerPageNo hdrNo) ;;
    if negb (isOK status) then ret status
    else
      '(status, pagePtr) ← liftSys (readPage (Some file_) hdrNo);
      if negb (isOK status) then ret status
      else
        setObj (fun o => set_hdrDirtyFlag false (set_headerPage pagePtr o)) ;;
        hdr ← readHdr pagePtr;
        '(status, page) ← liftSys (readPage (Some file_) (firstPage hdr));
        setObj (fun o => match page with Some _ => set_curPage page o | None => o end) ;;
        if negb (isOK status) then ret status
        else
          setObj (fun o => set_curRec NULLRID (set_curDirtyFlag false
                             (set_curPageNo (firstPage hdr) o))) ;;
          ret OK
  else ret status.

(** [HeapFile::~HeapFile()]. *)
Definition HeapFile_dtor : M Heap unit :=
  o ← getObj;
  (match curPage o with
   | Some _ =>
     liftSys (unPinPage (filePtr o) (curPageNo o) (curDirtyFlag o)) ;;
     setObj (fun o => set_curDirtyFlag false (set_curPageNo 0 (set_curPage None o)))
   | None => ret tt
   end) ;;
  liftSys (unPinPage (filePtr o) (headerPageNo o) (hdrDirtyFlag o)) ;;
  liftSys (dbCloseFile (filePtr o)) ;;
  ret tt.

(** [HeapFile::getRecCnt()]. *)
Definition getRecCnt : M Heap Z :=
  o ← getObj;
  hdr ← readHdr (headerPage o);
  ret (recCnt hdr).

(** [HeapFile::getRecord(rid, rec)]: the status and the record written to
    [rec]. *)
Definition getRecord (rid : RID) (rec : RecordT) : M Heap (Status * RecordT) :=
  o ← getObj;
  if bool_decide (curPage o <> None) && (curPageNo o =? ridPageNo rid) then
    pg ← deref (curPage o);
    let '(status, r) := pageGetRecord rid pg in
    if negb (isOK status) then ret (status, rec)
    else
      setObj (fun o => set_curRec (mkRID (ridPageNo (curRec o)) (ridSlotNo rid)) o) ;;
      ret (OK, r)
  else
    status ← (if negb (curPageNo o =? ridPageNo NULLRID) then
                liftSys (unPinPage (filePtr o) (curPageNo o) (curDirtyFlag o))
              else ret OK);
    if negb (isOK status) then ret (status, rec)
    else
      '(status, page) ← liftSys (readPage (filePtr o) (ridPageNo rid));
      setObj (fun o => match page with Some _ => set_curPage page o | None => o end) ;;
      if negb (isOK status) then ret (status, rec)
      else
        pg ← deref page;
        let '(status, r) := pageGetRecord rid pg in
        if negb (isOK status) then ret (status, rec)
        else
          setObj (fun o => set_curDirtyFlag false (set_curPageNo (ridPageNo rid)
                             (set_curRec (mkRID (ridPageNo rid) (ridSlotNo rid)) o))) ;;
          ret (OK, r).

(** [HeapFileScan::HeapFileScan(name, status)]. *)
Definition HeapFileScan_ctor (name : string) : M Heap Status :=
  status ← HeapFile_ctor name;
  setObj (set_scanFilter None) ;;
  ret status.

(** [HeapFileScan::startScan(offset_, length_, type_, filter_, op_)]. *)
Definition startScan (offset_ length_ : Z) (type_ : Datatype)
    (filter_ : option (list Z)) (op_ : Operator) : M Heap Status :=
  match filter_ with
  | None =>
    setObj (set_scanFilter None) ;;
    ret OK
  | Some _ =>
    if badScanParm offset_ length_ type_ op_ then ret BADSCANPARM
    else
      setObj (fun o => set_scanOp op_ (set_scanFilter filter_ (set_scanType type_
                         (set_scanLength length_ (set_scanOffset offset_ o))))) ;;
      ret OK
  end.

(** [HeapFileScan::endScan()]. *)
Definition endScan : M Heap Status :=
  o ← getObj;
  match curPage o with
  | Some _ =>
    status ← liftSys (unPinPage (filePtr o) (curPageNo o) (curDirtyFlag o));
    setObj (fun o => set_curDirtyFlag false (set_curPageNo 0 (set_curPage None o))) ;;
    ret status
  | None => ret OK
  end.

(** [HeapFileScan::~HeapFileScan()], followed by the base destructor. *)
Definition HeapFileScan_dtor : M Heap unit :=
  endScan ;;
  HeapFile_dtor.

(** [HeapFileScan::markScan()] and [HeapFileScan::resetScan()]. *)
Definition markScan : M Heap Status :=
  setObj (fun o => set_markedRec (curRec o) (set_markedPageNo (curPageNo o) o)) ;;
  ret OK.

Definition resetScan : M Heap Status :=
  o ← getObj;
  if negb (markedPageNo o =? curPageNo o) then
    status ← (match curPage o with
              | Some _ => liftSys (unPinPage (filePtr o) (curPageNo o) (curDirtyFlag o))
              | None => ret OK
              end);
    if negb (isOK status) then ret status
    else
      setObj (fun o => set_curRec (markedRec o) (set_curPageNo (markedPageNo o) o)) ;;
      '(status, page) ← liftSys (readPage (filePtr o) (markedPageNo o));
      setObj (fun o => match page with Some _ => set_curPage page o | None => o end) ;;
      if negb (isOK status) then ret status
      else
        setObj (set_curDirtyFlag false) ;;
        ret OK
  else
    setObj (fun o => set_curRec (markedRec o) o) ;;
    ret OK.

(** One turn of the [while (true)] loop of [scanNext]: [Some st] when the
    turn returns [st] (on [OK] the record identifier is in [curRec]). *)
Definition scanNext_turn : M Heap (option Status) :=
  o ← getObj;
  pg ← deref (curPage o);
  let '(status, nextRid) :=
    if (ridPageNo (curRec o) =? ridPageNo NULLRID) && (ridSlotNo (curRec o) =? ridSlotNo NULLRID)
    then pageFirstRecord pg
    else pageNextRecord (curRec o) pg in
  if bool_decide (status = ENDOFPAGE) || bool_decide (status = NORECORDS) then
    let '(status, nextPageNo) := pageGetNextPage pg in
    if negb (isOK status) then ret (Some status)
    else
      status ← liftSys (unPinPage (filePtr o) (curPageNo o) (curDirtyFlag o));
      if negb (isOK status) then ret (Some status)
      else
        setObj (set_curPage None) ;;
        if nextPageNo =? -1 then
          setObj (fun o => set_curRec NULLRID (set_curPageNo (-1) o)) ;;
          ret (Some FILEEOF)
        else
          '(status, page) ← liftSys (readPage (filePtr o) nextPageNo);
          setObj (fun o => match page with Some _ => set_curPage page o | None => o end) ;;
          if negb (isOK status) then ret (Some status)
          else
            setObj (fun o => set_curRec NULLRID (set_curPageNo nextPageNo
                               (set_curDirtyFlag false o))) ;;
            ret None
  else if negb (isOK status) then ret (Some status)
  else
    setObj (set_curRec nextRid) ;;
    let '(status, rec) := pageGetRecord nextRid pg in
    if negb (isOK status) then ret (Some status)
    else if bool_decide (scanFilter o = None) || matchRec o rec then ret (Some OK)
    else ret None.

(** The loop, cut off after [fuel] turns ([None]: it is still running). *)
Fixpoint scanNext_loop (fuel : nat) : M Heap Status :=
  match fuel with
  | O => undef
  | S fuel' =>
    r ← scanNext_turn;
    match r with
    | Some st => ret st
    | None => scanNext_loop fuel'
    end
  end.

(** [HeapFileScan::scanNext(outRid)]: the status and the value of [outRid]
    afterwards. *)
Definition scanNext (fuel : nat) (outRid : RID) : M Heap (Status * RID) :=
  o ← getObj;
  if bool_decide (curPage o = None) && (curPageNo o =? -1) then ret (FILEEOF, outRid)
  else
    status ← (match curPage o with
              | None =>
                hdr ← readHdr (headerPage o);
                '(status, page) ← liftSys (readPage (filePtr o) (firstPage hdr));
                setObj (fun o => match page with Some _ => set_curPage page o | None => o end) ;;
                if negb (isOK status) then ret status
                else
                  setObj (fun o => set_curRec NULLRID (set_curDirtyFlag false
                                     (set_curPageNo (firstPage hdr) o))) ;;
                  ret OK
              | Some _ => ret OK
              end);
    if negb (isOK status) then ret (status, outRid)
    else
      status ← scanNext_loop fuel;
      o ← getObj;
      if isOK status then ret (OK, curRec o) else ret (status, outRid).

(** [HeapFileScan::getRecord(rec)]. *)
Definition scanGetRecord (rec : RecordT) : M Heap (Status * RecordT) :=
  o ← getObj;
  if bool_decide (curPage o = None) || negb (ridPageNo (curRec o) =? curPageNo o)
  then ret (BADPAGENO, rec)
  else
    pg ← deref (curPage o);
    let '(status, r) := pageGetRecord (curRec o) pg in
    ret (status, if isOK status then r else rec).

(** [HeapFileScan::deleteRecord()]. *)
Definition deleteRecord : M Heap Status :=
  o ← getObj;
  pg ← deref (curPage o);
  let '(status, pg') := pageDeleteRecord (curRec o) pg in
  store (curPage o) pg' ;;
  if isOK status then
    setObj (set_curDirtyFlag true) ;;
    updHdr (headerPage o) (fun h => setRecCnt (recCnt h - 1) h) ;;
    setObj (set_hdrDirtyFlag true) ;;
    ret status
  else ret status.

(** [InsertFileScan::InsertFileScan(name, status)]. *)
Definition InsertFileScan_ctor (name : string) : M Heap Status :=
  status ← HeapFile_ctor name;
  o ← getObj;
  match curPage o with
  | None => ret status
  | Some _ =>
    hdr ← readHdr (headerPage o);
    if negb (curPageNo o =? lastPage hdr) then
      liftSys (unPinPage (filePtr o) (curPageNo o) (curDirtyFlag o)) ;;
      setObj (set_curPageNo (lastPage hdr)) ;;
      '(status, page) ← liftSys (readPage (filePtr o) (lastPage hdr));
      setObj (fun o => set_curDirtyFlag false
                         (match page with Some _ => set_curPage page o | None => o end)) ;;
      ret status
    else ret status
  end.

(** [InsertFileScan::~InsertFileScan()], followed by the base destructor. *)
Definition InsertFileScan_dtor : M Heap unit :=
  o ← getObj;
  (match curPage o with
   | Some _ =>
     liftSys (unPinPage (filePtr o) (curPageNo o) true) ;;
     setObj (fun o => set_curPageNo 0 (set_curPage None o))
   | None => ret tt
   end) ;;
  HeapFile_dtor.

(** [InsertFileScan::insertRecord(rec, outRid)]: the status and the value of
    [outRid] afterwards. *)
Definition insertRecord (rec : RecordT) (outRid : RID) : M Heap (Status * RID) :=
  if uint32 (recLength rec) >? PAGESIZE - DPFIXED then ret (INVALIDRECLEN, outRid)
  else
    o ← getObj;
    status ← (match curPage o with
              | None =>
                hdr ← readHdr (headerPage o);
                '(status, page) ← liftSys (readPage (filePtr o) (lastPage hdr));
                setObj (fun o => match page with Some _ => set_curPage page o | None => o end) ;;
                if negb (isOK status) then ret status
                else
                  setObj (set_curPageNo (lastPage hdr)) ;;
                  ret OK
              | Some _ => ret OK
              end);
    if negb (isOK status) then ret (status, outRid)
    else
      o ← getObj;
      pg ← deref (curPage o);
      let '(status, rid, pg') := pageInsertRecord rec pg in
      store (curPage o) pg' ;;
      let outRid := if isOK status then rid else outRid in
      r ← (if bool_decide (status = NOSPACE) then
             '(status, newPageNo, newPage) ← liftSys (allocPage (filePtr o));
             if negb (isOK status) then ret (status, outRid)
             else
               npg ← deref newPage;
               store newPage (pageInit newPageNo npg) ;;
               updHdr (headerPage o) (setLastPage newPageNo) ;;
               cpg ← deref (curPage o);
               let '(status, cpg') := pageSetNextPage newPageNo cpg in
               store (curPage o) cpg' ;;
               if negb (isOK status) then ret (status, outRid)
               else
                 setObj (set_curDirtyFlag true) ;;
                 unpinstatus ← liftSys (unPinPage (filePtr o) (curPageNo o) true);
                 if negb (isOK unpinstatus) then ret (unpinstatus, outRid)
                 else
                   setObj (fun o => set_curPageNo newPageNo (set_curPage newPage o)) ;;
                   updHdr (headerPage o)
                     (fun h => setPageCnt (pageCnt h + 1) (setLastPage newPageNo h)) ;;
                   npg ← deref newPage;
                   let '(status, rid, npg') := pageInsertRecord rec npg in
                   store newPage npg' ;;
                   ret (status, if isOK status then rid else outRid)
           else ret (status, outRid));
      let '(status, outRid) := r in
      if negb (isOK status) then ret (status, outRid)
      else
        setObj (fun o => set_curRec (mkRID (ridPageNo outRid) (ridSlotNo outRid))
                           (set_curDirtyFlag true o)) ;;
        setObj (set_hdrDirtyFlag true) ;;
        updHdr (headerPage o) (fun h => setRecCnt (recCnt h + 1) h) ;;
        ret (OK, outRid).

End Stage4.
End Stage4.

(** ** The heap file layer, second variant ([unnamed/part_001]) *)

Module Var2.
Section Var2.
Context {PL : PageLayer} {FP : FileProvider}.

(** [createHeapFile(fileName)]. *)
Definition createHeapFile (name : string) : M Sys Status :=
  if bool_decide (name = EmptyString) then ret BADFILE
  else
    '(status, file_) ← dbOpenFile name;
    if isOK status then
      dbCloseFile (Some file_) ;;
      ret FILEEXISTS
    else if negb (bool_decide (status = UNIXERR)) then ret status
    else
      status ← dbCreateFile name;
      if negb (isOK status) then ret status
      else
        '(status, file_) ← dbOpenFile name;
        if negb (isOK status) then ret status
        else
          '(status, hdrPageNo, hdrPagePtr) ← allocPage (Some file_);
          if negb (isOK status) then
            dbCloseFile (Some file_) ;;
            ret status
          else
            '(status, dataPageNo, dataPagePtr) ← allocPage (Some file_);
            if negb (isOK status) then
              unPinPage (Some file_) hdrPageNo false ;;
              dbCloseFile (Some file_) ;;
              ret status
            else
              match hdrPagePtr, dataPagePtr with
              | Some hdrPage, Some dataPage =>
                pg ← getFrame dataPage;
                putFrame dataPage (pageInit dataPageNo pg) ;;
                pg ← getFrame hdrPage;
                putFrame hdrPage
                  (hdrSet (setRecCnt 0 (setPageCnt 2 (setLastPage dataPageNo
                             (setFirstPage dataPageNo
                                (setFileName (truncName name) zeroHdr))))) pg) ;;
                status ← unPinPage (Some file_) dataPageNo true;
                if negb (isOK status) then
                  unPinPage (Some file_) hdrPageNo true ;;
                  dbCloseFile (Some file_) ;;
                  ret status
                else
                  status ← unPinPage (Some file_) hdrPageNo true;
                  if negb (isOK status) then
                    dbCloseFile (Some file_) ;;
                    ret status
                  else
                    status ← dbCloseFile (Some file_);
                    if negb (isOK status) then ret status
                    else ret OK
              | _, _ => undef
              end.

(** [destroyHeapFile(fileName)]. *)
Definition destroyHeapFile (name : string) : M Sys Status := dbDestroyFile name.

(** [HeapFile::HeapFile(fileName, returnStatus)], run on the object as the
    initialiser list leaves it; the result is [returnStatus]. *)
Definition HeapFile_ctor (name : string) : M Heap Status :=
  '(status, file_) ← liftSys (dbOpenFile name);
  if negb (isOK status) then
    setObj (set_filePtr None) ;;
    ret status
  else
    setObj (set_filePtr (Some file_)) ;;
    '(status, hdrNo) ← liftSys (fileGetFirstPage (Some file_));
    setObj (set_headerPageNo hdrNo) ;;
    if negb (isOK status) || (hdrNo <? 0) then
      liftSys (dbCloseFile (Some file_)) ;;
      setObj (set_filePtr None) ;;
      ret (if negb (isOK status) then status else BADPAGENO)
    else
      '(status, pagePtr) ← liftSys (readPage (Some file_) hdrNo);
      if negb (isOK status) then
        liftSys (dbCloseFile (Some file_)) ;;
        setObj (set_filePtr None) ;;
        ret status
      else
        setObj (fun o => set_curRec NULLRID (set_hdrDirtyFlag false (set_headerPage pagePtr o))) ;;
        hdr ← readHdr pagePtr;
        if negb (firstPage hdr =? -1) then
          '(status, page) ← liftSys (readPage (Some file_) (firstPage hdr));
          setObj (fun o => match page with Some _ => set_curPage page o | None => o end) ;;
          if negb (isOK status) then
            liftSys (unPinPage (Some file_) hdrNo false) ;;
            setObj (set_headerPage None) ;;
            liftSys (dbCloseFile (Some file_)) ;;
            setObj (set_filePtr None) ;;
            ret status
          else
            setObj (fun o => set_curDirtyFlag false (set_curPageNo (firstPage hdr) o)) ;;
            ret OK
        else ret OK.

(** [HeapFile::~HeapFile()]. *)
Definition HeapFile_dtor : M Heap unit :=
  o ← getObj;
  match filePtr o with
  | None => ret tt
  | Some _ =>
    (match curPage o with
     | Some _ =>
       liftSys (unPinPage (filePtr o) (curPageNo o) (curDirtyFlag o)) ;;
       setObj (fun o => set_curDirtyFlag false (set_curPageNo 0 (set_curPage None o)))
     | None => ret tt
     end) ;;
    (match headerPage o with
     | Some _ =>
       liftSys (unPinPage (filePtr o) (headerPageNo o) (hdrDirtyFlag o)) ;;
       setObj (fun o => set_hdrDirtyFlag false (set_headerPageNo (-1) (set_headerPage None o)))
     | None => ret tt
     end) ;;
    liftSys (dbCloseFile (filePtr o)) ;;
    ret tt
  end.

(** [HeapFile::getRecCnt()]. *)
Definition getRecCnt : M Heap Z :=
  o ← getObj;
  match headerPage o with
  | Some _ => hdr ← readHdr (headerPage o); ret (recCnt hdr)
  | None => ret 0
  end.

(** [HeapFile::getRecord(rid, rec)]. *)
Definition getRecord (rid : RID) (rec : RecordT) : M Heap (Status * RecordT) :=
  if (ridPageNo rid <? 0) || (ridSlotNo rid =? 0) then ret (BADRID, rec)
  else
    o ← getObj;
    status ← (if bool_decide (curPage o = None) || negb (curPageNo o =? ridPageNo rid) then
                status ← (match curPage o with
                          | Some _ =>
                            liftSys (unPinPage (filePtr o) (curPageNo o) (curDirtyFlag o))
                          | None => ret OK
                          end);
                if negb (isOK status) then ret status
                else
                  '(status, page) ← liftSys (readPage (filePtr o) (ridPageNo rid));
                  setObj (fun o => match page with Some _ => set_curPage page o | None => o end) ;;
                  if negb (isOK status) then
                    setObj (fun o => set_curDirtyFlag false (set_curPageNo (-1)
                                       (set_curPage None o))) ;;
                    ret status
                  else
                    setObj (fun o => set_curDirtyFlag false (set_curPageNo (ridPageNo rid) o)) ;;
                    ret OK
              else ret OK);
    if negb (isOK status) then ret (status, rec)
    else
      o ← getObj;
      pg ← deref (curPage o);
      let '(status, r) := pageGetRecord rid pg in
      if isOK status then
        setObj (set_curRec rid) ;;
        ret (status, r)
      else ret (status, rec).

(** [HeapFileScan::HeapFileScan(name, status)]. *)
Definition HeapFileScan_ctor (name : string) : M Heap Status :=
  status ← HeapFile_ctor name;
  setObj (fun o => set_markedRec NULLRID (set_markedPageNo (-1) (set_scanOp EQ
                     (set_scanFilter None (set_scanType STRING (set_scanLength 0
                        (set_scanOffset 0 o))))))) ;;
  ret status.

(** [HeapFileScan::startScan(offset_, length_, type_, filter_, op_)]. *)
Definition startScan (offset_ length_ : Z) (type_ : Datatype)
    (filter_ : option (list Z)) (op_ : Operator) : M Heap Status :=
  if bool_decide (filter_ <> None) && badScanParm offset_ length_ type_ op_
  then ret BADSCANPARM
  else
    (match filter_ with
     | None => setObj (set_scanFilter None)
     | Some _ =>
       setObj (fun o => set_scanOp op_ (set_scanFilter filter_ (set_scanType type_
                          (set_scanLength length_ (set_scanOffset offset_ o)))))
     end) ;;
    setObj (fun o => set_markedRec NULLRID (set_markedPageNo (-1) o)) ;;
    o ← getObj;
    status ← (match curPage o with
              | Some _ =>
                status ← liftSys (unPinPage (filePtr o) (curPageNo o) (curDirtyFlag o));
                if negb (isOK status) then ret status
                else
                  setObj (fun o => set_curDirtyFlag false (set_curPageNo (-1)
                                     (set_curPage None o))) ;;
                  ret OK
              | None => ret OK
              end);
    if negb (isOK status) then ret status
    else
      match headerPage o with
      | None =>
        setObj (set_curRec NULLRID) ;;
        ret OK
      | Some _ =>
        hdr ← readHdr (headerPage o);
        if firstPage hdr =? -1 then
          setObj (set_curRec NULLRID) ;;
          ret OK
        else
          '(status, page) ← liftSys (readPage (filePtr o) (firstPage hdr));
          setObj (fun o => match page with Some _ => set_curPage page o | None => o end) ;;
          if negb (isOK status) then ret status
          else
            setObj (fun o => set_curRec NULLRID (set_curDirtyFlag false
                               (set_curPageNo (firstPage hdr) o))) ;;
            ret OK
      end.

(** [HeapFileScan::endScan()]. *)
Definition endScan : M Heap Status :=
  o ← getObj;
  match curPage o with
  | Some _ =>
    status ← liftSys (unPinPage (filePtr o) (curPageNo o) (curDirtyFlag o));
    setObj (fun o => set_curRec NULLRID (set_curDirtyFlag false (set_curPageNo (-1)
                       (set_curPage None o)))) ;;
    ret status
  | None => ret OK
  end.

(** [HeapFileScan::~HeapFileScan()], followed by the base destructor. *)
Definition HeapFileScan_dtor : M Heap unit :=
  endScan ;;
  HeapFile_dtor.

(** [HeapFileScan::markScan()] and [HeapFileScan::resetScan()]. *)
Definition markScan : M Heap Status :=
  o ← getObj;
  if (ridPageNo (curRec o) <? 0) || bool_decide (curPage o = None) then ret BADSCANID
  else
    setObj (fun o => set_markedRec (curRec o) (set_markedPageNo (curPageNo o) o)) ;;
    ret OK.

Definition resetScan : M Heap Status :=
  o ← getObj;
  if markedPageNo o <? 0 then ret BADSCANID
  else if bool_decide (curPage o = None) || negb (markedPageNo o =? curPageNo o) then
    status ← (match curPage o with
              | Some _ => liftSys (unPinPage (filePtr o) (curPageNo o) (curDirtyFlag o))
              | None => ret OK
              end);
    if negb (isOK status) then ret status
    else
      setObj (fun o => set_curRec (markedRec o) (set_curPageNo (markedPageNo o) o)) ;;
      '(status, page) ← liftSys (readPage (filePtr o) (markedPageNo o));
      setObj (fun o => match page with Some _ => set_curPage page o | None => o end) ;;
      if negb (isOK status) then ret status
      else
        setObj (set_curDirtyFlag false) ;;
        ret OK
  else
    setObj (fun o => set_curRec (markedRec o) o) ;;
    ret OK.

(** One turn of the [while (true)] loop of [scanNext]: [Some st] when the
    turn returns [st] (on [OK] the record identifier is in [curRec]). *)
Definition scanNext_turn : M Heap (option Status) :=
  o ← getObj;
  pg ← deref (curPage o);
  let '(status, nextRid) :=
    if (ridPageNo (curRec o) =? curPageNo o) && negb (ridSlotNo (curRec o) =? -1)
    then pageNextRecord (curRec o) pg
    else pageFirstRecord pg in
  if isOK status then
    let '(status, rec) := pageGetRecord nextRid pg in
    if negb (isOK status) then ret (Some status)
    else
      setObj (set_curRec nextRid) ;;
      if matchRec o rec then ret (Some OK) else ret None
  else if negb (bool_decide (status = ENDOFPAGE)) && negb (bool_decide (status = NORECORDS))
  then ret (Some status)
  else
    let '(status, nextPageNo) := pageGetNextPage pg in
    if negb (isOK status) then ret (Some status)
    else if nextPageNo =? -1 then ret (Some FILEEOF)
    else
      status ← liftSys (unPinPage (filePtr o) (curPageNo o) (curDirtyFlag o));
      if negb (isOK status) then ret (Some status)
      else
        '(status, page) ← liftSys (readPage (filePtr o) nextPageNo);
        setObj (fun o => match page with Some _ => set_curPage page o | None => o end) ;;
        if negb (isOK status) then
          setObj (fun o => set_curPageNo (-1) (set_curPage None o)) ;;
          ret (Some status)
        else
          setObj (fun o => set_curRec NULLRID (set_curDirtyFlag false
                             (set_curPageNo nextPageNo o))) ;;
          ret None.

Fixpoint scanNext_loop (fuel : nat) : M Heap Status :=
  match fuel with
  | O => undef
  | S fuel' =>
    r ← scanNext_turn;
    match r with
    | Some st => ret st
    | None => scanNext_loop fuel'
    end
  end.

(** [HeapFileScan::scanNext(outRid)]: the status and the value of [outRid]
    afterwards. *)
Definition scanNext (fuel : nat) (outRid : RID) : M Heap (Status * RID) :=
  o ← getObj;
  match headerPage o with
  | None => ret (BADSCANID, outRid)
  | Some _ =>
    r ← (match curPage o with
         | None =>
           hdr ← readHdr (headerPage o);
           if firstPage hdr =? -1 then ret (Some FILEEOF)
           else
             '(status, page) ← liftSys (readPage (filePtr o) (firstPage hdr));
             setObj (fun o => match page with Some _ => set_curPage page o | None => o end) ;;
             if negb (isOK status) then ret (Some status)
             else
               setObj (fun o => set_curRec NULLRID (set_curDirtyFlag false
                                  (set_curPageNo (firstPage hdr) o))) ;;
               ret None
         | Some _ => ret None
         end);
    match r with
    | Some status => ret (status, outRid)
    | None =>
      status ← scanNext_loop fuel;
      o ← getObj;
      if isOK status then ret (OK, curRec o) else ret (status, outRid)
    end
  end.

(** [HeapFileScan::getRecord(rec)]. *)
Definition scanGetRecord (rec : RecordT) : M Heap (Status * RecordT) :=
  o ← getObj;
  if bool_decide (curPage o = None) || (ridPageNo (curRec o) <? 0) then ret (BADSCANID, rec)
  else
    pg ← deref (curPage o);
    let '(status, r) := pageGetRecord (curRec o) pg in
    ret (status, if isOK status then r else rec).

(** [HeapFileScan::deleteRecord()]. *)
Definition deleteRecord : M Heap Status :=
  o ← getObj;
  if bool_decide (curPage o = None) || (ridPageNo (curRec o) <? 0) then ret BADSCANID
  else
    pg ← deref (curPage o);
    let '(status, pg') := pageDeleteRecord (curRec o) pg in
    store (curPage o) pg' ;;
    if negb (isOK status) then ret status
    else
      setObj (set_curDirtyFlag true) ;;
      (match headerPage o with
       | Some _ =>
         updHdr (headerPage o) (fun h => setRecCnt (recCnt h - 1) h) ;;
         setObj (set_hdrDirtyFlag true)
       | None => ret tt
       end) ;;
      ret OK.

(** [InsertFileScan::InsertFileScan(name, status)]. *)
Definition InsertFileScan_ctor (name : string) : M Heap Status := HeapFile_ctor name.

(** [InsertFileScan::~InsertFileScan()], followed by the base destructor. *)
Definition InsertFileScan_dtor : M Heap unit :=
  o ← getObj;
  (match curPage o with
   | Some _ =>
     liftSys (unPinPage (filePtr o) (curPageNo o) true) ;;
     setObj (fun o => set_curPageNo 0 (set_curPage None o))
   | None => ret tt
   end) ;;
  HeapFile_dtor.

(** [InsertFileScan::insertRecord(rec, outRid)].  After the length check the
    function ends without a [return] statement: flowing off the end of a
    function that returns a value is undefined, and nothing is inserted. *)
Definition insertRecord (rec : RecordT) (outRid : RID) : M Heap (Status * RID) :=
  if uint32 (recLength rec) >? PAGESIZE - DPFIXED then ret (INVALIDRECLEN, outRid)
  else undef.

End Var2.
End Var2.

(** ** Invariants and observations of the pool *)

Section Predicates.
Context {PL : PageLayer} {FP : FileProvider}.

(** Well-formed pools: the arrays have [numBufs] entries, the hand is inside
    them, the hash table holds exactly the valid frames (invariant I1 / P2),
    pin counts are not negative, and a frame has an owner file exactly when
    it is valid. *)
Record wf (b : BufMgr) : Prop := mkWf {
  wf_table_len : length (bufTable b) = numBufs b;
  wf_pool_len : length (bufPool b) = numBufs b;
  wf_hand : (0 < numBufs b)%nat -> (clockHand b < numBufs b)%nat;
  wf_hash : forall f p i,
    hashTable b !! (f, p) = Some i <->
    exists d, bufTable b !! i = Some d /\ valid d = true /\ file d = Some f /\ pageNo d = p;
  wf_pin : forall i d, bufTable b !! i = Some d -> 0 <= pinCnt d;
  wf_owner : forall i d, bufTable b !! i = Some d -> valid d = true -> is_Some (file d);
  wf_free : forall i d, bufTable b !! i = Some d -> valid d = false -> file d = None
}.

(** Two descriptors that differ at most in their reference bit. *)
Definition eqModRef (d d' : BufDesc) : Prop := setRefbit false d' = setRefbit false d.

(** What a clock sweep may change: reference bits and the hand. *)
Definition sweep (b b' : BufMgr) : Prop :=
  numBufs b' = numBufs b /\ bufPool b' = bufPool b /\ hashTable b' = hashTable b /\
  length (bufTable b') = length (bufTable b) /\
  forall i d, bufTable b !! i = Some d ->
    exists d', bufTable b' !! i = Some d' /\ eqModRef d d'.

(** Frame [i] holds a page that somebody has pinned. *)
Definition pinned (b : BufMgr) (i : nat) : Prop :=
  exists d, bufTable b !! i = Some d /\ valid d = true /\ 0 < pinCnt d.

(** Frame [i] still holds the same page with the same bytes: its identity
    [(file, pageNo)], its valid bit, its contents and its hash entry. *)
Definition kept (b b' : BufMgr) (i : nat) : Prop :=
  exists d d', bufTable b !! i = Some d /\ bufTable b' !! i = Some d' /\
    file d' = file d /\ pageNo d' = pageNo d /\ valid d' = valid d /\
    bufPool b' !! i = bufPool b !! i /\
    (forall f, file d = Some f ->
       hashTable b' !! (f, pageNo d) = hashTable b !! (f, pageNo d)).

(** After a miss, [readPage] is [allocBuf] followed by the provider's read. *)
Definition readPage_miss (f : option File) (p : Z) : M Sys (Status * option nat) :=
  '(err, frameNo) ← allocBuf;
  if bool_decide (err = BUFFEREXCEEDED) then ret (err, None)
  else
    match frameNo with
    | None => undef
    | Some fr =>
      old ← getFrame fr;
      '(err, pg) ← fileReadPage f p old;
      putFrame fr pg ;;
      if negb (isOK err) then ret (UNIXERR, None)
      else
        match f with
        | None => undef
        | Some fh =>
          err ← hashInsert fh p fr;
          if negb (isOK err) then ret (HASHTBLERROR, None)
          else
            d ← getDesc fr;
            putDesc fr (BufDesc_Set fh p d) ;;
            ret (OK, Some fr)
        end
    end.

(** The write-back of frame [hand] (descriptor [d]) when it is dirty: the
    provider is asked to write the frame's bytes and answers [st]. *)
Definition writtenBack (s : Sys) (hand : nat) (d : BufDesc) (st : Status) (s1 : Sys) : Prop :=
  if dirty d then
    exists f pg w', file d = Some f /\ bufPool (bm s) !! hand = Some pg /\
      fpWritePage f (pageNo d) pg (world s) = (st, w') /\
      s1 = mkSys (bm s) w' (calls s ++ [CWritePage f (pageNo d) pg])
  else st = OK /\ s1 = s.

(** The turn of the clock on which [allocBuf] returns, as a relation between
    the state at the start of the turn, the result and the final state:
    a free frame is taken and the hand advanced; or the frame under the hand
    is valid, unreferenced and unpinned, and is written back, unhashed and
    cleared (or one of the first two steps fails). *)
Inductive allocBuf_final (s : Sys) : Status * option nat -> Sys -> Prop :=
| final_free d :
    bufTable (bm s) !! clockHand (bm s) = Some d -> valid d = false ->
    allocBuf_final s (OK, Some (clockHand (bm s)))
      (mkSys (withClockHand ((clockHand (bm s) + 1) mod numBufs (bm s))%nat (bm s))
             (world s) (calls s))
| final_unixerr d st s1 :
    bufTable (bm s) !! clockHand (bm s) = Some d ->
    valid d = true -> refbit d = false -> pinCnt d = 0 ->
    writtenBack s (clockHand (bm s)) d st s1 -> st <> OK ->
    allocBuf_final s (UNIXERR, None) s1
| final_hasherr d s1 :
    bufTable (bm s) !! clockHand (bm s) = Some d ->
    valid d = true -> refbit d = false -> pinCnt d = 0 ->
    writtenBack s (clockHand (bm s)) d OK s1 ->
    (forall f, file d = Some f -> hashTable (bm s) !! (f, pageNo d) = None) ->
    allocBuf_final s (HASHTBLERROR, None) s1
| final_victim d f s1 :
    bufTable (bm s) !! clockHand (bm s) = Some d ->
    valid d = true -> refbit d = false -> pinCnt d = 0 ->
    writtenBack s (clockHand (bm s)) d OK s1 ->
    file d = Some f -> is_Some (hashTable (bm s) !! (f, pageNo d)) ->
    allocBuf_final s (OK, Some (clockHand (bm s)))
      (mkSys (withBufTable (<[clockHand (bm s) := BufDesc_Clear d]> (bufTable (bm s)))
                (withHashTable (delete (f, pageNo d) (hashTable (bm s))) (bm s)))
             (world s1) (calls s1)).

(** What a call of [allocBuf] on a well-formed pool guarantees: the pool
    stays well-formed; frames other than the chosen one change at most in
    their reference bit; the chosen frame was free or unpinned and is left
    invalid; the hash table loses exactly the entries of the chosen frame;
    and the status is [OK] (with a frame), [BUFFEREXCEEDED] or [UNIXERR]. *)
Record allocBuf_post (s : Sys) (out : Status * option nat) (s' : Sys) : Prop := mkAllocBufPost {
  ab_wf : wf (bm s');
  ab_numBufs : numBufs (bm s') = numBufs (bm s);
  ab_pool : bufPool (bm s') = bufPool (bm s);
  ab_others : forall i d,
    bufTable (bm s) !! i = Some d -> snd out <> Some i ->
    exists d', bufTable (bm s') !! i = Some d' /\ eqModRef d d';
  ab_chosen : forall fr,
    snd out = Some fr ->
    fst out = OK /\
    exists d d', bufTable (bm s) !! fr = Some d /\ (valid d = false \/ pinCnt d = 0) /\
                 bufTable (bm s') !! fr = Some d' /\ valid d' = false;
  ab_hash : forall f p i,
    hashTable (bm s') !! (f, p) = Some i <->
    hashTable (bm s) !! (f, p) = Some i /\ snd out <> Some i;
  ab_status : fst out = OK -> is_Some (snd out);
  ab_statuses : fst out = OK \/ out = (BUFFEREXCEEDED, None) \/ out = (UNIXERR, None)
}.

(** The frames [flushFile] may flush: valid, of the file, not pinned. *)
Definition flushable (f : option File) (d : BufDesc) : Prop :=
  valid d = true /\ file d = f /\ pinCnt d <= 0.

(** The write-back call that [flushFile] issues for a dirty frame [j]. *)
Definition flushWrite (b : BufMgr) (f : option File) (j : nat) (c : Call) : Prop :=
  exists d fh pg, bufTable b !! j = Some d /\ flushable f d /\ dirty d = true /\
    f = Some fh /\ bufPool b !! j = Some pg /\ c = CWritePage fh (pageNo d) pg.

(** What the loop of [flushFile] over the frames [i .. i+n-1] does.  It stops
    at the first frame [i+k] of the file that is pinned ([PAGEPINNED]),
    invalid ([BADBUFFER]) or whose write-back fails; the frames of the file
    before it have been written back when dirty, unhashed and invalidated;
    every other frame is untouched. *)
Record flushFile_post (f : option File) (i n : nat) (s : Sys) (st : Status) (s' : Sys) : Prop :=
  mkFlushFilePost {
  fl_wf : wf (bm s');
  fl_numBufs : numBufs (bm s') = numBufs (bm s);
  fl_pool : bufPool (bm s') = bufPool (bm s);
  fl_hash_sub : forall k v,
    hashTable (bm s') !! k = Some v -> hashTable (bm s) !! k = Some v;
  fl_untouched : forall j d,
    bufTable (bm s) !! j = Some d -> (j < i)%nat \/ ~ flushable f d ->
    bufTable (bm s') !! j = Some d /\
    forall g, file d = Some g ->
      hashTable (bm s') !! (g, pageNo d) = hashTable (bm s) !! (g, pageNo d);
  fl_calls : exists l, calls s' = calls s ++ l /\
    forall c, c ∈ l -> exists j, (i <= j)%nat /\ flushWrite (bm s) f j c;
  fl_progress : exists k,
    (forall j d, (i <= j < i + k)%nat -> bufTable (bm s) !! j = Some d -> file d = f ->
       flushable f d /\
       bufTable (bm s') !! j = Some (invalidate (setDirty false d)) /\
       (forall fh, f = Some fh -> hashTable (bm s') !! (fh, pageNo d) = None) /\
       (dirty d = true -> exists c, flushWrite (bm s) f j c /\ c ∈ calls s')) /\
    (forall j, (i + k <= j)%nat -> bufTable (bm s') !! j = bufTable (bm s) !! j) /\
    ((k = n /\ st = OK) \/
     ((k < n)%nat /\ exists d, bufTable (bm s) !! (i + k)%nat = Some d /\ file d = f /\
        ((valid d = true /\ 0 < pinCnt d /\ st = PAGEPINNED) \/
         (valid d = false /\ st = BADBUFFER) \/
         (flushable f d /\ dirty d = true /\ st <> OK /\
          exists c, flushWrite (bm s) f (i + k) c /\ last (calls s') = Some c))))
}.

(** [wf] as a test, for concrete pools. *)
Definition descOk (d : BufDesc) : bool :=
  (0 <=? pinCnt d) &&
  (if valid d then bool_decide (is_Some (file d)) else bool_decide (file d = None)).

Definition hashEntryOk (b : BufMgr) (e : File * Z * nat) : bool :=
  match bufTable b !! e.2 with
  | Some d => valid d && bool_decide (file d = Some e.1.1) && bool_decide (pageNo d = e.1.2)
  | None => false
  end.

Definition frameHashed (b : BufMgr) (e : nat * BufDesc) : bool :=
  negb (valid e.2) ||
  match file e.2 with
  | Some f => bool_decide (hashTable b !! (f, pageNo e.2) = Some e.1)
  | None => false
  end.

Definition wfb (b : BufMgr) : bool :=
  bool_decide (length (bufTable b) = numBufs b) &&
  bool_decide (length (bufPool b) = numBufs b) &&
  bool_decide ((0 < numBufs b)%nat -> (clockHand b < numBufs b)%nat) &&
  forallb descOk (bufTable b) &&
  forallb (hashEntryOk b) (map_to_list (hashTable b)) &&
  forallb (frameHashed b) (imap pair (bufTable b)).

(** The write-back that the destructor of the pool issues for frame [i], and
    those it issues for all frames, in the order of the frames. *)
Definition dirtyFrameWrite (b : BufMgr) (i : nat) (d : BufDesc) : list Call :=
  if valid d && dirty d then
    match file d, bufPool b !! i with
    | Some f, Some pg => [CWritePage f (pageNo d) pg]
    | _, _ => []
    end
  else [].

Definition dirtyWrites (b : BufMgr) : list Call :=
  concat (imap (dirtyFrameWrite b) (bufTable b)).

(** The calls of a list that write a page back. *)
Definition isWrite (c : Call) : Prop := exists f p pg, c = CWritePage f p pg.

(** The pin count of a page: that of its frame when resident, else zero. *)
Definition pins (b : BufMgr) (f : File) (p : Z) : Z :=
  match hashTable b !! (f, p) with
  | Some i => match bufTable b !! i with
              | Some d => pinCnt d
              | None => 0
              end
  | None => 0
  end.

(** The public operations of the pool (with [allocBuf], which they call),
    as one datatype, and the status each returns. *)
Inductive Op : Type :=
| OpReadPage (f : option File) (p : Z)
| OpUnPinPage (f : option File) (p : Z) (dirty_ : bool)
| OpAllocPage (f : option File)
| OpDisposePage (f : option File) (p : Z)
| OpFlushFile (f : option File)
| OpAllocBuf.

Definition runOp (op : Op) : M Sys Status :=
  match op with
  | OpReadPage f p => r ← readPage f p; ret (fst r)
  | OpUnPinPage f p dirty_ => unPinPage f p dirty_
  | OpAllocPage f => r ← allocPage f; ret (fst (fst r))
  | OpDisposePage f p => disposePage f p
  | OpFlushFile f => flushFile f
  | OpAllocBuf => r ← allocBuf; ret (fst r)
  end.

(** Caller discipline: a page is disposed of only when nobody has it
    pinned. *)
Definition legal (op : Op) (s : Sys) : Prop :=
  match op with
  | OpDisposePage (Some fh) p => pins (bm s) fh p = 0
  | _ => True
  end.

(** The states a pool can be in: a new pool over any provider state, after
    any legal operation that returned, and after a pin holder wrote to the
    frame it holds through its page pointer. *)
Inductive reachable : Sys -> Prop :=
| reach_new bufs w : reachable (mkSys (BufMgr_new bufs) w [])
| reach_op s op st s' :
    reachable s -> legal op s -> runOp op s = Some (st, s') -> reachable s'
| reach_poke s i pg :
    reachable s -> pinned (bm s) i ->
    reachable (mkSys (withBufPool (<[i := pg]> (bufPool (bm s))) (bm s)) (world s) (calls s)).

(** What a successful [createHeapFile name] has done between the states [s]
    and [s']: no file of that name could be opened, one was created and
    opened as [f]; its header page [hdrNo] and data page [dataNo] are in the
    frames [i] and [j], both unpinned and dirty; the header holds the
    truncated name, [pc] pages, no record and [dataNo] as first and last
    page; the data page is a page initialised as [dataNo]; the file was
    closed last; and no pin count has changed. *)
Definition heapFileCreated (name : string) (pc : Z) (s s' : Sys) : Prop :=
  exists (f : File) (hdrNo dataNo : Z) (i j : nat) (di dj : BufDesc) (ph old : Page),
    (exists e f0 w0 w1 w2,
       fpOpenFile name (world s) = (e, f0, w0) /\ e <> OK /\
       fpCreateFile name w0 = (OK, w1) /\ fpOpenFile name w1 = (OK, f, w2)) /\
    (exists l1 l2, calls s' =
       calls s ++ [COpenFile name; CCreateFile name; COpenFile name; CAllocatePage f] ++
       l1 ++ [CAllocatePage f] ++ l2 ++ [CCloseFile f]) /\
    hdrNo <> dataNo /\ i <> j /\
    hashTable (bm s') !! (f, hdrNo) = Some i /\
    hashTable (bm s') !! (f, dataNo) = Some j /\
    bufTable (bm s') !! i = Some di /\ pinCnt di = 0 /\ dirty di = true /\
    bufTable (bm s') !! j = Some dj /\ pinCnt dj = 0 /\ dirty dj = true /\
    bufPool (bm s') !! i = Some ph /\
    hdrOf ph = mkHdr (truncName name) pc 0 dataNo dataNo /\
    bufPool (bm s') !! j = Some (pageInit dataNo old) /\
    wf (bm s') /\
    (forall g q, pins (bm s') g q = pins (bm s) g q).

End Predicates.

(** ** Observations of a heap file object *)

(** The combinations of scan parameters that [startScan] rejects when a
    filter is given, one disjunct per rule. *)
Definition invalidScanParm (offset_ length_ : Z) (type_ : Datatype) (op_ : Operator) : Prop :=
  offset_ < 0 \/ length_ < 1 \/
  (type_ <> STRING /\ type_ <> INTEGER /\ type_ <> FLOAT) \/
  (type_ = INTEGER /\ length_ <> sizeof_int) \/
  (type_ = FLOAT /\ length_ <> sizeof_float) \/
  (op_ <> LT /\ op_ <> LTE /\ op_ <> EQ /\ op_ <> GTE /\ op_ <> GT /\ op_ <> NE).

(** Two objects are at the same place of the same file: they agree on every
    member but the scan predicate. *)
Definition samePosition (o o' : HeapFile) : Prop :=
  filePtr o' = filePtr o /\ headerPage o' = headerPage o /\
  headerPageNo o' = headerPageNo o /\ hdrDirtyFlag o' = hdrDirtyFlag o /\
  curPage o' = curPage o /\ curPageNo o' = curPageNo o /\
  curDirtyFlag o' = curDirtyFlag o /\ curRec o' = curRec o /\
  markedPageNo o' = markedPageNo o /\ markedRec o' = markedRec o.

(** Two objects have the same scan predicate. *)
Definition samePredicate (o o' : HeapFile) : Prop :=
  scanOffset o' = scanOffset o /\ scanLength o' = scanLength o /\
  scanType o' = scanType o /\ scanFilter o' = scanFilter o /\ scanOp o' = scanOp o.

Section ScanObservations.
Context {PL : PageLayer}.

(** What the current page answers when the scan asks it for the record after
    [curRec]: the two variants choose in different ways between
    [firstRecord] and [nextRecord]. *)
Definition pageStep4 (o : HeapFile) (pg : Page) : Status * RID :=
  if (ridPageNo (curRec o) =? ridPageNo NULLRID) && (ridSlotNo (curRec o) =? ridSlotNo NULLRID)
  then pageFirstRecord pg
  else pageNextRecord (curRec o) pg.

Definition pageStep2 (o : HeapFile) (pg : Page) : Status * RID :=
  if (ridPageNo (curRec o) =? curPageNo o) && negb (ridSlotNo (curRec o) =? -1)
  then pageNextRecord (curRec o) pg
  else pageFirstRecord pg.

(** The page has no further record and no next page. *)
Definition lastPageExhausted (step : Status * RID) (pg : Page) : Prop :=
  (fst step = ENDOFPAGE \/ fst step = NORECORDS) /\ pageGetNextPage pg = (OK, -1).

(** [FILEEOF] is a status of the scan: the page layer does not answer it. *)
Definition pageLayerNoEOF : Prop :=
  (forall pg, fst (pageFirstRecord pg) <> FILEEOF) /\
  (forall rid pg, fst (pageNextRecord rid pg) <> FILEEOF) /\
  (forall rid pg, fst (pageGetRecord rid pg) <> FILEEOF) /\
  (forall pg, fst (pageGetNextPage pg) <> FILEEOF).

End ScanObservations.

(** ** Observations for the mark and reset of a scan *)

Section RoundTripObservations.
Context {PL : PageLayer} {FP : FileProvider}.

(** The provider keeps the pages of file [f]: on the worlds that satisfy
    [I], a read of page [p] of [f] gives [bytes p], and [I] survives reads of
    [f], writes of [bytes p] to page [p] of [f] and writes to other files. *)
Record fileView (I : World -> Prop) (bytes : Z -> Page) (f : File) : Prop := mkFileView {
  fv_read : forall p old w st pg w',
    I w -> fpReadPage f p old w = (st, pg, w') -> I w' /\ (st = OK -> pg = bytes p);
  fv_write : forall p w st w',
    I w -> fpWritePage f p (bytes p) w = (st, w') -> I w';
  fv_write_other : forall g p pg w st w',
    g <> f -> I w -> fpWritePage g p pg w = (st, w') -> I w'
}.

(** The pool agrees with that view: it is well formed, the world satisfies
    [I], and every resident page [p] of [f] holds [bytes p]. *)
Definition poolInv (I : World -> Prop) (bytes : Z -> Page) (f : File) (s : Sys) : Prop :=
  wf (bm s) /\ I (world s) /\
  forall p i, hashTable (bm s) !! (f, p) = Some i -> bufPool (bm s) !! i = Some (bytes p).

(** A scan of [f] over such a pool: its current page, if any, is the frame
    of page [curPageNo]. *)
Definition scanInv (I : World -> Prop) (bytes : Z -> Page) (f : File) (h : Heap) : Prop :=
  poolInv I bytes f (sys h) /\ filePtr (obj h) = Some f /\
  forall i, curPage (obj h) = Some i ->
    hashTable (bm (sys h)) !! (f, curPageNo (obj h)) = Some i.

(** Two scans stand at the same place of the same file with the same
    predicate, each with a current page. *)
Definition samePlace (o o' : HeapFile) : Prop :=
  filePtr o' = filePtr o /\ headerPage o' = headerPage o /\
  curPageNo o' = curPageNo o /\ curRec o' = curRec o /\ samePredicate o o' /\
  is_Some (curPage o) /\ is_Some (curPage o').

(** What a scan keeps while it moves: its file, its header, its mark and its
    predicate. *)
Definition keepsScan (o o' : HeapFile) : Prop :=
  filePtr o' = filePtr o /\ headerPage o' = headerPage o /\
  markedPageNo o' = markedPageNo o /\ markedRec o' = markedRec o /\ samePredicate o o'.

(** What one turn of [scanNext] decides from the bytes of the current page:
    the next record is found, or skipped because it does not match, the
    scan has to go on with another page, or the turn stops with a status
    of the page layer. *)
Inductive Decision : Type :=
| Found (rid : RID)
| Skip (rid : RID)
| Advance (nextPageNo : Z)
| Stop (st : Status).

Definition decide4 (o : HeapFile) (pg : Page) : Decision :=
  let '(status, nextRid) := pageStep4 o pg in
  if bool_decide (status = ENDOFPAGE) || bool_decide (status = NORECORDS) then
    let '(status, nextPageNo) := pageGetNextPage pg in
    if negb (isOK status) then Stop status else Advance nextPageNo
  else if negb (isOK status) then Stop status
  else
    let '(status, rec) := pageGetRecord nextRid pg in
    if negb (isOK status) then Stop status
    else if bool_decide (scanFilter o = None) || matchRec o rec then Found nextRid
    else Skip nextRid.

Definition decide2 (o : HeapFile) (pg : Page) : Decision :=
  let '(status, nextRid) := pageStep2 o pg in
  if isOK status then
    let '(status, rec) := pageGetRecord nextRid pg in
    if negb (isOK status) then Stop status
    else if matchRec o rec then Found nextRid
    else Skip nextRid
  else if negb (bool_decide (status = ENDOFPAGE)) && negb (bool_decide (status = NORECORDS))
  then Stop status
  else
    let '(status, nextPageNo) := pageGetNextPage pg in
    if negb (isOK status) then Stop status else Advance nextPageNo.

(** What a turn that returns [r] in [h1] has done, given the decision. *)
Definition turnOutcome (h : Heap) (d : Decision) (r : option Status) (h1 : Heap) : Prop :=
  match d with
  | Found rid => r = Some OK /\ h1 = mkHeap (set_curRec rid (obj h)) (sys h)
  | Skip rid => r = None /\ h1 = mkHeap (set_curRec rid (obj h)) (sys h)
  | Stop st => r = Some st /\ st <> OK
  | Advance next =>
    (exists e, r = Some e /\ e <> OK) \/
    (r = None /\ is_Some (curPage (obj h1)) /\ curPageNo (obj h1) = next /\
     curRec (obj h1) = NULLRID)
  end.

(** [h'] is reached from [h] by calls of [scanNext] that all return [OK]. *)
Inductive advanced (next : nat -> RID -> M Heap (Status * RID)) : Heap -> Heap -> Prop :=
| advanced_refl h : advanced next h h
| advanced_step h fuel rid r h1 h' :
    next fuel rid h = Some ((OK, r), h1) -> advanced next h1 h' -> advanced next h h'.

(** What [resetScan] does to the pool between [hk] and [hr]: nothing when the
    marked page is the current page; otherwise the current page is unpinned
    with its dirty flag and the marked page is read, pinned and made the
    current page, clean. *)
Definition repinned (hk hr : Heap) : Prop :=
  (curPageNo (obj hk) = markedPageNo (obj hk) ->
     sys hr = sys hk /\ curPage (obj hr) = curPage (obj hk)) /\
  (curPageNo (obj hk) <> markedPageNo (obj hk) ->
     exists s1 fr,
       unPinPage (filePtr (obj hk)) (curPageNo (obj hk)) (curDirtyFlag (obj hk)) (sys hk) =
         Some (OK, s1) /\
       readPage (filePtr (obj hk)) (markedPageNo (obj hk)) s1 = Some ((OK, Some fr), sys hr) /\
       curPage (obj hr) = Some fr /\ curDirtyFlag (obj hr) = false).

(** The round trip of a mark: whenever [mark] returns [OK] in [h0], the scan
    then advances by successful calls of [next], and [reset] returns [OK],
    the position is the marked one again and the next record is the one that
    followed the mark. *)
Definition roundTrip (mark : M Heap Status) (next : nat -> RID -> M Heap (Status * RID))
    (reset : M Heap Status) (h0 : Heap) : Prop :=
  forall hm hk hr,
    mark h0 = Some (OK, hm) -> advanced next hm hk -> reset hk = Some (OK, hr) ->
    markedPageNo (obj hm) = curPageNo (obj h0) /\ markedRec (obj hm) = curRec (obj h0) /\
    sys hm = sys h0 /\
    curPageNo (obj hr) = curPageNo (obj h0) /\ curRec (obj hr) = curRec (obj h0) /\
    repinned hk hr /\
    forall fuel1 fuel2 rid1 rid2 r1 r2 h1 h2,
      next fuel1 rid1 hm = Some ((OK, r1), h1) ->
      next fuel2 rid2 hr = Some ((OK, r2), h2) ->
      r1 = r2.

End RoundTripObservations.

(** ** Observations of the classes and of their calls *)

(** The two variants of the heap file layer and its three classes. *)
Inductive Impl : Set := Stage4Impl | Var2Impl.

Inductive HeapClass : Set := AHeapFile | AHeapFileScan | AnInsertFileScan.

#[global] Instance HeapClass_eq_dec : EqDecision HeapClass.
Proof. solve_decision. Defined.

Section OpenClose.
Context {PL : PageLayer} {FP : FileProvider}.

(** The constructor and the destructor of a class in a variant. *)
Definition construct (v : Impl) (k : HeapClass) : string -> M Heap Status :=
  match v, k with
  | Stage4Impl, AHeapFile => Stage4.HeapFile_ctor
  | Stage4Impl, AHeapFileScan => Stage4.HeapFileScan_ctor
  | Stage4Impl, AnInsertFileScan => Stage4.InsertFileScan_ctor
  | Var2Impl, AHeapFile => Var2.HeapFile_ctor
  | Var2Impl, AHeapFileScan => Var2.HeapFileScan_ctor
  | Var2Impl, AnInsertFileScan => Var2.InsertFileScan_ctor
  end.

Definition destroy (v : Impl) (k : HeapClass) : M Heap unit :=
  match v, k with
  | Stage4Impl, AHeapFile => Stage4.HeapFile_dtor
  | Stage4Impl, AHeapFileScan => Stage4.HeapFileScan_dtor
  | Stage4Impl, AnInsertFileScan => Stage4.InsertFileScan_dtor
  | Var2Impl, AHeapFile => Var2.HeapFile_dtor
  | Var2Impl, AHeapFileScan => Var2.HeapFileScan_dtor
  | Var2Impl, AnInsertFileScan => Var2.InsertFileScan_dtor
  end.

(** The page of the header on which a new object of that class stands. *)
Definition startPage (v : Impl) (k : HeapClass) (hdr : FileHdrPage) : Z :=
  match v, k with
  | Stage4Impl, AnInsertFileScan => lastPage hdr
  | _, _ => firstPage hdr
  end.

(** What the object in [h1] holds of file [f], [h] being the state before it
    was constructed: its header page and, if it has one, its current page
    are resident in the frames it points to, both clean as far as the object
    knows, and the object has one pin on each that was not there in [h]. *)
Definition holdsPages (f : File) (h h1 : Heap) : Prop :=
  filePtr (obj h1) = Some f /\ hdrDirtyFlag (obj h1) = false /\
  (exists hi, headerPage (obj h1) = Some hi /\
     hashTable (bm (sys h1)) !! (f, headerPageNo (obj h1)) = Some hi) /\
  (forall ci, curPage (obj h1) = Some ci ->
     hashTable (bm (sys h1)) !! (f, curPageNo (obj h1)) = Some ci /\
     curDirtyFlag (obj h1) = false) /\
  forall g q, pins (bm (sys h1)) g q =
    pins (bm (sys h)) g q
    + (if bool_decide (g = f /\ q = headerPageNo (obj h1)) then 1 else 0)
    + (if bool_decide (is_Some (curPage (obj h1)) /\ g = f /\ q = curPageNo (obj h1))
       then 1 else 0).

End OpenClose.

Section HeapObservations.
Context {PL : PageLayer} {FP : FileProvider}.

(** The scan stands on a record that its predicate accepts: the current page
    holds a record at [curRec] and [matchRec] says yes to it. *)
Definition onMatch (h : Heap) : Prop :=
  exists i pg rec, curPage (obj h) = Some i /\ bufPool (bm (sys h)) !! i = Some pg /\
    pageGetRecord (curRec (obj h)) pg = (OK, rec) /\ matchRec (obj h) rec = true.

End HeapObservations.

Section ScanCalls.
Context {PL : PageLayer} {FP : FileProvider}.

(** The object has its file, and its current page, if it has one, is the
    frame in which page [curPageNo] of the file is resident, and that page
    is pinned. *)
Definition curPinned (h : Heap) : Prop :=
  wf (bm (sys h)) /\ exists f, filePtr (obj h) = Some f /\
  forall i, curPage (obj h) = Some i ->
    hashTable (bm (sys h)) !! (f, curPageNo (obj h)) = Some i /\
    0 < pins (bm (sys h)) f (curPageNo (obj h)).

(** The calls a client makes on an object of the heap file layer once it is
    constructed, and the status each returns in a variant. *)
Inductive HeapCall : Type :=
| CallGetRecCnt
| CallGetRecord (rid : RID) (rec : RecordT)
| CallStartScan (offset_ length_ : Z) (type_ : Datatype) (filter_ : option (list Z))
    (op_ : Operator)
| CallEndScan
| CallMarkScan
| CallResetScan
| CallScanNext (fuel : nat) (outRid : RID)
| CallScanGetRecord (rec : RecordT)
| CallDeleteRecord
| CallMarkDirty
| CallInsertRecord (rec : RecordT) (outRid : RID).

Definition call (v : Impl) (c : HeapCall) : M Heap Status :=
  match v, c with
  | Stage4Impl, CallGetRecCnt => Stage4.getRecCnt ;; ret OK
  | Stage4Impl, CallGetRecord rid rec => r ← Stage4.getRecord rid rec; ret (fst r)
  | Stage4Impl, CallStartScan o l t f p => Stage4.startScan o l t f p
  | Stage4Impl, CallEndScan => Stage4.endScan
  | Stage4Impl, CallMarkScan => Stage4.markScan
  | Stage4Impl, CallResetScan => Stage4.resetScan
  | Stage4Impl, CallScanNext fuel rid => r ← Stage4.scanNext fuel rid; ret (fst r)
  | Stage4Impl, CallScanGetRecord rec => r ← Stage4.scanGetRecord rec; ret (fst r)
  | Stage4Impl, CallDeleteRecord => Stage4.deleteRecord
  | Stage4Impl, CallMarkDirty => markDirty
  | Stage4Impl, CallInsertRecord rec rid => r ← Stage4.insertRecord rec rid; ret (fst r)
  | Var2Impl, CallGetRecCnt => Var2.getRecCnt ;; ret OK
  | Var2Impl, CallGetRecord rid rec => r ← Var2.getRecord rid rec; ret (fst r)
  | Var2Impl, CallStartScan o l t f p => Var2.startScan o l t f p
  | Var2Impl, CallEndScan => Var2.endScan
  | Var2Impl, CallMarkScan => Var2.markScan
  | Var2Impl, CallResetScan => Var2.resetScan
  | Var2Impl, CallScanNext fuel rid => r ← Var2.scanNext fuel rid; ret (fst r)
  | Var2Impl, CallScanGetRecord rec => r ← Var2.scanGetRecord rec; ret (fst r)
  | Var2Impl, CallDeleteRecord => Var2.deleteRecord
  | Var2Impl, CallMarkDirty => markDirty
  | Var2Impl, CallInsertRecord rec rid => r ← Var2.insertRecord rec rid; ret (fst r)
  end.

End ScanCalls.

(** ** A concrete page layer and provider

    A small executable instance of the two interfaces, used to run the model
    on concrete inputs.  A page keeps its header view, its next-page pointer
    and a slot directory with room for [simCapacity] records; the provider
    keeps the disk as a finite map and can be told to fail its writes. *)
Module Sim.

Record TPage : Set := mkTPage {
  tpHdr : FileHdrPage;
  tpNo : Z;
  tpNext : Z;
  tpSlots : list (option RecordT)
}.

Definition simCapacity : nat := 2.

Definition tZero : TPage := mkTPage (mkHdr "" 0 0 0 0) 0 0 [].

Definition tInit (n : Z) (p : TPage) : TPage := mkTPage (tpHdr p) n (-1) [].

Definition tInsert (r : RecordT) (p : TPage) : Status * RID * TPage :=
  if (length (tpSlots p) <? simCapacity)%nat then
    (OK, mkRID (tpNo p) (Z.of_nat (length (tpSlots p))),
     mkTPage (tpHdr p) (tpNo p) (tpNext p) (tpSlots p ++ [Some r]))
  else (NOSPACE, NULLRID, p).

Definition tDelete (rid : RID) (p : TPage) : Status * TPage :=
  match tpSlots p !! Z.to_nat (ridSlotNo rid) with
  | Some (Some _) =>
    (OK, mkTPage (tpHdr p) (tpNo p) (tpNext p)
           (<[Z.to_nat (ridSlotNo rid) := None]> (tpSlots p)))
  | _ => (BADRID, p)
  end.

Definition tGet (rid : RID) (p : TPage) : Status * RecordT :=
  if (ridSlotNo rid <? 0) then (BADRID, mkRecord [] 0)
  else
    match tpSlots p !! Z.to_nat (ridSlotNo rid) with
    | Some (Some r) => (OK, r)
    | _ => (BADRID, mkRecord [] 0)
    end.

(** The first used slot at or after slot [i]. *)
Fixpoint usedFrom (i : nat) (l : list (option RecordT)) : option nat :=
  match l with
  | [] => None
  | Some _ :: _ => Some i
  | None :: l' => usedFrom (S i) l'
  end.

Definition tFirst (p : TPage) : Status * RID :=
  match usedFrom 0 (tpSlots p) with
  | Some i => (OK, mkRID (tpNo p) (Z.of_nat i))
  | None => (NORECORDS, NULLRID)
  end.

Definition tNext (cur : RID) (p : TPage) : Status * RID :=
  let k := S (Z.to_nat (ridSlotNo cur)) in
  match usedFrom k (drop k (tpSlots p)) with
  | Some i => (OK, mkRID (tpNo p) (Z.of_nat i))
  | None => (ENDOFPAGE, NULLRID)
  end.

Definition tHdrSet (h : FileHdrPage) (p : TPage) : TPage :=
  mkTPage h (tpNo p) (tpNext p) (tpSlots p).

(** The filtered field is one byte wide in this instance. *)
Definition tFieldDiff (ty : Datatype) (off len : Z) (r : RecordT) (flt : list Z)
  : option comparison :=
  match recData r !! Z.to_nat off, flt !! O with
  | Some a, Some b => Some (a ?= b)
  | _, _ => None
  end.

#[global] Instance simPages : PageLayer := {|
  Page := TPage;
  PAGESIZE := 1024;
  DPFIXED := 24;
  MAXNAMESIZE := 8;
  fieldDiff := tFieldDiff;
  zeroPage := tZero;
  pageInit := tInit;
  pageInsertRecord := tInsert;
  pageDeleteRecord := tDelete;
  pageGetRecord := tGet;
  pageFirstRecord := tFirst;
  pageNextRecord := tNext;
  pageGetNextPage := fun p => (OK, tpNext p);
  pageSetNextPage := fun n p => (OK, mkTPage (tpHdr p) (tpNo p) n (tpSlots p));
  hdrOf := tpHdr;
  hdrSet := tHdrSet;
  hdrOf_hdrSet := fun _ _ => eq_refl;
  hdrSet_hdrSet := fun _ _ _ => eq_refl
|}.

Record TWorld : Set := mkTWorld {
  wDisk : list (File * Z * TPage);
  wNames : list (string * File);
  wFirst : list (File * Z);
  wNextPage : Z;
  wFailWrites : bool
}.

Fixpoint assoc {K V} `{EqDecision K} (k : K) (l : list (K * V)) : option V :=
  match l with
  | [] => None
  | (k', v) :: l' => if decide (k' = k) then Some v else assoc k l'
  end.

Definition tOpen (name : string) (w : TWorld) : Status * File * TWorld :=
  match assoc name (wNames w) with
  | Some f => (OK, f, w)
  | None => (UNIXERR, O, w)
  end.

Definition tCreate (name : string) (w : TWorld) : Status * TWorld :=
  match assoc name (wNames w) with
  | Some _ => (FILEEXISTS, w)
  | None =>
    (OK, mkTWorld (wDisk w) ((name, S (length (wNames w))) :: wNames w)
           (wFirst w) (wNextPage w) (wFailWrites w))
  end.

Definition tDestroy (name : string) (w : TWorld) : Status * TWorld :=
  (OK, mkTWorld (wDisk w) (filter (fun kv => fst kv ≠ name) (wNames w))
         (wFirst w) (wNextPage w) (wFailWrites w)).

Definition tGetFirst (f : File) (w : TWorld) : Status * Z * TWorld :=
  match assoc f (wFirst w) with
  | Some p => (OK, p, w)
  | None => (OK, -1, w)
  end.

Definition tAllocate (f : File) (w : TWorld) : Status * Z * TWorld :=
  (OK, wNextPage w,
   mkTWorld (wDisk w) (wNames w)
     (match assoc f (wFirst w) with
      | Some _ => wFirst w
      | None => (f, wNextPage w) :: wFirst w
      end)
     (wNextPage w + 1) (wFailWrites w)).

Definition tDispose (f : File) (p : Z) (w : TWorld) : Status * TWorld :=
  (OK, mkTWorld (filter (fun kv => fst kv ≠ (f, p)) (wDisk w)) (wNames w)
         (wFirst w) (wNextPage w) (wFailWrites w)).

Definition tRead (f : File) (p : Z) (old : TPage) (w : TWorld) : Status * TPage * TWorld :=
  if p <? 0 then (BADPAGENO, old, w)
  else
    match assoc (f, p) (wDisk w) with
    | Some pg => (OK, pg, w)
    | None => (OK, tZero, w)
    end.

Definition tWrite (f : File) (p : Z) (pg : TPage) (w : TWorld) : Status * TWorld :=
  if wFailWrites w then (UNIXERR, w)
  else
    (OK, mkTWorld ((f, p, pg) :: wDisk w) (wNames w) (wFirst w)
           (wNextPage w) (wFailWrites w)).

#[global] Instance simProvider : FileProvider := {|
  World := TWorld;
  fpOpenFile := tOpen;
  fpCreateFile := tCreate;
  fpDestroyFile := tDestroy;
  fpCloseFile := fun f w => (OK, w);
  fpGetFirstPage := tGetFirst;
  fpAllocatePage := tAllocate;
  fpDisposePage := tDispose;
  fpReadPage := tRead;
  fpWritePage := tWrite
|}.

(** An empty provider with one known file, and a fresh pool over it. *)
Definition world0 : TWorld := mkTWorld [] [("t", 1%nat)] [] 1 false.

Definition sys0 (bufs : nat) : Sys := mkSys (BufMgr_new bufs) world0 [].

(** Run a computation and keep the state, staying where we are when it is
    undefined. *)
Definition exec {S A} (m : M S A) (s : S) : S :=
  match m s with
  | Some (_, s') => s'
  | None => s
  end.

(** The only file of [world0], as a [File*]. *)
Definition f1 : option File := Some 1%nat.

(** Read a page and release it at once. *)
Definition touch (p : Z) : M Sys Status := readPage f1 p ;; unPinPage f1 p false.

(** A pool of three frames holding the pages 1, 2 and 3, all released and
    all referenced; the hand is on frame 2, which holds page 1. *)
Definition fullPool : Sys := exec (touch 1 ;; touch 2 ;; touch 3) (sys0 3).

(** A pool of two frames: page 1 is read and stays pinned (frame 1), page 2
    is read and released dirty (frame 0). *)
Definition halfPinned : Sys :=
  exec (readPage f1 1 ;; readPage f1 2 ;; unPinPage f1 2 true) (sys0 2).


(** A heap file ["r"] in a pool of four frames: created by the first
    variant, then loaded with the five one-byte records 10 .. 14 through an
    [InsertFileScan] (two records fit on a page, so the data pages are 2, 3
    and 4, after the header page 1). *)
Definition rec1 (n : Z) : RecordT := mkRecord [n] 1.

Definition fresh (s : Sys) : Heap := mkHeap HeapFile_init s.

Definition created : Sys := exec (Stage4.createHeapFile "r") (sys0 4).

Definition insert1 (n : Z) : M Heap Status :=
  r ← Stage4.insertRecord (rec1 n) NULLRID; ret (fst r).

Definition loaded : Sys :=
  sys (exec (Stage4.InsertFileScan_ctor "r" ;; insert1 10 ;; insert1 11 ;; insert1 12 ;;
             insert1 13 ;; insert1 14 ;; Stage4.InsertFileScan_dtor) (fresh created)).

(** The file opened as a [HeapFile] of the first variant. *)
Definition opened4 : Heap := exec (Stage4.HeapFile_ctor "r") (fresh loaded).

(** Unfiltered scans of both variants, just started. *)
Definition scan4 : Heap :=
  exec (Stage4.HeapFileScan_ctor "r" ;; Stage4.startScan 0 0 STRING None EQ) (fresh loaded).

Definition scan2 : Heap :=
  exec (Var2.HeapFileScan_ctor "r" ;; Var2.startScan 0 0 STRING None EQ) (fresh loaded).

Definition next4 : M Heap (Status * RID) := Stage4.scanNext 10 NULLRID.
Definition next2 : M Heap (Status * RID) := Var2.scanNext 10 NULLRID.

(** An insert scan on the new file when its only data page is full. *)
Definition fullPage : Heap :=
  exec (Stage4.InsertFileScan_ctor "r" ;; insert1 10 ;; insert1 11) (fresh created).

(** The scans after three records: the third record is the first of page 3. *)
Definition third4 : Heap := exec (next4 ;; next4 ;; next4) scan4.
Definition third2 : Heap := exec (next2 ;; next2 ;; next2) scan2.

(** The scans after all five records. *)
Definition fifth4 : Heap := exec (next4 ;; next4) third4.
Definition fifth2 : Heap := exec (next2 ;; next2) third2.

(** The file written back, under a pool of one frame: the header page takes
    the frame and the first data page cannot be read. *)
Definition smallPool : Sys :=
  mkSys (BufMgr_new 1) (world (exec (flushFile (Some 2%nat)) loaded)) [].
Definition failedOpen : Heap := exec (Var2.HeapFile_ctor "r") (fresh smallPool).

(** A file of ten records on pages 2 to 6, written back, and the scans of
    both variants standing on its fourth record, the second of page 3. *)
Definition loaded10 : Sys :=
  exec (flushFile (Some 2%nat))
    (sys (exec (Stage4.InsertFileScan_ctor "r" ;; insert1 10 ;; insert1 11 ;; insert1 12 ;;
                insert1 13 ;; insert1 14 ;; insert1 15 ;; insert1 16 ;; insert1 17 ;;
                insert1 18 ;; insert1 19 ;; Stage4.InsertFileScan_dtor) (fresh created))).

Definition fourth4 : Heap :=
  exec (Stage4.HeapFileScan_ctor "r" ;; Stage4.startScan 0 0 STRING None EQ ;;
        next4 ;; next4 ;; next4 ;; next4) (fresh loaded10).
Definition fourth2 : Heap :=
  exec (Var2.HeapFileScan_ctor "r" ;; Var2.startScan 0 0 STRING None EQ ;;
        next2 ;; next2 ;; next2 ;; next2) (fresh loaded10).

(** The pages of that file as the provider holds them, and the worlds in
    which it still holds them. *)
Definition pageOnDisk (w : TWorld) (p : Z) : TPage :=
  match assoc (2%nat, p) (wDisk w) with
  | Some pg => pg
  | None => tZero
  end.
Definition diskBytes (p : Z) : TPage := pageOnDisk (world loaded10) p.
Definition diskKept (w : TWorld) : Prop := forall p, pageOnDisk w p = diskBytes p.

(** The run of the specification from the fourth record: the mark, the
    scan advanced to the seventh record, and the reset. *)
Definition marked4 : Heap := exec Stage4.markScan fourth4.
Definition sixth4 : Heap := exec (next4 ;; next4) marked4.
Definition seventh4 : Heap := exec next4 sixth4.
Definition back4 : Heap := exec Stage4.resetScan seventh4.
Definition marked2 : Heap := exec Var2.markScan fourth2.
Definition sixth2 : Heap := exec (next2 ;; next2) marked2.
Definition seventh2 : Heap := exec next2 sixth2.
Definition back2 : Heap := exec Var2.resetScan seventh2.

(** A scan of the first variant for the records whose byte is greater than
    12, just started, and a new insert scan on the loaded file. *)
Definition filtered4 : Heap :=
  exec (Stage4.HeapFileScan_ctor "r" ;; Stage4.startScan 0 1 STRING (Some [12]) GT)
       (fresh loaded).

(** A scan of the second variant, constructed and not yet started. *)
Definition unstarted2 : Heap := exec (Var2.HeapFileScan_ctor "r") (fresh loaded).

End Sim.

(** * Part II: theorems *)

(** ** The monad *)

Section MonadFacts.
Context {S : Type}.

Lemma bind_Some {A B} (m : M S A) (k : A -> M S B) s r :
  (m ≫= k) s = Some r <-> exists a s1, m s = Some (a, s1) /\ k a s1 = Some r.
Proof.
  unfold mbind, M_bind, bind. destruct (m s) as [[a s1]|]; split.
  - intros H; eauto.
  - intros (a' & s' & E & H). by simplify_eq.
  - done.
  - intros (a' & s' & E & H). done.
Qed.

Lemma ret_Some {A} (a : A) (s : S) r : ret a s = Some r <-> r = (a, s).
Proof. unfold ret. split; intros; by simplify_eq. Qed.

Lemma gets_Some {A} (f : S -> A) (s : S) r : gets f s = Some r <-> r = (f s, s).
Proof. unfold gets. split; intros; by simplify_eq. Qed.

Lemma modify_Some (f : S -> S) (s : S) r : modify f s = Some r <-> r = (tt, f s).
Proof. unfold modify. split; intros; by simplify_eq. Qed.

Lemma undef_Some {A} (s : S) (r : A * S) : undef s = Some r <-> False.
Proof. unfold undef. split; [done | tauto]. Qed.

End MonadFacts.

(** [minv]: take apart every hypothesis that says a computation returned. *)
Ltac minv_step :=
  match goal with
  | H : (_ ≫= _) _ = Some _ |- _ => apply bind_Some in H as (? & ? & ? & ?)
  | H : ret _ _ = Some _ |- _ => apply ret_Some in H; simplify_eq
  | H : gets _ _ = Some _ |- _ => apply gets_Some in H; simplify_eq
  | H : modify _ _ = Some _ |- _ => apply modify_Some in H; simplify_eq
  | H : undef _ = Some _ |- _ => by apply undef_Some in H
  | H : None = Some _ |- _ => discriminate H
  | H : Some _ = Some _ |- _ => injection H as ?; simplify_eq
  | H : (let '(_, _) := ?x in _) _ = Some _ |- _ => destruct x eqn:?
  | H : (let '(_, _) := ?x in _) = Some _ |- _ => destruct x eqn:?
  | H : (match ?x with _ => _ end) _ = Some _ |- _ => destruct x eqn:?
  | H : match ?x with _ => _ end = Some _ |- _ => destruct x eqn:?
  end.
Ltac minv := repeat (minv_step; simpl in *).

(** The primitive accesses of the pool, unfolded. *)
Ltac munfold :=
  unfold getDesc, putDesc, getFrame, putFrame, hashLookup, hashInsert, hashRemove,
    fileWritePage, fileReadPage, fileAllocatePage, fileDisposePage, callWorld,
    advanceClock in *.

(** Boolean tests of the code, read as propositions. *)
Lemma isOK_true st : isOK st = true <-> st = OK.
Proof. unfold isOK. by rewrite bool_decide_eq_true. Qed.

Lemma isOK_false st : isOK st = false <-> st <> OK.
Proof. unfold isOK. by rewrite bool_decide_eq_false. Qed.

Lemma negb_isOK_true st : negb (isOK st) = true <-> st <> OK.
Proof. rewrite negb_true_iff. apply isOK_false. Qed.

Lemma negb_isOK_false st : negb (isOK st) = false <-> st = OK.
Proof. rewrite negb_false_iff. apply isOK_true. Qed.

Ltac bool_hyps :=
  repeat match goal with
  | H : negb (isOK _) = true |- _ => apply negb_isOK_true in H
  | H : negb (isOK _) = false |- _ => apply negb_isOK_false in H
  | H : isOK _ = true |- _ => apply isOK_true in H
  | H : isOK _ = false |- _ => apply isOK_false in H
  | H : negb _ = true |- _ => apply negb_true_iff in H
  | H : negb _ = false |- _ => apply negb_false_iff in H
  | H : (_ =? _) = true |- _ => apply Z.eqb_eq in H
  | H : (_ =? _) = false |- _ => apply Z.eqb_neq in H
  | H : (_ <? _) = true |- _ => apply Z.ltb_lt in H
  | H : (_ <? _) = false |- _ => apply Z.ltb_ge in H
  | H : bool_decide _ = true |- _ => apply bool_decide_eq_true in H
  | H : bool_decide _ = false |- _ => apply bool_decide_eq_false in H
  | H : _ && _ = true |- _ => apply andb_true_iff in H as [? ?]
  end.

(** ** The buffer manager: well-formedness and the clock *)

Section BufMgrFacts.
Context {PL : PageLayer} {FP : FileProvider}.
Implicit Types (b : BufMgr) (s : Sys) (d : BufDesc) (i : nat).

Lemma eqModRef_refl d : eqModRef d d.
Proof. done. Qed.

Lemma eqModRef_trans d1 d2 d3 : eqModRef d1 d2 -> eqModRef d2 d3 -> eqModRef d1 d3.
Proof. unfold eqModRef. congruence. Qed.

Lemma eqModRef_fields d d' :
  eqModRef d d' ->
  file d' = file d /\ pageNo d' = pageNo d /\ frameNo d' = frameNo d /\
  pinCnt d' = pinCnt d /\ dirty d' = dirty d /\ valid d' = valid d.
Proof. unfold eqModRef, setRefbit. intros H. injection H; intros; by repeat split. Qed.

Lemma sweep_refl b : sweep b b.
Proof. repeat split. intros; eauto using eqModRef_refl. Qed.

Lemma sweep_trans b1 b2 b3 : sweep b1 b2 -> sweep b2 b3 -> sweep b1 b3.
Proof.
  intros (?&?&?&?&Ha) (?&?&?&?&Hb). repeat split; try congruence.
  intros i d Hd. destruct (Ha _ _ Hd) as (d' & Hd' & ?).
  destruct (Hb _ _ Hd') as (d'' & ? & ?). eauto using eqModRef_trans.
Qed.

Lemma sweep_hand b c : sweep b (withClockHand c b).
Proof. repeat split. intros; eauto using eqModRef_refl. Qed.

Lemma sweep_refbit b i d r c :
  bufTable b !! i = Some d ->
  sweep b (withClockHand c (withBufTable (<[i := setRefbit r d]> (bufTable b)) b)).
Proof.
  intros Hd. repeat split; simpl.
  - by rewrite length_insert.
  - intros j dj Hj. destruct (decide (i = j)) as [->|Hne].
    + rewrite list_lookup_insert_eq; [|by eapply lookup_lt_Some]. simplify_eq. by eexists.
    + rewrite list_lookup_insert_ne; [|done]. eauto using eqModRef_refl.
Qed.

(** The back direction of a sweep. *)
Lemma sweep_lookup_inv b b' i d' :
  sweep b b' -> bufTable b' !! i = Some d' ->
  exists d, bufTable b !! i = Some d /\ eqModRef d d'.
Proof.
  intros (_&_&_&Hl&Hs) Hd'.
  destruct (lookup_lt_is_Some_2 (bufTable b) i) as [d Hd].
  { rewrite <- Hl. by eapply lookup_lt_Some. }
  destruct (Hs _ _ Hd) as (d'' & ? & ?). simplify_eq. eauto.
Qed.

Lemma wf_sweep b b' :
  wf b -> sweep b b' ->
  ((0 < numBufs b)%nat -> (clockHand b' < numBufs b)%nat) -> wf b'.
Proof.
  intros [Hlt Hlp Hhand Hhash Hpin Hown Hfree] Hsw Hh. pose proof Hsw as (Hn & Hp & Hh' & Hl & Hs).
  split.
  - congruence.
  - congruence.
  - rewrite Hn. done.
  - intros f p i. rewrite Hh', Hhash. split.
    + intros (d & Hd & ? & ? & ?). destruct (Hs _ _ Hd) as (d' & ? & He).
      apply eqModRef_fields in He. destruct_and!. exists d'. repeat split; congruence.
    + intros (d' & Hd' & ? & ? & ?).
      destruct (sweep_lookup_inv _ _ _ _ Hsw Hd') as (d & ? & He).
      apply eqModRef_fields in He. destruct_and!. exists d. repeat split; congruence.
  - intros i d' Hd'. destruct (sweep_lookup_inv _ _ _ _ Hsw Hd') as (d & ? & He).
    apply eqModRef_fields in He. destruct He as (_&_&_&->&_). eauto.
  - intros i d' Hd' Hv. destruct (sweep_lookup_inv _ _ _ _ Hsw Hd') as (d & ? & He).
    apply eqModRef_fields in He. destruct He as (->&_&_&_&_&Hv'). rewrite Hv' in Hv. eauto.
  - intros i d' Hd' Hv. destruct (sweep_lookup_inv _ _ _ _ Hsw Hd') as (d & ? & He).
    apply eqModRef_fields in He. destruct He as (->&_&_&_&_&Hv'). rewrite Hv' in Hv. eauto.
Qed.

(** Replacing a descriptor by one with the same identity. *)
Lemma wf_same_identity b i d d' :
  wf b -> bufTable b !! i = Some d ->
  file d' = file d -> pageNo d' = pageNo d -> valid d' = valid d -> 0 <= pinCnt d' ->
  wf (withBufTable (<[i := d']> (bufTable b)) b).
Proof.
  intros [Hlt Hlp Hhand Hhash Hpin0 Hown Hfree] Hd Hf Hp Hv Hpin.
  assert (Hi : (i < length (bufTable b))%nat) by by eapply lookup_lt_Some.
  split; simpl; try done.
  - by rewrite length_insert.
  - intros f p j. rewrite Hhash. destruct (decide (i = j)) as [->|Hne].
    + rewrite list_lookup_insert_eq by done. split.
      * intros (d0 & ? & ? & ? & ?). simplify_eq. exists d'. repeat split; congruence.
      * intros (d0 & ? & ? & ? & ?). simplify_eq. exists d. repeat split; congruence.
    + by rewrite list_lookup_insert_ne.
  - intros j dj. destruct (decide (i = j)) as [->|Hne].
    + rewrite list_lookup_insert_eq by done. intros; by simplify_eq.
    + rewrite list_lookup_insert_ne by done. eauto.
  - intros j dj. destruct (decide (i = j)) as [->|Hne].
    + rewrite list_lookup_insert_eq by done. intros ? Hv'; simplify_eq.
      rewrite Hf. rewrite Hv in Hv'. eauto.
    + rewrite list_lookup_insert_ne by done. eauto.
  - intros j dj. destruct (decide (i = j)) as [->|Hne].
    + rewrite list_lookup_insert_eq by done. intros ? Hv'; simplify_eq.
      rewrite Hf. rewrite Hv in Hv'. eauto.
    + rewrite list_lookup_insert_ne by done. eauto.
Qed.

(** Two valid frames never hold the same page. *)
Lemma wf_unique b i j d d' :
  wf b -> bufTable b !! i = Some d -> bufTable b !! j = Some d' ->
  valid d = true -> valid d' = true -> file d' = file d -> pageNo d' = pageNo d ->
  i = j.
Proof.
  intros Hwf Hd Hd' Hv Hv' Hf Hp.
  destruct (wf_owner _ Hwf _ _ Hd Hv) as [f Hfd].
  assert (hashTable b !! (f, pageNo d) = Some i) as H1.
  { apply (wf_hash _ Hwf). eauto. }
  assert (hashTable b !! (f, pageNo d) = Some j) as H2.
  { apply (wf_hash _ Hwf). exists d'. repeat split; congruence. }
  congruence.
Qed.

(** Emptying a valid frame and dropping its hash entry. *)
Lemma wf_evict b i d d' f :
  wf b -> bufTable b !! i = Some d -> valid d = true -> file d = Some f ->
  valid d' = false -> file d' = None -> 0 <= pinCnt d' ->
  wf (withBufTable (<[i := d']> (bufTable b))
        (withHashTable (delete (f, pageNo d) (hashTable b)) b)).
Proof.
  intros Hwf Hd Hv Hf Hv' Hf' Hpin. pose proof Hwf as [Hlt Hlp Hhand Hhash Hpin0 Hown Hfree].
  assert (Hi : (i < length (bufTable b))%nat) by by eapply lookup_lt_Some.
  split; simpl; try done.
  - by rewrite length_insert.
  - intros g p j. destruct (decide ((f, pageNo d) = (g, p))) as [E|Hne].
    + simplify_eq. rewrite lookup_delete_eq. split; [done|].
      intros (d0 & Hd0 & ? & ? & ?). destruct (decide (i = j)) as [->|Hij].
      * rewrite list_lookup_insert_eq in Hd0 by done. simplify_eq; congruence.
      * rewrite list_lookup_insert_ne in Hd0 by done.
        exfalso. apply Hij. eapply wf_unique; eauto. congruence.
    + rewrite lookup_delete_ne by done. rewrite Hhash.
      destruct (decide (i = j)) as [->|Hij].
      * rewrite list_lookup_insert_eq by done. split.
        -- intros (d0 & ? & ? & ? & ?). simplify_eq; congruence.
        -- intros (d0 & ? & ? & ? & ?). simplify_eq; congruence.
      * by rewrite list_lookup_insert_ne.
  - intros j dj. destruct (decide (i = j)) as [->|Hne].
    + rewrite list_lookup_insert_eq by done. intros; by simplify_eq.
    + rewrite list_lookup_insert_ne by done. eauto.
  - intros j dj. destruct (decide (i = j)) as [->|Hne].
    + rewrite list_lookup_insert_eq by done. intros; simplify_eq; congruence.
    + rewrite list_lookup_insert_ne by done. eauto.
  - intros j dj. destruct (decide (i = j)) as [->|Hne].
    + rewrite list_lookup_insert_eq by done. intros; by simplify_eq.
    + rewrite list_lookup_insert_ne by done. eauto.
Qed.

(** Installing a page that is not resident in a free frame. *)
Lemma wf_install b i d f p :
  wf b -> bufTable b !! i = Some d -> valid d = false ->
  hashTable b !! (f, p) = None ->
  wf (withBufTable (<[i := BufDesc_Set f p d]> (bufTable b))
        (withHashTable (<[(f, p) := i]> (hashTable b)) b)).
Proof.
  intros Hwf Hd Hv Hnone. pose proof Hwf as [Hlt Hlp Hhand Hhash Hpin0 Hown Hfree].
  assert (Hi : (i < length (bufTable b))%nat) by by eapply lookup_lt_Some.
  split; simpl; try done.
  - by rewrite length_insert.
  - intros g q j. destruct (decide ((f, p) = (g, q))) as [E|Hne].
    + simplify_eq. rewrite lookup_insert_eq. split.
      * intros ?; simplify_eq. rewrite list_lookup_insert_eq by done. by eexists.
      * intros (d0 & Hd0 & ? & ? & ?). destruct (decide (i = j)) as [->|Hij]; [done|].
        rewrite list_lookup_insert_ne in Hd0 by done.
        assert (hashTable b !! (g, pageNo d0) = Some j) by (apply Hhash; eauto).
        congruence.
    + rewrite lookup_insert_ne by done. rewrite Hhash.
      destruct (decide (i = j)) as [->|Hij].
      * rewrite list_lookup_insert_eq by done. split.
        -- intros (d0 & ? & ? & ? & ?). simplify_eq; congruence.
        -- intros (d0 & ? & ? & ? & ?). simplify_eq/=; congruence.
      * by rewrite list_lookup_insert_ne.
  - intros j dj. destruct (decide (i = j)) as [->|Hne].
    + rewrite list_lookup_insert_eq by done. intros; by simplify_eq.
    + rewrite list_lookup_insert_ne by done. eauto.
  - intros j dj. destruct (decide (i = j)) as [->|Hne].
    + rewrite list_lookup_insert_eq by done. intros; simplify_eq. by eexists.
    + rewrite list_lookup_insert_ne by done. eauto.
  - intros j dj. destruct (decide (i = j)) as [->|Hne].
    + rewrite list_lookup_insert_eq by done. intros; by simplify_eq.
    + rewrite list_lookup_insert_ne by done. eauto.
Qed.

Lemma wf_pool b pool :
  wf b -> length pool = length (bufPool b) -> wf (withBufPool pool b).
Proof. intros [Hlt Hlp Hhand Hhash Hpin Hown Hfree] Hl. split; simpl; try done. congruence. Qed.

Lemma wf_new bufs : wf (BufMgr_new bufs).
Proof.
  split; simpl.
  - by rewrite length_map, length_seq.
  - by rewrite length_replicate.
  - lia.
  - intros f p i. rewrite lookup_empty. split; [done|].
    intros (d & Hd & Hv & _). rewrite list_lookup_fmap in Hd.
    destruct (seq 0 bufs !! i); simplify_eq/=. 
  - intros i d Hd. rewrite list_lookup_fmap in Hd.
    destruct (seq 0 bufs !! i); by simplify_eq/=.
  - intros i d Hd. rewrite list_lookup_fmap in Hd.
    destruct (seq 0 bufs !! i); by simplify_eq/=.
  - intros i d Hd. rewrite list_lookup_fmap in Hd.
    destruct (seq 0 bufs !! i); by simplify_eq/=.
Qed.


Lemma allocBuf_turn_continue s s' :
  allocBuf_turn s = Some (None, s') ->
  sweep (bm s) (bm s') /\ world s' = world s /\ calls s' = calls s /\
  clockHand (bm s') = ((clockHand (bm s) + 1) mod numBufs (bm s))%nat /\
  exists d, bufTable (bm s) !! clockHand (bm s) = Some d /\ valid d = true /\
            (refbit d = true \/ pinCnt d <> 0).
Proof.
  unfold allocBuf_turn. intros H. munfold. minv.
  - split; [by apply sweep_refbit|]. do 3 (split; [done|]).
    eexists; split; [done|]. destruct (valid _); naive_solver.
  - split; [by apply sweep_hand|]. do 3 (split; [done|]).
    eexists; split; [done|]. destruct (valid _); [|done]. split; [done|]. right. lia.
Qed.

Lemma allocBuf_turn_final s out s' :
  allocBuf_turn s = Some (Some out, s') -> allocBuf_final s out s'.
Proof.
  unfold allocBuf_turn. intros H. munfold. minv; bool_hyps; subst.
  - by eapply final_free.
  - eapply final_unixerr; eauto. unfold writtenBack.
    match goal with H : dirty _ = true |- _ => rewrite H end. eauto 10.
  - eapply final_hasherr; eauto.
    + unfold writtenBack.
      match goal with H : dirty _ = true |- _ => rewrite H end. eauto 10.
    + intros; by simplify_eq.
  - eapply final_hasherr; eauto.
    + unfold writtenBack.
      match goal with H : dirty _ = false |- _ => by rewrite H end.
    + intros; by simplify_eq.
  - eapply final_hasherr; eauto.
    + unfold writtenBack.
      match goal with H : dirty _ = false |- _ => by rewrite H end.
    + intros; by simplify_eq.
  - match goal with |- allocBuf_final ?s _ _ =>
      eapply (final_victim s _ _ (mkSys (bm s) _ _)); eauto end.
    unfold writtenBack.
    match goal with H : dirty _ = true |- _ => rewrite H end. eauto 10.
  - match goal with |- allocBuf_final ?s _ _ =>
      eapply (final_victim s _ _ s); eauto end.
    unfold writtenBack.
    match goal with H : dirty _ = false |- _ => by rewrite H end.
Qed.

Lemma allocBuf_loop_spec n s out s' :
  allocBuf_loop n s = Some (out, s') ->
  exists s1 k, (k <= n)%nat /\
    sweep (bm s) (bm s1) /\ world s1 = world s /\ calls s1 = calls s /\
    clockHand (bm s1) = Nat.iter k (fun h => (h + 1) mod numBufs (bm s))%nat (clockHand (bm s)) /\
    (wf (bm s) -> wf (bm s1)) /\
    ((k = n /\ out = (BUFFEREXCEEDED, None) /\ s' = s1) \/
     ((k < n)%nat /\ allocBuf_final s1 out s')).
Proof.
  revert s. induction n as [|n IH]; intros s H; simpl in H.
  - minv. exists s, O. split; [lia|]. split; [apply sweep_refl|]. naive_solver.
  - minv.
    + apply allocBuf_turn_final in H. exists s, O. split; [lia|].
      split; [apply sweep_refl|]. do 4 (split; [done|]). right. split; [lia|done].
    + apply allocBuf_turn_continue in H as (Hsw & Hw & Hc & Hh & _).
      apply IH in H0 as (s1 & k & Hk & Hsw1 & Hw1 & Hc1 & Hh1 & Hwf1 & Hfin).
      exists s1, (Datatypes.S k). split; [lia|]. split; [by eapply sweep_trans|].
      split; [congruence|]. split; [congruence|]. split; [|split].
      * rewrite Hh1. destruct Hsw as (-> & _). rewrite Hh.
        by rewrite Nat.iter_succ_r.
      * intros Hwf. apply Hwf1. eapply wf_sweep; [done..|].
        intros Hpos. rewrite Hh. by apply Nat.mod_upper_bound, Nat.neq_0_lt_0.
      * destruct Hfin as [(-> & ? & ?)|[? ?]]; [left|right]; (split; [lia|done]) || done.
Qed.

Lemma writtenBack_bm s hand d st s1 : writtenBack s hand d st s1 -> bm s1 = bm s.
Proof.
  unfold writtenBack. destruct (dirty d).
  - intros (f & pg & w' & _ & _ & _ & ->). done.
  - by intros [_ ->].
Qed.

Lemma allocBuf_final_post s out s' :
  wf (bm s) -> allocBuf_final s out s' -> allocBuf_post s out s'.
Proof.
  intros Hwf Hfin. 
  destruct Hfin as [d Hd Hv|d st s1 Hd Hv Hr Hp Hwb Hst|d s1 Hd Hv Hr Hp Hwb Hmiss
                   |d f s1 Hd Hv Hr Hp Hwb Hf Hhash].
  - (* a free frame *)
    assert (Hlt : (clockHand (bm s) < numBufs (bm s))%nat).
    { rewrite <- (wf_table_len _ Hwf). by eapply lookup_lt_Some. }
    split; simpl.
    + eapply wf_sweep; [done|apply sweep_hand|]. simpl. intros.
      apply Nat.mod_upper_bound. lia.
    + done.
    + done.
    + intros i di Hi _. eauto using eqModRef_refl.
    + intros fr [= <-]. split; [done|]. eauto 10.
    + intros f p i. split; [|tauto]. intros Hh. split; [done|]. intros [= <-].
      apply (wf_hash _ Hwf) in Hh as (d0 & ? & ? & _). congruence.
    + eauto.
    + by left.
  - (* the write-back failed *)
    apply writtenBack_bm in Hwb. split; simpl; rewrite ?Hwb; try done.
    + intros i di Hi _. eauto using eqModRef_refl.
    + intros; split; [done|tauto].
    + by right; right.
  - (* the hash entry is missing: impossible on a well-formed pool *)
    exfalso. destruct (wf_owner _ Hwf _ _ Hd Hv) as [f Hf].
    specialize (Hmiss _ Hf).
    assert (hashTable (bm s) !! (f, pageNo d) = Some (clockHand (bm s))) as E.
    { apply (wf_hash _ Hwf). eauto. }
    congruence.
  - (* a victim *)
    apply writtenBack_bm in Hwb.
    assert (Hlt : (clockHand (bm s) < length (bufTable (bm s)))%nat)
      by by eapply lookup_lt_Some.
    split; simpl.
    + by eapply wf_evict.
    + done.
    + done.
    + intros i di Hi Hne. exists di. split; [|done].
      rewrite list_lookup_insert_ne; [done|]. congruence.
    + intros fr [= <-]. split; [done|]. exists d, (BufDesc_Clear d).
      split; [done|]. split; [by right|]. split; [|done].
      by rewrite list_lookup_insert_eq.
    + intros g p i. destruct (decide ((f, pageNo d) = (g, p))) as [E|Hne].
      * simplify_eq. rewrite lookup_delete_eq. split; [done|].
        intros [Hh Hi]. exfalso. apply Hi. f_equal.
        assert (hashTable (bm s) !! (g, pageNo d) = Some (clockHand (bm s))) as E.
        { apply (wf_hash _ Hwf). eauto. }
        congruence.
      * rewrite lookup_delete_ne by done. split; [|tauto].
        intros Hh. split; [done|]. intros [= <-].
        apply (wf_hash _ Hwf) in Hh as (d0 & ? & ? & ? & ?). simplify_eq.
    + eauto.
    + by left.
Qed.

Lemma allocBuf_post_sweep s s1 out s' :
  sweep (bm s) (bm s1) -> allocBuf_post s1 out s' -> allocBuf_post s out s'.
Proof.
  intros Hsw [Hwf Hn Hp Ho Hc Hh Hs Hss].
  pose proof Hsw as (En & Ep & Eh & El & Es).
  split; try done; try congruence.
  - intros i d Hd Hne. destruct (Es _ _ Hd) as (d1 & Hd1 & E1).
    destruct (Ho _ _ Hd1 Hne) as (d' & ? & ?). eauto using eqModRef_trans.
  - intros fr Hfr. destruct (Hc _ Hfr) as (? & d1 & d' & Hd1 & Hfree & ? & ?).
    split; [done|].
    destruct (sweep_lookup_inv _ _ _ _ Hsw Hd1) as (d & ? & E).
    apply eqModRef_fields in E. destruct_and!.
    exists d, d'. repeat split; try done. destruct Hfree; [left|right]; congruence.
  - intros f p i. rewrite Hh, Eh. done.
Qed.

Lemma allocBuf_loop_post n s out s' :
  wf (bm s) -> allocBuf_loop n s = Some (out, s') -> allocBuf_post s out s'.
Proof.
  intros Hwf H.
  apply allocBuf_loop_spec in H as (s1 & k & _ & Hsw & _ & _ & _ & Hwf1 & Hfin).
  eapply allocBuf_post_sweep; [done|].
  destruct Hfin as [(_ & -> & ->)|[_ Hfin]].
  - split; simpl; try done; eauto using eqModRef_refl.
    all: try (by right; left).
    intros; split; [done|tauto].
  - apply allocBuf_final_post; eauto.
Qed.

Lemma allocBuf_spec_post s out s' :
  wf (bm s) -> allocBuf s = Some (out, s') -> allocBuf_post s out s'.
Proof. unfold allocBuf. intros Hwf H. minv. by eapply allocBuf_loop_post. Qed.

End BufMgrFacts.

(** ** The buffer manager: the operations *)

Section PoolOps.
Context {PL : PageLayer} {FP : FileProvider}.
Implicit Types (b : BufMgr) (s : Sys) (d : BufDesc) (i : nat).

(** The hash table of a well-formed pool is injective. *)
Lemma wf_hash_inj b f p g q i :
  wf b -> hashTable b !! (f, p) = Some i -> hashTable b !! (g, q) = Some i ->
  (f, p) = (g, q).
Proof.
  intros Hwf H1 H2.
  apply (wf_hash _ Hwf) in H1 as (d & ? & ? & ? & ?).
  apply (wf_hash _ Hwf) in H2 as (d' & ? & ? & ? & ?). simplify_eq. congruence.
Qed.

Lemma wf_hash_lt b f p i :
  wf b -> hashTable b !! (f, p) = Some i -> (i < numBufs b)%nat.
Proof.
  intros Hwf H1. apply (wf_hash _ Hwf) in H1 as (d & Hd & _).
  rewrite <- (wf_table_len _ Hwf). by eapply lookup_lt_Some.
Qed.

Lemma pins_resident b f p i d :
  hashTable b !! (f, p) = Some i -> bufTable b !! i = Some d -> pins b f p = pinCnt d.
Proof. unfold pins. by intros -> ->. Qed.

Lemma pins_absent b f p : hashTable b !! (f, p) = None -> pins b f p = 0.
Proof. unfold pins. by intros ->. Qed.

Lemma pins_nonneg b f p : wf b -> 0 <= pins b f p.
Proof.
  intros Hwf. unfold pins. destruct (hashTable b !! (f, p)) as [i|]; [|done].
  destruct (bufTable b !! i) as [d|] eqn:E; [|done]. by eapply wf_pin.
Qed.

Lemma pins_pos_resident b f p :
  wf b -> 0 < pins b f p ->
  exists i d, hashTable b !! (f, p) = Some i /\ bufTable b !! i = Some d /\
              valid d = true /\ file d = Some f /\ pageNo d = p /\ pinCnt d = pins b f p.
Proof.
  intros Hwf. unfold pins. destruct (hashTable b !! (f, p)) as [i|] eqn:E; [|lia].
  apply (wf_hash _ Hwf) in E as (d & Hd & ? & ? & ?). rewrite Hd. eauto 10.
Qed.

Lemma kept_refl b i d : bufTable b !! i = Some d -> kept b b i.
Proof. intros. exists d, d. naive_solver. Qed.

Lemma kept_trans b1 b2 b3 i : kept b1 b2 i -> kept b2 b3 i -> kept b1 b3 i.
Proof.
  intros (d1 & d2 & ? & ? & E1 & E2 & E3 & E4 & E5) (d2' & d3 & ? & ? & F1 & F2 & F3 & F4 & F5).
  simplify_eq. exists d1, d3. repeat split; try congruence.
  intros f Hf. rewrite <- E5 by done. rewrite <- E2. apply F5. congruence.
Qed.

(** [allocBuf] keeps the pin count of every page. *)
Lemma allocBuf_post_pins s out s' f p :
  wf (bm s) -> allocBuf_post s out s' -> pins (bm s') f p = pins (bm s) f p.
Proof.
  intros Hwf [Hwf' _ _ Ho Hc Hh _ _].
  destruct (hashTable (bm s) !! (f, p)) as [i|] eqn:E.
  - pose proof E as (d & Hd & Hv & _)%(wf_hash _ Hwf).
    rewrite (pins_resident _ _ _ _ _ E Hd).
    destruct (decide (snd out = Some i)) as [Ei|Hne].
    + destruct (Hc _ Ei) as (_ & d0 & d' & ? & Hfree & _). simplify_eq.
      rewrite pins_absent; [destruct Hfree; congruence|].
      destruct (hashTable (bm s') !! (f, p)) as [j|] eqn:E'; [|done].
      apply Hh in E' as [? ?]. congruence.
    + destruct (Ho _ _ Hd Hne) as (d' & Hd' & Heq%eqModRef_fields).
      erewrite pins_resident; [|by apply Hh|done]. by destruct_and!.
  - rewrite !pins_absent; [done..|].
    destruct (hashTable (bm s') !! (f, p)) as [j|] eqn:E'; [|done].
    apply Hh in E' as [? ?]. congruence.
Qed.

(** [allocBuf] keeps every pinned frame. *)
Lemma allocBuf_post_kept s out s' i :
  wf (bm s) -> allocBuf_post s out s' -> pinned (bm s) i -> kept (bm s) (bm s') i.
Proof.
  intros Hwf [Hwf' _ Hp Ho Hc Hh _ _] (d & Hd & Hv & Hpin).
  assert (snd out <> Some i) as Hne.
  { intros Ei. destruct (Hc _ Ei) as (_ & d0 & d' & ? & Hfree & _). simplify_eq.
    destruct Hfree; [congruence|lia]. }
  destruct (Ho _ _ Hd Hne) as (d' & Hd' & Heq%eqModRef_fields). destruct_and!.
  exists d, d'. repeat split; try done; try congruence.
  intros f Hf.
  assert (hashTable (bm s) !! (f, pageNo d) = Some i) as E.
  { apply (wf_hash _ Hwf). eauto. }
  rewrite E. by apply Hh.
Qed.


Lemma readPage_hit fh p s i d :
  hashTable (bm s) !! (fh, p) = Some i -> bufTable (bm s) !! i = Some d ->
  readPage (Some fh) p s =
  Some ((OK, Some i),
        withBm (fun b => withBufTable
                  (<[i := setPinCnt (pinCnt d + 1) (setRefbit true d)]> (bufTable b)) b) s).
Proof.
  intros Hh Hd. unfold readPage, mbind, M_bind, bind, hashLookup, getDesc. simpl.
  rewrite Hh. simpl. by rewrite Hd.
Qed.

Lemma readPage_miss_eq f p s :
  (forall fh, f = Some fh -> hashTable (bm s) !! (fh, p) = None) ->
  readPage f p s = readPage_miss f p s.
Proof.
  intros Hmiss. unfold readPage, readPage_miss, hashLookup.
  unfold mbind at 1, M_bind at 1, bind at 1.
  destruct f as [fh|]; [rewrite Hmiss by done|]; done.
Qed.

Lemma getDesc_Some i s r :
  getDesc i s = Some r <-> exists d, bufTable (bm s) !! i = Some d /\ r = (d, s).
Proof.
  unfold getDesc. destruct (bufTable (bm s) !! i); split.
  - intros; simplify_eq; eauto.
  - intros (? & ? & ?); by simplify_eq.
  - done.
  - intros (? & ? & ?); done.
Qed.

Lemma getFrame_Some i s r :
  getFrame i s = Some r <-> exists pg, bufPool (bm s) !! i = Some pg /\ r = (pg, s).
Proof.
  unfold getFrame. destruct (bufPool (bm s) !! i); split.
  - intros; simplify_eq; eauto.
  - intros (? & ? & ?); by simplify_eq.
  - done.
  - intros (? & ? & ?); done.
Qed.

Lemma fileReadPage_Some f p old s r :
  fileReadPage f p old s = Some r <->
  exists fh st pg w', f = Some fh /\ fpReadPage fh p old (world s) = (st, pg, w') /\
    r = ((st, pg), mkSys (bm s) w' (calls s ++ [CReadPage fh p])).
Proof.
  unfold fileReadPage, callWorld. destruct f as [fh|]; split.
  - destruct (fpReadPage fh p old (world s)) as [[st pg] w'] eqn:E.
    intros; simplify_eq. eauto 10.
  - intros (? & ? & ? & ? & ? & E & ->). simplify_eq. by rewrite E.
  - rewrite undef_Some. done.
  - intros (? & ? & ? & ? & ? & _). done.
Qed.

Lemma fileWritePage_Some f p pg s r :
  fileWritePage f p pg s = Some r <->
  exists fh st w', f = Some fh /\ fpWritePage fh p pg (world s) = (st, w') /\
    r = (st, mkSys (bm s) w' (calls s ++ [CWritePage fh p pg])).
Proof.
  unfold fileWritePage, callWorld. destruct f as [fh|]; split.
  - destruct (fpWritePage fh p pg (world s)) as [st w'] eqn:E.
    intros; simplify_eq. eauto 10.
  - intros (? & ? & ? & ? & E & ->). simplify_eq. by rewrite E.
  - rewrite undef_Some. done.
  - intros (? & ? & ? & ? & _). done.
Qed.

Lemma fileAllocatePage_Some f s r :
  fileAllocatePage f s = Some r <->
  exists fh st p w', f = Some fh /\ fpAllocatePage fh (world s) = (st, p, w') /\
    r = ((st, p), mkSys (bm s) w' (calls s ++ [CAllocatePage fh])).
Proof.
  unfold fileAllocatePage, callWorld. destruct f as [fh|]; split.
  - destruct (fpAllocatePage fh (world s)) as [[st p] w'] eqn:E.
    intros; simplify_eq. eauto 10.
  - intros (? & ? & ? & ? & ? & E & ->). simplify_eq. by rewrite E.
  - rewrite undef_Some. done.
  - intros (? & ? & ? & ? & ? & _). done.
Qed.

Lemma hashInsert_Some fh p i s r :
  hashInsert fh p i s = Some r <->
  (is_Some (hashTable (bm s) !! (fh, p)) /\ r = (HASHTBLERROR, s)) \/
  (hashTable (bm s) !! (fh, p) = None /\
   r = (OK, withBm (fun b => withHashTable (<[(fh, p) := i]> (hashTable b)) b) s)).
Proof.
  unfold hashInsert. destruct (hashTable (bm s) !! (fh, p)) eqn:E; split.
  - intros; simplify_eq. left; eauto.
  - intros [[_ ->]|[? _]]; done.
  - intros; simplify_eq. by right.
  - intros [[[? ?] _]|[_ ->]]; done.
Qed.

(** A frame whose descriptor, bytes and hash entry are untouched is kept. *)
Lemma kept_untouched b b' i d :
  bufTable b !! i = Some d ->
  bufTable b' !! i = Some d ->
  bufPool b' !! i = bufPool b !! i ->
  (forall f, file d = Some f ->
     hashTable b' !! (f, pageNo d) = hashTable b !! (f, pageNo d)) ->
  kept b b' i.
Proof. intros. exists d, d. naive_solver. Qed.

Lemma readPage_post f p s out s' :
  wf (bm s) -> readPage f p s = Some (out, s') ->
  wf (bm s') /\ numBufs (bm s') = numBufs (bm s) /\
  (forall i, pinned (bm s) i -> kept (bm s) (bm s') i) /\
  (fst out = OK \/ out = (BUFFEREXCEEDED, None) \/ out = (UNIXERR, None)) /\
  (forall g q, pins (bm s') g q =
     pins (bm s) g q + (if bool_decide (fst out = OK /\ f = Some g /\ p = q) then 1 else 0)) /\
  (fst out = OK -> is_Some (snd out)) /\
  (forall fr, snd out = Some fr ->
     fst out = OK /\ exists fh, f = Some fh /\ hashTable (bm s') !! (fh, p) = Some fr).
Proof.
  intros Hwf H.
  destruct (match f with Some fh => hashTable (bm s) !! (fh, p) | None => None end)
    as [i|] eqn:Hlook.
  - (* hit *)
    destruct f as [fh|]; [|done].
    pose proof Hlook as (d & Hd & Hv & Hf & Hp)%(wf_hash _ Hwf).
    rewrite (readPage_hit _ _ _ _ _ Hlook Hd) in H. simplify_eq. simpl.
    assert (Hwf' : wf (withBufTable (<[i:=setPinCnt (pinCnt d + 1) (setRefbit true d)]>
                          (bufTable (bm s))) (bm s))).
    { eapply wf_same_identity; eauto. simpl. pose proof (wf_pin _ Hwf _ _ Hd). lia. }
    split; [done|]. split; [done|]. split; [|split; [by left|]].
    2: split; [|split; [by eauto|by intros ? [= <-]; eauto]].
    + intros j (dj & Hj & Hvj & Hpj). destruct (decide (i = j)) as [->|Hne].
      * simplify_eq. eexists _, _. split; [done|]. split.
        { simpl. apply list_lookup_insert_eq. by eapply lookup_lt_Some. }
        done.
      * eexists _, _. split; [done|]. split.
        { simpl. by rewrite list_lookup_insert_ne. }
        done.
    + intros g q. unfold pins at 1 2. simpl.
      destruct (hashTable (bm s) !! (g, q)) as [j|] eqn:Ej.
      * destruct (decide (i = j)) as [->|Hne].
        -- pose proof (wf_hash_inj _ _ _ _ _ _ Hwf Hlook Ej). simplify_eq.
           rewrite list_lookup_insert_eq by by eapply lookup_lt_Some.
           rewrite Hd. rewrite bool_decide_eq_true_2 by done. done.
        -- rewrite list_lookup_insert_ne by done.
           rewrite bool_decide_eq_false_2; [lia|]. intros (_ & ? & ?). simplify_eq.
      * rewrite bool_decide_eq_false_2; [lia|]. intros (_ & ? & ?). simplify_eq.
  - (* miss *)
    rewrite readPage_miss_eq in H.
    2:{ intros fh ->. done. }
    unfold readPage_miss in H.
    apply bind_Some in H as ([err frameNo] & s1 & Hab & H).
    apply allocBuf_spec_post in Hab; [|done].
    pose proof (fun g q => allocBuf_post_pins _ _ _ g q Hwf Hab) as Hpins.
    pose proof (fun i => allocBuf_post_kept _ _ _ i Hwf Hab) as Hkept.
    pose proof Hab as [Hwf1 Hn1 Hp1 Ho1 Hc1 Hh1 Hs1 Hss1]. simpl in *.
    destruct (bool_decide (err = BUFFEREXCEEDED)) eqn:Eb; bool_hyps.
    { (* every frame is pinned *)
      minv. simpl. split; [done|]. split; [done|]. split; [done|].
      split; [by right; left|]. split; [|done].
      intros g q. rewrite Hpins. lia. }
    destruct frameNo as [fr|]; [|by apply undef_Some in H].
    destruct (Hc1 _ eq_refl) as (-> & d0 & d1 & Hd0 & Hfree & Hd1 & Hv1).
    assert (Hfr : (fr < length (bufTable (bm s1)))%nat) by by eapply lookup_lt_Some.
    assert (Hfr' : (fr < length (bufPool (bm s1)))%nat).
    { rewrite (wf_pool_len _ Hwf1), <- (wf_table_len _ Hwf1). done. }
    assert (Hother : forall i, pinned (bm s) i -> i <> fr).
    { intros i (d & Hd & Hv & Hpin) ->. simplify_eq. destruct Hfree; [congruence|lia]. }
    apply bind_Some in H as (old & s2 & (? & Hold & [= -> ->])%getFrame_Some & H).
    apply bind_Some in H as ([st0 pg0] & s3 & Hrd & H).
    apply fileReadPage_Some in Hrd as (fh & st & pg & w' & -> & Hrd & [= -> -> ->]).
    apply bind_Some in H as ([] & s4 & [= ->]%modify_Some & H). simpl in H.
    set (b2 := withBufPool (<[fr:=pg]> (bufPool (bm s1))) (bm s1)) in *.
    assert (Hwf2 : wf b2) by by apply wf_pool; [|rewrite length_insert].
    assert (Hk2 : forall i, pinned (bm s) i -> kept (bm s) b2 i).
    { intros i Hi. eapply kept_trans; [by apply Hkept|].
      destruct (Hkept _ Hi) as (? & d' & _ & Hd' & _).
      eapply kept_untouched; simpl; eauto.
      rewrite list_lookup_insert_ne; [done|]. specialize (Hother _ Hi). done. }
    destruct (negb (isOK st)) eqn:Est; bool_hyps.
    { (* the provider could not read the page *)
      minv. simpl. split; [done|]. split; [done|]. split; [done|].
      split; [by right; right|]. split; [|done].
      intros g q. rewrite <- Hpins. unfold pins. simpl. lia. }
    subst st.
    apply bind_Some in H as (err & s5 & Hins & H).
    apply hashInsert_Some in Hins as [[[j Hj] _]|[Hnone [= -> ->]]].
    { (* the page is already hashed: impossible after a miss *)
      exfalso. apply Hh1 in Hj as [Hj _]. simpl in Hlook. congruence. }
    simpl in H.
    apply bind_Some in H as (d & s6 & (? & Hd & [= -> ->])%getDesc_Some & H).
    simpl in Hd. simplify_eq.
    apply bind_Some in H as ([] & s7 & [= ->]%modify_Some & H). simpl in H.
    apply ret_Some in H as [= -> ->]. simpl.
    split.
    { eapply (wf_install _ _ _ _ _ Hwf2); simpl; eauto. }
    split; [done|]. split; [|split; [by left|]].
    2: split; [|split; [by eauto|intros ? [= <-]; split; [done|]; eexists; split; [done|];
                        apply lookup_insert_eq]].
    * intros i Hi. eapply kept_trans; [by apply Hk2|].
      destruct (Hk2 _ Hi) as (di & d' & Hdi & Hd' & Ef & Epg & Ev & _).
      assert (i <> fr) by by apply Hother.
      destruct Hi as (d2 & ? & Hv2 & ?). simplify_eq.
      eapply kept_untouched; simpl; eauto.
      -- by rewrite list_lookup_insert_ne.
      -- intros g Hg. rewrite lookup_insert_ne; [done|]. intros [= -> ->].
         assert (hashTable b2 !! (g, pageNo d') = Some i) as E.
         { apply (wf_hash _ Hwf2). exists d'. repeat split; congruence. }
         simpl in *. congruence.
    * intros g q. rewrite <- Hpins. unfold pins at 1 2. simpl.
      destruct (decide ((fh, p) = (g, q))) as [E|Hne].
      -- simplify_eq. rewrite lookup_insert_eq.
         rewrite list_lookup_insert_eq by done. simpl.
         rewrite bool_decide_eq_true_2 by done.
         simpl in Hnone. rewrite Hnone. done.
      -- rewrite lookup_insert_ne by done.
         rewrite bool_decide_eq_false_2; [|intros (_ & ? & ?); simplify_eq].
         destruct (hashTable (bm s1) !! (g, q)) as [j|] eqn:Ej; [|lia].
         rewrite list_lookup_insert_ne; [lia|]. intros <-.
         apply (wf_hash _ Hwf1) in Ej as (dj & ? & ? & _). congruence.
Qed.


(** [unPinPage] as an equation, by cases on the hash table and the pin
    count. *)
Lemma unPinPage_absent f p dty s :
  (forall fh, f = Some fh -> hashTable (bm s) !! (fh, p) = None) ->
  unPinPage f p dty s = Some (HASHNOTFOUND, s).
Proof.
  intros Hmiss. unfold unPinPage, hashLookup, mbind, M_bind, bind.
  destruct f as [fh|]; [rewrite Hmiss by done|]; done.
Qed.

Lemma unPinPage_resident fh p dty s i d :
  hashTable (bm s) !! (fh, p) = Some i -> bufTable (bm s) !! i = Some d ->
  unPinPage (Some fh) p dty s =
  if pinCnt d =? 0 then Some (PAGENOTPINNED, s)
  else Some (OK, withBm (fun b => withBufTable
               (<[i := setDirty (dirty d || dty) (setPinCnt (pinCnt d - 1) d)]> (bufTable b))
               b) s).
Proof.
  intros Hh Hd. unfold unPinPage, hashLookup, getDesc, mbind, M_bind, bind. simpl.
  rewrite Hh. simpl. rewrite Hd. by destruct (pinCnt d =? 0).
Qed.

Lemma unPinPage_post f p dty s st s' :
  wf (bm s) -> unPinPage f p dty s = Some (st, s') ->
  wf (bm s') /\ numBufs (bm s') = numBufs (bm s) /\ bufPool (bm s') = bufPool (bm s) /\
  hashTable (bm s') = hashTable (bm s) /\ world s' = world s /\ calls s' = calls s /\
  (forall i, pinned (bm s) i -> kept (bm s) (bm s') i) /\
  (st = OK \/ st = HASHNOTFOUND \/ st = PAGENOTPINNED) /\
  (st <> OK -> s' = s) /\
  (st = OK <-> exists fh, f = Some fh /\ 0 < pins (bm s) fh p) /\
  (forall g q, pins (bm s') g q =
     pins (bm s) g q - (if bool_decide (st = OK /\ f = Some g /\ p = q) then 1 else 0)) /\
  (st = OK -> exists fh i d, f = Some fh /\ hashTable (bm s) !! (fh, p) = Some i /\
     bufTable (bm s) !! i = Some d /\
     bufTable (bm s') =
       <[i := setDirty (dirty d || dty) (setPinCnt (pinCnt d - 1) d)]> (bufTable (bm s))).
Proof.
  intros Hwf H.
  assert (Hrefl : forall i, pinned (bm s) i -> kept (bm s) (bm s) i).
  { intros i (d & ? & _). by eapply kept_refl. }
  destruct (match f with Some fh => hashTable (bm s) !! (fh, p) | None => None end)
    as [i|] eqn:Hlook.
  - destruct f as [fh|]; [|done].
    pose proof Hlook as (d & Hd & Hv & Hf & Hp)%(wf_hash _ Hwf).
    rewrite (unPinPage_resident _ _ _ _ _ _ Hlook Hd) in H.
    pose proof (wf_pin _ Hwf _ _ Hd) as Hpin.
    destruct (pinCnt d =? 0) eqn:E; bool_hyps; simplify_eq.
    + do 6 (split; [done|]). split; [done|]. split; [by right; right|].
      split; [done|]. split; [|split; [|done]].
      * split; [done|]. intros (? & [= <-] & Hpos).
        rewrite (pins_resident _ _ _ _ _ Hlook Hd) in Hpos. lia.
      * intros; case_bool_decide as Hbd; [by destruct Hbd|lia].
    + simpl. split.
      { eapply wf_same_identity; eauto. simpl. lia. }
      do 5 (split; [done|]). split; [|split; [by left|]].
      2: split; [done|]. 2: split; [|split; [|by eauto 10]].
      * intros j (dj & Hj & Hvj & Hpj). destruct (decide (i = j)) as [->|Hne].
        -- simplify_eq. eexists _, _. split; [done|]. split.
           { simpl. apply list_lookup_insert_eq. by eapply lookup_lt_Some. }
           done.
        -- eexists _, _. split; [done|]. split.
           { simpl. by rewrite list_lookup_insert_ne. }
           done.
      * split; [|done]. intros _. eexists; split; [done|].
        rewrite (pins_resident _ _ _ _ _ Hlook Hd). lia.
      * intros g q. unfold pins at 1 2. simpl.
        destruct (hashTable (bm s) !! (g, q)) as [j|] eqn:Ej.
        -- destruct (decide (i = j)) as [->|Hne].
           ++ pose proof (wf_hash_inj _ _ _ _ _ _ Hwf Hlook Ej). simplify_eq.
              rewrite list_lookup_insert_eq by by eapply lookup_lt_Some.
              rewrite Hd. rewrite bool_decide_eq_true_2 by done. done.
           ++ rewrite list_lookup_insert_ne by done.
              rewrite bool_decide_eq_false_2; [lia|]. intros (_ & ? & ?). simplify_eq.
        -- rewrite bool_decide_eq_false_2; [lia|]. intros (_ & ? & ?). simplify_eq.
  - rewrite unPinPage_absent in H by (intros fh ->; done). simplify_eq.
    do 6 (split; [done|]). split; [done|]. split; [by right; left|].
    split; [done|]. split; [|split; [|done]].
    + split; [done|]. intros (fh & -> & Hpos). rewrite pins_absent in Hpos by done. lia.
    + intros; case_bool_decide as Hbd; [by destruct Hbd|lia].
Qed.

Lemma unPinPage_total f p dty s :
  wf (bm s) -> exists st s', unPinPage f p dty s = Some (st, s').
Proof.
  intros Hwf.
  destruct (match f with Some fh => hashTable (bm s) !! (fh, p) | None => None end)
    as [i|] eqn:Hlook.
  - destruct f as [fh|]; [|done].
    pose proof Hlook as (d & Hd & _)%(wf_hash _ Hwf).
    rewrite (unPinPage_resident _ _ _ _ _ _ Hlook Hd). destruct (pinCnt d =? 0); eauto.
  - rewrite unPinPage_absent by (intros fh ->; done). eauto.
Qed.


Lemma allocPage_post f s st pno page s' :
  wf (bm s) -> allocPage f s = Some ((st, pno, page), s') ->
  wf (bm s') /\ numBufs (bm s') = numBufs (bm s) /\ bufPool (bm s') = bufPool (bm s) /\
  (forall i, pinned (bm s) i -> kept (bm s) (bm s') i) /\
  (forall g q, pins (bm s') g q =
     pins (bm s) g q + (if bool_decide (st = OK /\ f = Some g /\ pno = q) then 1 else 0)) /\
  (st <> OK -> page = None) /\
  (st = OK -> exists fh fr d, f = Some fh /\ page = Some fr /\
     hashTable (bm s') !! (fh, pno) = Some fr /\
     bufTable (bm s') !! fr = Some (BufDesc_Set fh pno d)).
Proof.
  intros Hwf H. unfold allocPage in H.
  assert (Hrefl : forall i, pinned (bm s) i -> kept (bm s) (bm s) i).
  { intros i (d & ? & _). by eapply kept_refl. }
  apply bind_Some in H as ([err0 pno0] & s0 & Hal & H).
  apply fileAllocatePage_Some in Hal as (fh & err & p & w' & -> & Hal & [= -> -> ->]).
  destruct (negb (isOK err)) eqn:Eerr; bool_hyps.
  { apply ret_Some in H as [= -> -> -> ->]. simpl.
    do 3 (split; [done|]). split; [done|]. split; [|done].
    intros; case_bool_decide as Hbd; [by destruct Hbd|lia]. }
  subst err.
  apply bind_Some in H as ([err frameNo] & s1 & Hab & H).
  set (s0 := mkSys (bm s) w' (calls s ++ [CAllocatePage fh])) in *.
  assert (Hwf0 : wf (bm s0)) by done.
  apply allocBuf_spec_post in Hab; [|done].
  pose proof (fun g q => allocBuf_post_pins _ _ _ g q Hwf0 Hab) as Hpins.
  pose proof (fun i => allocBuf_post_kept _ _ _ i Hwf0 Hab) as Hkept.
  pose proof Hab as [Hwf1 Hn1 Hp1 Ho1 Hc1 Hh1 Hs1 Hss1]. simpl in *.
  destruct (negb (isOK err)) eqn:Eerr; bool_hyps.
  { apply ret_Some in H as [= -> -> -> ->].
    do 3 (split; [done|]). split; [done|]. split; [|done].
    intros g q. rewrite Hpins. case_bool_decide as Hbd; [by destruct Hbd|lia]. }
  subst err.
  destruct (Hs1 eq_refl) as [fr ->].
  destruct (Hc1 _ eq_refl) as (_ & d0 & d1 & Hd0 & Hfree & Hd1 & Hv1).
  assert (Hfr : (fr < length (bufTable (bm s1)))%nat) by by eapply lookup_lt_Some.
  assert (Hother : forall i, pinned (bm s) i -> i <> fr).
  { intros i (d & Hd & Hv & Hpin) ->. simplify_eq. destruct Hfree; [congruence|lia]. }
  apply bind_Some in H as (err & s2 & Hins & H).
  apply hashInsert_Some in Hins as [[[j Hj] [= -> ->]]|[Hnone [= -> ->]]]; simpl in H.
  { (* the provider handed out a page that is resident *)
    apply ret_Some in H as [= -> -> -> ->].
    do 3 (split; [done|]). split; [done|]. split; [|done].
    intros g q. rewrite Hpins. simpl. lia. }
  apply bind_Some in H as (d & s3 & (? & Hd & [= -> ->])%getDesc_Some & H).
  simpl in Hd. simplify_eq.
  apply bind_Some in H as ([] & s4 & [= ->]%modify_Some & H). simpl in H.
  apply ret_Some in H as [= -> -> -> ->]. simpl.
  split.
  { eapply (wf_install _ _ _ _ _ Hwf1); simpl; eauto. }
  split; [done|]. split; [done|]. split; [|split; [|split; [done|]]].
  - intros i Hi. eapply kept_trans; [by apply Hkept|].
    destruct (Hkept _ Hi) as (di & d' & Hdi & Hd' & Ef & Epg & Ev & _).
    assert (i <> fr) by by apply Hother.
    destruct Hi as (d2 & ? & Hv2 & ?). simplify_eq.
    eapply kept_untouched; simpl; eauto.
    + by rewrite list_lookup_insert_ne.
    + intros g Hg. rewrite lookup_insert_ne; [done|]. intros [= -> ->].
      assert (hashTable (bm s1) !! (g, pageNo d') = Some i) as E.
      { apply (wf_hash _ Hwf1). exists d'. repeat split; congruence. }
      simpl in *. congruence.
  - intros g q. rewrite <- Hpins. unfold pins at 1 2. simpl.
    destruct (decide ((fh, p) = (g, q))) as [E|Hne].
    + simplify_eq. rewrite lookup_insert_eq.
      rewrite list_lookup_insert_eq by done. simpl.
      rewrite bool_decide_eq_true_2 by done.
      simpl in Hnone. rewrite Hnone. done.
    + rewrite lookup_insert_ne by done.
      rewrite bool_decide_eq_false_2; [|intros (_ & ? & ?); simplify_eq].
      destruct (hashTable (bm s1) !! (g, q)) as [j|] eqn:Ej; [|lia].
      rewrite list_lookup_insert_ne; [lia|]. intros <-.
      apply (wf_hash _ Hwf1) in Ej as (dj & ? & ? & _). congruence.
  - intros _. eexists fh, fr, _. split; [done|]. split; [done|].
    split; [apply lookup_insert_eq|]. by apply list_lookup_insert_eq.
Qed.


Lemma disposePage_absent fh p s :
  hashTable (bm s) !! (fh, p) = None ->
  disposePage (Some fh) p s =
  Some (fst (fpDisposePage fh p (world s)),
        mkSys (bm s) (snd (fpDisposePage fh p (world s))) (calls s ++ [CDisposePage fh p])).
Proof.
  intros Hh.
  unfold disposePage, hashLookup, hashRemove, fileDisposePage, callWorld, mbind, M_bind, bind.
  rewrite Hh. simpl. rewrite Hh. by destruct (fpDisposePage fh p (world s)).
Qed.

Lemma disposePage_resident fh p s i d :
  hashTable (bm s) !! (fh, p) = Some i -> bufTable (bm s) !! i = Some d ->
  disposePage (Some fh) p s =
  Some (fst (fpDisposePage fh p (world s)),
        mkSys (withBufTable (<[i := BufDesc_Clear d]> (bufTable (bm s)))
                 (withHashTable (delete (fh, p) (hashTable (bm s))) (bm s)))
              (snd (fpDisposePage fh p (world s))) (calls s ++ [CDisposePage fh p])).
Proof.
  intros Hh Hd.
  unfold disposePage, hashLookup, hashRemove, fileDisposePage, callWorld, getDesc, putDesc,
    modify, mbind, M_bind, bind.
  rewrite Hh. simpl. rewrite Hd. simpl. rewrite Hh. simpl.
  by destruct (fpDisposePage fh p (world s)).
Qed.

Lemma disposePage_post f p s st s' :
  wf (bm s) -> disposePage f p s = Some (st, s') ->
  wf (bm s') /\ numBufs (bm s') = numBufs (bm s) /\ bufPool (bm s') = bufPool (bm s) /\
  exists fh, f = Some fh /\
    (forall g q, pins (bm s') g q = if decide ((g, q) = (fh, p)) then 0 else pins (bm s) g q) /\
    (forall i d, bufTable (bm s) !! i = Some d ->
       ~ (valid d = true /\ file d = Some fh /\ pageNo d = p) ->
       bufTable (bm s') !! i = Some d /\
       (forall g, file d = Some g ->
          hashTable (bm s') !! (g, pageNo d) = hashTable (bm s) !! (g, pageNo d))).
Proof.
  intros Hwf H.
  destruct f as [fh|].
  2:{ unfold disposePage, fileDisposePage in H.
      apply bind_Some in H as ([? ?] & ? & ? & H). apply bind_Some in H as (? & ? & ? & H).
      apply bind_Some in H as (? & ? & ? & H). by apply undef_Some in H. }
  destruct (hashTable (bm s) !! (fh, p)) as [i|] eqn:Ei.
  - pose proof Ei as (d & Hd & Hv & Hf & Hp)%(wf_hash _ Hwf).
    rewrite (disposePage_resident _ _ _ _ _ Ei Hd) in H. injection H as <- <-. simpl.
    assert (Hlt : (i < length (bufTable (bm s)))%nat) by by eapply lookup_lt_Some.
    split.
    { pose proof (wf_evict (bm s) i d (BufDesc_Clear d) fh Hwf Hd Hv Hf) as Hwf'.
      rewrite Hp in Hwf'. apply Hwf'; done. }
    split; [done|]. split; [done|]. exists fh. split; [done|]. split.
    + intros g q. unfold pins. simpl. destruct (decide ((g, q) = (fh, p))) as [[= -> ->]|Hne].
      * by rewrite lookup_delete_eq.
      * rewrite lookup_delete_ne by done.
        destruct (hashTable (bm s) !! (g, q)) as [j|] eqn:Ej; [|done].
        rewrite list_lookup_insert_ne; [done|]. intros <-.
        by pose proof (wf_hash_inj _ _ _ _ _ _ Hwf Ei Ej).
    + intros j dj Hj Hnot. assert (i <> j) by (intros ->; simplify_eq; tauto).
      rewrite list_lookup_insert_ne by done. split; [done|].
      intros g Hg. rewrite lookup_delete_ne; [done|]. intros [= <- E].
      destruct (valid dj) eqn:Evj.
      * apply Hnot. done.
      * pose proof (wf_free _ Hwf _ _ Hj Evj). congruence.
  - rewrite (disposePage_absent _ _ _ Ei) in H. injection H as <- <-. simpl.
    do 3 (split; [done|]). exists fh. split; [done|]. split.
    + intros g q. destruct (decide ((g, q) = (fh, p))) as [[= -> ->]|Hne]; [|done].
      by apply pins_absent.
    + done.
Qed.

(** One turn of [flushFile], by cases on the frame. *)
Lemma flushFile_turn_spec f i s r s' :
  wf (bm s) -> flushFile_turn f i s = Some (r, s') ->
  exists d, bufTable (bm s) !! i = Some d /\
    ((file d <> f /\ r = None /\ s' = s) \/
     (valid d = true /\ file d = f /\ 0 < pinCnt d /\ r = Some PAGEPINNED /\ s' = s) \/
     (valid d = false /\ file d = f /\ r = Some BADBUFFER /\ s' = s) \/
     (valid d = true /\ file d = f /\ pinCnt d <= 0 /\
      exists st s1, writtenBack s i d st s1 /\
        ((st <> OK /\ r = Some st /\ s' = s1) \/
         (st = OK /\ r = None /\ exists fh, f = Some fh /\
            s' = mkSys (withBufTable (<[i := invalidate (setDirty false d)]> (bufTable (bm s)))
                          (withHashTable (delete (fh, pageNo d) (hashTable (bm s))) (bm s)))
                       (world s1) (calls s1))))).
Proof.
  intros Hwf H. unfold flushFile_turn in H.
  apply bind_Some in H as (d0 & s0 & (d & Hd & [= -> ->])%getDesc_Some & H).
  exists d. split; [done|].
  destruct (valid d) eqn:Hv; simpl in H.
  - destruct (bool_decide (file d = f)) eqn:Hf; bool_hyps; simpl in H.
    2:{ apply ret_Some in H as [= -> ->]. by left. }
    destruct (0 <? pinCnt d) eqn:Hp; bool_hyps.
    { apply ret_Some in H as [= -> ->]. right; left. done. }
    right; right; right. do 3 (split; [done|]).
    destruct (wf_owner _ Hwf _ _ Hd Hv) as [fh Hfh].
    apply bind_Some in H as (st & s1 & Hwr & H).
    assert (Hwb : writtenBack s i d st s1).
    { unfold writtenBack. destruct (dirty d).
      - apply bind_Some in Hwr as (pg0 & s2 & (pg & Hpg & [= -> ->])%getFrame_Some & Hwr).
        apply fileWritePage_Some in Hwr as (? & ? & ? & ? & ? & [= -> ->]).
        simplify_eq. eauto 10.
      - by apply ret_Some in Hwr as [= -> ->]. }
    exists st, s1. split; [done|].
    pose proof (writtenBack_bm _ _ _ _ _ Hwb) as Hbm.
    destruct (negb (isOK st)) eqn:Est; bool_hyps.
    { apply ret_Some in H as [= -> ->]. by left. }
    right. split; [done|].
    apply bind_Some in H as (st1 & s2 & Hrm & H).
    apply bind_Some in H as ([] & s3 & [= ->]%modify_Some & H).
    apply ret_Some in H as [= -> ->]. split; [done|].
    exists fh. split; [congruence|].
    unfold hashRemove in Hrm. rewrite <- Hf, Hfh in Hrm. 
    assert (hashTable (bm s1) !! (fh, pageNo d) = Some i) as E.
    { rewrite Hbm. apply (wf_hash _ Hwf). eauto. }
    rewrite E in Hrm. injection Hrm as _ <-. unfold withBm. simpl. by rewrite Hbm.
  - destruct (bool_decide (file d = f)) eqn:Hf; bool_hyps; simpl in H.
    + apply ret_Some in H as [= -> ->]. right; right; left. done.
    + apply ret_Some in H as [= -> ->]. by left.
Qed.


Lemma writtenBack_calls s i d st s1 f :
  writtenBack s i d st s1 -> flushable f d ->
  bufTable (bm s) !! i = Some d ->
  (dirty d = false /\ s1 = s /\ st = OK) \/
  (dirty d = true /\ exists c, flushWrite (bm s) f i c /\ calls s1 = calls s ++ [c]).
Proof.
  unfold writtenBack. intros Hwb Hfl Hd. destruct (dirty d) eqn:Edirty.
  - right. split; [done|]. destruct Hwb as (fh & pg & w' & Hf & Hpg & Hw & ->).
    exists (CWritePage fh (pageNo d) pg). split; [|done].
    exists d, fh, pg. destruct Hfl as (? & ? & ?). repeat split; try done; congruence.
  - left. by destruct Hwb as [-> ->].
Qed.

Lemma flushFile_loop_post f n : forall i s st s',
  wf (bm s) -> flushFile_loop f i n s = Some (st, s') -> flushFile_post f i n s st s'.
Proof.
  induction n as [|n IH]; intros i s st s' Hwf H; simpl in H.
  - apply ret_Some in H as [= -> ->]. split; try done.
    + exists []. split; [by rewrite app_nil_r|]. intros c Hc. by apply elem_of_nil in Hc.
    + exists O. split; [intros; lia|]. split; [done|]. by left.
  - apply bind_Some in H as (r & s1 & Hturn & H).
    apply flushFile_turn_spec in Hturn as (d & Hd & Hcase); [|done].
    destruct Hcase as [(Hne & -> & ->)|[(Hv & Hf & Hp & -> & ->)|[(Hv & Hf & -> & ->)|
                      (Hv & Hf & Hp & stw & sw & Hwb & Hcase)]]].
    + (* a frame of another file *)
      apply IH in H as [Hwf' Hn Hpool Hsub Hunt (l & Hl & Hlw) (k & Hrange & Hrest & Hstop)]; [|done].
      split; try done.
      * intros j dj Hj Hcond. apply Hunt; [done|]. destruct Hcond; [left; lia|by right].
      * exists l. split; [done|]. intros c Hc. destruct (Hlw _ Hc) as (j & ? & ?).
        exists j. split; [lia|done].
      * exists (S k). split; [|split].
        -- intros j dj Hj Hdj Hfj. destruct (decide (j = i)) as [->|Hji].
           { simplify_eq. }
           apply Hrange; [lia|done..].
        -- intros j Hj. apply Hrest. lia.
        -- destruct Hstop as [[-> ->]|(Hk & Hd')]; [by left|right].
           split; [lia|]. by replace (i + S k)%nat with (S i + k)%nat by lia.
    + (* a pinned frame of the file *)
      apply ret_Some in H as [= -> ->]. split; try done.
      * exists []. split; [by rewrite app_nil_r|]. intros c Hc. by apply elem_of_nil in Hc.
      * exists O. split; [intros; lia|]. split; [done|]. right. split; [lia|].
        rewrite Nat.add_0_r. exists d. split; [done|]. split; [done|]. by left.
    + (* an invalid frame that carries the file *)
      apply ret_Some in H as [= -> ->]. split; try done.
      * exists []. split; [by rewrite app_nil_r|]. intros c Hc. by apply elem_of_nil in Hc.
      * exists O. split; [intros; lia|]. split; [done|]. right. split; [lia|].
        rewrite Nat.add_0_r. exists d. split; [done|]. split; [done|]. right. by left.
    + (* an unpinned frame of the file *)
      assert (Hfl : flushable f d) by done.
      pose proof (writtenBack_bm _ _ _ _ _ Hwb) as Hbm.
      pose proof (writtenBack_calls _ _ _ _ _ _ Hwb Hfl Hd) as Hcalls.
      destruct Hcase as [(Hst & -> & ->)|(-> & -> & fh & -> & ->)].
      * (* the write-back failed *)
        apply ret_Some in H as [= -> ->].
        destruct Hcalls as [(_ & _ & ?)|(Hdirty & c & Hc & Hcs)]; [done|].
        split; rewrite ?Hbm; try done.
        -- exists [c]. split; [done|]. intros c' ->%list_elem_of_singleton. eauto.
        -- exists O. split; [intros; lia|]. split; [done|]. right. split; [lia|].
           rewrite Nat.add_0_r. exists d. split; [done|]. split; [done|]. right; right.
           split; [done|]. split; [done|]. split; [done|]. exists c. split; [done|].
           rewrite Hcs. apply last_snoc.
      * (* the frame is flushed and the loop goes on *)
        set (b1 := withBufTable (<[i:=invalidate (setDirty false d)]> (bufTable (bm s)))
                     (withHashTable (delete (fh, pageNo d) (hashTable (bm s))) (bm s))) in *.
        assert (Hwf1 : wf b1).
        { pose proof (wf_pin _ Hwf _ _ Hd).
          eapply (wf_evict (bm s) i d _ fh Hwf Hd Hv); done. }
        assert (Hlt : (i < length (bufTable (bm s)))%nat) by by eapply lookup_lt_Some.
        assert (Hsame : forall j, j <> i -> bufTable b1 !! j = bufTable (bm s) !! j).
        { intros j Hj. simpl. by rewrite list_lookup_insert_ne. }
        assert (Hfw : forall j c, j <> i -> flushWrite b1 (Some fh) j c ->
                                  flushWrite (bm s) (Some fh) j c).
        { intros j c Hj (dj & gh & pg & Hdj & ? & ? & ? & ? & ?).
          rewrite Hsame in Hdj by done. exists dj, gh, pg. done. }
        apply IH in H as [Hwf' Hn Hpool Hsub Hunt (l & Hl & Hlw) (k & Hrange & Hrest & Hstop)];
          [|done].
        simpl in *.
        assert (Hi' : bufTable (bm s') !! i = Some (invalidate (setDirty false d))).
        { apply (Hunt i); [by apply list_lookup_insert_eq|left; lia]. }
        split; try done.
        -- intros k0 v Hk0. apply Hsub in Hk0.
           destruct (decide (k0 = (fh, pageNo d))) as [->|Hne].
           ++ by rewrite lookup_delete_eq in Hk0.
           ++ by rewrite lookup_delete_ne in Hk0.
        -- intros j dj Hj Hcond.
           assert (j <> i) as Hji.
           { intros ->. simplify_eq. destruct Hcond as [?|Hnf]; [lia|]. by apply Hnf. }
           destruct (Hunt j dj) as [Hj' Hh'].
           { by rewrite list_lookup_insert_ne. }
           { destruct Hcond; [left; lia|by right]. }
           split; [done|]. intros g Hg. rewrite Hh' by done.
           rewrite lookup_delete_ne; [done|]. intros [= <- E].
           destruct (valid dj) eqn:Evj.
           ++ apply Hji. symmetry.
              apply (wf_unique (bm s) i j d dj Hwf Hd Hj Hv Evj); congruence.
           ++ pose proof (wf_free _ Hwf _ _ Hj Evj). congruence.
        -- destruct Hcalls as [(_ & -> & _)|(Hdirty & c & Hc & Hcs)].
           ++ exists l. split; [done|]. intros c Hc. destruct (Hlw _ Hc) as (j & ? & ?).
              exists j. split; [lia|]. apply Hfw; [lia|done].
           ++ exists (c :: l). split.
              { rewrite Hl, Hcs. by rewrite <- app_assoc. }
              intros c' [->|Hc']%elem_of_cons; [eauto|].
              destruct (Hlw _ Hc') as (j & ? & ?).
              exists j. split; [lia|]. apply Hfw; [lia|done].
        -- exists (S k). split; [|split].
           ++ intros j dj Hj Hdj Hfj. destruct (decide (j = i)) as [->|Hji].
              { simplify_eq. split; [done|]. split; [done|]. split.
                - intros gh [= <-].
                  destruct (hashTable (bm s') !! (fh, pageNo d)) as [v|] eqn:Ev; [|done].
                  apply Hsub in Ev. by rewrite lookup_delete_eq in Ev.
                - intros Hdirty.
                  destruct Hcalls as [(? & _)|(_ & c & Hc & Hcs)]; [congruence|].
                  exists c. split; [done|]. rewrite Hl, Hcs.
                  apply elem_of_app. left. apply elem_of_app. right.
                  by apply list_elem_of_singleton. }
              destruct (Hrange j dj) as (? & ? & ? & Hw); [lia|by rewrite list_lookup_insert_ne|done|].
              split; [done|]. split; [done|]. split; [done|].
              intros Hdirty. destruct (Hw Hdirty) as (c & ? & ?).
              exists c. split; [apply Hfw; [lia|done]|done].
           ++ intros j Hj. rewrite Hrest by lia. apply Hsame. lia.
           ++ destruct Hstop as [[-> ->]|(Hk & d' & Hd' & Hfd' & Hcase')]; [by left|right].
              split; [lia|]. replace (i + S k)%nat with (S i + k)%nat by lia.
              rewrite list_lookup_insert_ne in Hd' by lia.
              exists d'. split; [done|]. split; [done|].
              destruct Hcase' as [?|[?|(? & ? & ? & c & ? & ?)]]; [by left|by right; left|].
              right; right. split; [done|]. split; [done|]. split; [done|].
              exists c. split; [apply Hfw; [lia|done]|done].
Qed.

Lemma flushFile_spec_post f s st s' :
  wf (bm s) -> flushFile f s = Some (st, s') -> flushFile_post f 0 (numBufs (bm s)) s st s'.
Proof.
  intros Hwf H. unfold flushFile in H.
  apply bind_Some in H as (n & s0 & [= -> ->]%gets_Some & H). by apply flushFile_loop_post.
Qed.

End PoolOps.

(** ** The buffer manager: the claims *)

Section PoolClaims.
Context {PL : PageLayer} {FP : FileProvider}.
Implicit Types (b : BufMgr) (s : Sys) (d : BufDesc) (i : nat).

(** Every legal operation that returns keeps the pool well-formed and keeps
    every pinned frame. *)
Lemma runOp_post op s st s' :
  wf (bm s) -> legal op s -> runOp op s = Some (st, s') ->
  wf (bm s') /\ forall i, pinned (bm s) i -> kept (bm s) (bm s') i.
Proof.
  intros Hwf Hleg H. destruct op as [f p|f p dty|f|f p|f|]; simpl in H.
  - apply bind_Some in H as (r & s1 & H & [= -> ->]%ret_Some).
    apply readPage_post in H as (? & _ & ? & _); done.
  - apply unPinPage_post in H as (? & _ & _ & _ & _ & _ & ? & _); done.
  - apply bind_Some in H as ([[st0 pno] page] & s1 & H & [= -> ->]%ret_Some).
    apply allocPage_post in H as (? & _ & _ & ? & _); done.
  - apply disposePage_post in H as (? & _ & Hpool & fh & -> & Hpins & Hunt); [|done].
    split; [done|]. intros i (d & Hd & Hv & Hpin). simpl in Hleg.
    destruct (Hunt i d Hd) as [Hd' Hh].
    { intros (_ & Hf & Hp).
      assert (hashTable (bm s) !! (fh, p) = Some i) as E.
      { apply (wf_hash _ Hwf). eauto. }
      rewrite (pins_resident _ _ _ _ _ E Hd) in Hleg. lia. }
    exists d, d. rewrite Hpool. done.
  - apply flushFile_spec_post in H as [? _ Hpool _ Hunt _ _]; [|done].
    split; [done|]. intros i (d & Hd & Hv & Hpin).
    destruct (Hunt i d Hd) as [Hd' Hh].
    { right. intros (_ & _ & ?). lia. }
    exists d, d. rewrite Hpool. done.
  - apply bind_Some in H as (r & s1 & H & [= -> ->]%ret_Some).
    apply allocBuf_spec_post in H; [|done].
    split; [apply H|]. intros i. by eapply allocBuf_post_kept.
Qed.

Lemma reachable_wf s : reachable s -> wf (bm s).
Proof.
  induction 1 as [bufs w|s op st s' _ IH Hleg Hrun|s i pg _ IH Hpin]; simpl.
  - apply wf_new.
  - by eapply runOp_post.
  - apply wf_pool; [done|]. by rewrite length_insert.
Qed.

(** The inspection at which [allocBuf] chooses its frame. *)
Lemma allocBuf_inspected s out s' fr :
  allocBuf s = Some (out, s') -> snd out = Some fr ->
  exists s1 d, sweep (bm s) (bm s1) /\ clockHand (bm s1) = fr /\
    bufTable (bm s1) !! fr = Some d /\
    (valid d = false \/ (valid d = true /\ refbit d = false /\ pinCnt d = 0)).
Proof.
  unfold allocBuf. intros H Hfr.
  apply bind_Some in H as (n & s0 & [= -> ->]%gets_Some & H).
  apply allocBuf_loop_spec in H as (s1 & k & _ & Hsw & _ & _ & _ & _ & Hfin).
  destruct Hfin as [(_ & -> & _)|[_ Hfin]]; [done|].
  exists s1. destruct Hfin; simpl in Hfr; simplify_eq; eauto 10.
Qed.



(** The whole of [allocBuf]: at most [2 * numBufs] inspections; every frame
    that is skipped is valid and referenced or pinned, loses at most its
    reference bit, and the hand moves on by one; then either the final turn
    chooses a frame ([allocBuf_final]) or, after exactly [2 * numBufs] skips,
    the result is [BUFFEREXCEEDED]. *)
Lemma allocBuf_spec s out s' :
  allocBuf s = Some (out, s') ->
  exists s1 k, (k <= numBufs (bm s) * 2)%nat /\
    sweep (bm s) (bm s1) /\ world s1 = world s /\ calls s1 = calls s /\
    clockHand (bm s1) =
      Nat.iter k (fun h => (h + 1) mod numBufs (bm s))%nat (clockHand (bm s)) /\
    ((k = (numBufs (bm s) * 2)%nat /\ out = (BUFFEREXCEEDED, None) /\ s' = s1) \/
     ((k < numBufs (bm s) * 2)%nat /\ allocBuf_final s1 out s')).
Proof.
  unfold allocBuf. intros H.
  apply bind_Some in H as (n & s0 & [= -> ->]%gets_Some & H).
  apply allocBuf_loop_spec in H as (s1 & k & ? & ? & ? & ? & ? & _ & ?). eauto 10.
Qed.

(** On the turn that evicts a valid frame the hand is left where it is,
    whereas taking a free frame moves it on. *)
Lemma allocBuf_final_hand s out s' d :
  allocBuf_final s out s' ->
  bufTable (bm s) !! clockHand (bm s) = Some d ->
  clockHand (bm s') =
    if valid d then clockHand (bm s)
    else ((clockHand (bm s) + 1) mod numBufs (bm s))%nat.
Proof.
  intros Hfin Hd.
  destruct Hfin as [d0 Hd0 Hv|d0 st s1 Hd0 Hv _ _ Hwb _|d0 s1 Hd0 Hv _ _ Hwb _
                   |d0 f s1 Hd0 Hv _ _ Hwb _ _]; simplify_eq; rewrite Hv; simpl; try done.
  - apply writtenBack_bm in Hwb. by rewrite Hwb.
  - apply writtenBack_bm in Hwb. by rewrite Hwb.
Qed.

(** [allocBuf] and [flushFile] always return on a well-formed pool. *)
Lemma flushFile_turn_total f i s :
  wf (bm s) -> (i < numBufs (bm s))%nat -> exists r, flushFile_turn f i s = Some r.
Proof.
  intros Hwf Hi.
  destruct (lookup_lt_is_Some_2 (bufTable (bm s)) i) as [d Hd].
  { by rewrite (wf_table_len _ Hwf). }
  destruct (lookup_lt_is_Some_2 (bufPool (bm s)) i) as [pg Hpg].
  { by rewrite (wf_pool_len _ Hwf). }
  unfold flushFile_turn, mbind, M_bind, bind, getDesc. rewrite Hd.
  destruct (valid d) eqn:Hv; simpl.
  - destruct (bool_decide (file d = f)) eqn:Hf; simpl; [|eauto].
    destruct (0 <? pinCnt d); [eauto|].
    destruct (wf_owner _ Hwf _ _ Hd Hv) as [fh Hfh].
    destruct (dirty d).
    + unfold getFrame. rewrite Hpg. rewrite Hfh. unfold fileWritePage, callWorld.
      destruct (fpWritePage fh (pageNo d) pg (world s)) as [st w'].
      destruct (negb (isOK st)); [eauto|].
      unfold hashRemove. simpl. destruct f as [g|]; [|eauto].
      destruct (hashTable (bm s) !! (g, pageNo d)); eauto.
    + unfold ret at 1. simpl.
      unfold hashRemove. destruct f as [g|]; [|eauto].
      destruct (hashTable (bm s) !! (g, pageNo d)); eauto.
  - destruct (bool_decide (file d = f)); simpl; eauto.
Qed.

Lemma flushFile_loop_total f n : forall i s,
  wf (bm s) -> (i + n <= numBufs (bm s))%nat -> exists r, flushFile_loop f i n s = Some r.
Proof.
  induction n as [|n IH]; intros i s Hwf Hin; simpl; [eauto|].
  destruct (flushFile_turn_total f i s Hwf) as [[r s1] Hturn]; [lia|].
  unfold mbind, M_bind, bind. rewrite Hturn. destruct r as [st|]; [eauto|].
  assert (flushFile_loop f i 1 s = Some (OK, s1)) as Hone.
  { simpl. unfold mbind, M_bind, bind. by rewrite Hturn. }
  apply flushFile_loop_post in Hone as [Hwf1 Hn _ _ _ _ _]; [|done].
  apply IH; [done|]. rewrite Hn. lia.
Qed.

Lemma flushFile_total f s : wf (bm s) -> exists r, flushFile f s = Some r.
Proof.
  intros Hwf. unfold flushFile, mbind, M_bind, bind, gets.
  by apply flushFile_loop_total.
Qed.

(** C3, amended.  In every reachable state [flushFile(file)] returns.  It
    walks the frames in index order up to a frame [k]: either [k = numBufs]
    and the status is [OK], or frame [k] carries the file and is pinned
    ([PAGEPINNED]), invalid ([BADBUFFER]) or dirty with a failing write-back
    (the provider's status).  Frames that are pinned or belong to another
    file are never touched; frame [k] and the frames after it are untouched;
    the frames of the file before [k] are unpinned and have been written
    back when dirty, unhashed and invalidated; the only provider calls are
    those write-backs. *)
Theorem flushFile_stops_at_first_pinned s f :
  reachable s ->
  exists st s', flushFile f s = Some (st, s') /\
    (forall j d, bufTable (bm s) !! j = Some d -> ~ flushable f d ->
       bufTable (bm s') !! j = Some d /\ bufPool (bm s') !! j = bufPool (bm s) !! j /\
       forall g, file d = Some g ->
         hashTable (bm s') !! (g, pageNo d) = hashTable (bm s) !! (g, pageNo d)) /\
    (exists l, calls s' = calls s ++ l /\
       forall c, c ∈ l -> exists j, flushWrite (bm s) f j c) /\
    exists k,
      (forall j d, (j < k)%nat -> bufTable (bm s) !! j = Some d -> file d = f ->
         valid d = true /\ pinCnt d <= 0 /\
         bufTable (bm s') !! j = Some (invalidate (setDirty false d)) /\
         (forall fh, f = Some fh -> hashTable (bm s') !! (fh, pageNo d) = None) /\
         (dirty d = true -> exists c, flushWrite (bm s) f j c /\ c ∈ calls s')) /\
      (forall j, (k <= j)%nat -> bufTable (bm s') !! j = bufTable (bm s) !! j) /\
      ((k = numBufs (bm s) /\ st = OK) \/
       ((k < numBufs (bm s))%nat /\ exists d,
          bufTable (bm s) !! k = Some d /\ file d = f /\
          ((valid d = true /\ 0 < pinCnt d /\ st = PAGEPINNED) \/
           (valid d = false /\ st = BADBUFFER) \/
           (flushable f d /\ dirty d = true /\ st <> OK /\
            exists c, flushWrite (bm s) f k c /\ last (calls s') = Some c)))).
Proof.
  intros Hreach. pose proof (reachable_wf _ Hreach) as Hwf.
  destruct (flushFile_total f s Hwf) as [[st s'] Hrun].
  exists st, s'. split; [done|].
  apply flushFile_spec_post in Hrun
    as [_ _ Hpool _ Hunt (l & Hl & Hlw) (k & Hrange & Hrest & Hstop)]; [|done].
  split; [|split].
  - intros j d Hd Hnf. destruct (Hunt j d Hd) as [? ?]; [by right|].
    rewrite Hpool. done.
  - exists l. split; [done|]. intros c Hc. destruct (Hlw c Hc) as (j & _ & ?). eauto.
  - exists k. split; [|split; [|done]].
    + intros j d Hj Hd Hf. destruct (Hrange j d) as ((? & _ & ?) & ? & ? & ?); [lia|done..|].
      done.
    + intros j Hj. apply Hrest. lia.
Qed.

End PoolClaims.

Section SimRuns.
Import Sim.

(** [halfPinned] is a state the pool reaches from a new pool of two
    frames. *)
Lemma halfPinned_reachable : reachable halfPinned.
Proof.
  pose proof (reach_new 2 world0) as H0.
  eassert (H1 : reachable _).
  { eapply (reach_op _ (OpReadPage f1 1)); [exact H0|exact I|vm_compute; reflexivity]. }
  eassert (H2 : reachable _).
  { eapply (reach_op _ (OpReadPage f1 2)); [exact H1|exact I|vm_compute; reflexivity]. }
  eassert (H3 : reachable _).
  { eapply (reach_op _ (OpUnPinPage f1 2 true)); [exact H2|exact I|vm_compute; reflexivity]. }
  exact H3.
Defined.



(** C1 (the code departs from the claim).  On [fullPool] the clock inspects
    the frames 2, 0, 1 (clearing their reference bits and moving on each
    time) and then frame 2 again, which it evicts: four inspections.  The
    hand is left on frame 2, the victim, and not on frame [(2 + 4) mod 3 = 0]:
    it is not advanced after the inspection that finds the victim.  When the
    frame under the hand is free, as in a new pool, the hand is advanced. *)
Theorem allocBuf_victim_hand_not_advanced :
  clockHand (bm fullPool) = 2%nat /\
  map refbit (bufTable (bm fullPool)) = [true; true; true] /\
  fst <$> allocBuf fullPool = Some (OK, Some 2%nat) /\
  map refbit (bufTable (bm (exec allocBuf fullPool))) = [false; false; false] /\
  map valid (bufTable (bm (exec allocBuf fullPool))) = [true; true; false] /\
  clockHand (bm (exec allocBuf fullPool)) = 2%nat /\
  clockHand (bm (sys0 3)) = 2%nat /\
  fst <$> allocBuf (sys0 3) = Some (OK, Some 2%nat) /\
  clockHand (bm (exec allocBuf (sys0 3))) = 0%nat.
Proof. vm_compute. repeat split. Qed.

(** C3, counterexample.  In [halfPinned] frame 1 holds page 1 of the file,
    pinned, and frame 0 holds page 2 of the file, released dirty.
    [flushFile] returns [PAGEPINNED] -- after it has written page 2 back,
    removed its hash entry and invalidated frame 0: a frame of the file was
    mutated. *)
Lemma flushFile_pinned_after_flushing :
  map (fun d => (file d, pageNo d, valid d, pinCnt d, dirty d)) (bufTable (bm halfPinned))
    = [(Some 1%nat, 2, true, 0, true); (Some 1%nat, 1, true, 1, false)] /\
  fst <$> flushFile f1 halfPinned = Some PAGEPINNED /\
  map (fun d => (file d, pageNo d, valid d, pinCnt d, dirty d))
      (bufTable (bm (exec (flushFile f1) halfPinned)))
    = [(None, -1, false, 0, false); (Some 1%nat, 1, true, 1, false)] /\
  hashTable (bm halfPinned) !! (1%nat, 2) = Some 0%nat /\
  hashTable (bm (exec (flushFile f1) halfPinned)) !! (1%nat, 2) = None /\
  calls (exec (flushFile f1) halfPinned) =
    calls halfPinned ++ [CWritePage 1%nat 2 tZero].
Proof. vm_compute. repeat split. Qed.

Lemma flushFile_stops_at_first_pinned_witness :
  exists st s', flushFile f1 halfPinned = Some (st, s') /\
    bufTable (bm s') !! 1%nat = bufTable (bm halfPinned) !! 1%nat.
Proof.
  destruct (flushFile_stops_at_first_pinned halfPinned f1 halfPinned_reachable)
    as (st & s' & Hrun & Hunt & _).
  exists st, s'. split; [exact Hrun|].
  destruct (Hunt 1%nat (mkBufDesc (Some 1%nat) 1 1%nat 1 false true true)) as [Hd _].
  - vm_compute. reflexivity.
  - intros (_ & _ & Hp). vm_compute in Hp. apply Hp. reflexivity.
  - rewrite Hd. vm_compute. reflexivity.
Defined.

End SimRuns.

(** ** The heap file layer *)

Section HeapFacts.
Context {PL : PageLayer} {FP : FileProvider}.
Implicit Types (h : Heap) (o : HeapFile) (s : Sys).

Lemma liftSys_Some {A} (m : M Sys A) h (r : A * Heap) :
  liftSys m h = Some r <->
  exists a s', m (sys h) = Some (a, s') /\ r = (a, mkHeap (obj h) s').
Proof.
  unfold liftSys. destruct (m (sys h)) as [[a s']|]; split.
  - intros [= <-]. eauto.
  - intros (? & ? & [= <- <-] & ->). done.
  - done.
  - intros (? & ? & ? & _). done.
Qed.

Lemma deref_Some p h r :
  deref p h = Some r <->
  exists i pg, p = Some i /\ bufPool (bm (sys h)) !! i = Some pg /\ r = (pg, h).
Proof.
  unfold deref. destruct p as [i|]; split.
  - intros (pg & s' & (? & ? & [= -> ->])%getFrame_Some & ->)%liftSys_Some.
    destruct h. eauto 10.
  - intros (? & pg & [= <-] & Hpg & ->). apply liftSys_Some.
    exists pg, (sys h). split; [by apply getFrame_Some; eauto|]. by destruct h.
  - by rewrite undef_Some.
  - intros (? & ? & ? & _). done.
Qed.

Lemma getObj_Some h r : getObj h = Some r <-> r = (obj h, h).
Proof. apply gets_Some. Qed.

Lemma setObj_Some f h r : setObj f h = Some r <-> r = (tt, mkHeap (f (obj h)) (sys h)).
Proof. unfold setObj. by rewrite modify_Some. Qed.

(** The test of [startScan] is the list of invalid combinations. *)
Lemma badScanParm_spec offset_ length_ type_ op_ :
  badScanParm offset_ length_ type_ op_ = true <->
  invalidScanParm offset_ length_ type_ op_.
Proof.
  unfold badScanParm, invalidScanParm.
  rewrite !orb_true_iff, !andb_true_iff, !negb_true_iff, !bool_decide_eq_false,
    !bool_decide_eq_true, !Z.ltb_lt, !Z.eqb_neq.
  tauto.
Qed.

Lemma store_Some p pg h r :
  store p pg h = Some r <->
  exists i old, p = Some i /\ bufPool (bm (sys h)) !! i = Some old /\
    r = (tt, mkHeap (obj h) (withBm (fun b => withBufPool (<[i := pg]> (bufPool b)) b) (sys h))).
Proof.
  unfold store. destruct p as [i|]; [|rewrite undef_Some; split; [done | by intros (? & ? & ? & _)]].
  rewrite liftSys_Some. setoid_rewrite bind_Some. setoid_rewrite getFrame_Some.
  unfold putFrame. setoid_rewrite modify_Some. split.
  - intros (a & s' & (pg0 & s1 & (x & Hx & [= -> ->]) & [= -> ->]) & ->). eauto.
  - intros (j & old & [= <-] & Hold & ->). eauto 10.
Qed.

Lemma readHdr_Some p h r :
  readHdr p h = Some r <->
  exists i pg, p = Some i /\ bufPool (bm (sys h)) !! i = Some pg /\ r = (hdrOf pg, h).
Proof.
  unfold readHdr. rewrite bind_Some. setoid_rewrite deref_Some. setoid_rewrite ret_Some.
  split.
  - intros (a & s1 & (i & pg & -> & Hpg & [= -> ->]) & ->). eauto.
  - intros (i & pg & -> & Hpg & ->). eauto 10.
Qed.

End HeapFacts.

Ltac hinv_step :=
  match goal with
  | H : liftSys _ _ = Some _ |- _ => apply liftSys_Some in H as (? & ? & ? & ?)
  | H : getObj _ = Some _ |- _ => apply getObj_Some in H
  | H : setObj _ _ = Some _ |- _ => apply setObj_Some in H
  | H : deref _ _ = Some _ |- _ => apply deref_Some in H as (? & ? & ? & ? & ?)
  | H : readHdr _ _ = Some _ |- _ => apply readHdr_Some in H as (? & ? & ? & ? & ?)
  | H : store _ _ _ = Some _ |- _ => apply store_Some in H as (? & ? & ? & ? & ?)
  | H : (_, _) = (_, _) |- _ => injection H as ? ?
  | _ => minv_step
  end.
Ltac hinv := repeat (hinv_step; simplify_eq/=).


Section GetRecord.
Context {PL : PageLayer} {FP : FileProvider}.

(** [Stage4.getRecord] on the pinned page: the page is used as it is, the
    pool is not touched, and only the slot number of [curRec] is assigned. *)
Lemma getRecord4_same_page rid rec h i pg r :
  curPage (obj h) = Some i ->
  curPageNo (obj h) = ridPageNo rid ->
  bufPool (bm (sys h)) !! i = Some pg ->
  pageGetRecord rid pg = (OK, r) ->
  Stage4.getRecord rid rec h =
    Some ((OK, r),
          mkHeap (set_curRec (mkRID (ridPageNo (curRec (obj h))) (ridSlotNo rid)) (obj h))
                 (sys h)).
Proof.
  intros Hcur Hno Hpg Hget. unfold Stage4.getRecord.
  apply bind_Some. exists (obj h), h. split; [done|].
  rewrite Hcur, Hno, Z.eqb_refl. simpl.
  apply bind_Some. exists pg, h. split; [apply (proj2 (deref_Some (Some i) h _)); eauto|].
  rewrite Hget. simpl.
  apply bind_Some. eexists tt, _. split; [by apply setObj_Some|]. done.
Qed.

(** [Stage4.getRecord] on another page: on success both fields of [curRec]
    are those of [rid], the page of [rid] is the current page and it is
    clean. *)
Lemma getRecord4_other_page rid rec h r h' :
  (curPage (obj h) = None \/ curPageNo (obj h) <> ridPageNo rid) ->
  Stage4.getRecord rid rec h = Some ((OK, r), h') ->
  curRec (obj h') = rid /\ curPageNo (obj h') = ridPageNo rid /\
  curDirtyFlag (obj h') = false /\
  exists i pg, curPage (obj h') = Some i /\ bufPool (bm (sys h')) !! i = Some pg /\
    pageGetRecord rid pg = (OK, r).
Proof.
  intros Hother H. unfold Stage4.getRecord in H.
  apply bind_Some in H as (o & h0 & [= -> ->]%getObj_Some & H).
  destruct (bool_decide (curPage (obj h) <> None) && (curPageNo (obj h) =? ridPageNo rid))
    eqn:Hc.
  { apply andb_true_iff in Hc as [Hc1%bool_decide_eq_true Hc2%Z.eqb_eq].
    destruct Hother; congruence. }
  hinv; bool_hyps; simplify_eq/=; destruct rid; eauto 10.
Qed.

(** [Var2.getRecord]: on success [curRec] is [rid]. *)
Lemma getRecord2_curRec rid rec h r h' :
  Var2.getRecord rid rec h = Some ((OK, r), h') ->
  curRec (obj h') = rid /\
  exists i pg, curPage (obj h') = Some i /\ bufPool (bm (sys h')) !! i = Some pg /\
    pageGetRecord rid pg = (OK, r).
Proof.
  intros H. unfold Var2.getRecord in H.
  hinv; bool_hyps; simplify_eq/=; eauto 10.
Qed.

End GetRecord.

Section InsertRecord.
Context {PL : PageLayer} {FP : FileProvider}.

(** A record that can never fit on a page is rejected by both variants and
    nothing changes. *)
Lemma insertRecord_too_long rec outRid h :
  PAGESIZE - DPFIXED < uint32 (recLength rec) ->
  Stage4.insertRecord rec outRid h = Some ((INVALIDRECLEN, outRid), h) /\
  Var2.insertRecord rec outRid h = Some ((INVALIDRECLEN, outRid), h).
Proof.
  intros Hlen. unfold Stage4.insertRecord, Var2.insertRecord.
  by rewrite (proj2 (Z.gtb_lt _ _) Hlen).
Qed.

(** [Stage4.insertRecord] when the current page takes the record: the record
    is stored in that page, [curRec] is the new identifier, both dirty flags
    are set and the record count of the header goes up by one. *)
Lemma insertRecord4_fits rec outRid h i j pg hp rid pg' :
  uint32 (recLength rec) <= PAGESIZE - DPFIXED ->
  curPage (obj h) = Some i -> headerPage (obj h) = Some j -> i <> j ->
  bufPool (bm (sys h)) !! i = Some pg -> bufPool (bm (sys h)) !! j = Some hp ->
  pageInsertRecord rec pg = (OK, rid, pg') ->
  Stage4.insertRecord rec outRid h =
    Some ((OK, rid),
          mkHeap (set_hdrDirtyFlag true (set_curRec rid (set_curDirtyFlag true (obj h))))
                 (withBm (fun b => withBufPool
                    (<[j := hdrSet (setRecCnt (recCnt (hdrOf hp) + 1) (hdrOf hp)) hp]>
                       (<[i := pg']> (bufPool b))) b) (sys h))).
Proof.
  intros Hlen Hcur Hhdr Hij Hpg Hhp Hins. unfold Stage4.insertRecord.
  destruct (uint32 (recLength rec) >? PAGESIZE - DPFIXED) eqn:Hgt;
    [apply Z.gtb_lt in Hgt; lia|].
  apply bind_Some. exists (obj h), h. split; [done|]. rewrite Hcur.
  apply bind_Some. exists OK, h. split; [done|]. simpl negb. cbv iota.
  apply bind_Some. exists (obj h), h. split; [done|]. rewrite Hcur.
  apply bind_Some. exists pg, h. split; [apply (proj2 (deref_Some (Some i) h _)); eauto|].
  rewrite Hins.
  apply bind_Some. eexists tt, _. split; [apply (proj2 (store_Some (Some i) _ h _)); eauto|].
  apply bind_Some. exists (OK, rid), (mkHeap (obj h)
     (withBm (fun b => withBufPool (<[i := pg']> (bufPool b)) b) (sys h))).
  split; [done|]. simpl.
  apply bind_Some. eexists tt, _. split; [by apply setObj_Some|].
  apply bind_Some. eexists tt, _. split; [by apply setObj_Some|].
  apply bind_Some. eexists tt, _. split.
  - unfold updHdr. apply bind_Some. exists hp. eexists. split.
    + apply deref_Some. exists j, hp. simpl. rewrite Hhdr.
      split; [done|]. split; [|done]. by rewrite list_lookup_insert_ne.
    + apply store_Some. exists j, hp. simpl. rewrite Hhdr.
      split; [done|]. split; [by rewrite list_lookup_insert_ne|]. done.
  - simpl. destruct rid. done.
Qed.

End InsertRecord.

Section InsertClaims.
Context {PL : PageLayer} {FP : FileProvider}.

(** C5. [InsertFileScan::insertRecord] of the second variant inserts nothing:
    for every record short enough to fit on a page, the function passes the
    length check and ends without a [return] statement, so the call has no
    defined result, in every state of the heap file. *)
Theorem insertRecord_var2_undefined rec outRid h :
  uint32 (recLength rec) <= PAGESIZE - DPFIXED ->
  Var2.insertRecord rec outRid h = None.
Proof.
  intros Hlen. unfold Var2.insertRecord.
  destruct (uint32 (recLength rec) >? PAGESIZE - DPFIXED) eqn:Hgt; [|done].
  apply Z.gtb_lt in Hgt. lia.
Qed.

End InsertClaims.

Section StartScan.
Context {PL : PageLayer} {FP : FileProvider}.

(** C6. [HeapFileScan::startScan] of the first variant always returns, and
    it only configures the predicate: the pool, the provider and the position
    of the scan (current page, its number and dirty flag, [curRec], the mark)
    are as before.  Without a filter the scan becomes unfiltered and the
    other parameters are ignored; with a filter, an invalid combination gives
    [BADSCANPARM] and changes nothing, and a valid one gives [OK] and stores
    the five parameters. *)
Theorem startScan_configures_predicate_only offset_ length_ type_ filter_ op_ h :
  exists st h',
    Stage4.startScan offset_ length_ type_ filter_ op_ h = Some (st, h') /\
    sys h' = sys h /\ samePosition (obj h) (obj h') /\
    (filter_ = None ->
       st = OK /\ obj h' = set_scanFilter None (obj h)) /\
    (filter_ <> None -> invalidScanParm offset_ length_ type_ op_ ->
       st = BADSCANPARM /\ h' = h) /\
    (filter_ <> None -> ~ invalidScanParm offset_ length_ type_ op_ ->
       st = OK /\ scanOffset (obj h') = offset_ /\ scanLength (obj h') = length_ /\
       scanType (obj h') = type_ /\ scanFilter (obj h') = filter_ /\
       scanOp (obj h') = op_).
Proof.
  unfold Stage4.startScan. destruct filter_ as [flt|].
  - destruct (badScanParm offset_ length_ type_ op_) eqn:Hbad.
    + exists BADSCANPARM, h. apply badScanParm_spec in Hbad.
      repeat split; try done.
    + eexists OK, _. split; [reflexivity|].
      assert (~ invalidScanParm offset_ length_ type_ op_) as Hok.
      { rewrite <- badScanParm_spec. congruence. }
      repeat split; try done.
  - eexists OK, _. split; [reflexivity|]. repeat split; try done.
Qed.

End StartScan.

Section SimHeap.
Import Sim.

(** C7. [HeapFile::getRecord] of the first variant, on a heap file that has
    just been opened (page 2 pinned as the current page, [curRec] still
    [NULLRID]) and asked for the record [(2, 0)] of that page: the call
    succeeds through the same-page branch, which assigns [curRec.slotNo]
    only, so that [curRec] is [(-1, 0)] and differs from [rid] in its page
    number. *)
Theorem getRecord_same_page_stale_pageNo :
  curPage (obj opened4) <> None /\ curPageNo (obj opened4) = 2 /\
  exists r h', Stage4.getRecord (mkRID 2 0) (rec1 0) opened4 = Some ((OK, r), h') /\
    r = rec1 10 /\ curRec (obj h') = mkRID (-1) 0 /\ curRec (obj h') <> mkRID 2 0.
Proof.
  split; [by vm_compute|]. split; [by vm_compute|].
  eexists _, _. split; [vm_compute; reflexivity|]. by vm_compute.
Qed.

(** C5: a one-byte record, on a file that has room for it. *)
Lemma insertRecord_var2_undefined_witness :
  uint32 (recLength (rec1 10)) <= PAGESIZE - DPFIXED /\
  Var2.insertRecord (rec1 10) NULLRID (exec (Var2.InsertFileScan_ctor "r") (fresh created)) = None.
Proof.
  assert (uint32 (recLength (rec1 10)) <= PAGESIZE - DPFIXED) as Hlen by (by vm_compute).
  split; [exact Hlen|].
  exact (insertRecord_var2_undefined (rec1 10) NULLRID _ Hlen).
Defined.

(** The same insertion through the first variant stores the record. *)
Lemma insertRecord4_first_record :
  exists h', Stage4.insertRecord (rec1 10) NULLRID
               (exec (Stage4.InsertFileScan_ctor "r") (fresh created)) =
             Some ((OK, mkRID 2 0), h') /\
    curRec (obj h') = mkRID 2 0 /\ curDirtyFlag (obj h') = true /\
    hdrDirtyFlag (obj h') = true /\
    (hdr ← readHdr (headerPage (obj h')); ret (recCnt hdr)) h' = Some (1, h').
Proof. eexists. split; [vm_compute; reflexivity|]. by vm_compute. Qed.

(** [Stage4.insertRecord] on a full last page: page 3 is allocated and
    initialised, page 2 points to it, the header has it as its last page and
    counts one page and one record more, and the record is its first. *)
Lemma insertRecord4_new_page :
  exists h', Stage4.insertRecord (rec1 12) NULLRID fullPage = Some ((OK, mkRID 3 0), h') /\
    curRec (obj h') = mkRID 3 0 /\ curPageNo (obj h') = 3 /\
    curDirtyFlag (obj h') = true /\ hdrDirtyFlag (obj h') = true /\
    readHdr (headerPage (obj h')) h' = Some (mkHdr "r" 2 3 2 3, h') /\
    (pg ← liftSys (getFrame 0); ret (pageGetNextPage pg)) h' = Some ((OK, 3), h') /\
    (pg ← deref (curPage (obj h')); ret pg) h' = Some (mkTPage zeroHdr 3 (-1) [Some (rec1 12)], h') /\
    pins (bm (sys h')) 2%nat 2 = 0 /\ pins (bm (sys h')) 2%nat 3 = 1.
Proof. eexists. split; [vm_compute; reflexivity|]. by vm_compute. Qed.

(** C6: a scan of the first variant that stands on the first record of page
    3.  [startScan] without a filter returns [OK] and the scan stays where it
    is: page 3 stays pinned, [curRec] is not [NULLRID], and the next record
    is the second of page 3, not the first of the first page (page 2). *)
Lemma startScan_keeps_position :
  curPageNo (obj third4) = 3 /\ curRec (obj third4) = mkRID 3 0 /\
  readHdr (headerPage (obj third4)) third4 = Some (mkHdr "r" 3 5 2 4, third4) /\
  exists h', Stage4.startScan 0 0 STRING None EQ third4 = Some (OK, h') /\
    curPageNo (obj h') = 3 /\ curRec (obj h') = mkRID 3 0 /\
    pins (bm (sys h')) 2%nat 3 = 1 /\ pins (bm (sys h')) 2%nat 2 = 0 /\
    exists h'', next4 h' = Some ((OK, mkRID 3 1), h'').
Proof.
  split; [by vm_compute|]. split; [by vm_compute|]. split; [by vm_compute|].
  eexists. split; [vm_compute; reflexivity|].
  split; [by vm_compute|]. split; [by vm_compute|].
  split; [by vm_compute|]. split; [by vm_compute|].
  eexists. vm_compute. reflexivity.
Qed.

(** The second variant does go back: the first page is pinned again and the
    next record is its first. *)
Lemma startScan2_resets_position :
  exists h', Var2.startScan 0 0 STRING None EQ third2 = Some (OK, h') /\
    curPageNo (obj h') = 2 /\ curRec (obj h') = NULLRID /\
    pins (bm (sys h')) 2%nat 3 = 0 /\ pins (bm (sys h')) 2%nat 2 = 1 /\
    exists h'', next2 h' = Some ((OK, mkRID 2 0), h'').
Proof.
  eexists. split; [vm_compute; reflexivity|].
  split; [by vm_compute|]. split; [by vm_compute|].
  split; [by vm_compute|]. split; [by vm_compute|].
  eexists. vm_compute. reflexivity.
Qed.

End SimHeap.

(** ** Opening a heap file *)

Section CtorFacts.
Context {PL : PageLayer} {FP : FileProvider}.

Lemma callWorld_Some {A} c (op : World -> A * World) s r :
  callWorld c op s = Some r <->
  r = (fst (op (world s)), mkSys (bm s) (snd (op (world s))) (calls s ++ [c])).
Proof. unfold callWorld. destruct (op (world s)). simpl. split; intros; by simplify_eq. Qed.

Lemma dbOpenFile_Some name s r :
  dbOpenFile name s = Some r <->
  exists st f w, fpOpenFile name (world s) = (st, f, w) /\
    r = ((st, f), mkSys (bm s) w (calls s ++ [COpenFile name])).
Proof.
  unfold dbOpenFile. rewrite callWorld_Some.
  destruct (fpOpenFile name (world s)) as [[st f] w]. simpl. split.
  - intros ->. eauto.
  - intros (? & ? & ? & [= <- <- <-] & ->). done.
Qed.

Lemma dbCloseFile_Some f s r :
  dbCloseFile f s = Some r <->
  exists fh, f = Some fh /\
    r = (fst (fpCloseFile fh (world s)),
         mkSys (bm s) (snd (fpCloseFile fh (world s))) (calls s ++ [CCloseFile fh])).
Proof.
  unfold dbCloseFile. destruct f as [fh|].
  - rewrite callWorld_Some. split; [eauto|]. by intros (? & [= <-] & ->).
  - rewrite undef_Some. split; [done|]. by intros (? & ? & _).
Qed.

Lemma fileGetFirstPage_Some f s r :
  fileGetFirstPage f s = Some r <->
  exists fh st p w, f = Some fh /\ fpGetFirstPage fh (world s) = (st, p, w) /\
    r = ((st, p), mkSys (bm s) w (calls s ++ [CGetFirstPage fh])).
Proof.
  unfold fileGetFirstPage. destruct f as [fh|].
  - rewrite callWorld_Some. destruct (fpGetFirstPage fh (world s)) as [[st p] w] eqn:E. simpl. split.
    + intros ->. by exists fh, st, p, w.
    + intros (? & ? & ? & ? & [= <-] & E' & ->). rewrite E in E'. by simplify_eq.
  - rewrite undef_Some. split; [done|]. by intros (? & ? & ? & ? & ? & _).
Qed.

End CtorFacts.

Ltac cinv_step :=
  match goal with
  | H : dbCloseFile _ _ = Some _ |- _ => apply dbCloseFile_Some in H as (? & ? & ?)
  | _ => hinv_step
  end.
Ltac cinv := repeat (cinv_step; simplify_eq/=).

Section CtorClaims.
Context {PL : PageLayer} {FP : FileProvider}.

#[local] Arguments dbOpenFile : simpl never.
#[local] Arguments dbCloseFile : simpl never.
#[local] Arguments fileGetFirstPage : simpl never.
#[local] Arguments readPage : simpl never.
#[local] Arguments unPinPage : simpl never.
#[local] Arguments allocPage : simpl never.
#[local] Arguments liftSys : simpl never.
#[local] Arguments deref : simpl never.
#[local] Arguments store : simpl never.
#[local] Arguments readHdr : simpl never.
#[local] Arguments updHdr : simpl never.
#[local] Arguments setObj : simpl never.
#[local] Arguments getObj : simpl never.

(** C10. When the constructor of the second variant reports a status other
    than [OK], the object holds nothing: [filePtr], [headerPage] and
    [curPage] are null, every page has the pin count it had before the call
    (the pin of the header page has been given back when the first data page
    could not be read), the file, if it was opened, was closed by the last
    call made to the provider, and the destructor run on that object returns
    at once, leaving pool and provider as they are. *)
Theorem ctor_failure_holds_nothing name s st h' :
  wf (bm s) ->
  Var2.HeapFile_ctor name (mkHeap HeapFile_init s) = Some (st, h') ->
  st <> OK ->
  filePtr (obj h') = None /\ headerPage (obj h') = None /\ curPage (obj h') = None /\
  wf (bm (sys h')) /\
  (forall g q, pins (bm (sys h')) g q = pins (bm s) g q) /\
  (forall f w, fpOpenFile name (world s) = (OK, f, w) ->
     last (calls (sys h')) = Some (CCloseFile f)) /\
  (forall e f w, fpOpenFile name (world s) = (e, f, w) -> e <> OK ->
     st = e /\ calls (sys h') = calls s ++ [COpenFile name]) /\
  Var2.HeapFile_dtor h' = Some (tt, h').
Proof.
  intros Hwf H Hst. unfold Var2.HeapFile_ctor in H.
  apply bind_Some in H as ([st0 f] & h0 & H0 & H).
  apply liftSys_Some in H0 as (a & s0 & H0 & Heq).
  apply dbOpenFile_Some in H0 as (e & f' & w0 & Hopen & Heq2). simplify_eq/=.
  destruct (isOK e) eqn:He; simpl in H; bool_hyps.
  2:{ hinv. simpl. split_and!; try done.
      - intros f w Hf. rewrite Hopen in Hf. by simplify_eq.
      - intros e' f w Hf _. rewrite Hopen in Hf. by simplify_eq. }
  subst e.
  apply bind_Some in H as ([] & h1 & [= ->]%setObj_Some & H). simpl in H.
  apply bind_Some in H as ([st1 hdrNo] & h2 & H1 & H).
  apply liftSys_Some in H1 as (a & s1 & H1 & Heq).
  apply fileGetFirstPage_Some in H1 as (fh & e1 & p1 & w1 & Hfh & Hfirst & Heq2).
  simplify_eq/=.
  apply bind_Some in H as ([] & h3 & [= ->]%setObj_Some & H). simpl in H.
  destruct (negb (isOK e1) || (p1 <? 0)) eqn:Hc1.
  { cinv. split_and!; try done.
    - intros f w Hf. rewrite Hopen in Hf. simplify_eq. by rewrite last_snoc.
    - intros e' f w Hf Hne. rewrite Hopen in Hf. by simplify_eq. }
  apply bind_Some in H as ([st2 pagePtr] & h4 & H2 & H).
  apply liftSys_Some in H2 as (a & s2 & Hrd & Heq). simplify_eq/=.
  match type of Hrd with readPage _ _ ?x = _ => set (sA := x) in * end.
  assert (HwfA : wf (bm sA)) by done.
  destruct (readPage_post _ _ sA _ _ HwfA Hrd)
    as (Hwf2 & Hnb2 & Hkept2 & Hst2 & Hpins2 & Hsome2 & Hfr2).
  simpl in *.
  destruct (negb (isOK st2)) eqn:Hc2; bool_hyps.
  { cinv. split_and!; try done.
    - intros g q. rewrite Hpins2. case_bool_decide as Hbd; [by destruct Hbd|]. simpl. lia.
    - intros f w Hf. rewrite Hopen in Hf. simplify_eq. by rewrite last_snoc.
    - intros e' f w Hf Hne. rewrite Hopen in Hf. by simplify_eq. }
  subst st2.
  apply bind_Some in H as ([] & h5 & [= ->]%setObj_Some & H).
  apply bind_Some in H as (hdr & h6 & (i & pg & -> & Hpg & [= -> ->])%readHdr_Some & H).
  simpl in H.
  destruct (negb (firstPage (hdrOf pg) =? -1)) eqn:Hc3; [|by apply ret_Some in H; simplify_eq].
  apply bind_Some in H as ([st3 page] & h7 & H3 & H).
  apply liftSys_Some in H3 as (a & s3 & Hrd3 & Heq). simplify_eq/=.
  destruct (readPage_post _ _ _ _ _ Hwf2 Hrd3)
    as (Hwf3 & Hnb3 & Hkept3 & Hst3 & Hpins3 & Hsome3 & Hfr3).
  simpl in *.
  apply bind_Some in H as ([] & h8 & [= ->]%setObj_Some & H). simpl in H.
  destruct (negb (isOK st3)) eqn:Hc4; bool_hyps;
    [|by apply bind_Some in H as ([] & h9 & _ & ?%ret_Some); simplify_eq].
  apply bind_Some in H as (x & h9 & H4 & H).
  apply liftSys_Some in H4 as (st4 & s4 & Hun & [= -> ->]). simpl in *.
  destruct (unPinPage_post _ _ _ _ _ _ Hwf3 Hun)
    as (Hwf4 & _ & _ & _ & _ & Hcalls4 & _ & _ & _ & Hok4 & Hpins4 & _).
  assert (st4 = OK) as ->.
  { apply Hok4. exists fh. split; [done|]. rewrite Hpins3, Hpins2.
    pose proof (pins_nonneg (bm s) fh p1 HwfA).
    rewrite bool_decide_true by done.
    case_bool_decide as Hbd; [by destruct Hbd|]. lia. }
  assert (page = None) as ->.
  { destruct Hst3 as [?|[?|?]]; congruence. }
  cinv. split_and!; try done.
  - intros g q. rewrite Hpins4, Hpins3, Hpins2.
    repeat case_bool_decide; try lia; tauto.
  - intros f w Hf. rewrite Hopen in Hf. simplify_eq. by rewrite last_snoc.
  - intros e' f w Hf Hne. rewrite Hopen in Hf. by simplify_eq.
Qed.


End CtorClaims.

Section CtorRuns.
Import Sim.

(** C10 on a pool of one frame: the header page is read and pinned, the
    first data page finds no frame, and the constructor gives the header
    page back and closes the file. *)
Lemma ctor_failure_holds_nothing_witness :
  wf (bm smallPool) /\
  Var2.HeapFile_ctor "r" (fresh smallPool) = Some (BUFFEREXCEEDED, failedOpen) /\
  BUFFEREXCEEDED <> OK /\
  filePtr (obj failedOpen) = None /\ headerPage (obj failedOpen) = None /\
  curPage (obj failedOpen) = None /\ wf (bm (sys failedOpen)) /\
  (forall g q, pins (bm (sys failedOpen)) g q = pins (bm smallPool) g q) /\
  (forall f w, fpOpenFile "r" (world smallPool) = (OK, f, w) ->
     last (calls (sys failedOpen)) = Some (CCloseFile f)) /\
  (forall e f w, fpOpenFile "r" (world smallPool) = (e, f, w) -> e <> OK ->
     BUFFEREXCEEDED = e /\ calls (sys failedOpen) = calls smallPool ++ [COpenFile "r"]) /\
  Var2.HeapFile_dtor failedOpen = Some (tt, failedOpen).
Proof.
  assert (Hwf : wf (bm smallPool)) by apply wf_new.
  assert (Hrun : Var2.HeapFile_ctor "r" (fresh smallPool) = Some (BUFFEREXCEEDED, failedOpen))
    by (vm_compute; reflexivity).
  assert (Hne : BUFFEREXCEEDED <> OK) by discriminate.
  split; [exact Hwf|]. split; [exact Hrun|]. split; [exact Hne|].
  exact (ctor_failure_holds_nothing "r" smallPool BUFFEREXCEEDED failedOpen Hwf Hrun Hne).
Defined.

(** The constructor of the first variant keeps the header page pinned and
    the file open on the same failure. *)
Lemma ctor4_failure_keeps_header :
  exists h', Stage4.HeapFile_ctor "r" (fresh smallPool) = Some (BUFFEREXCEEDED, h') /\
    filePtr (obj h') = Some 2%nat /\ pins (bm (sys h')) 2%nat 1 = 1 /\
    calls (sys h') = [COpenFile "r"; CGetFirstPage 2%nat; CReadPage 2%nat 1].
Proof. eexists. split; [vm_compute; reflexivity|]. by vm_compute. Qed.

End CtorRuns.

(** ** Scanning to the end of the file *)

Section Wfb.
Context {PL : PageLayer} {FP : FileProvider}.

(** A pool that passes the test is well formed. *)
Lemma wfb_sound b : wfb b = true -> wf b.
Proof.
  unfold wfb. rewrite !andb_true_iff, !bool_decide_eq_true, !forallb_forall.
  intros [[[[[Hlt Hlp] Hhand] Hdesc] Hhash] Hframe].
  assert (Hd : forall i d, bufTable b !! i = Some d -> descOk d = true).
  { intros i d Hi. apply Hdesc, list_elem_of_In. by eapply list_elem_of_lookup_2. }
  split; try done.
  - intros f p i. split.
    + intros Hlook. specialize (Hhash ((f, p), i)).
      unfold hashEntryOk in Hhash. simpl in Hhash.
      destruct (bufTable b !! i) as [d|] eqn:Hi.
      * exists d. rewrite !andb_true_iff, !bool_decide_eq_true in Hhash.
        destruct Hhash as [[? ?] ?]; [|done].
        by apply list_elem_of_In, elem_of_map_to_list.
      * discriminate Hhash. by apply list_elem_of_In, elem_of_map_to_list.
    + intros (d & Hi & Hv & Hf & Hp). specialize (Hframe (i, d)).
      unfold frameHashed in Hframe. simpl in Hframe. rewrite Hv, Hf, Hp in Hframe.
      simpl in Hframe. eapply bool_decide_eq_true_1, Hframe.
      apply list_elem_of_In, elem_of_lookup_imap. eauto.
  - intros i d Hi. apply Hd in Hi. unfold descOk in Hi.
    apply andb_true_iff in Hi as [Hi _]. by apply Z.leb_le.
  - intros i d Hi Hv. apply Hd in Hi. unfold descOk in Hi. rewrite Hv in Hi.
    apply andb_true_iff in Hi as [_ Hi]. by apply bool_decide_eq_true in Hi.
  - intros i d Hi Hv. apply Hd in Hi. unfold descOk in Hi. rewrite Hv in Hi.
    apply andb_true_iff in Hi as [_ Hi]. by apply bool_decide_eq_true in Hi.
Qed.

End Wfb.


Section ScanNext.
Context {PL : PageLayer} {FP : FileProvider}.

#[local] Arguments readPage : simpl never.
#[local] Arguments unPinPage : simpl never.
#[local] Arguments liftSys : simpl never.
#[local] Arguments deref : simpl never.
#[local] Arguments readHdr : simpl never.
#[local] Arguments setObj : simpl never.
#[local] Arguments getObj : simpl never.

Lemma bind_eq {S A B} (m : M S A) (k : A -> M S B) s a s1 r :
  m s = Some (a, s1) -> k a s1 = r -> (m ≫= k) s = r.
Proof. intros Hm <-. unfold mbind, M_bind, bind. by rewrite Hm. Qed.

Lemma liftSys_eq {A} (m : M Sys A) h a s' :
  m (sys h) = Some (a, s') -> liftSys m h = Some (a, mkHeap (obj h) s').
Proof. intros Hm. unfold liftSys. by rewrite Hm. Qed.

Lemma deref_eq h i pg :
  bufPool (bm (sys h)) !! i = Some pg -> deref (Some i) h = Some (pg, h).
Proof. intros Hpg. apply deref_Some. eauto. Qed.

Lemma readHdr_eq h j hp :
  bufPool (bm (sys h)) !! j = Some hp -> readHdr (Some j) h = Some (hdrOf hp, h).
Proof. intros Hpg. apply readHdr_Some. eauto. Qed.

(** The first variant on an exhausted last page: one turn of the loop gives
    the page back and ends the scan. *)
Lemma scanNext4_turn_last_page h i pg f s' :
  curPage (obj h) = Some i -> bufPool (bm (sys h)) !! i = Some pg ->
  filePtr (obj h) = Some f ->
  lastPageExhausted (pageStep4 (obj h) pg) pg ->
  unPinPage (Some f) (curPageNo (obj h)) (curDirtyFlag (obj h)) (sys h) = Some (OK, s') ->
  Stage4.scanNext_turn h =
    Some (Some FILEEOF,
          mkHeap (set_curRec NULLRID (set_curPageNo (-1) (set_curPage None (obj h)))) s').
Proof.
  intros Hcur Hpg Hf [Hstep Hnext] Hun. unfold Stage4.scanNext_turn.
  eapply bind_eq; [reflexivity|]. rewrite Hcur.
  eapply bind_eq; [by apply deref_eq|].
  fold (pageStep4 (obj h) pg). destruct (pageStep4 (obj h) pg) as [st nextRid].
  simpl in Hstep.
  assert (bool_decide (st = ENDOFPAGE) || bool_decide (st = NORECORDS) = true) as ->.
  { destruct Hstep as [-> | ->]; by vm_compute. }
  rewrite Hnext, Hf. simpl.
  eapply bind_eq; [by apply liftSys_eq|]. simpl.
  eapply bind_eq; [by apply setObj_Some|]. simpl.
  eapply bind_eq; [by apply setObj_Some|]. done.
Qed.

(** The second variant on an exhausted last page: the turn returns
    [FILEEOF] and changes nothing. *)
Lemma scanNext2_turn_last_page h i pg :
  curPage (obj h) = Some i -> bufPool (bm (sys h)) !! i = Some pg ->
  lastPageExhausted (pageStep2 (obj h) pg) pg ->
  Var2.scanNext_turn h = Some (Some FILEEOF, h).
Proof.
  intros Hcur Hpg [Hstep Hnext]. unfold Var2.scanNext_turn.
  eapply bind_eq; [reflexivity|]. rewrite Hcur.
  eapply bind_eq; [by apply deref_eq|].
  fold (pageStep2 (obj h) pg). destruct (pageStep2 (obj h) pg) as [st nextRid].
  simpl in Hstep.
  assert (isOK st = false) as -> by (destruct Hstep as [-> | ->]; by vm_compute).
  assert (negb (bool_decide (st = ENDOFPAGE)) && negb (bool_decide (st = NORECORDS)) = false)
    as -> by (destruct Hstep as [-> | ->]; by vm_compute).
  by rewrite Hnext.
Qed.

End ScanNext.

Section ScanEOF.
Context {PL : PageLayer} {FP : FileProvider}.

(** [FILEEOF] is a status of the scan: the page layer does not return it. *)
Hypothesis first_not_eof : forall pg, fst (pageFirstRecord pg) <> FILEEOF.
Hypothesis next_not_eof : forall rid pg, fst (pageNextRecord rid pg) <> FILEEOF.
Hypothesis get_not_eof : forall rid pg, fst (pageGetRecord rid pg) <> FILEEOF.
Hypothesis nextPage_not_eof : forall pg, fst (pageGetNextPage pg) <> FILEEOF.

#[local] Arguments readPage : simpl never.
#[local] Arguments unPinPage : simpl never.
#[local] Arguments liftSys : simpl never.
#[local] Arguments deref : simpl never.
#[local] Arguments readHdr : simpl never.
#[local] Arguments setObj : simpl never.
#[local] Arguments getObj : simpl never.

Lemma scanNext4_turn_eof h r h' :
  wf (bm (sys h)) -> Stage4.scanNext_turn h = Some (r, h') ->
  wf (bm (sys h')) /\ (r = Some FILEEOF -> curPage (obj h') = None).
Proof.
  intros Hwf H. unfold Stage4.scanNext_turn in H.
  apply bind_Some in H as (o & h0 & [= -> ->]%getObj_Some & H).
  apply bind_Some in H as (pg & h0 & (i & pg0 & Hcur & Hpg & [= -> ->])%deref_Some & H).
  fold (pageStep4 (obj h) pg0) in H.
  pose proof (first_not_eof pg0) as Hfirst.
  pose proof (next_not_eof (curRec (obj h)) pg0) as Hnext.
  assert (fst (pageStep4 (obj h) pg0) <> FILEEOF) as Hstep.
  { unfold pageStep4. by destruct (_ && _). }
  destruct (pageStep4 (obj h) pg0) as [st nextRid]. simpl in Hstep. clear Hfirst Hnext.
  destruct (bool_decide (st = ENDOFPAGE) || bool_decide (st = NORECORDS)) eqn:Hend.
  - pose proof (nextPage_not_eof pg0) as Hnp.
    destruct (pageGetNextPage pg0) as [st1 nextPageNo]. simpl in Hnp.
    destruct (negb (isOK st1)) eqn:Hc1; [apply ret_Some in H; simplify_eq; split; congruence|].
    apply bind_Some in H as (x & h1 & Hun & H).
    apply liftSys_Some in Hun as (st2 & s2 & Hun & [= -> ->]).
    destruct (unPinPage_post _ _ _ _ _ _ Hwf Hun)
      as (Hwf2 & _ & _ & _ & _ & _ & _ & Hst2 & _).
    destruct (negb (isOK st2)) eqn:Hc2.
    { apply ret_Some in H. simplify_eq. split; [done|].
      intros [= ->]. destruct Hst2 as [?|[?|?]]; done. }
    apply bind_Some in H as ([] & h2 & [= ->]%setObj_Some & H). simpl in H.
    destruct (nextPageNo =? -1).
    { apply bind_Some in H as ([] & h3 & [= ->]%setObj_Some & H).
      apply ret_Some in H. by simplify_eq. }
    apply bind_Some in H as ([st3 page] & h3 & Hrd & H).
    apply liftSys_Some in Hrd as (x & s3 & Hrd & [= <- ->]). simpl in *.
    destruct (readPage_post _ _ _ _ _ Hwf2 Hrd) as (Hwf3 & _ & _ & Hst3 & _).
    apply bind_Some in H as ([] & h4 & [= ->]%setObj_Some & H). simpl in H.
    destruct (negb (isOK st3)) eqn:Hc3.
    { apply ret_Some in H. simplify_eq. split; [done|].
      intros [= ->]. simpl in Hst3. destruct Hst3 as [?|[?|?]]; done. }
    apply bind_Some in H as ([] & h5 & [= ->]%setObj_Some & H).
    apply ret_Some in H. by simplify_eq.
  - destruct (negb (isOK st)); [apply ret_Some in H; simplify_eq; split; congruence|].
    apply bind_Some in H as ([] & h1 & [= ->]%setObj_Some & H). simpl in H.
    pose proof (get_not_eof nextRid pg0) as Hget.
    destruct (pageGetRecord nextRid pg0) as [st1 rec]. simpl in Hget.
    destruct (negb (isOK st1)); [apply ret_Some in H; simplify_eq; split; [done|congruence]|].
    destruct (bool_decide _ || matchRec _ _); apply ret_Some in H; by simplify_eq.
Qed.

Lemma scanNext4_loop_eof fuel h st h' :
  wf (bm (sys h)) -> Stage4.scanNext_loop fuel h = Some (st, h') ->
  wf (bm (sys h')) /\ (st = FILEEOF -> curPage (obj h') = None).
Proof.
  revert h. induction fuel as [|fuel IH]; intros h Hwf H; [done|].
  simpl in H. apply bind_Some in H as (r & h1 & Hturn & H).
  destruct (scanNext4_turn_eof _ _ _ Hwf Hturn) as [Hwf1 Heof].
  destruct r as [st1|]; [|by eapply IH].
  apply ret_Some in H. simplify_eq. split; [done|]. intros ->. by apply Heof.
Qed.

(** In the first variant, whenever [scanNext] returns [FILEEOF] the scan has
    no current page: what it had pinned has been given back. *)
Lemma scanNext4_eof_no_page fuel outRid h r h' :
  wf (bm (sys h)) ->
  Stage4.scanNext fuel outRid h = Some ((FILEEOF, r), h') ->
  curPage (obj h') = None.
Proof.
  intros Hwf H. unfold Stage4.scanNext in H.
  apply bind_Some in H as (o & h0 & [= -> ->]%getObj_Some & H).
  destruct (bool_decide (curPage (obj h) = None) && (curPageNo (obj h) =? -1)) eqn:Hc.
  { apply ret_Some in H. simplify_eq. bool_hyps. done. }
  apply bind_Some in H as (st & h1 & Hopen & H).
  assert (wf (bm (sys h1)) /\ st <> FILEEOF) as [Hwf1 Hst].
  { destruct (curPage (obj h)); [apply ret_Some in Hopen; by simplify_eq|].
    apply bind_Some in Hopen as (hdr & h2 & (j & hp & Hj & Hhp & [= -> ->])%readHdr_Some & Hopen).
    apply bind_Some in Hopen as ([st1 page] & h3 & Hrd & Hopen).
    apply liftSys_Some in Hrd as (x & s3 & Hrd & [= <- ->]). simpl in *.
    destruct (readPage_post _ _ _ _ _ Hwf Hrd) as (Hwf3 & _ & _ & Hst3 & _).
    apply bind_Some in Hopen as ([] & h4 & [= ->]%setObj_Some & Hopen). simpl in Hopen.
    destruct (negb (isOK st1)).
    - apply ret_Some in Hopen. simplify_eq. split; [done|].
      simpl in Hst3. destruct Hst3 as [?|[?|?]]; congruence.
    - apply bind_Some in Hopen as ([] & h5 & [= ->]%setObj_Some & Hopen).
      apply ret_Some in Hopen. by simplify_eq. }
  destruct (negb (isOK st)); [apply ret_Some in H; by simplify_eq|].
  apply bind_Some in H as (st2 & h2 & Hloop & H).
  destruct (scanNext4_loop_eof _ _ _ _ Hwf1 Hloop) as [Hwf2 Heof].
  apply bind_Some in H as (o & h3 & [= -> ->]%getObj_Some & H).
  destruct (isOK st2); apply ret_Some in H; simplify_eq. by apply Heof.
Qed.

End ScanEOF.

Section ScanClaims.
Context {PL : PageLayer} {FP : FileProvider}.

#[local] Arguments readPage : simpl never.
#[local] Arguments unPinPage : simpl never.
#[local] Arguments liftSys : simpl never.
#[local] Arguments deref : simpl never.
#[local] Arguments readHdr : simpl never.
#[local] Arguments setObj : simpl never.
#[local] Arguments getObj : simpl never.

(** C4. [scanNext] at the end of the file, in the two variants.
    With nothing to scan, the first variant ([curPage] null and [curPageNo]
    [-1]) and the second (no page pinned and [firstPage] of the header [-1])
    return [FILEEOF] and change nothing.  On a pinned last page that has no
    further record ([ENDOFPAGE] or [NORECORDS], next page [-1]) the first
    variant unpins the page with its dirty flag: the pin count of the page
    goes down by one, the dirty flag is or-ed into its descriptor, and the
    scan is left with [curPage] null, [curPageNo] [-1] and [curRec]
    [NULLRID], the status being [FILEEOF].  The second variant returns
    [FILEEOF] there and changes nothing: the page stays pinned.  Over a page
    layer that does not itself answer [FILEEOF], the first variant has no
    current page after any call that returns [FILEEOF]. *)
Theorem scanNext_end_of_file fuel outRid h :
  (curPage (obj h) = None -> curPageNo (obj h) = -1 ->
   Stage4.scanNext fuel outRid h = Some ((FILEEOF, outRid), h)) /\
  (forall j hp,
     curPage (obj h) = None -> headerPage (obj h) = Some j ->
     bufPool (bm (sys h)) !! j = Some hp -> firstPage (hdrOf hp) = -1 ->
     Var2.scanNext fuel outRid h = Some ((FILEEOF, outRid), h)) /\
  (forall i pg f,
     wf (bm (sys h)) ->
     curPage (obj h) = Some i -> bufPool (bm (sys h)) !! i = Some pg ->
     filePtr (obj h) = Some f -> 0 < pins (bm (sys h)) f (curPageNo (obj h)) ->
     lastPageExhausted (pageStep4 (obj h) pg) pg ->
     exists s' k d,
       Stage4.scanNext (S fuel) outRid h =
         Some ((FILEEOF, outRid),
               mkHeap (set_curRec NULLRID (set_curPageNo (-1) (set_curPage None (obj h)))) s') /\
       unPinPage (Some f) (curPageNo (obj h)) (curDirtyFlag (obj h)) (sys h) = Some (OK, s') /\
       (forall g q, pins (bm s') g q =
          pins (bm (sys h)) g q -
          (if bool_decide (f = g /\ curPageNo (obj h) = q) then 1 else 0)) /\
       hashTable (bm (sys h)) !! (f, curPageNo (obj h)) = Some k /\
       bufTable (bm (sys h)) !! k = Some d /\
       bufTable (bm s') !! k =
         Some (setDirty (dirty d || curDirtyFlag (obj h)) (setPinCnt (pinCnt d - 1) d))) /\
  (forall i pg j,
     headerPage (obj h) = Some j ->
     curPage (obj h) = Some i -> bufPool (bm (sys h)) !! i = Some pg ->
     lastPageExhausted (pageStep2 (obj h) pg) pg ->
     Var2.scanNext (S fuel) outRid h = Some ((FILEEOF, outRid), h)) /\
  (forall r h',
     pageLayerNoEOF -> wf (bm (sys h)) ->
     Stage4.scanNext fuel outRid h = Some ((FILEEOF, r), h') ->
     curPage (obj h') = None).
Proof.
  split_and!.
  - intros Hcur Hno. unfold Stage4.scanNext.
    eapply bind_eq; [reflexivity|]. by rewrite Hcur, Hno.
  - intros j hp Hcur Hhdr Hhp Hfirst. unfold Var2.scanNext.
    eapply bind_eq; [reflexivity|]. rewrite Hhdr, Hcur.
    eapply bind_eq.
    { eapply bind_eq; [by apply readHdr_eq|]. by rewrite Hfirst. }
    done.
  - intros i pg f Hwf Hcur Hpg Hf Hpin Hlast.
    destruct (unPinPage_total (Some f) (curPageNo (obj h)) (curDirtyFlag (obj h)) _ Hwf)
      as (st & s' & Hun).
    destruct (unPinPage_post _ _ _ _ _ _ Hwf Hun)
      as (_ & _ & _ & _ & _ & _ & _ & _ & _ & Hok & Hpins & Hdesc).
    assert (st = OK) as -> by (apply Hok; eauto).
    destruct (Hdesc eq_refl) as (fh & k & d & [= <-] & Hk & Hd & Htab).
    exists s', k, d. split_and!; try done.
    + unfold Stage4.scanNext.
      eapply bind_eq; [reflexivity|]. rewrite Hcur. simpl.
      eapply bind_eq; [reflexivity|]. simpl.
      eapply bind_eq.
      { simpl. eapply bind_eq; [by eapply scanNext4_turn_last_page|]. reflexivity. }
      eapply bind_eq; [reflexivity|]. done.
    + intros g q. rewrite Hpins. clear Hok Hdesc.
      repeat case_bool_decide; try lia; exfalso; destruct_and?; simplify_eq; tauto.
    + rewrite Htab. apply list_lookup_insert_eq. by eapply lookup_lt_Some.
  - intros i pg j Hhdr Hcur Hpg Hlast. unfold Var2.scanNext.
    eapply bind_eq; [reflexivity|]. rewrite Hhdr, Hcur.
    eapply bind_eq; [reflexivity|]. simpl.
    eapply bind_eq.
    { simpl. eapply bind_eq; [by eapply scanNext2_turn_last_page|]. reflexivity. }
    eapply bind_eq; [reflexivity|]. done.
  - intros r h' (H1 & H2 & H3 & H4) Hwf Hrun.
    by eapply scanNext4_eof_no_page.
Qed.


End ScanClaims.

Section ScanRuns.
Import Sim.

Lemma simPages_noEOF : pageLayerNoEOF.
Proof.
  split_and!; simpl.
  - intros pg. unfold tFirst. by destruct (usedFrom _ _).
  - intros rid pg. unfold tNext. by destruct (usedFrom _ _).
  - intros rid pg. unfold tGet. destruct (_ <? _); [done|].
    by destruct (_ !! _) as [[?|]|].
  - done.
Qed.

(** C4 on the scan of the first variant that has returned the five records
    of the file and stands on the last record of page 4, the last page. *)
Lemma scanNext_end_of_file_witness :
  exists pg,
    wf (bm (sys fifth4)) /\
    curPage (obj fifth4) = Some 2%nat /\ bufPool (bm (sys fifth4)) !! 2%nat = Some pg /\
    filePtr (obj fifth4) = Some 2%nat /\ curPageNo (obj fifth4) = 4 /\
    0 < pins (bm (sys fifth4)) 2%nat (curPageNo (obj fifth4)) /\
    lastPageExhausted (pageStep4 (obj fifth4) pg) pg /\
    exists s' k d,
      Stage4.scanNext 1 NULLRID fifth4 =
        Some ((FILEEOF, NULLRID),
              mkHeap (set_curRec NULLRID (set_curPageNo (-1) (set_curPage None (obj fifth4)))) s') /\
      unPinPage (Some 2%nat) (curPageNo (obj fifth4)) (curDirtyFlag (obj fifth4)) (sys fifth4) =
        Some (OK, s') /\
      (forall g q, pins (bm s') g q =
         pins (bm (sys fifth4)) g q -
         (if bool_decide (2%nat = g /\ curPageNo (obj fifth4) = q) then 1 else 0)) /\
      hashTable (bm (sys fifth4)) !! (2%nat, curPageNo (obj fifth4)) = Some k /\
      bufTable (bm (sys fifth4)) !! k = Some d /\
      bufTable (bm s') !! k =
        Some (setDirty (dirty d || curDirtyFlag (obj fifth4)) (setPinCnt (pinCnt d - 1) d)).
Proof.
  eexists.
  assert (Hwf : wf (bm (sys fifth4))) by (apply wfb_sound; vm_compute; reflexivity).
  split; [exact Hwf|].
  split; [vm_compute; reflexivity|].
  split; [vm_compute; reflexivity|].
  split; [vm_compute; reflexivity|].
  split; [vm_compute; reflexivity|].
  split; [vm_compute; reflexivity|].
  assert (Hlast : lastPageExhausted
            (pageStep4 (obj fifth4) (mkTPage zeroHdr 4 (-1) [Some (rec1 14)]))
            (mkTPage zeroHdr 4 (-1) [Some (rec1 14)])).
  { split; [left|]; vm_compute; reflexivity. }
  split; [exact Hlast|].
  refine (proj1 (proj2 (proj2 (scanNext_end_of_file 0 NULLRID fifth4))) 2%nat _ 2%nat
            Hwf _ _ _ _ Hlast); vm_compute; reflexivity.
Defined.

(** C4 fails on the second variant: after the five records of the file the
    next [scanNext] returns [FILEEOF], and page 4, the last page, is still
    the current page of the scan and still pinned by it. *)
Lemma scanNext_eof_keeps_last_page_pinned :
  pins (bm (sys fifth2)) 2%nat 4 = 1 /\
  exists h', next2 fifth2 = Some ((FILEEOF, NULLRID), h') /\
    curPage (obj h') <> None /\ curPageNo (obj h') = 4 /\
    pins (bm (sys h')) 2%nat 4 = 1.
Proof.
  split; [by vm_compute|].
  eexists. split; [vm_compute; reflexivity|]. by vm_compute.
Qed.

(** The first variant on the same file gives the page back. *)
Lemma scanNext4_eof_run :
  pins (bm (sys fifth4)) 2%nat 4 = 1 /\
  exists h', next4 fifth4 = Some ((FILEEOF, NULLRID), h') /\
    curPage (obj h') = None /\ curPageNo (obj h') = -1 /\
    pins (bm (sys h')) 2%nat 4 = 0.
Proof.
  split; [by vm_compute|].
  eexists. split; [vm_compute; reflexivity|]. by vm_compute.
Qed.

End ScanRuns.

(** ** Creating a heap file *)

Section CreateFacts.
Context {PL : PageLayer} {FP : FileProvider}.
Implicit Types (s : Sys).

Lemma dbCreateFile_Some name s r :
  dbCreateFile name s = Some r <->
  r = (fst (fpCreateFile name (world s)),
       mkSys (bm s) (snd (fpCreateFile name (world s))) (calls s ++ [CCreateFile name])).
Proof. unfold dbCreateFile. apply callWorld_Some. Qed.

(** [allocBuf] only adds calls, the write-back of its victim if any. *)
Lemma allocBuf_calls s out s' :
  allocBuf s = Some (out, s') -> exists l, calls s' = calls s ++ l.
Proof.
  unfold allocBuf. intros H.
  apply bind_Some in H as (n & s0 & [= -> ->]%gets_Some & H).
  apply allocBuf_loop_spec in H as (s1 & k & _ & _ & _ & Hc & _ & _ & Hfin).
  assert (forall d st s2, writtenBack s1 (clockHand (bm s1)) d st s2 ->
            exists l, calls s2 = calls s ++ l) as Hwb.
  { intros d st s2. unfold writtenBack. destruct (dirty d).
    - intros (f & pg & w' & _ & _ & _ & ->). simpl. rewrite Hc. eauto.
    - intros [_ ->]. exists []. by rewrite app_nil_r. }
  destruct Hfin as [(_ & _ & ->)|[_ Hfin]].
  - exists []. by rewrite app_nil_r.
  - destruct Hfin; simpl; eauto. exists []. by rewrite app_nil_r.
Qed.

Lemma allocPage_calls f s r s' :
  allocPage f s = Some (r, s') ->
  exists fh l, f = Some fh /\ calls s' = calls s ++ [CAllocatePage fh] ++ l.
Proof.
  unfold allocPage. intros H.
  apply bind_Some in H as ([err0 pno0] & s0 & Hal & H).
  apply fileAllocatePage_Some in Hal as (fh & err & p & w' & -> & Hal & [= -> -> ->]).
  exists fh.
  destruct (negb (isOK err)).
  { apply ret_Some in H. simplify_eq. exists []. done. }
  apply bind_Some in H as ([err1 fr] & s1 & Hab & H).
  apply allocBuf_calls in Hab as [l Hl]. simpl in Hl.
  destruct (negb (isOK err1)).
  { apply ret_Some in H. simplify_eq. exists l. split; [done|]. by rewrite Hl, <- app_assoc. }
  destruct fr as [fr|]; [|done].
  apply bind_Some in H as (err2 & s2 & Hins & H).
  apply hashInsert_Some in Hins as [[_ [= -> ->]]|[_ [= -> ->]]]; simpl in H.
  { apply ret_Some in H. simplify_eq. exists l. split; [done|]. by rewrite Hl, <- app_assoc. }
  apply bind_Some in H as (d & s3 & (d0 & Hd0 & [= -> ->])%getDesc_Some & H).
  apply bind_Some in H as ([] & s4 & [= ->]%modify_Some & H).
  apply ret_Some in H. simplify_eq. exists l. split; [done|]. simpl.
  by rewrite Hl, <- app_assoc.
Qed.

(** A page that [allocPage] has just installed was not pinned before and is
    pinned once now. *)
Lemma allocPage_fresh fh s pno fr s' :
  wf (bm s) -> allocPage (Some fh) s = Some ((OK, pno, Some fr), s') ->
  pins (bm s) fh pno = 0 /\ pins (bm s') fh pno = 1 /\
  hashTable (bm s') !! (fh, pno) = Some fr /\
  exists d, bufTable (bm s') !! fr = Some (BufDesc_Set fh pno d).
Proof.
  intros Hwf H.
  destruct (allocPage_post _ _ _ _ _ _ Hwf H) as (_ & _ & _ & _ & Hpins & _ & Hok).
  destruct (Hok eq_refl) as (fh' & fr' & d & [= <-] & [= <-] & Hh & Hd).
  assert (pins (bm s') fh pno = 1) as H1 by (by rewrite (pins_resident _ _ _ _ _ Hh Hd)).
  specialize (Hpins fh pno). rewrite bool_decide_true in Hpins by done.
  split; [lia|]. eauto.
Qed.

(** Pin counts do not look at the bytes of the pool. *)
Lemma pins_withBufPool b pool f p : pins (withBufPool pool b) f p = pins b f p.
Proof. done. Qed.

(** Two pages allocated one after the other, the bytes of the pool possibly
    rewritten in between: both are resident, in different frames, pinned
    once. *)
Lemma alloc_pair f s hdrNo i s1 pool' s1' dataNo j s2 :
  wf (bm s) ->
  allocPage (Some f) s = Some ((OK, hdrNo, Some i), s1) ->
  length pool' = length (bufPool (bm s1)) ->
  bm s1' = withBufPool pool' (bm s1) ->
  allocPage (Some f) s1' = Some ((OK, dataNo, Some j), s2) ->
  wf (bm s2) /\ hdrNo <> dataNo /\ i <> j /\
  hashTable (bm s2) !! (f, hdrNo) = Some i /\
  hashTable (bm s2) !! (f, dataNo) = Some j /\
  bufPool (bm s2) = pool' /\
  (i < length pool')%nat /\ (j < length pool')%nat /\
  pins (bm s2) f hdrNo = 1 /\ pins (bm s2) f dataNo = 1 /\
  (forall g q, pins (bm s2) g q =
     pins (bm s) g q + (if bool_decide (f = g /\ hdrNo = q) then 1 else 0)
                     + (if bool_decide (f = g /\ dataNo = q) then 1 else 0)).
Proof.
  intros Hwf H1 Hlen Hbm H2.
  destruct (allocPage_post _ _ _ _ _ _ Hwf H1) as (Hwf1 & _ & _ & _ & Hpins1 & _ & _).
  destruct (allocPage_fresh _ _ _ _ _ Hwf H1) as (_ & Hone1 & Hh1 & d1 & Hd1).
  assert (Hwf1' : wf (bm s1')) by (rewrite Hbm; by apply wf_pool).
  destruct (allocPage_post _ _ _ _ _ _ Hwf1' H2) as (Hwf2 & _ & Hpool2 & Hkept & Hpins2 & _ & _).
  destruct (allocPage_fresh _ _ _ _ _ Hwf1' H2) as (Hzero2 & Hone2 & Hh2 & d2 & Hd2).
  assert (Hpins1' : forall g q, pins (bm s1') g q = pins (bm s1) g q).
  { intros. by rewrite Hbm. }
  assert (hdrNo <> dataNo) as Hne.
  { intros ->. rewrite Hpins1' in Hzero2. lia. }
  assert (Hpin_i : pinned (bm s1') i).
  { rewrite Hbm. eexists. split; [exact Hd1|]. done. }
  destruct (Hkept i Hpin_i) as (d & d' & Hd & Hd' & Hf & Hp & Hv & _ & Hhash).
  rewrite Hbm in Hd. simpl in Hd. rewrite Hd1 in Hd. injection Hd as <-.
  assert (Hh2i : hashTable (bm s2) !! (f, hdrNo) = Some i).
  { specialize (Hhash f eq_refl). simpl in Hhash. rewrite Hhash. by rewrite Hbm. }
  assert (i <> j) as Hij.
  { intros ->. pose proof (wf_hash_inj _ _ _ _ _ _ Hwf2 Hh2i Hh2). congruence. }
  assert (Hlen2 : length (bufPool (bm s2)) = length pool').
  { rewrite Hpool2, Hbm. done. }
  split_and!; try done.
  - rewrite Hpool2, Hbm. done.
  - rewrite <- Hlen2, (wf_pool_len _ Hwf2), <- (wf_table_len _ Hwf2).
    by eapply lookup_lt_Some.
  - rewrite <- Hlen2, (wf_pool_len _ Hwf2), <- (wf_table_len _ Hwf2).
    by eapply lookup_lt_Some.
  - rewrite Hpins2, Hpins1', Hone1. rewrite bool_decide_false; [lia|]. intros (_ & _ & ?). congruence.
  - intros g q. rewrite Hpins2, Hpins1', Hpins1.
    repeat case_bool_decide; try lia; exfalso; destruct_and?; simplify_eq; tauto.
Qed.

(** Two resident pages, each pinned once, unpinned dirty one after the
    other. *)
Lemma unpin_pair f s p q i j st1 s1 st2 s2 :
  wf (bm s) -> p <> q ->
  hashTable (bm s) !! (f, p) = Some i -> hashTable (bm s) !! (f, q) = Some j ->
  pins (bm s) f p = 1 -> pins (bm s) f q = 1 ->
  unPinPage (Some f) p true s = Some (st1, s1) ->
  unPinPage (Some f) q true s1 = Some (st2, s2) ->
  st1 = OK /\ st2 = OK /\ wf (bm s2) /\
  bufPool (bm s2) = bufPool (bm s) /\ hashTable (bm s2) = hashTable (bm s) /\
  world s2 = world s /\ calls s2 = calls s /\
  (exists di, bufTable (bm s2) !! i = Some di /\ pinCnt di = 0 /\ dirty di = true) /\
  (exists dj, bufTable (bm s2) !! j = Some dj /\ pinCnt dj = 0 /\ dirty dj = true) /\
  (forall g r, pins (bm s2) g r =
     pins (bm s) g r - (if bool_decide (f = g /\ p = r) then 1 else 0)
                     - (if bool_decide (f = g /\ q = r) then 1 else 0)).
Proof.
  intros Hwf Hne Hi Hj Hpi Hpj H1 H2.
  destruct (unPinPage_post _ _ _ _ _ _ Hwf H1)
    as (Hwf1 & _ & Hpool1 & Hhash1 & Hw1 & Hc1 & _ & _ & _ & Hok1 & Hpins1 & Hdesc1).
  assert (st1 = OK) as -> by (apply Hok1; exists f; split; [done|lia]).
  destruct (unPinPage_post _ _ _ _ _ _ Hwf1 H2)
    as (Hwf2 & _ & Hpool2 & Hhash2 & Hw2 & Hc2 & _ & _ & _ & Hok2 & Hpins2 & Hdesc2).
  assert (pins (bm s1) f q = 1) as Hpj1.
  { rewrite Hpins1, Hpj. rewrite bool_decide_false; [lia|]. intros (_ & _ & ?). congruence. }
  assert (st2 = OK) as -> by (apply Hok2; exists f; split; [done|lia]).
  destruct (Hdesc1 eq_refl) as (f1 & i1 & d1 & [= <-] & Hi1 & Hd1 & Ht1).
  destruct (Hdesc2 eq_refl) as (f2 & j2 & d2 & [= <-] & Hj2 & Hd2 & Ht2).
  rewrite Hi in Hi1. injection Hi1 as <-.
  rewrite Hhash1, Hj in Hj2. injection Hj2 as <-.
  assert (i <> j) as Hij.
  { intros ->. pose proof (wf_hash_inj _ _ _ _ _ _ Hwf Hi Hj). congruence. }
  assert (pinCnt d1 = 1) as Hc_i by (by rewrite <- (pins_resident _ _ _ _ _ Hi Hd1)).
  assert (pinCnt d2 = 1) as Hc_j.
  { rewrite <- Hhash1 in Hj. by rewrite <- (pins_resident _ _ _ _ _ Hj Hd2). }
  split_and!; try done; try congruence.
  - eexists. split.
    + rewrite Ht2, list_lookup_insert_ne by done. rewrite Ht1.
      apply list_lookup_insert_eq. by eapply lookup_lt_Some.
    + simpl. split; [lia|]. apply orb_true_r.
  - eexists. split.
    + rewrite Ht2. apply list_lookup_insert_eq. by eapply lookup_lt_Some.
    + simpl. split; [lia|]. apply orb_true_r.
  - intros g r. rewrite Hpins2, Hpins1.
    repeat case_bool_decide; try lia; exfalso; destruct_and?; simplify_eq; tauto.
Qed.

End CreateFacts.

Section CreateClaims.
Context {PL : PageLayer} {FP : FileProvider}.

#[local] Arguments dbOpenFile : simpl never.
#[local] Arguments dbCloseFile : simpl never.
#[local] Arguments dbCreateFile : simpl never.
#[local] Arguments allocPage : simpl never.
#[local] Arguments unPinPage : simpl never.
#[local] Arguments getFrame : simpl never.
#[local] Arguments putFrame : simpl never.

Lemma createHeapFile4_exists name s f w :
  fpOpenFile name (world s) = (OK, f, w) ->
  Stage4.createHeapFile name s =
    Some (FILEEXISTS,
          mkSys (bm s) (snd (fpCloseFile f w)) (calls s ++ [COpenFile name; CCloseFile f])).
Proof.
  intros Hopen. unfold Stage4.createHeapFile.
  eapply bind_eq; [apply dbOpenFile_Some; eauto|]. simpl.
  eapply bind_eq; [apply dbCloseFile_Some; eauto|]. simpl.
  by rewrite <- app_assoc.
Qed.

Lemma createHeapFile2_exists name s f w :
  name <> EmptyString ->
  fpOpenFile name (world s) = (OK, f, w) ->
  Var2.createHeapFile name s =
    Some (FILEEXISTS,
          mkSys (bm s) (snd (fpCloseFile f w)) (calls s ++ [COpenFile name; CCloseFile f])).
Proof.
  intros Hname Hopen. unfold Var2.createHeapFile.
  rewrite bool_decide_false by done.
  eapply bind_eq; [apply dbOpenFile_Some; eauto|]. simpl.
  eapply bind_eq; [apply dbCloseFile_Some; eauto|]. simpl.
  by rewrite <- app_assoc.
Qed.

Lemma createHeapFile4_created name s s' :
  wf (bm s) -> Stage4.createHeapFile name s = Some (OK, s') -> heapFileCreated name 1 s s'.
Proof.
  intros Hwf H. unfold Stage4.createHeapFile in H.
  apply bind_Some in H as ([e f0] & sA & (e' & f0' & w0 & Hopen0 & [= <- <- ->])%dbOpenFile_Some & H).
  destruct (isOK e) eqn:He.
  { apply bind_Some in H as (? & ? & _ & H). apply ret_Some in H. by simplify_eq. }
  apply isOK_false in He.
  apply bind_Some in H as (e1 & sB & [= -> ->]%dbCreateFile_Some & H). simpl in H.
  destruct (fpCreateFile name w0) as [e1 w1] eqn:Hcreate. simpl in H.
  destruct (negb (isOK e1)) eqn:He1; [apply ret_Some in H; simplify_eq; by bool_hyps|].
  apply negb_isOK_false in He1 as ->.
  apply bind_Some in H as ([e2 f] & sC & (e2' & f' & w2 & Hopen2 & [= <- <- ->])%dbOpenFile_Some & H).
  simpl in Hopen2.
  destruct (negb (isOK e2)) eqn:He2; [apply ret_Some in H; simplify_eq; by bool_hyps|].
  apply negb_isOK_false in He2 as ->.
  apply bind_Some in H as ([[e3 hdrNo] newPage] & s1 & Hal1 & H).
  destruct (negb (isOK e3)) eqn:He3; [apply ret_Some in H; simplify_eq; by bool_hyps|].
  apply negb_isOK_false in He3 as ->.
  destruct newPage as [i|]; [|done].
  apply bind_Some in H as (pg1 & s1a & (pg1' & Hpg1 & [= <- ->])%getFrame_Some & H).
  apply bind_Some in H as ([] & s1' & [= ->]%modify_Some & H).
  apply bind_Some in H as ([[e4 dataNo] newPage] & s2 & Hal2 & H).
  destruct (negb (isOK e4)) eqn:He4; [apply ret_Some in H; simplify_eq; by bool_hyps|].
  apply negb_isOK_false in He4 as ->.
  destruct newPage as [j|]; [|done].
  match type of Hal1 with allocPage _ ?x = _ => set (sC := x) in * end.
  set (hdr1 := hdrSet (setFileName (truncName name) zeroHdr) pg1) in *.
  assert (HwfC : wf (bm sC)) by done.
  match type of Hal2 with allocPage _ ?x = _ => set (s1' := x) in * end.
  destruct (alloc_pair f sC hdrNo i s1 (<[i:=hdr1]> (bufPool (bm s1))) s1' dataNo j s2
              HwfC Hal1 (length_insert _ _ _) eq_refl Hal2)
    as (Hwf2 & Hne & Hij & Hhi & Hhj & Hpool2 & Hli & Hlj & Hpi & Hpj & Hpins2).
  apply allocPage_calls in Hal1 as (? & l1 & [= <-] & Hcalls1).
  apply allocPage_calls in Hal2 as (? & l2 & [= <-] & Hcalls2). simpl in Hcalls2.
  apply bind_Some in H as (pgj & s2a & (pgj' & Hpgj & [= <- ->])%getFrame_Some & H).
  apply bind_Some in H as ([] & s3 & [= ->]%modify_Some & H).
  apply bind_Some in H as (pg0 & s3a & (pg0' & Hpg0 & [= <- ->])%getFrame_Some & H).
  simpl in Hpg0. rewrite list_lookup_insert_ne in Hpg0 by done.
  rewrite Hpool2, list_lookup_insert_eq in Hpg0 by (by rewrite length_insert in Hli).
  injection Hpg0 as <-.
  apply bind_Some in H as ([] & s4 & [= ->]%modify_Some & H).
  match type of H with _ ?x = _ => set (s4 := x) in * end.
  assert (Hbm4 : exists pool4, bm s4 = withBufPool pool4 (bm s2) /\
            length pool4 = length (bufPool (bm s2)) /\
            pool4 !! i = Some (hdrSet (setLastPage dataNo (setFirstPage dataNo
                                 (setRecCnt 0 (setPageCnt 1 (hdrOf hdr1))))) hdr1) /\
            pool4 !! j = Some (pageInit dataNo pgj)).
  { exists (<[i := hdrSet (setLastPage dataNo (setFirstPage dataNo
                                 (setRecCnt 0 (setPageCnt 1 (hdrOf hdr1))))) hdr1]>
              (<[j := pageInit dataNo pgj]> (bufPool (bm s2)))).
    split; [reflexivity|]. split; [by rewrite !length_insert|]. split.
    - apply list_lookup_insert_eq. rewrite length_insert, Hpool2. done.
    - rewrite list_lookup_insert_ne by done.
      apply list_lookup_insert_eq. rewrite Hpool2. done. }
  destruct Hbm4 as (pool4 & Hbm4 & Hlen4 & Hp4i & Hp4j).
  assert (Hwf4 : wf (bm s4)) by (rewrite Hbm4; by apply wf_pool).
  assert (Hcalls4 : calls s4 = calls s2) by done.
  clearbody s4.
  apply bind_Some in H as (st5 & s5 & Hun5 & H).
  destruct (negb (isOK st5)) eqn:Hst5; [apply ret_Some in H; simplify_eq; by bool_hyps|].
  apply bind_Some in H as (st6 & s6 & Hun6 & H).
  destruct (negb (isOK st6)) eqn:Hst6; [apply ret_Some in H; simplify_eq; by bool_hyps|].
  apply bind_Some in H as (st7 & s7 & (fh & [= <-] & [= -> ->])%dbCloseFile_Some & H).
  assert (s' = mkSys (bm s6) (snd (fpCloseFile f (world s6))) (calls s6 ++ [CCloseFile f]))
    as ->.
  { destruct (negb (isOK (fpCloseFile f (world s6)).1)); apply ret_Some in H; by simplify_eq. }
  clear H.
  destruct (unpin_pair f s4 hdrNo dataNo i j st5 s5 st6 s6 Hwf4 Hne)
    as (_ & _ & Hwf6 & Hpool6 & Hhash6 & _ & Hcalls6 & (di & Hdi & Hci & Hdirty_i)
        & (dj & Hdj & Hcj & Hdirty_j) & Hpins6); try done.
  1-4: rewrite Hbm4; done.
  exists f, hdrNo, dataNo, i, j, di, dj.
  eexists _, pgj. simpl. split_and!; try done.
  - exists e, f0, w0, w1, w2. done.
  - exists l1, l2. rewrite Hcalls6, Hcalls4, Hcalls2, Hcalls1. subst sC. simpl.
    by rewrite <- !app_assoc.
  - rewrite Hhash6, Hbm4. done.
  - rewrite Hhash6, Hbm4. done.
  - rewrite Hpool6, Hbm4. exact Hp4i.
  - rewrite hdrOf_hdrSet. unfold hdr1. rewrite hdrOf_hdrSet. done.
  - rewrite Hpool6, Hbm4. exact Hp4j.
  - intros g q. rewrite Hpins6, Hbm4, pins_withBufPool, Hpins2. subst sC. simpl.
    repeat case_bool_decide; try lia; exfalso; destruct_and?; simplify_eq; tauto.
Qed.


Lemma createHeapFile2_created name s s' :
  wf (bm s) -> Var2.createHeapFile name s = Some (OK, s') -> heapFileCreated name 2 s s'.
Proof.
  intros Hwf H. unfold Var2.createHeapFile in H.
  destruct (bool_decide (name = EmptyString)); [apply ret_Some in H; by simplify_eq|].
  apply bind_Some in H as ([e f0] & sA & (e' & f0' & w0 & Hopen0 & [= <- <- ->])%dbOpenFile_Some & H).
  destruct (isOK e) eqn:He.
  { apply bind_Some in H as (? & ? & _ & H). apply ret_Some in H. by simplify_eq. }
  apply isOK_false in He.
  destruct (negb (bool_decide (e = UNIXERR))); [apply ret_Some in H; by simplify_eq|].
  apply bind_Some in H as (e1 & sB & [= -> ->]%dbCreateFile_Some & H). simpl in H.
  destruct (fpCreateFile name w0) as [e1 w1] eqn:Hcreate. simpl in H.
  destruct (negb (isOK e1)) eqn:He1; [apply ret_Some in H; simplify_eq; by bool_hyps|].
  apply negb_isOK_false in He1 as ->.
  apply bind_Some in H as ([e2 f] & sC & (e2' & f' & w2 & Hopen2 & [= <- <- ->])%dbOpenFile_Some & H).
  simpl in Hopen2.
  destruct (negb (isOK e2)) eqn:He2; [apply ret_Some in H; simplify_eq; by bool_hyps|].
  apply negb_isOK_false in He2 as ->.
  apply bind_Some in H as ([[e3 hdrNo] hdrPagePtr] & s1 & Hal1 & H).
  destruct (negb (isOK e3)) eqn:He3.
  { apply bind_Some in H as (? & ? & _ & H). apply ret_Some in H; simplify_eq; by bool_hyps. }
  apply negb_isOK_false in He3 as ->.
  apply bind_Some in H as ([[e4 dataNo] dataPagePtr] & s2 & Hal2 & H).
  destruct (negb (isOK e4)) eqn:He4.
  { apply bind_Some in H as (? & ? & _ & H). apply bind_Some in H as (? & ? & _ & H).
    apply ret_Some in H; simplify_eq; by bool_hyps. }
  apply negb_isOK_false in He4 as ->.
  destruct hdrPagePtr as [i|]; [|done]. destruct dataPagePtr as [j|]; [|done].
  match type of Hal1 with allocPage _ ?x = _ => set (sC := x) in * end.
  assert (HwfC : wf (bm sC)) by done.
  assert (Hbm1 : bm s1 = withBufPool (bufPool (bm s1)) (bm s1)) by (by destruct (bm s1)).
  destruct (alloc_pair f sC hdrNo i s1 (bufPool (bm s1)) s1 dataNo j s2
              HwfC Hal1 eq_refl Hbm1 Hal2)
    as (Hwf2 & Hne & Hij & Hhi & Hhj & Hpool2 & Hli & Hlj & Hpi & Hpj & Hpins2).
  apply allocPage_calls in Hal1 as (? & l1 & [= <-] & Hcalls1).
  apply allocPage_calls in Hal2 as (? & l2 & [= <-] & Hcalls2).
  apply bind_Some in H as (pgj & s2a & (pgj' & Hpgj & [= <- ->])%getFrame_Some & H).
  apply bind_Some in H as ([] & s3 & [= ->]%modify_Some & H).
  apply bind_Some in H as (pg0 & s3a & (pg0' & Hpg0 & [= <- ->])%getFrame_Some & H).
  apply bind_Some in H as ([] & s4 & [= ->]%modify_Some & H).
  match type of H with _ ?x = _ => set (s4 := x) in * end.
  assert (Hbm4 : exists pool4, bm s4 = withBufPool pool4 (bm s2) /\
            length pool4 = length (bufPool (bm s2)) /\
            pool4 !! i = Some (hdrSet (setRecCnt 0 (setPageCnt 2 (setLastPage dataNo
                                 (setFirstPage dataNo
                                    (setFileName (truncName name) zeroHdr))))) pg0) /\
            pool4 !! j = Some (pageInit dataNo pgj)).
  { exists (<[i := hdrSet (setRecCnt 0 (setPageCnt 2 (setLastPage dataNo
                                 (setFirstPage dataNo
                                    (setFileName (truncName name) zeroHdr))))) pg0]>
              (<[j := pageInit dataNo pgj]> (bufPool (bm s2)))).
    split; [reflexivity|]. split; [by rewrite !length_insert|]. split.
    - apply list_lookup_insert_eq. rewrite length_insert, Hpool2. done.
    - rewrite list_lookup_insert_ne by done.
      apply list_lookup_insert_eq. rewrite Hpool2. done. }
  destruct Hbm4 as (pool4 & Hbm4 & Hlen4 & Hp4i & Hp4j).
  assert (Hwf4 : wf (bm s4)) by (rewrite Hbm4; by apply wf_pool).
  assert (Hcalls4 : calls s4 = calls s2) by done.
  clearbody s4.
  apply bind_Some in H as (st5 & s5 & Hun5 & H).
  destruct (negb (isOK st5)) eqn:Hst5.
  { apply bind_Some in H as (? & ? & _ & H). apply bind_Some in H as (? & ? & _ & H).
    apply ret_Some in H; simplify_eq; by bool_hyps. }
  apply bind_Some in H as (st6 & s6 & Hun6 & H).
  destruct (negb (isOK st6)) eqn:Hst6.
  { apply bind_Some in H as (? & ? & _ & H). apply ret_Some in H; simplify_eq; by bool_hyps. }
  apply bind_Some in H as (st7 & s7 & (fh & [= <-] & [= -> ->])%dbCloseFile_Some & H).
  assert (s' = mkSys (bm s6) (snd (fpCloseFile f (world s6))) (calls s6 ++ [CCloseFile f]))
    as ->.
  { destruct (negb (isOK (fpCloseFile f (world s6)).1)); apply ret_Some in H; by simplify_eq. }
  clear H.
  destruct (unpin_pair f s4 dataNo hdrNo j i st5 s5 st6 s6 Hwf4 (not_eq_sym Hne))
    as (_ & _ & Hwf6 & Hpool6 & Hhash6 & _ & Hcalls6 & (dj & Hdj & Hcj & Hdirty_j)
        & (di & Hdi & Hci & Hdirty_i) & Hpins6); try done.
  1-4: rewrite Hbm4; done.
  exists f, hdrNo, dataNo, i, j, di, dj.
  eexists _, pgj. simpl. split_and!; try done.
  - exists e, f0, w0, w1, w2. done.
  - exists l1, l2. rewrite Hcalls6, Hcalls4, Hcalls2, Hcalls1. subst sC. simpl.
    by rewrite <- !app_assoc.
  - rewrite Hhash6, Hbm4. done.
  - rewrite Hhash6, Hbm4. done.
  - rewrite Hpool6, Hbm4. exact Hp4i.
  - rewrite hdrOf_hdrSet. done.
  - rewrite Hpool6, Hbm4. exact Hp4j.
  - intros g q. rewrite Hpins6, Hbm4, pins_withBufPool, Hpins2. subst sC. simpl.
    repeat case_bool_decide; try lia; exfalso; destruct_and?; simplify_eq; tauto.
Qed.


End CreateClaims.

Section CreateRuns.
Import Sim.


End CreateRuns.

(** ** Mark and reset of a scan *)

Section ViewFacts.
Context {PL : PageLayer} {FP : FileProvider}.
Variables (I : World -> Prop) (bytes : Z -> Page) (f : File).
Hypothesis view : fileView I bytes f.

Lemma writtenBack_view s d st s1 :
  poolInv I bytes f s ->
  bufTable (bm s) !! clockHand (bm s) = Some d -> valid d = true ->
  writtenBack s (clockHand (bm s)) d st s1 ->
  I (world s1) /\ bm s1 = bm s.
Proof.
  intros (Hwf & HI & Hbytes) Hd Hv Hwb. split; [|by eapply writtenBack_bm].
  unfold writtenBack in Hwb. destruct (dirty d); [|by destruct Hwb as [_ ->]].
  destruct Hwb as (g & pg & w' & Hg & Hpg & Hw & ->). simpl.
  destruct (decide (g = f)) as [->|Hne].
  - assert (hashTable (bm s) !! (f, pageNo d) = Some (clockHand (bm s))) as Hh.
    { apply (wf_hash _ Hwf). eauto. }
    apply Hbytes in Hh. rewrite Hpg in Hh. injection Hh as ->.
    by eapply (fv_write _ _ _ view).
  - by eapply (fv_write_other _ _ _ view).
Qed.

(** [allocBuf] keeps the view, and the frame it hands out holds no page. *)
Lemma allocBuf_view s out s' :
  poolInv I bytes f s -> allocBuf s = Some (out, s') ->
  poolInv I bytes f s' /\
  bufPool (bm s') = bufPool (bm s) /\
  (forall fr, snd out = Some fr ->
     (fr < length (bufPool (bm s')))%nat /\
     forall g q, hashTable (bm s') !! (g, q) <> Some fr).
Proof.
  intros Hinv H. pose proof Hinv as (Hwf & HI & Hbytes).
  pose proof (allocBuf_spec_post _ _ _ Hwf H) as Hpost.
  split; [split; [apply Hpost|split]|split; [apply Hpost|]].
  - unfold allocBuf in H.
    apply bind_Some in H as (n & s0 & [= -> ->]%gets_Some & H).
    apply allocBuf_loop_spec in H as (s1 & k & _ & Hsw & Hw & _ & _ & Hwf1 & Hfin).
    assert (Hinv1 : poolInv I bytes f s1).
    { destruct Hsw as (_ & Hp & Hh & _). split; [auto|]. split; [by rewrite Hw|].
      intros p i. rewrite Hh, Hp. apply Hbytes. }
    destruct Hfin as [(_ & _ & ->)|[_ Hfin]]; [apply Hinv1|].
    destruct Hfin as [d Hd Hv|d st s2 Hd Hv Hr Hp Hwb Hst|d s2 Hd Hv Hr Hp Hwb Hmiss
                     |d g s2 Hd Hv Hr Hp Hwb Hf Hhash]; simpl.
    + apply Hinv1.
    + by eapply writtenBack_view.
    + by eapply writtenBack_view.
    + by eapply writtenBack_view.
  - intros p i Hh. apply (ab_hash _ _ _ Hpost) in Hh as [Hh _].
    rewrite (ab_pool _ _ _ Hpost). by apply Hbytes.
  - intros fr Hfr. split.
    + destruct (ab_chosen _ _ _ Hpost fr Hfr) as (_ & d & d' & _ & _ & Hd' & _).
      rewrite (wf_pool_len _ (ab_wf _ _ _ Hpost)), <- (wf_table_len _ (ab_wf _ _ _ Hpost)).
      by eapply lookup_lt_Some.
    + intros g q Hh. apply (ab_hash _ _ _ Hpost) in Hh as [_ Hh]. done.
Qed.

(** [readPage] of a page of [f] keeps the view. *)
Lemma readPage_view p s out s' :
  poolInv I bytes f s -> readPage (Some f) p s = Some (out, s') ->
  poolInv I bytes f s'.
Proof.
  intros Hinv H. pose proof Hinv as (Hwf & HI & Hbytes).
  destruct (readPage_post _ _ _ _ _ Hwf H) as (Hwf' & _).
  split; [done|].
  destruct (hashTable (bm s) !! (f, p)) as [i|] eqn:Hlook.
  - pose proof Hlook as (d & Hd & _)%(wf_hash _ Hwf).
    rewrite (readPage_hit _ _ _ _ _ Hlook Hd) in H. injection H as <- <-. done.
  - rewrite readPage_miss_eq in H by (by intros ? [= <-]).
    unfold readPage_miss in H.
    apply bind_Some in H as ([err fr] & s1 & Hab & H).
    destruct (allocBuf_view _ _ _ Hinv Hab) as ((Hwf1 & HI1 & Hbytes1) & Hpool1 & Hfr).
    destruct (bool_decide (err = BUFFEREXCEEDED)); [apply ret_Some in H; by simplify_eq|].
    destruct fr as [fr|]; [|done].
    destruct (Hfr fr eq_refl) as [Hlt Hnot].
    apply bind_Some in H as (old & s2 & (old' & Hold & [= <- ->])%getFrame_Some & H).
    apply bind_Some in H as ([err2 pg] & s2 & Hrd & H).
    apply fileReadPage_Some in Hrd as (fh & st & pg' & w' & [= <-] & Hrd & [= -> -> ->]).
    destruct (fv_read _ _ _ view _ _ _ _ _ _ HI1 Hrd) as [HI2 Hpg].
    apply bind_Some in H as ([] & s3 & [= ->]%modify_Some & H). simpl in H.
    assert (Hkeep : forall q i, hashTable (bm s1) !! (f, q) = Some i ->
              <[fr := pg']> (bufPool (bm s1)) !! i = Some (bytes q)).
    { intros q i Hh. rewrite list_lookup_insert_ne; [by apply Hbytes1|].
      intros ->. by eapply Hnot. }
    destruct (negb (isOK st)) eqn:Hst.
    { apply ret_Some in H. simplify_eq. split; [done|]. simpl. apply Hkeep. }
    apply negb_isOK_false in Hst as ->. specialize (Hpg eq_refl) as ->.
    apply bind_Some in H as (err3 & s4 & Hins & H).
    apply hashInsert_Some in Hins as [[_ [= -> ->]]|[Hnone [= -> ->]]]; simpl in H.
    { apply ret_Some in H. simplify_eq. split; [done|]. simpl. apply Hkeep. }
    apply bind_Some in H as (d & s5 & (d0 & Hd0 & [= <- ->])%getDesc_Some & H).
    apply bind_Some in H as ([] & s6 & [= ->]%modify_Some & H).
    apply ret_Some in H. simplify_eq. split; [done|]. simpl.
    intros q i Hh. destruct (decide (q = p)) as [->|Hne].
    + rewrite lookup_insert_eq in Hh. injection Hh as <-.
      by apply list_lookup_insert_eq.
    + rewrite lookup_insert_ne in Hh by congruence. by apply Hkeep.
Qed.

(** [unPinPage] keeps the view. *)
Lemma unPinPage_view g p dty s st s' :
  poolInv I bytes f s -> unPinPage g p dty s = Some (st, s') ->
  poolInv I bytes f s'.
Proof.
  intros (Hwf & HI & Hbytes) H.
  destruct (unPinPage_post _ _ _ _ _ _ Hwf H) as (Hwf' & _ & Hpool & Hhash & Hw & _).
  split; [done|]. split; [by rewrite Hw|]. intros q i. rewrite Hhash, Hpool. apply Hbytes.
Qed.

End ViewFacts.

Section ScanView.
Context {PL : PageLayer} {FP : FileProvider}.
Variables (I : World -> Prop) (bytes : Z -> Page) (f : File).
Hypothesis view : fileView I bytes f.

#[local] Arguments readPage : simpl never.
#[local] Arguments unPinPage : simpl never.
#[local] Arguments liftSys : simpl never.
#[local] Arguments deref : simpl never.
#[local] Arguments readHdr : simpl never.
#[local] Arguments setObj : simpl never.
#[local] Arguments getObj : simpl never.

Lemma keepsScan_refl o : keepsScan o o.
Proof. by repeat split. Qed.

(** The current page of a scan holds the bytes of its page. *)
Lemma scanInv_deref h i pg :
  scanInv I bytes f h -> curPage (obj h) = Some i ->
  bufPool (bm (sys h)) !! i = Some pg -> pg = bytes (curPageNo (obj h)).
Proof.
  intros ((_ & _ & Hbytes) & _ & Hcur) Hi Hpg.
  apply Hcur, Hbytes in Hi. congruence.
Qed.

Lemma scanNext4_turn_view h r h1 :
  scanInv I bytes f h -> Stage4.scanNext_turn h = Some (r, h1) ->
  scanInv I bytes f h1 /\ keepsScan (obj h) (obj h1) /\
  is_Some (curPage (obj h)) /\
  turnOutcome h (decide4 (obj h) (bytes (curPageNo (obj h)))) r h1.
Proof.
  intros Hinv H. pose proof Hinv as (Hpool & Hf & Hcurp).
  unfold Stage4.scanNext_turn in H.
  apply bind_Some in H as (o & h0 & [= -> ->]%getObj_Some & H).
  apply bind_Some in H as (pg & h0 & (i & pg0 & Hcur & Hpg & [= -> ->])%deref_Some & H).
  pose proof (scanInv_deref _ _ _ Hinv Hcur Hpg) as ->.
  fold (pageStep4 (obj h) (bytes (curPageNo (obj h)))) in H.
  assert (Hsome : is_Some (curPage (obj h))) by eauto.
  unfold decide4.
  destruct (pageStep4 (obj h) (bytes (curPageNo (obj h)))) as [st nextRid].
  destruct (bool_decide (st = ENDOFPAGE) || bool_decide (st = NORECORDS)).
  - destruct (pageGetNextPage (bytes (curPageNo (obj h)))) as [st1 nextPageNo].
    destruct (negb (isOK st1)) eqn:Hc1.
    { apply ret_Some in H. simplify_eq. bool_hyps.
      split; [done|]. split; [apply keepsScan_refl|]. split; [done|]. by split. }
    rewrite Hf in H.
    apply bind_Some in H as (x & h1' & Hun & H).
    apply liftSys_Some in Hun as (st2 & s2 & Hun & [= -> ->]).
    pose proof (unPinPage_view I bytes f _ _ _ _ _ _ Hpool Hun) as Hpool2.
    destruct (negb (isOK st2)) eqn:Hc2.
    { apply ret_Some in H. simplify_eq. bool_hyps.
      destruct (unPinPage_post _ _ _ _ _ _ (proj1 Hpool) Hun)
        as (_ & _ & _ & _ & _ & _ & _ & _ & Hsame & _).
      rewrite (Hsame Hc2).
      split; [split; [done|split; [done|simpl; done]]|].
      split; [apply keepsScan_refl|]. split; [done|]. left. eauto. }
    apply bind_Some in H as ([] & h2 & [= ->]%setObj_Some & H). simpl in H.
    destruct (nextPageNo =? -1).
    { apply bind_Some in H as ([] & h3 & [= ->]%setObj_Some & H).
      apply ret_Some in H. simplify_eq.
      split; [by split|]. split; [by repeat split|]. split; [done|].
      left. by exists FILEEOF. }
    apply bind_Some in H as ([st3 page] & h3 & Hrd & H).
    apply liftSys_Some in Hrd as (x & s3 & Hrd & [= <- ->]). simpl in *.
    pose proof (readPage_view I bytes f view _ _ _ _ Hpool2 Hrd) as Hpool3.
    destruct (readPage_post _ _ _ _ _ (proj1 Hpool2) Hrd)
      as (_ & _ & _ & Hst3 & _ & Hsome3 & Hfr3).
    apply bind_Some in H as ([] & h4 & [= ->]%setObj_Some & H). simpl in H.
    destruct (negb (isOK st3)) eqn:Hc3.
    { apply ret_Some in H. simplify_eq. bool_hyps.
      assert (page = None) as -> by (simpl in Hst3; destruct Hst3 as [?|[?|?]]; congruence).
      split; [by split|]. split; [by repeat split|]. split; [done|]. left. eauto. }
    apply negb_isOK_false in Hc3 as ->.
    apply bind_Some in H as ([] & h5 & [= ->]%setObj_Some & H).
    apply ret_Some in H. simplify_eq. simpl in *.
    destruct (Hsome3 eq_refl) as [fr ->].
    destruct (Hfr3 fr eq_refl) as (_ & fh & [= <-] & Hh).
    split; [|split; [by repeat split|split; [done|right; simpl; eauto]]].
    split; [done|]. split; [done|]. simpl. by intros ? [= <-].
  - destruct (negb (isOK st)) eqn:Hc.
    { apply ret_Some in H. simplify_eq. bool_hyps.
      split; [done|]. split; [apply keepsScan_refl|]. split; [done|]. by split. }
    apply bind_Some in H as ([] & h1' & [= ->]%setObj_Some & H). simpl in H.
    destruct (pageGetRecord nextRid (bytes (curPageNo (obj h)))) as [st1 rec].
    assert (Hinv' : scanInv I bytes f (mkHeap (set_curRec nextRid (obj h)) (sys h))).
    { split; [done|]. split; [done|]. simpl. done. }
    assert (Hkeep' : keepsScan (obj h) (set_curRec nextRid (obj h))) by (by repeat split).
    destruct (negb (isOK st1)) eqn:Hc1.
    { apply ret_Some in H. simplify_eq. bool_hyps. do 3 (split; [done|]). by split. }
    destruct (bool_decide (scanFilter (obj h) = None) || matchRec (obj h) rec);
      apply ret_Some in H; simplify_eq; do 3 (split; [done|]); by split.
Qed.

Lemma scanNext2_turn_view h r h1 :
  scanInv I bytes f h -> Var2.scanNext_turn h = Some (r, h1) ->
  scanInv I bytes f h1 /\ keepsScan (obj h) (obj h1) /\
  is_Some (curPage (obj h)) /\
  turnOutcome h (decide2 (obj h) (bytes (curPageNo (obj h)))) r h1.
Proof.
  intros Hinv H. pose proof Hinv as (Hpool & Hf & Hcurp).
  unfold Var2.scanNext_turn in H.
  apply bind_Some in H as (o & h0 & [= -> ->]%getObj_Some & H).
  apply bind_Some in H as (pg & h0 & (i & pg0 & Hcur & Hpg & [= -> ->])%deref_Some & H).
  pose proof (scanInv_deref _ _ _ Hinv Hcur Hpg) as ->.
  fold (pageStep2 (obj h) (bytes (curPageNo (obj h)))) in H.
  assert (Hsome : is_Some (curPage (obj h))) by eauto.
  unfold decide2.
  destruct (pageStep2 (obj h) (bytes (curPageNo (obj h)))) as [st nextRid].
  destruct (isOK st) eqn:Hst.
  - destruct (pageGetRecord nextRid (bytes (curPageNo (obj h)))) as [st1 rec].
    destruct (negb (isOK st1)) eqn:Hc1.
    { apply ret_Some in H. simplify_eq. bool_hyps.
      split; [done|]. split; [apply keepsScan_refl|]. split; [done|]. by split. }
    apply bind_Some in H as ([] & h1' & [= ->]%setObj_Some & H). simpl in H.
    assert (Hinv' : scanInv I bytes f (mkHeap (set_curRec nextRid (obj h)) (sys h))).
    { split; [done|]. split; [done|]. simpl. done. }
    assert (Hkeep' : keepsScan (obj h) (set_curRec nextRid (obj h))) by (by repeat split).
    destruct (matchRec (obj h) rec);
      apply ret_Some in H; simplify_eq; do 3 (split; [done|]); by split.
  - apply isOK_false in Hst.
    destruct (negb (bool_decide (st = ENDOFPAGE)) && negb (bool_decide (st = NORECORDS))).
    { apply ret_Some in H. simplify_eq.
      split; [done|]. split; [apply keepsScan_refl|]. split; [done|]. by split. }
    destruct (pageGetNextPage (bytes (curPageNo (obj h)))) as [st1 nextPageNo].
    destruct (negb (isOK st1)) eqn:Hc1.
    { apply ret_Some in H. simplify_eq. bool_hyps.
      split; [done|]. split; [apply keepsScan_refl|]. split; [done|]. by split. }
    destruct (nextPageNo =? -1).
    { apply ret_Some in H. simplify_eq.
      split; [done|]. split; [apply keepsScan_refl|]. split; [done|].
      left. by exists FILEEOF. }
    rewrite Hf in H.
    apply bind_Some in H as (x & h1' & Hun & H).
    apply liftSys_Some in Hun as (st2 & s2 & Hun & [= -> ->]).
    pose proof (unPinPage_view I bytes f _ _ _ _ _ _ Hpool Hun) as Hpool2.
    destruct (negb (isOK st2)) eqn:Hc2.
    { apply ret_Some in H. simplify_eq. bool_hyps.
      destruct (unPinPage_post _ _ _ _ _ _ (proj1 Hpool) Hun)
        as (_ & _ & _ & _ & _ & _ & _ & _ & Hsame & _).
      rewrite (Hsame Hc2).
      split; [split; [done|split; [done|simpl; done]]|].
      split; [apply keepsScan_refl|]. split; [done|]. left. eauto. }
    apply bind_Some in H as ([st3 page] & h3 & Hrd & H).
    apply liftSys_Some in Hrd as (x & s3 & Hrd & [= <- ->]). simpl in *.
    pose proof (readPage_view I bytes f view _ _ _ _ Hpool2 Hrd) as Hpool3.
    destruct (readPage_post _ _ _ _ _ (proj1 Hpool2) Hrd)
      as (_ & _ & _ & Hst3 & _ & Hsome3 & Hfr3).
    apply bind_Some in H as ([] & h4 & [= ->]%setObj_Some & H). simpl in H.
    destruct (negb (isOK st3)) eqn:Hc3.
    { apply bind_Some in H as ([] & h5 & [= ->]%setObj_Some & H).
      apply ret_Some in H. simplify_eq. bool_hyps.
      assert (page = None) as -> by (simpl in Hst3; destruct Hst3 as [?|[?|?]]; congruence).
      split; [by split|]. split; [by repeat split|]. split; [done|]. left. eauto. }
    apply negb_isOK_false in Hc3 as ->.
    apply bind_Some in H as ([] & h5 & [= ->]%setObj_Some & H).
    apply ret_Some in H. simplify_eq. simpl in *.
    destruct (Hsome3 eq_refl) as [fr ->].
    destruct (Hfr3 fr eq_refl) as (_ & fh & [= <-] & Hh).
    split; [|split; [by repeat split|split; [done|right; simpl; eauto]]].
    split; [done|]. split; [done|]. simpl. by intros ? [= <-].
Qed.

End ScanView.

Section PlaceFacts.
Context {PL : PageLayer}.

Lemma keepsScan_trans o1 o2 o3 : keepsScan o1 o2 -> keepsScan o2 o3 -> keepsScan o1 o3.
Proof.
  unfold keepsScan, samePredicate. intros H1 H2. destruct_and!.
  split_and!; congruence.
Qed.

Lemma samePlace_step o o' o1 o1' :
  samePlace o o' -> keepsScan o o1 -> keepsScan o' o1' ->
  curPageNo o1' = curPageNo o1 -> curRec o1' = curRec o1 ->
  is_Some (curPage o1) -> is_Some (curPage o1') ->
  samePlace o1 o1'.
Proof.
  unfold samePlace, keepsScan, samePredicate. intros H H1 H2 Hno Hrec Hs Hs'.
  destruct_and!. split_and!; congruence.
Qed.

Lemma matchRec_same o o' rec : samePredicate o o' -> matchRec o' rec = matchRec o rec.
Proof.
  unfold samePredicate, matchRec. intros (-> & -> & -> & -> & ->). done.
Qed.

Lemma decide4_same o o' pg : samePlace o o' -> decide4 o' pg = decide4 o pg.
Proof.
  intros (_ & _ & _ & Hrec & Hpred & _). unfold decide4, pageStep4. rewrite Hrec.
  destruct (if _ : bool then _ else _) as [st nextRid].
  destruct (_ || _); [done|]. destruct (negb (isOK st)); [done|].
  destruct (pageGetRecord nextRid pg) as [st1 rec]. destruct (negb (isOK st1)); [done|].
  rewrite (matchRec_same _ _ _ Hpred). by destruct Hpred as (_ & _ & _ & -> & _).
Qed.

Lemma decide2_same o o' pg : samePlace o o' -> decide2 o' pg = decide2 o pg.
Proof.
  intros (_ & _ & Hno & Hrec & Hpred & _). unfold decide2, pageStep2. rewrite Hrec, Hno.
  destruct (if _ : bool then _ else _) as [st nextRid].
  destruct (isOK st); [|done].
  destruct (pageGetRecord nextRid pg) as [st1 rec]. destruct (negb (isOK st1)); [done|].
  by rewrite (matchRec_same _ _ _ Hpred).
Qed.

End PlaceFacts.

Section Lockstep.
Context {PL : PageLayer} {FP : FileProvider}.
Variables (I : World -> Prop) (bytes : Z -> Page) (f : File).
Variable turn : M Heap (option Status).
Variable loop : nat -> M Heap Status.
Variable decide : HeapFile -> Page -> Decision.
Hypothesis loop_O : forall h, loop O h = None.
Hypothesis loop_S : forall n h,
  loop (S n) h = (r ← turn; match r with Some st => ret st | None => loop n end) h.
Hypothesis turn_view : forall h r h1,
  scanInv I bytes f h -> turn h = Some (r, h1) ->
  scanInv I bytes f h1 /\ keepsScan (obj h) (obj h1) /\ is_Some (curPage (obj h)) /\
  turnOutcome h (decide (obj h) (bytes (curPageNo (obj h)))) r h1.
Hypothesis decide_same : forall o o' pg, samePlace o o' -> decide o' pg = decide o pg.

(** A loop that ends with [OK] has found a record on its current page. *)
Lemma loop_ok fuel h h1 :
  scanInv I bytes f h -> loop fuel h = Some (OK, h1) ->
  scanInv I bytes f h1 /\ keepsScan (obj h) (obj h1) /\ is_Some (curPage (obj h1)).
Proof.
  revert h. induction fuel as [|fuel IH]; intros h Hinv H; [by rewrite loop_O in H|].
  rewrite loop_S in H. apply bind_Some in H as (r & h2 & Hturn & H).
  destruct (turn_view _ _ _ Hinv Hturn) as (Hinv2 & Hkeep2 & Hsome & Hout).
  destruct r as [st|].
  - apply ret_Some in H. injection H as <- ->. split; [done|]. split; [done|].
    destruct (decide _ _); simpl in Hout.
    + destruct Hout as [_ ->]. done.
    + by destruct Hout.
    + destruct Hout as [(e & [= <-] & He)|[? _]]; done.
    + destruct Hout as [[= <-] He]. done.
  - destruct (IH _ Hinv2 H) as (Hinv1 & Hkeep1 & Hsome1).
    split; [done|]. split; [by eapply keepsScan_trans|done].
Qed.

(** Two loops that start at the same place and both end with [OK] end on the
    same record. *)
Lemma loop_lockstep fuel : forall fuel' h h' h1 h1',
  scanInv I bytes f h -> scanInv I bytes f h' -> samePlace (obj h) (obj h') ->
  loop fuel h = Some (OK, h1) -> loop fuel' h' = Some (OK, h1') ->
  curRec (obj h1') = curRec (obj h1).
Proof.
  induction fuel as [|fuel IH]; intros fuel' h h' h1 h1' Hinv Hinv' Hsame H H';
    [by rewrite loop_O in H|].
  destruct fuel' as [|fuel']; [by rewrite loop_O in H'|].
  rewrite loop_S in H. apply bind_Some in H as (r & h2 & Hturn & H).
  rewrite loop_S in H'. apply bind_Some in H' as (r' & h2' & Hturn' & H').
  destruct (turn_view _ _ _ Hinv Hturn) as (Hinv2 & Hkeep2 & _ & Hout).
  destruct (turn_view _ _ _ Hinv' Hturn') as (Hinv2' & Hkeep2' & _ & Hout').
  pose proof Hsame as (_ & _ & Hno & _ & _ & Hs & Hs').
  rewrite Hno, (decide_same _ _ _ Hsame) in Hout'.
  destruct (decide (obj h) (bytes (curPageNo (obj h)))) as [rid|rid|next|st];
    simpl in Hout, Hout'.
  - destruct Hout as [-> ->]. destruct Hout' as [-> ->].
    apply ret_Some in H, H'. by simplify_eq.
  - destruct Hout as [-> ->]. destruct Hout' as [-> ->].
    eapply (IH fuel'); [exact Hinv2|exact Hinv2'| |exact H|exact H'].
    eapply samePlace_step; eauto.
  - destruct Hout as [(e & -> & He)|(-> & Hs2 & Hno2 & Hrec2)];
      [apply ret_Some in H; by simplify_eq|].
    destruct Hout' as [(e & -> & He)|(-> & Hs2' & Hno2' & Hrec2')];
      [apply ret_Some in H'; by simplify_eq|].
    eapply (IH fuel'); [exact Hinv2|exact Hinv2'| |exact H|exact H'].
    eapply samePlace_step; eauto; congruence.
  - destruct Hout as [-> He]. apply ret_Some in H. by simplify_eq.
Qed.

End Lockstep.

Section RoundTripGeneric.
Context {PL : PageLayer} {FP : FileProvider}.
Variables (I : World -> Prop) (bytes : Z -> Page) (f : File).
Variable mark reset : M Heap Status.
Variable next : nat -> RID -> M Heap (Status * RID).
Variable loop : nat -> M Heap Status.
Hypothesis next_ok : forall fuel rid h r h1,
  is_Some (curPage (obj h)) -> next fuel rid h = Some ((OK, r), h1) ->
  loop fuel h = Some (OK, h1) /\ r = curRec (obj h1).
Hypothesis loop_ok : forall fuel h h1,
  scanInv I bytes f h -> loop fuel h = Some (OK, h1) ->
  scanInv I bytes f h1 /\ keepsScan (obj h) (obj h1) /\ is_Some (curPage (obj h1)).
Hypothesis loop_lockstep : forall fuel fuel' h h' h1 h1',
  scanInv I bytes f h -> scanInv I bytes f h' -> samePlace (obj h) (obj h') ->
  loop fuel h = Some (OK, h1) -> loop fuel' h' = Some (OK, h1') ->
  curRec (obj h1') = curRec (obj h1).
Hypothesis mark_ok : forall h hm,
  mark h = Some (OK, hm) ->
  hm = mkHeap (set_markedRec (curRec (obj h)) (set_markedPageNo (curPageNo (obj h)) (obj h)))
              (sys h).
Hypothesis reset_ok : forall hk hr,
  scanInv I bytes f hk -> is_Some (curPage (obj hk)) -> reset hk = Some (OK, hr) ->
  scanInv I bytes f hr /\ keepsScan (obj hk) (obj hr) /\ is_Some (curPage (obj hr)) /\
  curPageNo (obj hr) = markedPageNo (obj hk) /\ curRec (obj hr) = markedRec (obj hk) /\
  repinned hk hr.

Lemma advanced_inv hm hk :
  advanced next hm hk -> scanInv I bytes f hm -> is_Some (curPage (obj hm)) ->
  scanInv I bytes f hk /\ keepsScan (obj hm) (obj hk) /\ is_Some (curPage (obj hk)).
Proof.
  induction 1 as [h|h fuel rid r h1 h' Hnext Hadv IH]; intros Hinv Hsome.
  - split; [done|]. split; [|done]. by repeat split.
  - destruct (next_ok _ _ _ _ _ Hsome Hnext) as [Hloop _].
    destruct (loop_ok _ _ _ Hinv Hloop) as (Hinv1 & Hkeep1 & Hsome1).
    destruct (IH Hinv1 Hsome1) as (Hinv' & Hkeep' & Hsome').
    split; [done|]. split; [|done]. by eapply keepsScan_trans.
Qed.

Lemma roundTrip_generic h0 :
  scanInv I bytes f h0 -> is_Some (curPage (obj h0)) -> roundTrip mark next reset h0.
Proof.
  intros Hinv0 Hsome0 hm hk hr Hmark Hadv Hreset.
  apply mark_ok in Hmark. subst hm.
  set (hm := mkHeap _ (sys h0)) in *.
  assert (Hinvm : scanInv I bytes f hm) by (destruct Hinv0 as (? & ? & ?); by split).
  assert (Hsomem : is_Some (curPage (obj hm))) by done.
  destruct (advanced_inv _ _ Hadv Hinvm Hsomem) as (Hinvk & Hkeepk & Hsomek).
  destruct (reset_ok _ _ Hinvk Hsomek Hreset)
    as (Hinvr & Hkeepr & Hsomer & Hno & Hrec & Hrepin).
  pose proof Hkeepk as (_ & _ & Hmno & Hmrec & _).
  rewrite Hmno in Hno. rewrite Hmrec in Hrec. simpl in Hno, Hrec.
  split_and!; try done.
  intros fuel1 fuel2 rid1 rid2 r1 r2 h1 h2 H1 H2.
  destruct (next_ok _ _ _ _ _ Hsomem H1) as [Hl1 ->].
  destruct (next_ok _ _ _ _ _ Hsomer H2) as [Hl2 ->].
  symmetry. eapply loop_lockstep; [exact Hinvm|exact Hinvr| |exact Hl1|exact Hl2].
  eapply (samePlace_step hm.(obj) hm.(obj)); eauto.
  - destruct Hinvm as (_ & Hf & _). by repeat split.
  - by repeat split.
  - by eapply keepsScan_trans.
Qed.

End RoundTripGeneric.

Section RoundTrip.
Context {PL : PageLayer} {FP : FileProvider}.
Variables (I : World -> Prop) (bytes : Z -> Page) (f : File).
Hypothesis view : fileView I bytes f.

#[local] Arguments readPage : simpl never.
#[local] Arguments unPinPage : simpl never.
#[local] Arguments liftSys : simpl never.
#[local] Arguments deref : simpl never.
#[local] Arguments readHdr : simpl never.
#[local] Arguments setObj : simpl never.
#[local] Arguments getObj : simpl never.

Lemma scanNext4_ok fuel rid h r h1 :
  is_Some (curPage (obj h)) -> Stage4.scanNext fuel rid h = Some ((OK, r), h1) ->
  Stage4.scanNext_loop fuel h = Some (OK, h1) /\ r = curRec (obj h1).
Proof.
  intros [i Hi] H. unfold Stage4.scanNext in H.
  apply bind_Some in H as (o & h0 & [= -> ->]%getObj_Some & H).
  rewrite Hi in H. simpl in H.
  apply bind_Some in H as (st & h2 & [= -> ->]%ret_Some & H). simpl in H.
  apply bind_Some in H as (st & h2 & Hloop & H).
  apply bind_Some in H as (o & h3 & [= -> ->]%getObj_Some & H).
  destruct (isOK st) eqn:Hst; apply ret_Some in H; simplify_eq.
  apply isOK_true in Hst as ->. done.
Qed.

Lemma scanNext2_ok fuel rid h r h1 :
  is_Some (curPage (obj h)) -> Var2.scanNext fuel rid h = Some ((OK, r), h1) ->
  Var2.scanNext_loop fuel h = Some (OK, h1) /\ r = curRec (obj h1).
Proof.
  intros [i Hi] H. unfold Var2.scanNext in H.
  apply bind_Some in H as (o & h0 & [= -> ->]%getObj_Some & H).
  destruct (headerPage (obj h)); [|apply ret_Some in H; by simplify_eq].
  rewrite Hi in H.
  apply bind_Some in H as (st & h2 & [= -> ->]%ret_Some & H). simpl in H.
  apply bind_Some in H as (st & h2 & Hloop & H).
  apply bind_Some in H as (o & h3 & [= -> ->]%getObj_Some & H).
  destruct (isOK st) eqn:Hst; apply ret_Some in H; simplify_eq.
  apply isOK_true in Hst as ->. done.
Qed.

Lemma markScan4_ok h hm :
  Stage4.markScan h = Some (OK, hm) ->
  hm = mkHeap (set_markedRec (curRec (obj h)) (set_markedPageNo (curPageNo (obj h)) (obj h)))
              (sys h).
Proof.
  unfold Stage4.markScan. intros H.
  apply bind_Some in H as ([] & h1 & [= ->]%setObj_Some & H).
  apply ret_Some in H. by simplify_eq.
Qed.

Lemma markScan2_ok h hm :
  Var2.markScan h = Some (OK, hm) ->
  hm = mkHeap (set_markedRec (curRec (obj h)) (set_markedPageNo (curPageNo (obj h)) (obj h)))
              (sys h).
Proof.
  unfold Var2.markScan. intros H.
  apply bind_Some in H as (o & h0 & [= -> ->]%getObj_Some & H).
  destruct (_ || _); [apply ret_Some in H; by simplify_eq|].
  apply bind_Some in H as ([] & h1 & [= ->]%setObj_Some & H).
  apply ret_Some in H. by simplify_eq.
Qed.

(** What the part of [resetScan] that both variants share does when the
    marked page is not the current page. *)
Lemma reset_repin hk hr i :
  scanInv I bytes f hk -> curPage (obj hk) = Some i ->
  curPageNo (obj hk) <> markedPageNo (obj hk) ->
  (status ← liftSys (unPinPage (filePtr (obj hk)) (curPageNo (obj hk)) (curDirtyFlag (obj hk)));
   if negb (isOK status) then ret status
   else
     setObj (fun o => set_curRec (markedRec o) (set_curPageNo (markedPageNo o) o)) ;;
     '(status, page) ← liftSys (readPage (filePtr (obj hk)) (markedPageNo (obj hk)));
     setObj (fun o => match page with Some _ => set_curPage page o | None => o end) ;;
     if negb (isOK status) then ret status
     else
       setObj (set_curDirtyFlag false) ;;
       ret OK) hk = Some (OK, hr) ->
  scanInv I bytes f hr /\ keepsScan (obj hk) (obj hr) /\ is_Some (curPage (obj hr)) /\
  curPageNo (obj hr) = markedPageNo (obj hk) /\ curRec (obj hr) = markedRec (obj hk) /\
  repinned hk hr.
Proof.
  intros Hinv Hi Hne H. pose proof Hinv as (Hpool & Hf & Hcurp).
  apply bind_Some in H as (x & h1 & Hun & H).
  apply liftSys_Some in Hun as (st & s1 & Hun & [= -> ->]).
  destruct (negb (isOK st)) eqn:Hst; [apply ret_Some in H; simplify_eq; by bool_hyps|].
  apply negb_isOK_false in Hst as ->.
  apply bind_Some in H as ([] & h2 & [= ->]%setObj_Some & H). simpl in H.
  apply bind_Some in H as ([st3 page] & h3 & Hrd & H).
  apply liftSys_Some in Hrd as (x & s3 & Hrd & [= <- ->]). simpl in *.
  apply bind_Some in H as ([] & h4 & [= ->]%setObj_Some & H). simpl in H.
  destruct (negb (isOK st3)) eqn:Hst3; [apply ret_Some in H; simplify_eq; by bool_hyps|].
  apply negb_isOK_false in Hst3 as ->.
  apply bind_Some in H as ([] & h5 & [= ->]%setObj_Some & H).
  apply ret_Some in H. simplify_eq. simpl.
  rewrite Hf in Hun, Hrd.
  pose proof (unPinPage_view I bytes f _ _ _ _ _ _ Hpool Hun) as Hpool1.
  pose proof (readPage_view I bytes f view _ _ _ _ Hpool1 Hrd) as Hpool3.
  destruct (readPage_post _ _ _ _ _ (proj1 Hpool1) Hrd)
    as (_ & _ & _ & _ & _ & Hsome3 & Hfr3).
  simpl in Hsome3, Hfr3.
  destruct (Hsome3 eq_refl) as [fr ->]. simpl in *.
  destruct (Hfr3 fr eq_refl) as (_ & fh & [= <-] & Hh).
  split_and!; try done.
  - split; [done|]. split; [done|]. simpl. by intros ? [= <-].
  - split; [done|]. intros _. rewrite Hf. exists s1, fr. done.
Qed.

Lemma resetScan4_ok hk hr :
  scanInv I bytes f hk -> is_Some (curPage (obj hk)) ->
  Stage4.resetScan hk = Some (OK, hr) ->
  scanInv I bytes f hr /\ keepsScan (obj hk) (obj hr) /\ is_Some (curPage (obj hr)) /\
  curPageNo (obj hr) = markedPageNo (obj hk) /\ curRec (obj hr) = markedRec (obj hk) /\
  repinned hk hr.
Proof.
  intros Hinv [i Hi] H. unfold Stage4.resetScan in H.
  apply bind_Some in H as (o & h0 & [= -> ->]%getObj_Some & H).
  destruct (negb (markedPageNo (obj hk) =? curPageNo (obj hk))) eqn:Hc; bool_hyps.
  - rewrite Hi in H. by eapply reset_repin.
  - apply bind_Some in H as ([] & h1 & [= ->]%setObj_Some & H).
    apply ret_Some in H. simplify_eq. simpl.
    destruct Hinv as (Hpool & Hf & Hcurp).
    split_and!; try done; eauto.
Qed.

Lemma resetScan2_ok hk hr :
  scanInv I bytes f hk -> is_Some (curPage (obj hk)) ->
  Var2.resetScan hk = Some (OK, hr) ->
  scanInv I bytes f hr /\ keepsScan (obj hk) (obj hr) /\ is_Some (curPage (obj hr)) /\
  curPageNo (obj hr) = markedPageNo (obj hk) /\ curRec (obj hr) = markedRec (obj hk) /\
  repinned hk hr.
Proof.
  intros Hinv [i Hi] H. unfold Var2.resetScan in H.
  apply bind_Some in H as (o & h0 & [= -> ->]%getObj_Some & H).
  destruct (markedPageNo (obj hk) <? 0); [apply ret_Some in H; by simplify_eq|].
  rewrite Hi in H. rewrite bool_decide_false in H by done. simpl in H.
  destruct (negb (markedPageNo (obj hk) =? curPageNo (obj hk))) eqn:Hc; bool_hyps.
  - by eapply reset_repin.
  - apply bind_Some in H as ([] & h1 & [= ->]%setObj_Some & H).
    apply ret_Some in H. simplify_eq. simpl.
    destruct Hinv as (Hpool & Hf & Hcurp).
    split_and!; try done; eauto.
Qed.


End RoundTrip.

Section RoundTripRuns.
Import Sim.

Lemma pageOnDisk_write g p pg w q :
  pageOnDisk (mkTWorld ((g, p, pg) :: wDisk w) (wNames w) (wFirst w) (wNextPage w)
                       (wFailWrites w)) q =
  if decide ((g, p) = (2%nat, q)) then pg else pageOnDisk w q.
Proof. unfold pageOnDisk. simpl. by repeat case_decide. Qed.

Lemma tRead_pageOnDisk p old w :
  tRead 2%nat p old w = if p <? 0 then (BADPAGENO, old, w) else (OK, pageOnDisk w p, w).
Proof.
  unfold tRead, pageOnDisk. destruct (p <? 0); [done|].
  change (@assoc (File * Z) TPage _ (2%nat, p) (wDisk w))
    with (@assoc (nat * Z) TPage _ (2%nat, p) (wDisk w)).
  by destruct (assoc (2%nat, p) (wDisk w)).
Qed.

Lemma simProvider_view : fileView diskKept diskBytes 2%nat.
Proof.
  split.
  - intros p old w st pg w' Hw.
    change (@fpReadPage simPages simProvider 2%nat p old w) with (tRead 2%nat p old w).
    rewrite tRead_pageOnDisk.
    destruct (p <? 0); intros H; injection H as <- <- <-; (split; [exact Hw|]).
    + discriminate.
    + intros _. apply Hw.
  - intros p w st w' Hw.
    change (@fpWritePage simPages simProvider 2%nat p (diskBytes p) w) with (tWrite 2%nat p (diskBytes p) w).
    unfold tWrite. destruct (wFailWrites w) eqn:Hfail; intros H; injection H as <- <-;
      [exact Hw|].
    intros q. rewrite <- Hfail, pageOnDisk_write.
    case_decide as Heq; [|apply Hw].
    injection Heq as ->. reflexivity.
  - intros g p pg w st w' Hg Hw.
    change (@fpWritePage simPages simProvider g p pg w) with (tWrite g p pg w).
    unfold tWrite. destruct (wFailWrites w) eqn:Hfail; intros H; injection H as <- <-;
      [exact Hw|].
    intros q. rewrite <- Hfail, pageOnDisk_write.
    case_decide as Heq; [|apply Hw].
    injection Heq as -> ->. by destruct Hg.
Qed.

Lemma fourth4_inv : scanInv diskKept diskBytes 2%nat fourth4.
Proof.
  split; [split; [|split]|split].
  - apply wfb_sound. vm_compute. reflexivity.
  - intros p. unfold diskBytes, pageOnDisk.
    assert (wDisk (world (sys fourth4)) = wDisk (world loaded10)) as ->
      by (vm_compute; reflexivity).
    reflexivity.
  - intros p i Hh. apply elem_of_map_to_list in Hh.
    match type of Hh with _ ∈ ?l => set (entries := l) in Hh end.
    vm_compute in entries. subst entries.
    repeat (apply elem_of_cons in Hh as [Heq|Hh];
            [injection Heq as -> ->; vm_compute; reflexivity|]).
    by apply elem_of_nil in Hh.
  - vm_compute. reflexivity.
  - intros i Hi.
    assert (curPage (obj fourth4) = Some 3%nat) as Hc by (vm_compute; reflexivity).
    rewrite Hc in Hi. injection Hi as <-. vm_compute. reflexivity.
Qed.


(** The run of the specification: mark at the fourth record, advance to the
    seventh, reset, and the next record is the fifth, in both variants. *)
Lemma mark_reset_run4 :
  curRec (obj fourth4) = mkRID 3 1 /\
  Stage4.markScan fourth4 = Some (OK, marked4) /\
  advanced Stage4.scanNext marked4 seventh4 /\ curRec (obj seventh4) = mkRID 5 0 /\
  Stage4.resetScan seventh4 = Some (OK, back4) /\
  curPageNo (obj back4) = 3 /\ curRec (obj back4) = mkRID 3 1 /\
  pins (bm (sys back4)) 2%nat 3 = 1 /\ pins (bm (sys back4)) 2%nat 5 = 0 /\
  fst <$> next4 back4 = Some (OK, mkRID 4 0).
Proof.
  split; [vm_compute; reflexivity|].
  split; [vm_compute; reflexivity|].
  split.
  { eapply (advanced_step _ _ 10 NULLRID (mkRID 4 0) (exec next4 marked4));
      [vm_compute; reflexivity|].
    eapply (advanced_step _ _ 10 NULLRID (mkRID 4 1) sixth4); [vm_compute; reflexivity|].
    eapply (advanced_step _ _ 10 NULLRID (mkRID 5 0) seventh4); [vm_compute; reflexivity|].
    apply advanced_refl. }
  split; [vm_compute; reflexivity|].
  split; [vm_compute; reflexivity|].
  split; [vm_compute; reflexivity|].
  split; [vm_compute; reflexivity|].
  split; [vm_compute; reflexivity|].
  split; [vm_compute; reflexivity|].
  vm_compute. reflexivity.
Qed.

Lemma mark_reset_run2 :
  curRec (obj fourth2) = mkRID 3 1 /\
  Var2.markScan fourth2 = Some (OK, marked2) /\
  advanced Var2.scanNext marked2 seventh2 /\ curRec (obj seventh2) = mkRID 5 0 /\
  Var2.resetScan seventh2 = Some (OK, back2) /\
  curPageNo (obj back2) = 3 /\ curRec (obj back2) = mkRID 3 1 /\
  pins (bm (sys back2)) 2%nat 3 = 1 /\ pins (bm (sys back2)) 2%nat 5 = 0 /\
  fst <$> next2 back2 = Some (OK, mkRID 4 0).
Proof.
  split; [vm_compute; reflexivity|].
  split; [vm_compute; reflexivity|].
  split.
  { eapply (advanced_step _ _ 10 NULLRID (mkRID 4 0) (exec next2 marked2));
      [vm_compute; reflexivity|].
    eapply (advanced_step _ _ 10 NULLRID (mkRID 4 1) sixth2); [vm_compute; reflexivity|].
    eapply (advanced_step _ _ 10 NULLRID (mkRID 5 0) seventh2); [vm_compute; reflexivity|].
    apply advanced_refl. }
  split; [vm_compute; reflexivity|].
  split; [vm_compute; reflexivity|].
  split; [vm_compute; reflexivity|].
  split; [vm_compute; reflexivity|].
  split; [vm_compute; reflexivity|].
  split; [vm_compute; reflexivity|].
  vm_compute. reflexivity.
Qed.

End RoundTripRuns.

(** ** The buffer manager: pins, frames and write-back *)

Section PoolUse.
Context {PL : PageLayer} {FP : FileProvider}.
Implicit Types (b : BufMgr) (s : Sys) (d : BufDesc) (i : nat).


(** X2. Reading a page that a first [readPage] has brought in: the second
    call returns the same frame without any call to the provider, without
    touching the bytes of the pool or the hash table, and the page is then
    pinned twice more than at the start. *)
Theorem readPage_twice_same_frame fh p s fr s1 :
  wf (bm s) -> readPage (Some fh) p s = Some ((OK, Some fr), s1) ->
  exists s2, readPage (Some fh) p s1 = Some ((OK, Some fr), s2) /\
    world s2 = world s1 /\ calls s2 = calls s1 /\
    bufPool (bm s2) = bufPool (bm s1) /\ hashTable (bm s2) = hashTable (bm s1) /\
    pins (bm s2) fh p = pins (bm s) fh p + 2.
Proof.
  intros Hwf H.
  destruct (readPage_post _ _ _ _ _ Hwf H) as (Hwf1 & _ & _ & _ & Hpins & _ & Hfr).
  destruct (Hfr fr eq_refl) as (_ & fh' & [= <-] & Hh).
  pose proof Hh as (d & Hd & _)%(wf_hash _ Hwf1).
  pose proof (readPage_hit _ _ _ _ _ Hh Hd) as H2.
  eexists. split; [exact H2|]. split_and!; try done.
  destruct (readPage_post _ _ _ _ _ Hwf1 H2) as (_ & _ & _ & _ & Hpins2 & _).
  rewrite Hpins2, Hpins. simpl. rewrite !bool_decide_true by done. lia.
Qed.

(** X3. [BufMgr::unPinPage] on a well-formed pool always returns.  For a
    page that is not resident it returns [HASHNOTFOUND], for a resident page
    with pin count zero [PAGENOTPINNED], in both cases changing nothing.
    Otherwise it returns [OK]: the pin count of the page goes down by one,
    the dirty bit of its frame becomes the old bit or-ed with the argument
    (it is never cleared), and the bytes of the pool, the hash table and the
    provider are left alone. *)
Theorem unPinPage_cases fh p dty s :
  wf (bm s) ->
  exists st s', unPinPage (Some fh) p dty s = Some (st, s') /\
    (hashTable (bm s) !! (fh, p) = None -> st = HASHNOTFOUND /\ s' = s) /\
    (is_Some (hashTable (bm s) !! (fh, p)) -> pins (bm s) fh p = 0 ->
       st = PAGENOTPINNED /\ s' = s) /\
    (0 < pins (bm s) fh p ->
       st = OK /\ wf (bm s') /\
       bufPool (bm s') = bufPool (bm s) /\ hashTable (bm s') = hashTable (bm s) /\
       world s' = world s /\ calls s' = calls s /\
       (forall g q, pins (bm s') g q =
          pins (bm s) g q - (if bool_decide (fh = g /\ p = q) then 1 else 0)) /\
       exists i d, hashTable (bm s) !! (fh, p) = Some i /\ bufTable (bm s) !! i = Some d /\
         bufTable (bm s') !! i =
           Some (setDirty (dirty d || dty) (setPinCnt (pinCnt d - 1) d))).
Proof.
  intros Hwf.
  destruct (unPinPage_total (Some fh) p dty s Hwf) as (st & s' & H).
  exists st, s'. split; [done|].
  destruct (unPinPage_post _ _ _ _ _ _ Hwf H)
    as (Hwf' & _ & Hpool & Hhash & Hw & Hc & _ & _ & _ & Hok & Hpins & Hdesc).
  split_and!.
  - intros Hnone. rewrite unPinPage_absent in H by (by intros ? [= <-]). by simplify_eq.
  - intros [i Hi] Hzero. pose proof Hi as (d & Hd & _)%(wf_hash _ Hwf).
    rewrite (unPinPage_resident _ _ _ _ _ _ Hi Hd) in H.
    rewrite (pins_resident _ _ _ _ _ Hi Hd) in Hzero. rewrite Hzero in H. simpl in H.
    by simplify_eq.
  - intros Hpos. assert (st = OK) as -> by (apply Hok; eauto).
    split_and!; try done.
    + intros g q. rewrite Hpins.
      repeat case_bool_decide; try lia; exfalso; destruct_and?; simplify_eq; tauto.
    + destruct (Hdesc eq_refl) as (fh' & i & d & [= <-] & Hi & Hd & Htab).
      exists i, d. split_and!; try done. rewrite Htab.
      apply list_lookup_insert_eq. by eapply lookup_lt_Some.
Qed.

(** X4. Pinning and unpinning compose to nothing on the pin counts: after
    a [readPage] that returns [OK], [unPinPage] of the same page returns
    [OK], every page has the pin count it had before the read, and the page
    is still resident in the same frame. *)
Theorem readPage_unPinPage_round_trip fh p dty s fr s1 :
  wf (bm s) -> readPage (Some fh) p s = Some ((OK, Some fr), s1) ->
  exists s2, unPinPage (Some fh) p dty s1 = Some (OK, s2) /\
    (forall g q, pins (bm s2) g q = pins (bm s) g q) /\
    hashTable (bm s2) !! (fh, p) = Some fr /\
    bufPool (bm s2) = bufPool (bm s1) /\ world s2 = world s1 /\ calls s2 = calls s1.
Proof.
  intros Hwf H.
  destruct (readPage_post _ _ _ _ _ Hwf H) as (Hwf1 & _ & _ & _ & Hpins & _ & Hfr).
  destruct (Hfr fr eq_refl) as (_ & fh' & [= <-] & Hh).
  destruct (unPinPage_total (Some fh) p dty s1 Hwf1) as (st & s2 & H2).
  destruct (unPinPage_post _ _ _ _ _ _ Hwf1 H2)
    as (_ & _ & Hpool & Hhash & Hw & Hc & _ & _ & _ & Hok & Hpins2 & _).
  assert (st = OK) as ->.
  { apply Hok. exists fh. split; [done|]. rewrite Hpins. simpl.
    rewrite bool_decide_true by done. pose proof (pins_nonneg (bm s) fh p Hwf). lia. }
  exists s2. split_and!; try done; [|by rewrite Hhash].
  intros g q. rewrite Hpins2, Hpins. simpl.
  repeat case_bool_decide; try lia; exfalso; destruct_and?; simplify_eq; tauto.
Qed.

(** [allocBuf] calls the provider only to write its victim back. *)
Lemma allocBuf_calls_writes s out s' :
  allocBuf s = Some (out, s') ->
  exists l, calls s' = calls s ++ l /\ (length l <= 1)%nat /\ Forall isWrite l.
Proof.
  unfold allocBuf. intros H.
  apply bind_Some in H as (n & s0 & [= -> ->]%gets_Some & H).
  apply allocBuf_loop_spec in H as (s1 & k & _ & _ & _ & Hc & _ & _ & Hfin).
  assert (Hnil : exists l, calls s1 = calls s ++ l /\ (length l <= 1)%nat /\ Forall isWrite l).
  { exists []. rewrite app_nil_r. split; [done|]. split; [simpl; lia|constructor]. }
  assert (forall d st s2, writtenBack s1 (clockHand (bm s1)) d st s2 ->
            exists l, calls s2 = calls s ++ l /\ (length l <= 1)%nat /\ Forall isWrite l) as Hwb.
  { intros d st s2. unfold writtenBack. destruct (dirty d).
    - intros (f & pg & w' & _ & _ & _ & ->). simpl. rewrite Hc.
      exists [CWritePage f (pageNo d) pg]. split; [done|]. split; [done|].
      apply Forall_singleton. by eexists _, _, _.
    - by intros [_ ->]. }
  destruct Hfin as [(_ & _ & ->)|[_ Hfin]]; [done|].
  destruct Hfin; simpl; eauto.
Qed.

(** X5. [BufMgr::allocPage] on a well-formed pool.  The provider is asked
    for a page first, and apart from that only for the write-back of at most
    one victim; the bytes of the pool are not touched.  On [OK] the new page
    was not pinned before and is now resident, pinned exactly once, in a
    clean frame; otherwise no page is returned and no pin count changes, and
    the page the provider may have allocated is not given back to it. *)
Theorem allocPage_fresh_pin f s st pno page s' :
  wf (bm s) -> allocPage f s = Some ((st, pno, page), s') ->
  wf (bm s') /\ bufPool (bm s') = bufPool (bm s) /\
  (exists fh l, f = Some fh /\ calls s' = calls s ++ [CAllocatePage fh] ++ l /\
     (length l <= 1)%nat /\ Forall isWrite l) /\
  (st = OK -> exists fh fr d, f = Some fh /\ page = Some fr /\
     hashTable (bm s') !! (fh, pno) = Some fr /\
     bufTable (bm s') !! fr = Some d /\ pinCnt d = 1 /\ dirty d = false /\ valid d = true /\
     pins (bm s) fh pno = 0 /\ pins (bm s') fh pno = 1 /\
     forall g q, (g, q) <> (fh, pno) -> pins (bm s') g q = pins (bm s) g q) /\
  (st <> OK -> page = None /\ forall g q, pins (bm s') g q = pins (bm s) g q).
Proof.
  intros Hwf H.
  destruct (allocPage_post _ _ _ _ _ _ Hwf H) as (Hwf' & _ & Hpool & _ & Hpins & Hnone & Hok).
  split; [done|]. split; [done|]. split.
  { unfold allocPage in H.
    apply bind_Some in H as ([err0 pno0] & s0 & Hal & H).
    apply fileAllocatePage_Some in Hal as (fh & err & p0 & w' & -> & Hal & [= -> -> ->]).
    exists fh.
    destruct (negb (isOK err)).
    { apply ret_Some in H. simplify_eq. exists []. simpl.
      split_and!; [done|done|lia|constructor]. }
    apply bind_Some in H as ([err1 fr] & s1 & Hab & H).
    apply allocBuf_calls_writes in Hab as (l & Hl & Hlen & Hall). simpl in Hl.
    exists l. split; [done|]. split; [|done].
    destruct (negb (isOK err1)).
    { apply ret_Some in H. simplify_eq. by rewrite Hl, <- app_assoc. }
    destruct fr as [fr|]; [|done].
    apply bind_Some in H as (err2 & s2 & Hins & H).
    apply hashInsert_Some in Hins as [[_ [= -> ->]]|[_ [= -> ->]]]; simpl in H.
    { apply ret_Some in H. simplify_eq. by rewrite Hl, <- app_assoc. }
    apply bind_Some in H as (d & s3 & (d0 & Hd0 & [= -> ->])%getDesc_Some & H).
    apply bind_Some in H as ([] & s4 & [= ->]%modify_Some & H).
    apply ret_Some in H. simplify_eq. simpl. by rewrite Hl, <- app_assoc. }
  split.
  - intros ->. destruct (Hok eq_refl) as (fh & fr & d & -> & -> & Hh & Hd).
    destruct (allocPage_fresh _ _ _ _ _ Hwf H) as (Hzero & Hone & _).
    exists fh, fr, (BufDesc_Set fh pno d). split_and!; try done.
    intros g q Hne. rewrite Hpins. rewrite bool_decide_false; [lia|].
    intros (_ & [= <-] & <-). done.
  - intros Hst. split; [by apply Hnone|]. intros g q. rewrite Hpins.
    rewrite bool_decide_false; [lia|]. by intros (? & _).
Qed.

(** X6. [BufMgr::disposePage] does not look at the pin count and writes
    nothing back: whatever the state of the page, the only call to the
    provider is its [disposePage], whose status is returned, and afterwards
    the page is not resident and has pin count zero, while every other page
    keeps its frame and its pin count. *)
Theorem disposePage_drops_page fh p s :
  wf (bm s) ->
  exists s', disposePage (Some fh) p s = Some (fst (fpDisposePage fh p (world s)), s') /\
    world s' = snd (fpDisposePage fh p (world s)) /\
    calls s' = calls s ++ [CDisposePage fh p] /\
    bufPool (bm s') = bufPool (bm s) /\
    hashTable (bm s') = delete (fh, p) (hashTable (bm s)) /\
    pins (bm s') fh p = 0 /\
    (forall g q, (g, q) <> (fh, p) -> pins (bm s') g q = pins (bm s) g q).
Proof.
  intros Hwf.
  assert (exists s', disposePage (Some fh) p s = Some (fst (fpDisposePage fh p (world s)), s') /\
            world s' = snd (fpDisposePage fh p (world s)) /\
            calls s' = calls s ++ [CDisposePage fh p] /\
            bufPool (bm s') = bufPool (bm s) /\
            hashTable (bm s') = delete (fh, p) (hashTable (bm s))) as (s' & H & Hrest).
  { destruct (hashTable (bm s) !! (fh, p)) as [i|] eqn:Ei.
    - pose proof Ei as (d & Hd & _)%(wf_hash _ Hwf).
      rewrite (disposePage_resident _ _ _ _ _ Ei Hd). eexists. split; [done|]. done.
    - rewrite (disposePage_absent _ _ _ Ei). eexists. split; [done|]. simpl.
      split_and!; try done. by rewrite delete_id. }
  exists s'. split; [done|]. destruct Hrest as (Hw & Hc & Hpool & Hhash).
  split_and!; try done.
  - unfold pins. by rewrite Hhash, lookup_delete_eq.
  - intros g q Hne.
    destruct (disposePage_post _ _ _ _ _ Hwf H) as (_ & _ & _ & fh' & [= <-] & Hpins & _).
    rewrite Hpins. by rewrite decide_False.
Qed.

Lemma BufMgr_dtor_loop_spec n : forall i s,
  wf (bm s) -> (i + n <= numBufs (bm s))%nat ->
  exists s', BufMgr_dtor_loop i n s = Some (tt, s') /\ bm s' = bm s /\
    calls s' = calls s ++
      concat (imap (fun k => dirtyFrameWrite (bm s) (i + k)) (take n (drop i (bufTable (bm s))))).
Proof.
  induction n as [|n IH]; intros i s Hwf Hin.
  { exists s. simpl. by rewrite app_nil_r. }
  destruct (lookup_lt_is_Some_2 (bufTable (bm s)) i) as [d Hd].
  { rewrite (wf_table_len _ Hwf). lia. }
  destruct (lookup_lt_is_Some_2 (bufPool (bm s)) i) as [pg Hpg].
  { rewrite (wf_pool_len _ Hwf). lia. }
  assert (exists s1, BufMgr_dtor_turn i s = Some (tt, s1) /\ bm s1 = bm s /\
            calls s1 = calls s ++ dirtyFrameWrite (bm s) i d) as (s1 & Hturn & Hbm1 & Hc1).
  { unfold BufMgr_dtor_turn, dirtyFrameWrite.
    destruct (valid d && dirty d) eqn:Hvd.
    - pose proof Hvd as [Hv _]%andb_true_iff.
      destruct (wf_owner _ Hwf _ _ Hd Hv) as [fh Hfh]. rewrite Hfh, Hpg.
      destruct (fpWritePage fh (pageNo d) pg (world s)) as [st w'] eqn:Hw.
      exists (mkSys (bm s) w' (calls s ++ [CWritePage fh (pageNo d) pg])). split; [|done].
      eapply bind_eq; [apply getDesc_Some; eauto|]. rewrite Hvd.
      eapply bind_eq; [apply getFrame_Some; eauto|].
      eapply (bind_eq _ _ _ st); [|reflexivity].
      rewrite Hfh. apply fileWritePage_Some. eauto 10.
    - exists s. split; [|by rewrite app_nil_r].
      eapply bind_eq; [apply getDesc_Some; eauto|]. by rewrite Hvd. }
  destruct (IH (S i) s1) as (s' & Hloop & Hbm' & Hc'); [by rewrite Hbm1|rewrite Hbm1; lia|].
  exists s'. split; [|split; [congruence|]].
  - simpl. eapply bind_eq; [exact Hturn|exact Hloop].
  - rewrite Hc', Hc1, Hbm1, <- app_assoc. f_equal.
    rewrite (drop_S _ _ _ Hd). simpl. rewrite Nat.add_0_r. f_equal. f_equal.
    apply imap_ext. intros k x _. simpl. f_equal. lia.
Qed.

(** X7. [BufMgr::~BufMgr()] on a well-formed pool returns, and what it asks
    of the provider is exactly one [writePage] for each frame that is valid
    and dirty, in the order of the frames, with the page number and the
    bytes of that frame, pinned or not; whatever the provider answers, the
    descriptors, the bytes and the hash table are as before when the arrays
    are freed: the loop clears no dirty bit. *)
Theorem BufMgr_dtor_writes_dirty_frames s :
  wf (bm s) ->
  exists s', BufMgr_dtor s = Some (tt, s') /\ bm s' = bm s /\
    calls s' = calls s ++ dirtyWrites (bm s).
Proof.
  intros Hwf. destruct (BufMgr_dtor_loop_spec (numBufs (bm s)) 0 s Hwf) as (s' & H & Hbm & Hc);
    [lia|].
  exists s'. split; [|split; [done|]].
  - unfold BufMgr_dtor. eapply bind_eq; [reflexivity|exact H].
  - rewrite Hc. unfold dirtyWrites. rewrite drop_0, <- (wf_table_len _ Hwf), take_ge by lia.
    done.
Qed.

(** X8. What holds in every state of a pool that is reached from a new pool
    by the operations of [BufMgr] that return (pages being disposed of only
    when unpinned) and by writes of pin holders to their frames: there is one
    descriptor and one page per frame; a page is in the hash table exactly
    when a valid frame holds it; no page is held by two valid frames and no
    frame by two hash entries; and no pin count is negative. *)
Theorem pool_invariant s :
  reachable s ->
  length (bufTable (bm s)) = numBufs (bm s) /\
  length (bufPool (bm s)) = numBufs (bm s) /\
  (forall f p i, hashTable (bm s) !! (f, p) = Some i <->
     exists d, bufTable (bm s) !! i = Some d /\ valid d = true /\
               file d = Some f /\ pageNo d = p) /\
  (forall i j d d', bufTable (bm s) !! i = Some d -> bufTable (bm s) !! j = Some d' ->
     valid d = true -> valid d' = true -> file d' = file d -> pageNo d' = pageNo d ->
     i = j) /\
  (forall f p g q i, hashTable (bm s) !! (f, p) = Some i ->
     hashTable (bm s) !! (g, q) = Some i -> (f, p) = (g, q)) /\
  (forall i d, bufTable (bm s) !! i = Some d -> 0 <= pinCnt d) /\
  (forall f p, 0 <= pins (bm s) f p).
Proof.
  intros Hwf%reachable_wf. split_and!.
  - apply Hwf.
  - apply Hwf.
  - apply Hwf.
  - intros. by eapply wf_unique.
  - intros. by eapply wf_hash_inj.
  - apply Hwf.
  - intros. by apply pins_nonneg.
Qed.

End PoolUse.

(** ** Scans return matching records *)

Section ScanSoundness.
Context {PL : PageLayer} {FP : FileProvider}.

#[local] Arguments readPage : simpl never.
#[local] Arguments unPinPage : simpl never.
#[local] Arguments liftSys : simpl never.
#[local] Arguments deref : simpl never.
#[local] Arguments readHdr : simpl never.
#[local] Arguments setObj : simpl never.
#[local] Arguments getObj : simpl never.

(** What it means that the scan stands on a record that matches its
    predicate: the current page holds a record at [curRec] and [matchRec]
    accepts it. *)
Lemma matchRec_unfiltered o rec : scanFilter o = None -> matchRec o rec = true.
Proof. unfold matchRec. by intros ->. Qed.

Lemma scanNext4_turn_found h h1 :
  Stage4.scanNext_turn h = Some (Some OK, h1) ->
  onMatch h1 /\ samePredicate (obj h) (obj h1).
Proof.
  intros H. unfold Stage4.scanNext_turn in H.
  apply bind_Some in H as (o & h0 & [= -> ->]%getObj_Some & H).
  apply bind_Some in H as (pg & h0 & (i & pg0 & Hcur & Hpg & [= -> ->])%deref_Some & H).
  destruct (if _ : bool then _ else _) as [st nextRid].
  destruct (bool_decide (st = ENDOFPAGE) || bool_decide (st = NORECORDS)).
  - destruct (pageGetNextPage pg0) as [st1 nextPageNo].
    destruct (negb (isOK st1)) eqn:Hc1; [apply ret_Some in H; simplify_eq; by bool_hyps|].
    apply bind_Some in H as (st2 & h2 & _ & H).
    destruct (negb (isOK st2)) eqn:Hc2; [apply ret_Some in H; simplify_eq; by bool_hyps|].
    apply bind_Some in H as ([] & h3 & _ & H).
    destruct (nextPageNo =? -1).
    { apply bind_Some in H as ([] & h4 & _ & H). apply ret_Some in H. by simplify_eq. }
    apply bind_Some in H as ([st3 page] & h4 & _ & H).
    apply bind_Some in H as ([] & h5 & _ & H).
    destruct (negb (isOK st3)) eqn:Hc3; [apply ret_Some in H; simplify_eq; by bool_hyps|].
    apply bind_Some in H as ([] & h6 & _ & H). apply ret_Some in H. by simplify_eq.
  - destruct (negb (isOK st)) eqn:Hc; [apply ret_Some in H; simplify_eq; by bool_hyps|].
    apply bind_Some in H as ([] & h1' & [= ->]%setObj_Some & H). simpl in H.
    destruct (pageGetRecord nextRid pg0) as [st1 rec] eqn:Hget.
    destruct (negb (isOK st1)) eqn:Hc1; [apply ret_Some in H; simplify_eq; by bool_hyps|].
    apply negb_isOK_false in Hc1 as ->.
    destruct (bool_decide (scanFilter (obj h) = None) || matchRec (obj h) rec) eqn:Hm;
      apply ret_Some in H; [|by simplify_eq].
    injection H as Hh. subst h1. split; [|by repeat split].
    exists i, pg0, rec. simpl. split_and!; try done.
    apply orb_true_iff in Hm as [Hm%bool_decide_eq_true|Hm]; [|done].
    by apply matchRec_unfiltered.
Qed.

Lemma scanNext2_turn_found h h1 :
  Var2.scanNext_turn h = Some (Some OK, h1) ->
  onMatch h1 /\ samePredicate (obj h) (obj h1).
Proof.
  intros H. unfold Var2.scanNext_turn in H.
  apply bind_Some in H as (o & h0 & [= -> ->]%getObj_Some & H).
  apply bind_Some in H as (pg & h0 & (i & pg0 & Hcur & Hpg & [= -> ->])%deref_Some & H).
  destruct (if _ : bool then _ else _) as [st nextRid].
  destruct (isOK st) eqn:Hst.
  - destruct (pageGetRecord nextRid pg0) as [st1 rec] eqn:Hget.
    destruct (negb (isOK st1)) eqn:Hc1; [apply ret_Some in H; simplify_eq; by bool_hyps|].
    apply negb_isOK_false in Hc1 as ->.
    apply bind_Some in H as ([] & h1' & [= ->]%setObj_Some & H). simpl in H.
    destruct (matchRec (obj h) rec) eqn:Hm; apply ret_Some in H; [|by simplify_eq].
    injection H as Hh. subst h1. split; [|by repeat split].
    exists i, pg0, rec. simpl. by split_and!.
  - apply isOK_false in Hst.
    destruct (negb (bool_decide (st = ENDOFPAGE)) && negb (bool_decide (st = NORECORDS)));
      [apply ret_Some in H; by simplify_eq|].
    destruct (pageGetNextPage pg0) as [st1 nextPageNo].
    destruct (negb (isOK st1)) eqn:Hc1; [apply ret_Some in H; simplify_eq; by bool_hyps|].
    destruct (nextPageNo =? -1); [apply ret_Some in H; by simplify_eq|].
    apply bind_Some in H as (st2 & h2 & _ & H).
    destruct (negb (isOK st2)) eqn:Hc2; [apply ret_Some in H; simplify_eq; by bool_hyps|].
    apply bind_Some in H as ([st3 page] & h4 & _ & H).
    apply bind_Some in H as ([] & h5 & _ & H).
    destruct (negb (isOK st3)) eqn:Hc3.
    { apply bind_Some in H as ([] & h6 & _ & H). apply ret_Some in H. simplify_eq; try by bool_hyps. }
    apply bind_Some in H as ([] & h6 & _ & H). apply ret_Some in H. by simplify_eq.
Qed.

Lemma scanNext4_loop_found fuel : forall h h1,
  Stage4.scanNext_loop fuel h = Some (OK, h1) -> onMatch h1.
Proof.
  induction fuel as [|fuel IH]; intros h h1 H; [done|].
  simpl in H. apply bind_Some in H as (r & h2 & Hturn & H).
  destruct r as [st|]; [|by eapply IH].
  apply ret_Some in H. simplify_eq. by apply scanNext4_turn_found in Hturn as [? _].
Qed.

Lemma scanNext2_loop_found fuel : forall h h1,
  Var2.scanNext_loop fuel h = Some (OK, h1) -> onMatch h1.
Proof.
  induction fuel as [|fuel IH]; intros h h1 H; [done|].
  simpl in H. apply bind_Some in H as (r & h2 & Hturn & H).
  destruct r as [st|]; [|by eapply IH].
  apply ret_Some in H. simplify_eq. by apply scanNext2_turn_found in Hturn as [? _].
Qed.

Lemma scanNext4_found fuel outRid h r h' :
  Stage4.scanNext fuel outRid h = Some ((OK, r), h') -> r = curRec (obj h') /\ onMatch h'.
Proof.
  intros H. unfold Stage4.scanNext in H.
  apply bind_Some in H as (o & h0 & [= -> ->]%getObj_Some & H).
  destruct (bool_decide (curPage (obj h) = None) && (curPageNo (obj h) =? -1));
    [apply ret_Some in H; by simplify_eq|].
  apply bind_Some in H as (st & h2 & _ & H).
  destruct (negb (isOK st)) eqn:Hst; [apply ret_Some in H; simplify_eq; by bool_hyps|].
  apply bind_Some in H as (st2 & h3 & Hloop & H).
  apply bind_Some in H as (o & h4 & [= -> ->]%getObj_Some & H).
  destruct (isOK st2) eqn:Hst2; apply ret_Some in H; simplify_eq.
  apply isOK_true in Hst2 as ->. split; [done|]. by eapply scanNext4_loop_found.
Qed.

Lemma scanNext2_found fuel outRid h r h' :
  Var2.scanNext fuel outRid h = Some ((OK, r), h') -> r = curRec (obj h') /\ onMatch h'.
Proof.
  intros H. unfold Var2.scanNext in H.
  apply bind_Some in H as (o & h0 & [= -> ->]%getObj_Some & H).
  destruct (headerPage (obj h)); [|apply ret_Some in H; by simplify_eq].
  apply bind_Some in H as (r0 & h2 & Hpre & H).
  destruct r0 as [st|].
  - apply ret_Some in H. exfalso.
    destruct (curPage (obj h)); [by apply ret_Some in Hpre|].
    apply bind_Some in Hpre as (hdr & h3 & _ & Hpre).
    destruct (firstPage hdr =? -1); [apply ret_Some in Hpre; by simplify_eq|].
    apply bind_Some in Hpre as ([st3 page] & h4 & _ & Hpre).
    apply bind_Some in Hpre as ([] & h5 & _ & Hpre).
    destruct (negb (isOK st3)) eqn:Hc3.
    + apply ret_Some in Hpre. simplify_eq; try by bool_hyps.
    + apply bind_Some in Hpre as ([] & h6 & _ & Hpre). by apply ret_Some in Hpre.
  - apply bind_Some in H as (st2 & h3 & Hloop & H).
    apply bind_Some in H as (o & h4 & [= -> ->]%getObj_Some & H).
    destruct (isOK st2) eqn:Hst2; apply ret_Some in H; simplify_eq.
    apply isOK_true in Hst2 as ->. split; [done|]. by eapply scanNext2_loop_found.
Qed.

(** X9. Whenever [scanNext] returns [OK], in either variant, the identifier
    it returns is [curRec], the current page holds a record under that
    identifier, and that record satisfies the predicate of the scan: a scan
    never returns a record that does not match. *)
Theorem scanNext_returns_matching_record fuel outRid h r h' :
  (Stage4.scanNext fuel outRid h = Some ((OK, r), h') \/
   Var2.scanNext fuel outRid h = Some ((OK, r), h')) ->
  r = curRec (obj h') /\ onMatch h'.
Proof. intros [H|H]; [by eapply scanNext4_found|by eapply scanNext2_found]. Qed.


End ScanSoundness.

(** ** Ending and starting a scan *)

Section EndAndStart.
Context {PL : PageLayer} {FP : FileProvider}.

#[local] Arguments readPage : simpl never.
#[local] Arguments unPinPage : simpl never.
#[local] Arguments liftSys : simpl never.
#[local] Arguments deref : simpl never.
#[local] Arguments readHdr : simpl never.
#[local] Arguments setObj : simpl never.
#[local] Arguments getObj : simpl never.

(** X11. [HeapFileScan::endScan] with a current page that is pinned: both
    variants return [OK] and do the same to the pool, where the pin count of
    the current page goes down by one and no other changes; the object has
    no current page afterwards.  The first variant leaves [curPageNo] at 0
    and [curRec] as it was, the second sets them to -1 and [NULLRID].  A
    second [endScan] returns [OK] and changes nothing. *)
Theorem endScan_releases_current_page h fh i :
  wf (bm (sys h)) -> filePtr (obj h) = Some fh -> curPage (obj h) = Some i ->
  0 < pins (bm (sys h)) fh (curPageNo (obj h)) ->
  exists h4 h2,
    Stage4.endScan h = Some (OK, h4) /\ Var2.endScan h = Some (OK, h2) /\
    sys h4 = sys h2 /\ wf (bm (sys h4)) /\
    (forall g q, pins (bm (sys h4)) g q =
       pins (bm (sys h)) g q -
       (if bool_decide (g = fh /\ q = curPageNo (obj h)) then 1 else 0)) /\
    curPage (obj h4) = None /\ curPageNo (obj h4) = 0 /\ curRec (obj h4) = curRec (obj h) /\
    curPage (obj h2) = None /\ curPageNo (obj h2) = -1 /\ curRec (obj h2) = NULLRID /\
    Stage4.endScan h4 = Some (OK, h4) /\ Var2.endScan h2 = Some (OK, h2).
Proof.
  intros Hwf Hf Hcur Hpin.
  destruct (unPinPage_total (Some fh) (curPageNo (obj h)) (curDirtyFlag (obj h)) (sys h) Hwf)
    as (st & s1 & Hun).
  destruct (unPinPage_post _ _ _ _ _ _ Hwf Hun)
    as (Hwf1 & _ & _ & _ & _ & _ & _ & _ & _ & Hok & Hpins & _).
  assert (st = OK) as -> by (apply Hok; eauto).
  eexists (mkHeap _ s1), (mkHeap _ s1). split_and!.
  - unfold Stage4.endScan. eapply bind_eq; [apply getObj_Some; reflexivity|]. rewrite Hcur, Hf.
    eapply bind_eq; [by apply liftSys_eq|]. simpl. reflexivity.
  - unfold Var2.endScan. eapply bind_eq; [apply getObj_Some; reflexivity|]. rewrite Hcur, Hf.
    eapply bind_eq; [by apply liftSys_eq|]. simpl. reflexivity.
  - done.
  - done.
  - intros g q. rewrite Hpins. simpl. repeat case_bool_decide; try lia; exfalso;
      destruct_and?; simplify_eq; tauto.
  - done.
  - done.
  - done.
  - done.
  - done.
  - done.
  - done.
  - done.
Qed.

(** X12. In the first variant [endScan] leaves [curPageNo] at 0, which
    [HeapFile::getRecord] takes for a page to release: called after
    [endScan], it first unpins page 0 of the file.  When that page is not in
    the pool it returns [HASHNOTFOUND], when it is there unpinned
    [PAGENOTPINNED], in both cases without reading the page of the record
    and without changing anything. *)
Theorem getRecord4_after_endScan h st h1 fh rid rec :
  wf (bm (sys h)) ->
  Stage4.endScan h = Some (st, h1) -> is_Some (curPage (obj h)) ->
  filePtr (obj h) = Some fh -> pins (bm (sys h1)) fh 0 = 0 ->
  exists e, (e = HASHNOTFOUND \/ e = PAGENOTPINNED) /\
    (e = HASHNOTFOUND <-> hashTable (bm (sys h1)) !! (fh, 0) = None) /\
    Stage4.getRecord rid rec h1 = Some ((e, rec), h1).
Proof.
  intros Hwf Hend [i Hcur] Hf Hpin.
  unfold Stage4.endScan in Hend.
  apply bind_Some in Hend as (o & h0 & [= -> ->]%getObj_Some & Hend).
  rewrite Hcur in Hend.
  apply bind_Some in Hend as (st1 & h2 & (a & s' & Hun & [= -> ->])%liftSys_Some & Hend).
  apply bind_Some in Hend as ([] & h3 & [= ->]%setObj_Some & Hend).
  apply ret_Some in Hend. injection Hend as Hst Hh1. subst st h1. simpl in *.
  destruct (unPinPage_post _ _ _ _ _ _ Hwf Hun) as (Hwf1 & _).
  destruct (hashTable (bm s') !! (fh, 0)) as [j|] eqn:Hh.
  - destruct (proj1 (wf_hash _ Hwf1 fh 0 j) Hh) as (d & Hd & _).
    exists PAGENOTPINNED. split; [by right|]. split; [done|].
    unfold Stage4.getRecord. eapply bind_eq; [apply getObj_Some; reflexivity|]. simpl.
    eapply bind_eq.
    { apply liftSys_eq. simpl. rewrite Hf. rewrite (unPinPage_resident _ _ _ _ _ _ Hh Hd).
      unfold pins in Hpin. rewrite Hh, Hd in Hpin. rewrite Hpin. reflexivity. }
    reflexivity.
  - exists HASHNOTFOUND. split; [by left|]. split; [done|].
    unfold Stage4.getRecord. eapply bind_eq; [apply getObj_Some; reflexivity|]. simpl.
    eapply bind_eq.
    { apply liftSys_eq. simpl. rewrite Hf. apply unPinPage_absent. by intros ? [= <-]. }
    reflexivity.
Qed.

Lemma unPinPage_pool f p dty s st s' :
  unPinPage f p dty s = Some (st, s') -> bufPool (bm s') = bufPool (bm s).
Proof.
  unfold unPinPage. munfold. intros H. minv; try done.
  all: repeat match goal with H : context [match ?x with _ => _ end] |- _ =>
         destruct x eqn:?; simplify_eq/= end; done.
Qed.

Lemma markScan2_refuses h :
  ridPageNo (curRec (obj h)) < 0 \/ curPage (obj h) = None ->
  Var2.markScan h = Some (BADSCANID, h).
Proof.
  intros Hc. unfold Var2.markScan. eapply bind_eq; [apply getObj_Some; reflexivity|].
  destruct ((ridPageNo (curRec (obj h)) <? 0) || bool_decide (curPage (obj h) = None)) eqn:E;
    [done|].
  apply orb_false_iff in E as [E1%Z.ltb_ge E2%bool_decide_eq_false]. destruct Hc; [lia|done].
Qed.

Lemma resetScan2_refuses h :
  markedPageNo (obj h) < 0 -> Var2.resetScan h = Some (BADSCANID, h).
Proof.
  intros Hc. unfold Var2.resetScan. eapply bind_eq; [apply getObj_Some; reflexivity|].
  by apply Z.ltb_lt in Hc as ->.
Qed.

(** X13. [HeapFileScan::startScan] of the second variant rewinds the scan.
    With a filter and bad parameters it returns [BADSCANPARM] and nothing
    changes.  When it returns [OK] the predicate is the one asked for, the
    mark is forgotten and [curRec] is [NULLRID]; the object has a current
    page only if the header names a first page, and it is then that page,
    clean.  Right afterwards [markScan] and [resetScan] both refuse with
    [BADSCANID] and change nothing. *)
Theorem startScan2_rewinds off len ty flt op h st h1 :
  Var2.startScan off len ty flt op h = Some (st, h1) ->
  (flt <> None -> badScanParm off len ty op = true -> st = BADSCANPARM /\ h1 = h) /\
  (st = OK ->
     (flt = None -> scanFilter (obj h1) = None) /\
     (flt <> None ->
        scanFilter (obj h1) = flt /\ scanOffset (obj h1) = off /\ scanLength (obj h1) = len /\
        scanType (obj h1) = ty /\ scanOp (obj h1) = op) /\
     markedPageNo (obj h1) = -1 /\ markedRec (obj h1) = NULLRID /\
     curRec (obj h1) = NULLRID /\
     (forall i, curPage (obj h1) = Some i ->
        exists j hp, headerPage (obj h) = Some j /\
          bufPool (bm (sys h)) !! j = Some hp /\
          curPageNo (obj h1) = firstPage (hdrOf hp) /\ firstPage (hdrOf hp) <> -1 /\
          curDirtyFlag (obj h1) = false) /\
     Var2.markScan h1 = Some (BADSCANID, h1) /\
     Var2.resetScan h1 = Some (BADSCANID, h1)).
Proof.
  intros H. unfold Var2.startScan in H.
  destruct (bool_decide (flt <> None) && badScanParm off len ty op) eqn:Hbad.
  { apply ret_Some in H. injection H as -> ->. split; [done|]. by intros [=]. }
  split.
  { intros Hflt Hb. rewrite Hb, andb_true_r in Hbad. by apply bool_decide_eq_false in Hbad. }
  intros ->.
  cut ((flt = None -> scanFilter (obj h1) = None) /\
     (flt <> None ->
        scanFilter (obj h1) = flt /\ scanOffset (obj h1) = off /\ scanLength (obj h1) = len /\
        scanType (obj h1) = ty /\ scanOp (obj h1) = op) /\
     markedPageNo (obj h1) = -1 /\ markedRec (obj h1) = NULLRID /\
     curRec (obj h1) = NULLRID /\
     (forall i, curPage (obj h1) = Some i ->
        exists j hp, headerPage (obj h) = Some j /\
          bufPool (bm (sys h)) !! j = Some hp /\
          curPageNo (obj h1) = firstPage (hdrOf hp) /\ firstPage (hdrOf hp) <> -1 /\
          curDirtyFlag (obj h1) = false)).
  { intros (H1 & H2 & H3 & H4 & H5 & H6). split_and!; try assumption.
    - apply markScan2_refuses. left. by rewrite H5.
    - apply resetScan2_refuses. by rewrite H3. }
  hinv; try congruence.
  all: repeat match goal with
       | H : unPinPage _ _ _ _ = Some _ |- _ => apply unPinPage_pool in H
       | |- context [match ?o with Some _ => _ | None => _ end] => destruct o
       end; simpl in *.
  all: split_and!; try reflexivity; try (by intros [=]); try (by intros ? [=]).
  all: try (intros Hne; first [by destruct Hne | by split_and!]).
  all: intros i Hi; try congruence.
  all: try match goal with
       | H : bufPool (bm ?x) = _, H' : bufPool (bm ?x) !! _ = _ |- _ => rewrite H in H'
       end.
  all: bool_hyps; eexists _, _; split_and!; try eassumption; try reflexivity.
Qed.

End EndAndStart.

(** ** Creating a heap file: no page is left pinned *)

Section CreateNoLeak.
Context {PL : PageLayer} {FP : FileProvider}.
Implicit Types (s : Sys).

#[local] Arguments dbOpenFile : simpl never.
#[local] Arguments dbCloseFile : simpl never.
#[local] Arguments dbCreateFile : simpl never.
#[local] Arguments readPage : simpl never.
#[local] Arguments unPinPage : simpl never.
#[local] Arguments allocPage : simpl never.
#[local] Arguments getFrame : simpl never.
#[local] Arguments putFrame : simpl never.

Lemma putFrame_Some i pg s r :
  putFrame i pg s = Some r <->
  r = (tt, withBm (fun b => withBufPool (<[i := pg]> (bufPool b)) b) s).
Proof. unfold putFrame. apply modify_Some. Qed.

Lemma wf_putFrame i pg s :
  wf (bm s) -> wf (bm (withBm (fun b => withBufPool (<[i := pg]> (bufPool b)) b) s)).
Proof. intros Hwf. simpl. apply wf_pool; [done|]. by rewrite length_insert. Qed.

(** X14. [createHeapFile] of the second variant never leaves a page pinned:
    on a well-formed pool, whatever status it returns (the name refused, the
    file found to exist, any failure of the provider or of the pool on the
    way), the pool is well formed afterwards and every page has the pin
    count it had before the call. *)
Theorem createHeapFile2_no_pin_leak name s st s' :
  wf (bm s) -> Var2.createHeapFile name s = Some (st, s') ->
  wf (bm s') /\ forall g q, pins (bm s') g q = pins (bm s) g q.
Proof.
  intros Hwf H. unfold Var2.createHeapFile in H.
  destruct (bool_decide (name = EmptyString)); [apply ret_Some in H; by simplify_eq|].
  apply bind_Some in H as ([e f0] & sA & (e' & f0' & w0 & Hopen0 & [= <- <- ->])%dbOpenFile_Some & H).
  destruct (isOK e) eqn:He.
  { apply bind_Some in H as (? & ? & (fh & [= <-] & [= -> ->])%dbCloseFile_Some & H).
    apply ret_Some in H. by simplify_eq. }
  destruct (negb (bool_decide (e = UNIXERR))); [apply ret_Some in H; by simplify_eq|].
  apply bind_Some in H as (e1 & sB & [= -> ->]%dbCreateFile_Some & H). simpl in H.
  destruct (negb (isOK _)) eqn:He1 in H; [apply ret_Some in H; by simplify_eq|].
  apply bind_Some in H as ([e2 f] & sC & (e2' & f' & w2 & Hopen2 & [= <- <- ->])%dbOpenFile_Some & H).
  destruct (negb (isOK e2)) eqn:He2; [apply ret_Some in H; by simplify_eq|].
  apply bind_Some in H as ([[e3 hdrNo] hdrPagePtr] & s1 & Hal1 & H).
  match type of Hal1 with allocPage _ ?x = _ => set (sC := x) in * end.
  assert (HwfC : wf (bm sC)) by done.
  assert (HpC : forall g q, pins (bm sC) g q = pins (bm s) g q) by done.
  clearbody sC.
  destruct (allocPage_post _ _ _ _ _ _ HwfC Hal1) as (Hwf1 & _ & _ & _ & Hp1 & Hno1 & Hok1).
  destruct (negb (isOK e3)) eqn:He3.
  { apply negb_isOK_true in He3.
    apply bind_Some in H as (? & ? & (fh & [= <-] & [= -> ->])%dbCloseFile_Some & H).
    apply ret_Some in H. injection H as -> ->. simpl. split; [done|].
    intros g q. rewrite Hp1, HpC. case_bool_decide; [|lia]. tauto. }
  apply negb_isOK_false in He3 as ->.
  destruct (Hok1 eq_refl) as (fh & i & d & [= <-] & -> & Hhi & Hdi).
  destruct (allocPage_fresh _ _ _ _ _ HwfC Hal1) as (Hfresh0 & Hfresh1 & _).
  apply bind_Some in H as ([[e4 dataNo] dataPagePtr] & s2 & Hal2 & H).
  destruct (allocPage_post _ _ _ _ _ _ Hwf1 Hal2) as (Hwf2 & _ & _ & _ & Hp2 & Hno2 & Hok2).
  destruct (negb (isOK e4)) eqn:He4.
  { apply negb_isOK_true in He4.
    apply bind_Some in H as (st5 & s5 & Hun & H).
    apply bind_Some in H as (? & ? & (fh & [= <-] & [= -> ->])%dbCloseFile_Some & H).
    apply ret_Some in H. injection H as -> ->. simpl.
    destruct (unPinPage_post _ _ _ _ _ _ Hwf2 Hun)
      as (Hwf5 & _ & _ & _ & _ & _ & _ & _ & _ & Hok5 & Hp5 & _).
    assert (st5 = OK) as ->.
    { apply Hok5. exists f. split; [done|]. rewrite Hp2, Hfresh1. case_bool_decide; lia. }
    split; [done|]. intros g q. rewrite Hp5, Hp2, Hp1, HpC.
    repeat case_bool_decide; try lia; exfalso; destruct_and?; simplify_eq; tauto. }
  apply negb_isOK_false in He4 as ->.
  destruct (Hok2 eq_refl) as (fh & j & d' & [= <-] & -> & Hhj & Hdj).
  destruct (allocPage_fresh _ _ _ _ _ Hwf1 Hal2) as (Hfresh2 & Hfresh3 & _).
  assert (hdrNo <> dataNo) as Hne by (intros ->; lia).
  apply bind_Some in H as (pgj & s2a & (pgj' & Hpgj & [= <- ->])%getFrame_Some & H).
  apply bind_Some in H as ([] & s3 & [= ->]%putFrame_Some & H).
  apply bind_Some in H as (pg0 & s3a & (pg0' & Hpg0 & [= <- ->])%getFrame_Some & H).
  apply bind_Some in H as ([] & s4 & [= ->]%putFrame_Some & H).
  match type of H with _ ?x = _ => set (s4 := x) in * end.
  assert (Hwf4 : wf (bm s4)) by (by do 2 apply wf_putFrame).
  assert (Hp4 : forall g q, pins (bm s4) g q = pins (bm s2) g q) by done.
  clearbody s4.
  apply bind_Some in H as (st5 & s5 & Hun5 & H).
  destruct (unPinPage_post _ _ _ _ _ _ Hwf4 Hun5)
    as (Hwf5 & _ & _ & _ & _ & _ & _ & _ & _ & Hok5 & Hp5 & _).
  assert (st5 = OK) as ->.
  { apply Hok5. exists f. split; [done|]. rewrite Hp4, Hfresh3. lia. }
  simpl in H.
  apply bind_Some in H as (st6 & s6 & Hun6 & H).
  destruct (unPinPage_post _ _ _ _ _ _ Hwf5 Hun6)
    as (Hwf6 & _ & _ & _ & _ & _ & _ & _ & _ & Hok6 & Hp6 & _).
  assert (st6 = OK) as ->.
  { apply Hok6. exists f. split; [done|]. rewrite Hp5, Hp4, Hp2, Hfresh1.
    repeat case_bool_decide; try lia; exfalso; destruct_and?; simplify_eq; tauto. }
  simpl in H.
  apply bind_Some in H as (st7 & s7 & (fh & [= <-] & [= -> ->])%dbCloseFile_Some & H).
  assert (bm s' = bm s6) as Hbm.
  { destruct (negb (isOK _)) in H; apply ret_Some in H; by simplify_eq. }
  rewrite Hbm. split; [done|].
  intros g q. rewrite Hp6, Hp5, Hp4, Hp2, Hp1, HpC.
  repeat case_bool_decide; try lia; exfalso; destruct_and?; simplify_eq; tauto.
Qed.

End CreateNoLeak.

(** ** Opening and closing *)

Lemma bool_decide_is_Some_and {A} (x : A) (P : Prop) `{!base.Decision P} :
  bool_decide (is_Some (Some x) /\ P) = bool_decide P.
Proof. apply bool_decide_ext. split; [tauto|]. intros. split; [by eexists|done]. Qed.

Lemma bool_decide_is_Some_None {A} (P : Prop) `{!base.Decision P} :
  bool_decide (is_Some (@None A) /\ P) = false.
Proof. apply bool_decide_eq_false. by intros [[? [=]] _]. Qed.

(** Sums of pin counts with conditional summands, by cases. *)
Ltac pins_case :=
  rewrite ?bool_decide_is_Some_and, ?bool_decide_is_Some_None;
  repeat case_bool_decide; try lia; exfalso; destruct_and?; simplify_eq;
  try tauto;
  match goal with
  | H : ~ _ |- _ => by (apply H; repeat split; first [congruence | by eexists])
  end.

(** Looking up a frame of a pool that has been written to. *)
Ltac run_lookup :=
  simpl;
  first
  [ eassumption
  | rewrite list_lookup_insert_eq by (rewrite ?length_insert; simpl; lia); reflexivity
  | rewrite list_lookup_insert_ne by congruence; run_lookup ].

(** Running a computation of the heap file layer forward; [tac] simplifies
    the tests on the object. *)
Ltac run tac :=
  tac;
  lazymatch goal with
  | |- (_ ≫= _) _ = _ => eapply bind_eq; [run tac | run tac]
  | |- bind _ _ _ = _ => eapply bind_eq; [run tac | run tac]
  | |- getObj _ = _ => apply getObj_Some; reflexivity
  | |- setObj _ _ = _ => apply setObj_Some; reflexivity
  | |- liftSys (dbCloseFile _) _ = _ =>
      apply liftSys_eq; simpl; apply dbCloseFile_Some; eexists; split; reflexivity
  | |- liftSys _ _ = _ => apply liftSys_eq; simpl; eassumption
  | |- deref _ _ = _ => apply deref_eq; run_lookup
  | |- readHdr _ _ = _ => apply readHdr_eq; run_lookup
  | |- store _ _ _ = _ =>
      apply store_Some; eexists _, _; split; [reflexivity|split; [run_lookup|reflexivity]]
  | |- updHdr _ _ _ = _ => unfold updHdr; run tac
  | |- _ => reflexivity
  end.

Section OpenCloseFacts.
Context {PL : PageLayer} {FP : FileProvider}.

#[local] Arguments dbOpenFile : simpl never.
#[local] Arguments dbCloseFile : simpl never.
#[local] Arguments fileGetFirstPage : simpl never.
#[local] Arguments readPage : simpl never.
#[local] Arguments unPinPage : simpl never.
#[local] Arguments allocPage : simpl never.
#[local] Arguments liftSys : simpl never.
#[local] Arguments deref : simpl never.
#[local] Arguments store : simpl never.
#[local] Arguments readHdr : simpl never.
#[local] Arguments updHdr : simpl never.
#[local] Arguments setObj : simpl never.
#[local] Arguments getObj : simpl never.

Lemma resident_pinned b f p i :
  wf b -> hashTable b !! (f, p) = Some i -> 0 < pins b f p -> pinned b i.
Proof.
  intros Hwf Hh Hp. destruct (proj1 (wf_hash _ Hwf f p i) Hh) as (d & Hd & Hv & _).
  exists d. split_and!; try done. by rewrite <- (pins_resident _ _ _ _ _ Hh Hd).
Qed.

(** A pinned page stays in its frame, with its bytes, over a [readPage]. *)
Lemma readPage_keeps g q s out s' f p i :
  wf (bm s) -> readPage g q s = Some (out, s') ->
  hashTable (bm s) !! (f, p) = Some i -> 0 < pins (bm s) f p ->
  hashTable (bm s') !! (f, p) = Some i /\ bufPool (bm s') !! i = bufPool (bm s) !! i.
Proof.
  intros Hwf Hrd Hh Hp.
  destruct (readPage_post _ _ _ _ _ Hwf Hrd) as (_ & _ & Hkept & _).
  destruct (Hkept i (resident_pinned _ _ _ _ Hwf Hh Hp))
    as (d & d' & Hd & Hd' & _ & _ & _ & Hpool & Hhash).
  destruct (proj1 (wf_hash _ Hwf f p i) Hh) as (d0 & Hd0 & _ & Hf0 & Hp0).
  simplify_eq. split; [|done]. by rewrite (Hhash f Hf0).
Qed.

(** The constructor of the first variant, when it returns [OK]. *)
Lemma ctor4_holds name h h1 :
  wf (bm (sys h)) -> Stage4.HeapFile_ctor name h = Some (OK, h1) ->
  wf (bm (sys h1)) /\ exists f, holdsPages f h h1 /\
    exists hi hp ci, headerPage (obj h1) = Some hi /\ bufPool (bm (sys h1)) !! hi = Some hp /\
      curPage (obj h1) = Some ci /\ curPageNo (obj h1) = firstPage (hdrOf hp).
Proof.
  intros Hwf H. unfold Stage4.HeapFile_ctor in H.
  apply bind_Some in H as ([st0 f] & h0 & H0 & H).
  apply liftSys_Some in H0 as (a & s0 & H0 & Heq).
  apply dbOpenFile_Some in H0 as (e & f' & w0 & Hopen & Heq2). simplify_eq/=.
  destruct (isOK e) eqn:He; simpl in H; bool_hyps; [|apply ret_Some in H; by simplify_eq].
  subst e.
  apply bind_Some in H as ([] & h1' & [= ->]%setObj_Some & H). simpl in H.
  apply bind_Some in H as ([st1 hdrNo] & h2 & H1 & H).
  apply liftSys_Some in H1 as (a & s1 & H1 & Heq).
  apply fileGetFirstPage_Some in H1 as (fh & e1 & p1 & w1 & Hfh & Hfirst & Heq2).
  simplify_eq/=.
  apply bind_Some in H as ([] & h3 & [= ->]%setObj_Some & H). simpl in H.
  destruct (negb (isOK e1)) eqn:Hc1; [apply ret_Some in H; simplify_eq; by bool_hyps|].
  apply bind_Some in H as ([st2 pagePtr] & h4 & H2 & H).
  apply liftSys_Some in H2 as (a & s2 & Hrd & Heq). simplify_eq/=.
  match type of Hrd with readPage _ _ ?x = _ => set (sA := x) in * end.
  assert (HwfA : wf (bm sA)) by done.
  destruct (readPage_post _ _ sA _ _ HwfA Hrd)
    as (Hwf2 & Hnb2 & Hkept2 & Hst2 & Hpins2 & Hsome2 & Hfr2).
  simpl in *.
  destruct (negb (isOK st2)) eqn:Hc2; [apply ret_Some in H; simplify_eq; by bool_hyps|].
  apply negb_isOK_false in Hc2 as ->.
  apply bind_Some in H as ([] & h5 & [= ->]%setObj_Some & H).
  apply bind_Some in H as (hdr & h6 & (i & pg & -> & Hpg & [= -> ->])%readHdr_Some & H).
  simpl in H.
  destruct (Hfr2 i eq_refl) as (_ & fh' & [= <-] & Hhi).
  apply bind_Some in H as ([st3 page] & h7 & H3 & H).
  apply liftSys_Some in H3 as (a & s3 & Hrd3 & Heq). simplify_eq/=.
  destruct (readPage_post _ _ _ _ _ Hwf2 Hrd3)
    as (Hwf3 & Hnb3 & Hkept3 & Hst3 & Hpins3 & Hsome3 & Hfr3).
  simpl in *.
  assert (0 < pins (bm s2) fh p1) as Hpos.
  { rewrite Hpins2. pose proof (pins_nonneg (bm sA) fh p1 HwfA).
    rewrite bool_decide_true by done. simpl in *. lia. }
  destruct (readPage_keeps _ _ _ _ _ _ _ _ Hwf2 Hrd3 Hhi Hpos) as (Hhi3 & Hpool3).
  apply bind_Some in H as ([] & h8 & [= ->]%setObj_Some & H). simpl in H.
  destruct (negb (isOK st3)) eqn:Hc4; [apply ret_Some in H; simplify_eq; by bool_hyps|].
  apply negb_isOK_false in Hc4 as ->.
  destruct (Hsome3 eq_refl) as [ci ->].
  destruct (Hfr3 ci eq_refl) as (_ & fh' & [= <-] & Hci).
  apply bind_Some in H as ([] & h9 & [= ->]%setObj_Some & H). apply ret_Some in H.
  injection H as ->. simpl. split; [done|]. exists fh. split.
  - unfold holdsPages. simpl. split_and!; try done.
    + by exists i.
    + by intros ? [= <-].
    + intros g q. rewrite Hpins3, Hpins2. simpl.
      pins_case.
  - exists i, pg, ci. split_and!; try done. by rewrite Hpool3.
Qed.

(** When it does not return [OK], it gives the object no current page. *)
Lemma ctor4_failure_no_page name h st h1 :
  wf (bm (sys h)) -> curPage (obj h) = None ->
  Stage4.HeapFile_ctor name h = Some (st, h1) -> st <> OK -> curPage (obj h1) = None.
Proof.
  intros Hwf Hnone H Hst. unfold Stage4.HeapFile_ctor in H.
  apply bind_Some in H as ([st0 f] & h0 & H0 & H).
  apply liftSys_Some in H0 as (a & s0 & H0 & Heq).
  apply dbOpenFile_Some in H0 as (e & f' & w0 & Hopen & Heq2). simplify_eq/=.
  destruct (isOK e) eqn:He; simpl in H; bool_hyps; [|apply ret_Some in H; by simplify_eq].
  subst e.
  apply bind_Some in H as ([] & h1' & [= ->]%setObj_Some & H). simpl in H.
  apply bind_Some in H as ([st1 hdrNo] & h2 & H1 & H).
  apply liftSys_Some in H1 as (a & s1 & H1 & Heq).
  apply fileGetFirstPage_Some in H1 as (fh & e1 & p1 & w1 & Hfh & Hfirst & Heq2).
  simplify_eq/=.
  apply bind_Some in H as ([] & h3 & [= ->]%setObj_Some & H). simpl in H.
  destruct (negb (isOK e1)) eqn:Hc1; [apply ret_Some in H; by simplify_eq|].
  apply bind_Some in H as ([st2 pagePtr] & h4 & H2 & H).
  apply liftSys_Some in H2 as (a & s2 & Hrd & Heq). simplify_eq/=.
  match type of Hrd with readPage _ _ ?x = _ => set (sA := x) in * end.
  assert (HwfA : wf (bm sA)) by done.
  destruct (readPage_post _ _ sA _ _ HwfA Hrd) as (Hwf2 & _).
  destruct (negb (isOK st2)) eqn:Hc2; [apply ret_Some in H; by simplify_eq|].
  apply bind_Some in H as ([] & h5 & [= ->]%setObj_Some & H).
  apply bind_Some in H as (hdr & h6 & (i & pg & -> & Hpg & [= -> ->])%readHdr_Some & H).
  simpl in H.
  apply bind_Some in H as ([st3 page] & h7 & H3 & H).
  apply liftSys_Some in H3 as (a & s3 & Hrd3 & Heq). simplify_eq/=.
  destruct (readPage_post _ _ _ _ _ Hwf2 Hrd3) as (_ & _ & _ & _ & _ & _ & Hfr3).
  apply bind_Some in H as ([] & h8 & [= ->]%setObj_Some & H). simpl in H.
  destruct (negb (isOK st3)) eqn:Hc4.
  - apply ret_Some in H. injection H as -> ->. simpl.
    destruct page as [ci|]; [|done]. destruct (Hfr3 ci eq_refl) as ([= ?] & _). by subst.
  - apply bind_Some in H as ([] & h9 & [= ->]%setObj_Some & H). apply ret_Some in H.
    by simplify_eq.
Qed.

(** The constructor of the second variant, when it returns [OK]. *)
Lemma ctor2_holds name h h1 :
  wf (bm (sys h)) -> curPage (obj h) = None ->
  Var2.HeapFile_ctor name h = Some (OK, h1) ->
  wf (bm (sys h1)) /\ exists f, holdsPages f h h1 /\
    exists hi hp, headerPage (obj h1) = Some hi /\ bufPool (bm (sys h1)) !! hi = Some hp /\
      (forall ci, curPage (obj h1) = Some ci -> curPageNo (obj h1) = firstPage (hdrOf hp)) /\
      (curPage (obj h1) = None -> firstPage (hdrOf hp) = -1).
Proof.
  intros Hwf Hnone H. unfold Var2.HeapFile_ctor in H.
  apply bind_Some in H as ([st0 f] & h0 & H0 & H).
  apply liftSys_Some in H0 as (a & s0 & H0 & Heq).
  apply dbOpenFile_Some in H0 as (e & f' & w0 & Hopen & Heq2). simplify_eq/=.
  destruct (negb (isOK e)) eqn:He; simpl in H.
  { apply bind_Some in H as ([] & h1' & [= ->]%setObj_Some & H). apply ret_Some in H.
    simplify_eq; by bool_hyps. }
  apply negb_isOK_false in He as ->.
  apply bind_Some in H as ([] & h1' & [= ->]%setObj_Some & H). simpl in H.
  apply bind_Some in H as ([st1 hdrNo] & h2 & H1 & H).
  apply liftSys_Some in H1 as (a & s1 & H1 & Heq).
  apply fileGetFirstPage_Some in H1 as (fh & e1 & p1 & w1 & Hfh & Hfirst & Heq2).
  simplify_eq/=.
  apply bind_Some in H as ([] & h3 & [= ->]%setObj_Some & H). simpl in H.
  destruct (negb (isOK e1) || (p1 <? 0)) eqn:Hc1.
  { exfalso. cinv. destruct (negb (isOK e1)) eqn:?; simplify_eq; by bool_hyps. }
  apply bind_Some in H as ([st2 pagePtr] & h4 & H2 & H).
  apply liftSys_Some in H2 as (a & s2 & Hrd & Heq). simplify_eq/=.
  match type of Hrd with readPage _ _ ?x = _ => set (sA := x) in * end.
  assert (HwfA : wf (bm sA)) by done.
  destruct (readPage_post _ _ sA _ _ HwfA Hrd)
    as (Hwf2 & Hnb2 & Hkept2 & Hst2 & Hpins2 & Hsome2 & Hfr2).
  simpl in *.
  destruct (negb (isOK st2)) eqn:Hc2.
  { cinv; by bool_hyps. }
  apply negb_isOK_false in Hc2 as ->.
  apply bind_Some in H as ([] & h5 & [= ->]%setObj_Some & H).
  apply bind_Some in H as (hdr & h6 & (i & pg & -> & Hpg & [= -> ->])%readHdr_Some & H).
  simpl in H.
  destruct (Hfr2 i eq_refl) as (_ & fh' & [= <-] & Hhi).
  destruct (negb (firstPage (hdrOf pg) =? -1)) eqn:Hc3.
  2:{ apply ret_Some in H. injection H as Hh1. subst h1. simpl. split; [done|]. exists fh. split.
      - unfold holdsPages. simpl. rewrite Hnone. split_and!; try done.
        + by exists i.
        + intros g q. rewrite Hpins2. simpl.
          pins_case.
      - exists i, pg. simpl. rewrite Hnone. split_and!; try done. intros _. by bool_hyps. }
  apply bind_Some in H as ([st3 page] & h7 & H3 & H).
  apply liftSys_Some in H3 as (a & s3 & Hrd3 & Heq). simplify_eq/=.
  destruct (readPage_post _ _ _ _ _ Hwf2 Hrd3)
    as (Hwf3 & Hnb3 & Hkept3 & Hst3 & Hpins3 & Hsome3 & Hfr3).
  simpl in *.
  assert (0 < pins (bm s2) fh p1) as Hpos.
  { rewrite Hpins2. pose proof (pins_nonneg (bm sA) fh p1 HwfA).
    rewrite bool_decide_true by done. simpl in *. lia. }
  destruct (readPage_keeps _ _ _ _ _ _ _ _ Hwf2 Hrd3 Hhi Hpos) as (Hhi3 & Hpool3).
  apply bind_Some in H as ([] & h8 & [= ->]%setObj_Some & H). simpl in H.
  destruct (negb (isOK st3)) eqn:Hc4.
  { cinv; by bool_hyps. }
  apply negb_isOK_false in Hc4 as ->.
  destruct (Hsome3 eq_refl) as [ci ->].
  destruct (Hfr3 ci eq_refl) as (_ & fh' & [= <-] & Hci).
  apply bind_Some in H as ([] & h9 & [= ->]%setObj_Some & H). apply ret_Some in H.
  injection H as ->. simpl. split; [done|]. exists fh. split.
  - unfold holdsPages. simpl. split_and!; try done.
    + by exists i.
    + by intros ? [= <-].
    + intros g q. rewrite Hpins3, Hpins2. simpl.
      pins_case.
  - exists i, pg. split_and!; try done. by rewrite Hpool3.
Qed.

Lemma unPinPage_dirty f p dty s s' i :
  wf (bm s) -> unPinPage (Some f) p dty s = Some (OK, s') ->
  hashTable (bm s) !! (f, p) = Some i ->
  forall k d, bufTable (bm s) !! k = Some d ->
    exists d', bufTable (bm s') !! k = Some d' /\
      dirty d' = dirty d || (dty && bool_decide (k = i)).
Proof.
  intros Hwf Hun Hh k d Hd.
  destruct (unPinPage_post _ _ _ _ _ _ Hwf Hun)
    as (_ & _ & _ & _ & _ & _ & _ & _ & _ & _ & _ & Htab).
  destruct (Htab eq_refl) as (fh & i0 & d0 & [= <-] & Hh0 & Hd0 & ->).
  rewrite Hh in Hh0. injection Hh0 as <-.
  destruct (decide (k = i)) as [->|Hne].
  - rewrite Hd in Hd0. injection Hd0 as <-.
    eexists. split; [apply list_lookup_insert_eq; by eapply lookup_lt_Some|].
    simpl. rewrite bool_decide_true by done. by rewrite andb_true_r.
  - exists d. split; [by rewrite list_lookup_insert_ne|].
    rewrite bool_decide_false by done. by rewrite andb_false_r, orb_false_r.
Qed.

(** Giving back what the object holds: the pool after the current page, if
    any, has been unpinned with the flag [dc] and the header page with
    [false]. *)
Lemma release_pages f h h1 dc :
  wf (bm (sys h)) -> wf (bm (sys h1)) -> holdsPages f h h1 ->
  exists sA sB,
    (forall ci, curPage (obj h1) = Some ci ->
       unPinPage (Some f) (curPageNo (obj h1)) dc (sys h1) = Some (OK, sA)) /\
    (curPage (obj h1) = None -> sA = sys h1) /\
    unPinPage (Some f) (headerPageNo (obj h1)) false sA = Some (OK, sB) /\
    wf (bm sB) /\
    (forall g q, pins (bm sB) g q = pins (bm (sys h)) g q) /\
    bufPool (bm sB) = bufPool (bm (sys h1)) /\
    hashTable (bm sB) = hashTable (bm (sys h1)) /\
    calls sB = calls (sys h1) /\ world sB = world (sys h1) /\
    forall i d, bufTable (bm (sys h1)) !! i = Some d ->
      exists d', bufTable (bm sB) !! i = Some d' /\
        dirty d' = dirty d || (dc && bool_decide (curPage (obj h1) = Some i)).
Proof.
  intros Hwf0 Hwf1 (Hf & Hhd & (hi & Hhdr & Hhi) & Hcur & Hpins).
  assert (exists sA,
    (forall ci, curPage (obj h1) = Some ci ->
       unPinPage (Some f) (curPageNo (obj h1)) dc (sys h1) = Some (OK, sA)) /\
    (curPage (obj h1) = None -> sA = sys h1) /\
    wf (bm sA) /\
    (forall g q, pins (bm sA) g q = pins (bm (sys h)) g q
       + (if bool_decide (g = f /\ q = headerPageNo (obj h1)) then 1 else 0)) /\
    bufPool (bm sA) = bufPool (bm (sys h1)) /\
    hashTable (bm sA) = hashTable (bm (sys h1)) /\
    calls sA = calls (sys h1) /\ world sA = world (sys h1) /\
    forall i d, bufTable (bm (sys h1)) !! i = Some d ->
      exists d', bufTable (bm sA) !! i = Some d' /\
        dirty d' = dirty d || (dc && bool_decide (curPage (obj h1) = Some i)))
    as (sA & HunA & HnoneA & HwfA & HpA & HpoolA & HhashA & HcallsA & HworldA & HdirtyA).
  { destruct (curPage (obj h1)) as [ci|] eqn:Hc.
    - destruct (Hcur ci eq_refl) as (Hci & _).
      destruct (unPinPage_total (Some f) (curPageNo (obj h1)) dc (sys h1) Hwf1)
        as (st & sA & Hun).
      destruct (unPinPage_post _ _ _ _ _ _ Hwf1 Hun)
        as (HwfA & _ & HpoolA & HhashA & HworldA & HcallsA & _ & _ & _ & Hok & HpA & _).
      assert (st = OK) as ->.
      { apply Hok. exists f. split; [done|]. rewrite Hpins.
        pose proof (pins_nonneg (bm (sys h)) f (curPageNo (obj h1)) Hwf0).
        rewrite (bool_decide_true (is_Some _ /\ _)) by (split; [by eexists|done]).
        case_bool_decide; lia. }
      exists sA. split_and!; try done.
      + intros g q. rewrite HpA, Hpins.
        pins_case.
      + intros i d Hd.
        destruct (unPinPage_dirty _ _ _ _ _ _ Hwf1 Hun Hci i d Hd) as (d' & ? & Hdd).
        exists d'. split; [done|]. rewrite Hdd. f_equal. f_equal. apply bool_decide_ext.
        split; [by intros ->|by intros [= ->]].
    - exists (sys h1). split_and!; try done.
      + intros g q. rewrite Hpins.
        rewrite bool_decide_is_Some_None. lia.
      + intros i d Hd. exists d. split; [done|].
        rewrite bool_decide_false by done. by rewrite andb_false_r, orb_false_r. }
  destruct (unPinPage_total (Some f) (headerPageNo (obj h1)) false sA HwfA) as (st & sB & Hun).
  destruct (unPinPage_post _ _ _ _ _ _ HwfA Hun)
    as (HwfB & _ & HpoolB & HhashB & HworldB & HcallsB & _ & _ & _ & Hok & HpB & _).
  assert (st = OK) as ->.
  { apply Hok. exists f. split; [done|]. rewrite HpA.
    pose proof (pins_nonneg (bm (sys h)) f (headerPageNo (obj h1)) Hwf0).
    rewrite bool_decide_true by done. lia. }
  exists sA, sB. split_and!; try done; try congruence.
  - intros g q. rewrite HpB, HpA. pins_case.
  - intros i d Hd. destruct (HdirtyA i d Hd) as (dA & HdA & HdirA).
    rewrite <- HhashA in Hhi.
    destruct (unPinPage_dirty _ _ _ _ _ _ HwfA Hun Hhi i dA HdA) as (d' & ? & Hdd).
    exists d'. split; [done|]. by rewrite Hdd, HdirA, orb_false_r.
Qed.

(** [holdsPages] does not look at the predicate or the mark of a scan. *)
Lemma holdsPages_ext f h h1 h1' :
  sys h1' = sys h1 -> filePtr (obj h1') = filePtr (obj h1) ->
  headerPage (obj h1') = headerPage (obj h1) -> headerPageNo (obj h1') = headerPageNo (obj h1) ->
  hdrDirtyFlag (obj h1') = hdrDirtyFlag (obj h1) ->
  curPage (obj h1') = curPage (obj h1) -> curPageNo (obj h1') = curPageNo (obj h1) ->
  curDirtyFlag (obj h1') = curDirtyFlag (obj h1) ->
  holdsPages f h h1 -> holdsPages f h h1'.
Proof. unfold holdsPages. by intros -> -> -> -> -> -> -> ->. Qed.

(** The constructor of [InsertFileScan] of the first variant, when it
    returns [OK]: the object stands on the last page. *)
Lemma insertCtor4_holds name h h1 :
  wf (bm (sys h)) -> curPage (obj h) = None ->
  Stage4.InsertFileScan_ctor name h = Some (OK, h1) ->
  wf (bm (sys h1)) /\ exists f, holdsPages f h h1 /\
    exists hi hp ci, headerPage (obj h1) = Some hi /\ bufPool (bm (sys h1)) !! hi = Some hp /\
      curPage (obj h1) = Some ci /\ curPageNo (obj h1) = lastPage (hdrOf hp).
Proof.
  intros Hwf Hnone H. unfold Stage4.InsertFileScan_ctor in H.
  apply bind_Some in H as (st0 & hA & Hbase & H).
  apply bind_Some in H as (o & h0 & [= -> ->]%getObj_Some & H).
  destruct (decide (st0 = OK)) as [->|Hst0].
  2:{ rewrite (ctor4_failure_no_page _ _ _ _ Hwf Hnone Hbase Hst0) in H.
      apply ret_Some in H. by simplify_eq. }
  destruct (ctor4_holds _ _ _ Hwf Hbase)
    as (HwfA & f & Hhold & hi & hp & ci & Hhdr & Hhp & Hcur & HcurNo).
  rewrite Hcur in H.
  apply bind_Some in H as (hdr & h6 & (i & pg & Hi & Hpg & [= -> ->])%readHdr_Some & H).
  rewrite Hhdr in Hi. injection Hi as <-. rewrite Hhp in Hpg. injection Hpg as <-.
  destruct (negb (curPageNo (obj hA) =? lastPage (hdrOf hp))) eqn:Hlast.
  2:{ apply ret_Some in H. injection H as ->. apply negb_false_iff, Z.eqb_eq in Hlast.
      split; [done|]. exists f. split; [done|]. exists hi, hp, ci. by split_and!. }
  destruct Hhold as (Hf & Hhd & (hi' & Hhdr' & Hhi) & Hc & Hpins).
  rewrite Hhdr in Hhdr'. injection Hhdr' as <-.
  destruct (Hc ci Hcur) as (Hci & Hcd).
  apply bind_Some in H as (stu & h7 & (a & su & Hun & [= -> ->])%liftSys_Some & H).
  rewrite Hf in Hun.
  destruct (unPinPage_post _ _ _ _ _ _ HwfA Hun)
    as (Hwfu & _ & Hpoolu & Hhashu & _ & _ & _ & _ & _ & Hoku & Hpu & _).
  assert (a = OK) as ->.
  { apply Hoku. exists f. split; [done|]. rewrite Hpins, Hcur.
    pose proof (pins_nonneg (bm (sys h)) f (curPageNo (obj hA)) Hwf). pins_case. }
  apply bind_Some in H as ([] & h8 & [= ->]%setObj_Some & H).
  apply bind_Some in H as ([st page] & h9 & (a & s3 & Hrd & [= <- ->])%liftSys_Some & H).
  simpl in Hrd. rewrite Hf in Hrd.
  apply bind_Some in H as ([] & h10 & [= ->]%setObj_Some & H).
  apply ret_Some in H. injection H as <- ->. simpl.
  destruct (readPage_post _ _ _ _ _ Hwfu Hrd) as (Hwf3 & _ & _ & _ & Hp3 & Hsome3 & Hfr3).
  simpl in *.
  destruct (Hsome3 eq_refl) as [cl ->]. destruct (Hfr3 cl eq_refl) as (_ & fh & [= <-] & Hcl).
  assert (0 < pins (bm su) f (headerPageNo (obj hA))) as Hpos.
  { rewrite Hpu, Hpins, Hcur.
    pose proof (pins_nonneg (bm (sys h)) f (headerPageNo (obj hA)) Hwf). pins_case. }
  rewrite <- Hhashu in Hhi.
  destruct (readPage_keeps _ _ _ _ _ _ _ _ Hwfu Hrd Hhi Hpos) as (Hhi3 & Hpool3).
  split; [done|]. exists f. split.
  - unfold holdsPages. simpl. split_and!; try done.
    + by exists hi.
    + by intros ? [= <-].
    + intros g q. rewrite Hp3, Hpu, Hpins, Hcur. simpl. pins_case.
  - exists hi, hp, cl. simpl. split_and!; try done. by rewrite Hpool3, Hpoolu.
Qed.

(** Every constructor that returns [OK] leaves an object that holds its
    pages and stands on the page of its class. *)
Lemma construct_holds v k name h h1 :
  wf (bm (sys h)) -> curPage (obj h) = None ->
  construct v k name h = Some (OK, h1) ->
  wf (bm (sys h1)) /\ exists f, holdsPages f h h1 /\
    exists hi hp, headerPage (obj h1) = Some hi /\ bufPool (bm (sys h1)) !! hi = Some hp /\
      (forall ci, curPage (obj h1) = Some ci -> curPageNo (obj h1) = startPage v k (hdrOf hp)) /\
      (curPage (obj h1) = None -> v = Var2Impl /\ firstPage (hdrOf hp) = -1).
Proof.
  intros Hwf Hnone H. destruct v, k; simpl in H.
  - destruct (ctor4_holds _ _ _ Hwf H) as (? & f & ? & hi & hp & ci & ? & ? & Hc & ?).
    split; [done|]. exists f. split; [done|]. exists hi, hp. split_and!; try done.
    by rewrite Hc.
  - unfold Stage4.HeapFileScan_ctor in H.
    apply bind_Some in H as (st & hA & Hbase & H).
    apply bind_Some in H as ([] & hB & [= ->]%setObj_Some & H).
    apply ret_Some in H. injection H as <- ->.
    destruct (ctor4_holds _ _ _ Hwf Hbase) as (? & f & ? & hi & hp & ci & ? & ? & Hc & ?).
    split; [done|]. exists f. split; [by eapply holdsPages_ext|].
    exists hi, hp. simpl. split_and!; try done. by rewrite Hc.
  - destruct (insertCtor4_holds _ _ _ Hwf Hnone H)
      as (? & f & ? & hi & hp & ci & ? & ? & Hc & ?).
    split; [done|]. exists f. split; [done|]. exists hi, hp. split_and!; try done.
    by rewrite Hc.
  - destruct (ctor2_holds _ _ _ Hwf Hnone H) as (? & f & ? & hi & hp & ? & ? & ? & ?).
    split; [done|]. exists f. split; [done|]. exists hi, hp. by split_and!; auto.
  - unfold Var2.HeapFileScan_ctor in H.
    apply bind_Some in H as (st & hA & Hbase & H).
    apply bind_Some in H as ([] & hB & [= ->]%setObj_Some & H).
    apply ret_Some in H. injection H as <- ->.
    destruct (ctor2_holds _ _ _ Hwf Hnone Hbase) as (? & f & ? & hi & hp & ? & ? & ? & ?).
    split; [done|]. exists f. split; [by eapply holdsPages_ext|].
    exists hi, hp. simpl. by split_and!; auto.
  - destruct (ctor2_holds _ _ _ Hwf Hnone H) as (? & f & ? & hi & hp & ? & ? & ? & ?).
    split; [done|]. exists f. split; [done|]. exists hi, hp. by split_and!; auto.
Qed.

#[local] Arguments bind : simpl never.

(** Every destructor gives back what the object holds and closes the file. *)
Lemma destroy_releases v k f h h1 :
  wf (bm (sys h)) -> wf (bm (sys h1)) -> holdsPages f h h1 ->
  exists h2, destroy v k h1 = Some (tt, h2) /\ wf (bm (sys h2)) /\
    (forall g q, pins (bm (sys h2)) g q = pins (bm (sys h)) g q) /\
    bufPool (bm (sys h2)) = bufPool (bm (sys h1)) /\
    hashTable (bm (sys h2)) = hashTable (bm (sys h1)) /\
    calls (sys h2) = calls (sys h1) ++ [CCloseFile f] /\
    world (sys h2) = snd (fpCloseFile f (world (sys h1))) /\
    forall i d, bufTable (bm (sys h1)) !! i = Some d ->
      exists d', bufTable (bm (sys h2)) !! i = Some d' /\
        dirty d' = dirty d ||
          (bool_decide (k = AnInsertFileScan) && bool_decide (curPage (obj h1) = Some i)).
Proof.
  intros Hwf0 Hwf1 Hhold.
  destruct (release_pages f h h1 (bool_decide (k = AnInsertFileScan)) Hwf0 Hwf1 Hhold)
    as (sA & sB & HunA & HnoneA & HunB & HwfB & HpB & HpoolB & HhashB & HcallsB & HworldB & HdB).
  destruct Hhold as (Hf & Hhd & (hi & Hhdr & Hhi) & Hcur & Hpins).
  assert (exists o2, destroy v k h1 = Some (tt, mkHeap o2
            (mkSys (bm sB) (snd (fpCloseFile f (world sB))) (calls sB ++ [CCloseFile f]))))
    as [o2 Hrun].
  { destruct (curPage (obj h1)) as [ci|] eqn:Hc.
    - specialize (HunA ci eq_refl). destruct (Hcur ci eq_refl) as (_ & Hcd).
      destruct v, k; rewrite ?bool_decide_true in HunA by done;
        rewrite ?bool_decide_false in HunA by done; eexists;
        unfold destroy, Stage4.HeapFileScan_dtor, Var2.HeapFileScan_dtor,
          Stage4.InsertFileScan_dtor, Var2.InsertFileScan_dtor, Stage4.endScan, Var2.endScan,
          Stage4.HeapFile_dtor, Var2.HeapFile_dtor;
        run ltac:(simpl; rewrite ?Hf, ?Hc, ?Hhdr, ?Hcd, ?Hhd).
    - rewrite (HnoneA eq_refl) in HunB.
      destruct v, k; eexists;
        unfold destroy, Stage4.HeapFileScan_dtor, Var2.HeapFileScan_dtor,
          Stage4.InsertFileScan_dtor, Var2.InsertFileScan_dtor, Stage4.endScan, Var2.endScan,
          Stage4.HeapFile_dtor, Var2.HeapFile_dtor;
        run ltac:(simpl; rewrite ?Hf, ?Hc, ?Hhdr, ?Hhd). }
  eexists. split; [exact Hrun|]. simpl. split_and!; try done; congruence.
Qed.

Lemma holdsPages_curPinned f h h1 :
  wf (bm (sys h)) -> wf (bm (sys h1)) -> holdsPages f h h1 -> curPinned h1.
Proof.
  intros Hwf Hwf1 (Hf & _ & _ & Hcur & Hpins). split; [done|]. exists f. split; [done|].
  intros i Hi. destruct (Hcur i Hi) as (Hh & _). split; [done|].
  rewrite Hpins, Hi. pose proof (pins_nonneg (bm (sys h)) f (curPageNo (obj h1)) Hwf).
  pins_case.
Qed.

(** X15. A constructor of the heap file layer that returns [OK], in either
    variant and for each of the three classes, run on a well-formed pool and
    on an object without a current page: the pool is still well formed; the
    object has its file, its header page resident and pinned once more than
    before, and its current page, if it has one, resident, clean and pinned
    once more than before; no other pin count has changed.  The current
    page is the first page of the header, for an [InsertFileScan] of the
    first variant the last page; only the second variant can be left without
    a current page, when the header names no first page.  The object
    satisfies [curPinned], the invariant of the calls. *)
Theorem constructor_holds_pages v k name h h1 :
  wf (bm (sys h)) -> curPage (obj h) = None ->
  construct v k name h = Some (OK, h1) ->
  wf (bm (sys h1)) /\ curPinned h1 /\ exists f, holdsPages f h h1 /\
    exists hi hp, headerPage (obj h1) = Some hi /\ bufPool (bm (sys h1)) !! hi = Some hp /\
      (forall ci, curPage (obj h1) = Some ci -> curPageNo (obj h1) = startPage v k (hdrOf hp)) /\
      (curPage (obj h1) = None -> v = Var2Impl /\ firstPage (hdrOf hp) = -1).
Proof.
  intros Hwf Hnone H.
  destruct (construct_holds _ _ _ _ _ Hwf Hnone H) as (Hwf1 & f & Hhold & Hrest).
  split; [done|]. split; [exact (holdsPages_curPinned f h h1 Hwf Hwf1 Hhold)|]. by exists f.
Qed.

(** X16. Opening and closing compose to nothing on the pins: after a
    constructor that returned [OK], the destructor of the same class returns,
    every page has the pin count it had before the constructor ran, the
    bytes of the pool and the hash table are those the constructor left, and
    the last call to the provider closes the file.  The destructor of an
    [InsertFileScan] sets the dirty bit of the frame of the current page
    although nothing was inserted; no other dirty bit changes. *)
Theorem open_close_round_trip v k name h h1 :
  wf (bm (sys h)) -> curPage (obj h) = None ->
  construct v k name h = Some (OK, h1) ->
  exists f h2, filePtr (obj h1) = Some f /\ destroy v k h1 = Some (tt, h2) /\
    wf (bm (sys h2)) /\
    (forall g q, pins (bm (sys h2)) g q = pins (bm (sys h)) g q) /\
    bufPool (bm (sys h2)) = bufPool (bm (sys h1)) /\
    hashTable (bm (sys h2)) = hashTable (bm (sys h1)) /\
    calls (sys h2) = calls (sys h1) ++ [CCloseFile f] /\
    forall i d, bufTable (bm (sys h1)) !! i = Some d ->
      exists d', bufTable (bm (sys h2)) !! i = Some d' /\
        dirty d' = dirty d ||
          (bool_decide (k = AnInsertFileScan) && bool_decide (curPage (obj h1) = Some i)).
Proof.
  intros Hwf Hnone H.
  destruct (construct_holds _ _ _ _ _ Hwf Hnone H) as (Hwf1 & f & Hhold & _).
  destruct (destroy_releases v k f h h1 Hwf Hwf1 Hhold)
    as (h2 & Hrun & ? & ? & ? & ? & ? & ? & ?).
  exists f, h2. split_and!; try done. by destruct Hhold.
Qed.

End OpenCloseFacts.

(** ** The current page stays pinned *)

Section CurPinned.
Context {PL : PageLayer} {FP : FileProvider}.

#[local] Arguments readPage : simpl never.
#[local] Arguments unPinPage : simpl never.
#[local] Arguments allocPage : simpl never.
#[local] Arguments liftSys : simpl never.
#[local] Arguments deref : simpl never.
#[local] Arguments store : simpl never.
#[local] Arguments readHdr : simpl never.
#[local] Arguments updHdr : simpl never.
#[local] Arguments setObj : simpl never.
#[local] Arguments getObj : simpl never.

Lemma curPinned_none h f :
  wf (bm (sys h)) -> filePtr (obj h) = Some f -> curPage (obj h) = None -> curPinned h.
Proof. intros Hwf Hf Hc. split; [done|]. exists f. split; [done|]. by rewrite Hc. Qed.

Lemma curPinned_read s p page s' h f :
  wf (bm s) -> readPage (Some f) p s = Some ((OK, page), s') ->
  sys h = s' -> filePtr (obj h) = Some f -> curPage (obj h) = page -> curPageNo (obj h) = p ->
  curPinned h.
Proof.
  intros Hwf Hrd Hs Hf Hc Hn.
  destruct (readPage_post _ _ _ _ _ Hwf Hrd) as (Hwf' & _ & _ & _ & Hp & _ & Hfr).
  unfold curPinned. rewrite Hs. split; [done|]. exists f. split; [done|]. intros i Hi.
  rewrite Hc in Hi. destruct (Hfr i Hi) as (_ & fh & [= <-] & Hh). rewrite Hn.
  split; [done|]. rewrite Hp. pose proof (pins_nonneg (bm s) f p Hwf).
  simpl. rewrite bool_decide_true by done. lia.
Qed.

Lemma curPinned_pool h h' pool :
  curPinned h -> bm (sys h') = withBufPool pool (bm (sys h)) ->
  length pool = length (bufPool (bm (sys h))) ->
  filePtr (obj h') = filePtr (obj h) -> curPage (obj h') = curPage (obj h) ->
  curPageNo (obj h') = curPageNo (obj h) -> curPinned h'.
Proof.
  intros (Hwf & f & Hf & Hc) Hbm Hlen Hf' Hc' Hn'. split.
  - rewrite Hbm. by apply wf_pool.
  - exists f. rewrite Hf', Hc', Hn', Hbm. split; [done|]. apply Hc.
Qed.

Lemma curPinned_obj h h' :
  curPinned h -> sys h' = sys h ->
  filePtr (obj h') = filePtr (obj h) -> curPage (obj h') = curPage (obj h) ->
  curPageNo (obj h') = curPageNo (obj h) -> curPinned h'.
Proof.
  intros Hp Hs. apply (curPinned_pool h h' (bufPool (bm (sys h)))); [done| |done].
  rewrite Hs. by destruct (bm (sys h)).
Qed.

(** Releasing the current page. *)
Lemma curPinned_unpin h f st s' :
  curPinned h -> filePtr (obj h) = Some f -> is_Some (curPage (obj h)) ->
  unPinPage (Some f) (curPageNo (obj h)) (curDirtyFlag (obj h)) (sys h) = Some (st, s') ->
  st = OK /\ wf (bm s').
Proof.
  intros (Hwf & f' & Hf' & Hc) Hf [i Hi] Hun.
  rewrite Hf in Hf'. injection Hf' as <-.
  destruct (unPinPage_post _ _ _ _ _ _ Hwf Hun) as (Hwf' & _ & _ & _ & _ & _ & _ & _ & _ & Hok & _).
  split; [|done]. apply Hok. exists f. split; [done|]. by apply (Hc i).
Qed.

(** Facts about the pool calls found among the hypotheses. *)
Ltac pool_wf :=
  repeat match goal with
  | Hwf : wf (bm ?s), H : unPinPage _ _ _ ?s = Some (_, ?s') |- _ =>
      lazymatch goal with
      | _ : wf (bm s') |- _ => fail
      | _ => assert (wf (bm s')) by (by destruct (unPinPage_post _ _ _ _ _ _ Hwf H))
      end
  | Hwf : wf (bm ?s), H : readPage _ _ ?s = Some (_, ?s') |- _ =>
      lazymatch goal with
      | _ : wf (bm s') |- _ => fail
      | _ => assert (wf (bm s')) by (by destruct (readPage_post _ _ _ _ _ Hwf H))
      end
  end.

(** A [readPage] that returns [OK] returns a frame. *)
Ltac read_some :=
  repeat match goal with
  | Hwf : wf (bm ?s), H : readPage _ _ ?s = Some ((OK, ?o), _) |- _ =>
      is_var o;
      let Hs := fresh in
      destruct (readPage_post _ _ _ _ _ Hwf H) as (_ & _ & _ & _ & _ & Hs & _);
      simpl in Hs; destruct (Hs eq_refl) as [? ->]; clear Hs
  end.

(** The invariant after the current page has been read. *)
Ltac by_read :=
  match goal with
  | Hwf : wf (bm ?s), H : readPage (Some ?f) ?p ?s = Some ((OK, ?o), ?s') |- curPinned _ =>
      by apply (curPinned_read s p o s' _ f Hwf H)
  end.

Lemma resetScan4_keeps h st h' :
  curPinned h -> Stage4.resetScan h = Some (st, h') -> st = OK ->
  curPinned h' /\ filePtr (obj h') = filePtr (obj h).
Proof.
  intros Hinv H ->. pose proof Hinv as (Hwf & f & Hf & Hc).
  unfold Stage4.resetScan in H. hinv; try (by bool_hyps).
  all: bool_hyps; subst; rewrite Hf in *; pool_wf; read_some; simpl.
  all: split; [by_read|done].
Qed.

Lemma resetScan2_keeps h st h' :
  curPinned h -> Var2.resetScan h = Some (st, h') -> st = OK ->
  curPinned h' /\ filePtr (obj h') = filePtr (obj h).
Proof.
  intros Hinv H ->. pose proof Hinv as (Hwf & f & Hf & Hc).
  unfold Var2.resetScan in H. hinv; try (by bool_hyps).
  all: bool_hyps; subst; rewrite Hf in *; pool_wf; read_some; simpl.
  all: split; [by_read|done].
Qed.

Lemma endScan_keeps v h st h' :
  curPinned h -> call v CallEndScan h = Some (st, h') ->
  curPinned h' /\ filePtr (obj h') = filePtr (obj h).
Proof.
  intros Hinv H. pose proof Hinv as (Hwf & f & Hf & Hc).
  destruct v; simpl in H; unfold Stage4.endScan, Var2.endScan in H; hinv; try done.
  all: pool_wf; split; [|done]; by apply (curPinned_none _ f).
Qed.

Lemma startScan2_keeps off len ty flt op h st h' :
  curPinned h -> Var2.startScan off len ty flt op h = Some (st, h') -> st = OK ->
  curPinned h' /\ filePtr (obj h') = filePtr (obj h).
Proof.
  intros Hinv H ->. pose proof Hinv as (Hwf & f & Hf & Hc).
  unfold Var2.startScan in H. hinv; try (by bool_hyps).
  all: bool_hyps; subst; rewrite ?Hf in *; pool_wf; read_some; simpl.
  all: split; [|done].
  all: first [by_read | by apply (curPinned_none _ f)].
Qed.

Lemma getRecord4_keeps rid rec h st r h' :
  curPinned h -> Stage4.getRecord rid rec h = Some ((st, r), h') -> st = OK ->
  curPinned h' /\ filePtr (obj h') = filePtr (obj h).
Proof.
  intros Hinv H ->. pose proof Hinv as (Hwf & f & Hf & Hc).
  unfold Stage4.getRecord in H. hinv; try (by bool_hyps).
  all: bool_hyps; subst; rewrite ?Hf in *; pool_wf; read_some; simpl.
  all: split; [|done].
  all: by_read.
Qed.

Lemma getRecord2_keeps rid rec h st r h' :
  curPinned h -> Var2.getRecord rid rec h = Some ((st, r), h') -> st = OK ->
  curPinned h' /\ filePtr (obj h') = filePtr (obj h).
Proof.
  intros Hinv H ->. pose proof Hinv as (Hwf & f & Hf & Hc).
  unfold Var2.getRecord in H. hinv; try (by bool_hyps).
  all: bool_hyps; subst; rewrite ?Hf in *; pool_wf; read_some; simpl.
  all: split; [|done].
  all: by_read.
Qed.

(** Neither [unPinPage] nor [readPage] returns [FILEEOF]. *)
Ltac bad_status Hr :=
  destruct Hr as [?|[?|?]]; simplify_eq; try done;
  match goal with
  | Hwf : wf (bm ?s), H : unPinPage _ _ _ ?s = Some (FILEEOF, _) |- _ =>
      destruct (unPinPage_post _ _ _ _ _ _ Hwf H) as (_&_&_&_&_&_&_& [?|[?|?]] & _); done
  | Hwf : wf (bm ?s), H : readPage _ _ ?s = Some ((FILEEOF, _), _) |- _ =>
      destruct (readPage_post _ _ _ _ _ Hwf H) as (_&_&_& [?|[?|?]] & _);
      simplify_eq/=; done
  end.

Lemma scanNext4_turn_keeps h r h' :
  curPinned h -> Stage4.scanNext_turn h = Some (r, h') ->
  r = None \/ r = Some OK \/ r = Some FILEEOF ->
  curPinned h' /\ filePtr (obj h') = filePtr (obj h).
Proof.
  intros Hinv H Hr. pose proof Hinv as (Hwf & f & Hf & Hc).
  unfold Stage4.scanNext_turn in H. hinv; try (by bool_hyps).
  all: try (by destruct Hr as [?|[?|?]]; simplify_eq; bool_hyps).
  all: bool_hyps; rewrite ?Hf in *; pool_wf.
  all: try (by exfalso; bad_status Hr).
  all: subst; read_some; simpl; split; [|done].
  all: first [by_read | by apply (curPinned_none _ f)].
Qed.

Lemma scanNext2_turn_keeps h r h' :
  curPinned h -> Var2.scanNext_turn h = Some (r, h') ->
  r = None \/ r = Some OK \/ r = Some FILEEOF ->
  curPinned h' /\ filePtr (obj h') = filePtr (obj h).
Proof.
  intros Hinv H Hr. pose proof Hinv as (Hwf & f & Hf & Hc).
  unfold Var2.scanNext_turn in H. hinv; try (by bool_hyps).
  all: try (by destruct Hr as [?|[?|?]]; simplify_eq; bool_hyps).
  all: bool_hyps; rewrite ?Hf in *; pool_wf.
  all: try (by exfalso; bad_status Hr).
  all: subst; read_some; simpl; split; [|done].
  all: first [by_read | by apply (curPinned_none _ f)].
Qed.

Lemma scanNext4_loop_keeps fuel : forall h st h',
  curPinned h -> Stage4.scanNext_loop fuel h = Some (st, h') -> st = OK \/ st = FILEEOF ->
  curPinned h' /\ filePtr (obj h') = filePtr (obj h).
Proof.
  induction fuel as [|fuel IH]; intros h st h' Hinv H Hst; [done|].
  simpl in H. apply bind_Some in H as (r & h1 & Hturn & H).
  destruct r as [st1|].
  - apply ret_Some in H. injection H as -> ->.
    apply (scanNext4_turn_keeps _ _ _ Hinv Hturn). destruct Hst as [->| ->]; auto.
  - destruct (scanNext4_turn_keeps _ _ _ Hinv Hturn) as (Hinv1 & Hf1); [by left|].
    destruct (IH _ _ _ Hinv1 H Hst) as (? & ?). split; [done|congruence].
Qed.

Lemma scanNext2_loop_keeps fuel : forall h st h',
  curPinned h -> Var2.scanNext_loop fuel h = Some (st, h') -> st = OK \/ st = FILEEOF ->
  curPinned h' /\ filePtr (obj h') = filePtr (obj h).
Proof.
  induction fuel as [|fuel IH]; intros h st h' Hinv H Hst; [done|].
  simpl in H. apply bind_Some in H as (r & h1 & Hturn & H).
  destruct r as [st1|].
  - apply ret_Some in H. injection H as -> ->.
    apply (scanNext2_turn_keeps _ _ _ Hinv Hturn). destruct Hst as [->| ->]; auto.
  - destruct (scanNext2_turn_keeps _ _ _ Hinv Hturn) as (Hinv1 & Hf1); [by left|].
    destruct (IH _ _ _ Hinv1 H Hst) as (? & ?). split; [done|congruence].
Qed.

Lemma scanNext4_keeps fuel rid h st r h' :
  curPinned h -> Stage4.scanNext fuel rid h = Some ((st, r), h') -> st = OK \/ st = FILEEOF ->
  curPinned h' /\ filePtr (obj h') = filePtr (obj h).
Proof.
  intros Hinv H Hst. pose proof Hinv as (Hwf & f & Hf & Hc).
  unfold Stage4.scanNext in H.
  apply bind_Some in H as (o & h0 & [= -> ->]%getObj_Some & H).
  destruct (bool_decide (curPage (obj h) = None) && (curPageNo (obj h) =? -1));
    [apply ret_Some in H; by simplify_eq|].
  apply bind_Some in H as (st1 & h1 & Hpre & H).
  assert (st1 = OK -> curPinned h1 /\ filePtr (obj h1) = filePtr (obj h)) as Hinv1.
  { intros ->. clear H. hinv; try (by bool_hyps).
    all: bool_hyps; rewrite ?Hf in *; pool_wf; subst; read_some; simpl; split; [|done].
    all: by_read. }
  destruct (negb (isOK st1)) eqn:Hst1.
  { apply ret_Some in H. injection H as -> -> ->. apply negb_isOK_true in Hst1.
    exfalso. clear Hinv1. destruct Hst as [->| ->]; [done|].
    assert (Some FILEEOF = None \/ Some FILEEOF = Some OK \/ Some FILEEOF = Some FILEEOF)
      as Hr by auto.
    hinv; bool_hyps; rewrite ?Hf in *; pool_wf; bad_status Hr. }
  apply negb_isOK_false in Hst1 as ->. destruct (Hinv1 eq_refl) as (Hp1 & Hf1).
  apply bind_Some in H as (st2 & h2 & Hloop & H).
  apply bind_Some in H as (o & h3 & [= -> ->]%getObj_Some & H).
  assert (st2 = st) as ->.
  { destruct (isOK st2) eqn:E; apply ret_Some in H; simplify_eq; [by apply isOK_true in E|done]. }
  assert (h' = h2) as -> by (destruct (isOK st); apply ret_Some in H; by simplify_eq).
  destruct (scanNext4_loop_keeps _ _ _ _ Hp1 Hloop Hst) as (? & ?). split; [done|congruence].
Qed.

Lemma scanNext2_keeps fuel rid h st r h' :
  curPinned h -> Var2.scanNext fuel rid h = Some ((st, r), h') -> st = OK \/ st = FILEEOF ->
  curPinned h' /\ filePtr (obj h') = filePtr (obj h).
Proof.
  intros Hinv H Hst. pose proof Hinv as (Hwf & f & Hf & Hc).
  unfold Var2.scanNext in H.
  apply bind_Some in H as (o & h0 & [= -> ->]%getObj_Some & H).
  destruct (headerPage (obj h)) as [hi|] eqn:Hhdr;
    [|apply ret_Some in H; simplify_eq; by destruct Hst].
  apply bind_Some in H as (r1 & h1 & Hpre & H).
  assert ((r1 = None \/ r1 = Some FILEEOF) ->
          curPinned h1 /\ filePtr (obj h1) = filePtr (obj h)) as Hinv1.
  { intros Hr1. clear H. hinv; try (by bool_hyps).
    all: try (by destruct Hr1; simplify_eq; bool_hyps).
    all: bool_hyps; rewrite ?Hf in *; pool_wf.
    all: try (exfalso; assert (Some s = None \/ Some s = Some OK \/ Some s = Some FILEEOF)
                         as Hr by (destruct Hr1; auto); by bad_status Hr).
    all: subst; read_some; simpl; split; [|done].
    all: by_read. }
  destruct r1 as [st1|].
  - apply ret_Some in H. injection H as -> -> ->.
    destruct Hst as [->| ->]; [|by apply Hinv1; right].
    exfalso. clear Hinv1. hinv; by bool_hyps.
  - destruct (Hinv1 (or_introl eq_refl)) as (Hp1 & Hf1).
    apply bind_Some in H as (st2 & h2 & Hloop & H).
    apply bind_Some in H as (o & h3 & [= -> ->]%getObj_Some & H).
    assert (st2 = st) as ->.
    { destruct (isOK st2) eqn:E; apply ret_Some in H; simplify_eq;
        [by apply isOK_true in E|done]. }
    assert (h' = h2) as -> by (destruct (isOK st); apply ret_Some in H; by simplify_eq).
    destruct (scanNext2_loop_keeps _ _ _ _ Hp1 Hloop Hst) as (? & ?). split; [done|congruence].
Qed.

Lemma deleteRecord_keeps v h st h' :
  curPinned h -> call v CallDeleteRecord h = Some (st, h') ->
  curPinned h' /\ filePtr (obj h') = filePtr (obj h).
Proof.
  intros Hinv H.
  destruct v; simpl in H; unfold Stage4.deleteRecord, Var2.deleteRecord, updHdr in H;
    hinv; try done.
  all: split; [|done].
  all: eapply curPinned_pool; [exact Hinv|simpl; reflexivity|..]; try done.
  all: by rewrite ?length_insert.
Qed.

Lemma curPinned_poked s f p i pool h' :
  wf (bm s) -> hashTable (bm s) !! (f, p) = Some i -> 0 < pins (bm s) f p ->
  bm (sys h') = withBufPool pool (bm s) -> length pool = length (bufPool (bm s)) ->
  filePtr (obj h') = Some f -> curPage (obj h') = Some i -> curPageNo (obj h') = p ->
  curPinned h'.
Proof.
  intros Hwf Hh Hp Hbm Hlen Hf Hc Hn. split.
  - rewrite Hbm. by apply wf_pool.
  - exists f. split; [done|]. intros j Hj. rewrite Hc in Hj. injection Hj as <-.
    by rewrite Hn, Hbm.
Qed.

(** A page read with [OK] is resident and pinned. *)
Lemma readPage_pinned f p s fr s' :
  wf (bm s) -> readPage (Some f) p s = Some ((OK, Some fr), s') ->
  wf (bm s') /\ hashTable (bm s') !! (f, p) = Some fr /\ 0 < pins (bm s') f p.
Proof.
  intros Hwf Hrd.
  destruct (readPage_post _ _ _ _ _ Hwf Hrd) as (Hwf' & _ & _ & _ & Hp & _ & Hfr).
  destruct (Hfr fr eq_refl) as (_ & fh & [= <-] & Hh).
  split_and!; try done. rewrite Hp. pose proof (pins_nonneg (bm s) f p Hwf).
  simpl. rewrite bool_decide_true by done. lia.
Qed.

(** A new page, allocated while page [p] is pinned, is still resident and
    pinned after pin holders have written to their frames and [p] has been
    unpinned. *)
Lemma allocPage_then_unpin f p d s0 z fr s1 sA pool s2 :
  wf (bm s0) -> 0 < pins (bm s0) f p ->
  allocPage (Some f) s0 = Some ((OK, z, Some fr), s1) ->
  bm sA = withBufPool pool (bm s1) -> length pool = length (bufPool (bm s1)) ->
  unPinPage (Some f) p d sA = Some (OK, s2) ->
  wf (bm s2) /\ hashTable (bm s2) !! (f, z) = Some fr /\ 0 < pins (bm s2) f z.
Proof.
  intros Hwf Hpos Hal Hbm Hlen Hun.
  destruct (allocPage_post _ _ _ _ _ _ Hwf Hal) as (Hwf1 & _).
  destruct (allocPage_fresh _ _ _ _ _ Hwf Hal) as (Hz0 & Hz1 & Hh1 & _).
  assert (wf (bm sA)) as HwfA by (rewrite Hbm; by apply wf_pool).
  destruct (unPinPage_post _ _ _ _ _ _ HwfA Hun)
    as (Hwf2 & _ & _ & Hh2 & _ & _ & _ & _ & _ & _ & Hp2 & _).
  split_and!; [done|by rewrite Hh2, Hbm|].
  rewrite Hp2, Hbm, pins_withBufPool, Hz1.
  case_bool_decide as Hc; [|lia]. destruct Hc as (_ & _ & ->). lia.
Qed.

Lemma insertRecord4_keeps rec rid h st r h' :
  curPinned h -> Stage4.insertRecord rec rid h = Some ((st, r), h') -> st = OK ->
  curPinned h' /\ filePtr (obj h') = filePtr (obj h).
Proof.
  intros Hinv H ->. pose proof Hinv as (Hwf & f & Hf & Hc).
  unfold Stage4.insertRecord, updHdr in H. hinv; try (by bool_hyps).
  all: bool_hyps; rewrite ?Hf in *; pool_wf; subst; read_some; simpl in *; rewrite ?Hf in *.
  all: split; [|done].
  - destruct (Hc _ eq_refl) as (Hh & Hpos).
    match goal with
    | Hal : allocPage _ ?s0 = Some _, Hun : unPinPage _ ?p ?d ?sA = Some (_, ?s2) |- _ =>
        destruct (allocPage_then_unpin f p d s0 _ _ _ sA (bufPool (bm sA)) s2
                    (wf_putFrame _ _ _ Hwf) Hpos Hal eq_refl) as (Hwf2 & Hh2 & Hp2);
          [simpl; by rewrite ?length_insert|exact Hun|]
    end.
    eapply (curPinned_poked _ f z _ _ _ Hwf2 Hh2 Hp2); [simpl; reflexivity|..]; try done.
    by rewrite ?length_insert.
  - match goal with
    | Hrd : readPage _ _ (sys h) = Some _ |- _ =>
        destruct (readPage_pinned _ _ _ _ _ Hwf Hrd) as (Hwf1 & Hh1 & Hpos)
    end.
    match goal with
    | Hal : allocPage _ ?s0 = Some _, Hun : unPinPage _ ?p ?d ?sA = Some (_, ?s2) |- _ =>
        destruct (allocPage_then_unpin f p d s0 _ _ _ sA (bufPool (bm sA)) s2
                    (wf_putFrame _ _ _ Hwf1) Hpos Hal eq_refl) as (Hwf2 & Hh2 & Hp2);
          [simpl; by rewrite ?length_insert|exact Hun|]
    end.
    eapply (curPinned_poked _ f z _ _ _ Hwf2 Hh2 Hp2); [simpl; reflexivity|..]; try done.
    by rewrite ?length_insert.
  - eapply curPinned_pool; [exact Hinv|simpl; reflexivity|..]; try done.
    by rewrite ?length_insert.
  - match goal with
    | Hrd : readPage _ _ (sys h) = Some _ |- _ =>
        destruct (readPage_pinned _ _ _ _ _ Hwf Hrd) as (Hwf1 & Hh1 & Hpos)
    end.
    eapply (curPinned_poked _ f _ _ _ _ Hwf1 Hh1 Hpos); [simpl; reflexivity|..]; try done.
    by rewrite ?length_insert.
Qed.

Lemma curPinned_deref h i :
  curPinned h -> curPage (obj h) = Some i -> is_Some (bufPool (bm (sys h)) !! i).
Proof.
  intros (Hwf & f & Hf & Hc) Hi. destruct (Hc i Hi) as (Hh & _).
  destruct (proj1 (wf_hash _ Hwf _ _ _) Hh) as (d & Hd & _).
  apply lookup_lt_is_Some. rewrite (wf_pool_len _ Hwf), <- (wf_table_len _ Hwf).
  by eapply lookup_lt_Some.
Qed.

(** X17. The current page of an object is never left dangling by a call
    that succeeds.  If the object has its file and its current page, when it
    has one, is the frame in which page [curPageNo] of the file is resident
    and pinned, then the same holds after every call of the heap file layer
    that returns [OK], and after a [scanNext] that returns [FILEEOF], in both
    variants; the file of the object is the same, and the current page can
    be dereferenced. *)
Theorem calls_keep_current_page_pinned v c h st h' :
  curPinned h -> call v c h = Some (st, h') ->
  st = OK \/ (st = FILEEOF /\ exists fuel rid, c = CallScanNext fuel rid) ->
  curPinned h' /\ filePtr (obj h') = filePtr (obj h) /\
  forall i, curPage (obj h') = Some i -> is_Some (bufPool (bm (sys h')) !! i).
Proof.
  intros Hinv H Hst.
  cut (curPinned h' /\ filePtr (obj h') = filePtr (obj h)).
  { intros (Hinv' & Hf'). split_and!; try done. intros i. by apply curPinned_deref. }
  destruct c.
  - destruct Hst as [->|(_ & ? & ? & [=])]. 
    destruct v; simpl in H; unfold Stage4.getRecCnt, Var2.getRecCnt in H; hinv; done.
  - destruct Hst as [->|(_ & ? & ? & [=])]. 
    destruct v; simpl in H; apply bind_Some in H as ([st1 r] & h1 & Hget & H);
      apply ret_Some in H; injection H as Hst ->; simpl in *; subst st1.
    + by eapply getRecord4_keeps.
    + by eapply getRecord2_keeps.
  - destruct Hst as [->|(_ & ? & ? & [=])]. destruct v; simpl in H.
    + unfold Stage4.startScan in H. hinv; done.
    + by eapply startScan2_keeps.
  - destruct Hst as [->|(_ & ? & ? & [=])]. by eapply endScan_keeps.
  - destruct Hst as [->|(_ & ? & ? & [=])]. 
    destruct v; simpl in H; unfold Stage4.markScan, Var2.markScan in H; hinv; done.
  - destruct Hst as [->|(_ & ? & ? & [=])]. 
    destruct v; simpl in H; [by eapply resetScan4_keeps|by eapply resetScan2_keeps].
  - assert (st = OK \/ st = FILEEOF) as Hst' by (destruct Hst as [?|[? _]]; auto).
    destruct v; simpl in H; apply bind_Some in H as ([st1 r] & h1 & Hget & H);
      apply ret_Some in H; injection H as -> ->; simpl in *.
    + by eapply scanNext4_keeps.
    + by eapply scanNext2_keeps.
  - destruct Hst as [->|(_ & ? & ? & [=])]. 
    destruct v; simpl in H; unfold Stage4.scanGetRecord, Var2.scanGetRecord in H; hinv; done.
  - destruct Hst as [->|(_ & ? & ? & [=])]. by eapply deleteRecord_keeps.
  - destruct Hst as [->|(_ & ? & ? & [=])]. 
    destruct v; simpl in H; unfold markDirty in H; hinv; done.
  - destruct Hst as [->|(_ & ? & ? & [=])]. 
    destruct v; simpl in H; apply bind_Some in H as ([st1 r] & h1 & Hget & H);
      apply ret_Some in H; injection H as Hst ->; simpl in *; subst st1.
    + by eapply insertRecord4_keeps.
    + unfold Var2.insertRecord in Hget. hinv.
Qed.

End CurPinned.

(** ** Deleting, matching and inserting records *)

Section DeleteRecord.
Context {PL : PageLayer} {FP : FileProvider}.

#[local] Arguments readPage : simpl never.
#[local] Arguments unPinPage : simpl never.
#[local] Arguments liftSys : simpl never.
#[local] Arguments deref : simpl never.
#[local] Arguments store : simpl never.
#[local] Arguments readHdr : simpl never.
#[local] Arguments updHdr : simpl never.
#[local] Arguments setObj : simpl never.
#[local] Arguments getObj : simpl never.

(** X18. [HeapFileScan::deleteRecord] on an object whose header page and
    current page are in different frames: the record [curRec] is deleted
    from the current page by the page layer, whose status is returned.  On
    [OK] the record count of the header goes down by one and both dirty
    flags of the object are set; otherwise the header and the flags are as
    before.  In both cases the descriptors, the hash table and the provider
    are not touched and no other frame changes.  The second variant does
    this only when the page number of [curRec] is not negative. *)
Theorem deleteRecord_counts v h i j hp pg :
  headerPage (obj h) = Some i -> curPage (obj h) = Some j -> i <> j ->
  bufPool (bm (sys h)) !! i = Some hp -> bufPool (bm (sys h)) !! j = Some pg ->
  (v = Var2Impl -> 0 <= ridPageNo (curRec (obj h))) ->
  exists h',
    call v CallDeleteRecord h = Some (fst (pageDeleteRecord (curRec (obj h)) pg), h') /\
    bufPool (bm (sys h')) !! j = Some (snd (pageDeleteRecord (curRec (obj h)) pg)) /\
    (forall k, k <> i -> k <> j -> bufPool (bm (sys h')) !! k = bufPool (bm (sys h)) !! k) /\
    bufTable (bm (sys h')) = bufTable (bm (sys h)) /\
    hashTable (bm (sys h')) = hashTable (bm (sys h)) /\
    world (sys h') = world (sys h) /\ calls (sys h') = calls (sys h) /\
    curRec (obj h') = curRec (obj h) /\ curPage (obj h') = curPage (obj h) /\
    (fst (pageDeleteRecord (curRec (obj h)) pg) = OK ->
       bufPool (bm (sys h')) !! i = Some (hdrSet (setRecCnt (recCnt (hdrOf hp) - 1) (hdrOf hp)) hp) /\
       curDirtyFlag (obj h') = true /\ hdrDirtyFlag (obj h') = true) /\
    (fst (pageDeleteRecord (curRec (obj h)) pg) <> OK ->
       bufPool (bm (sys h')) !! i = Some hp /\
       curDirtyFlag (obj h') = curDirtyFlag (obj h) /\
       hdrDirtyFlag (obj h') = hdrDirtyFlag (obj h)).
Proof.
  intros Hi Hj Hij Hhp Hpg Hv.
  assert (Hli : (i < length (bufPool (bm (sys h))))%nat) by (by eapply lookup_lt_Some).
  assert (Hlj : (j < length (bufPool (bm (sys h))))%nat) by (by eapply lookup_lt_Some).
  destruct (pageDeleteRecord (curRec (obj h)) pg) as [st pg'] eqn:Hdel. simpl.
  assert (Hguard : v = Var2Impl ->
            bool_decide (Some j = (None : option nat)) || (ridPageNo (curRec (obj h)) <? 0) = false).
  { intros Hv2. apply orb_false_iff. split; [done|]. apply Z.ltb_ge. auto. }
  destruct (decide (st = OK)) as [->|Hst].
  - eexists. split.
    { destruct v; simpl; unfold Stage4.deleteRecord, Var2.deleteRecord;
        run ltac:(simpl; rewrite ?Hi, ?Hj, ?Hdel, ?Hguard by done; simpl). }
    simpl. split_and!; try done.
    + rewrite list_lookup_insert_ne by done. by apply list_lookup_insert_eq.
    + intros k ??. by rewrite !list_lookup_insert_ne.
    + intros _. split_and!; try done. by apply list_lookup_insert_eq; rewrite length_insert.
  - assert (isOK st = false) as Hno by (by apply isOK_false).
    eexists. split.
    { destruct v; simpl; unfold Stage4.deleteRecord, Var2.deleteRecord;
        run ltac:(simpl; rewrite ?Hi, ?Hj, ?Hdel, ?Hno, ?Hguard by done; simpl). }
    simpl. split_and!; try done.
    + by apply list_lookup_insert_eq.
    + intros k ??. by rewrite !list_lookup_insert_ne.
    + intros _. split_and!; try done. by rewrite list_lookup_insert_ne.
Qed.

End DeleteRecord.

Section MatchRec.
Context {PL : PageLayer}.


End MatchRec.

(** Looking up a frame under a stack of writes to other frames. *)
Ltac norm_lookup H :=
  repeat (rewrite list_lookup_insert_ne in H by congruence);
  try (rewrite list_lookup_insert_eq in H by (rewrite ?length_insert; lia)).

Ltac norm_goal :=
  repeat (rewrite list_lookup_insert_ne by congruence);
  first [done | by apply list_lookup_insert_eq; rewrite ?length_insert; lia].

Section InsertBookkeeping.
Context {PL : PageLayer} {FP : FileProvider}.

#[local] Arguments readPage : simpl never.
#[local] Arguments unPinPage : simpl never.
#[local] Arguments allocPage : simpl never.
#[local] Arguments liftSys : simpl never.
#[local] Arguments deref : simpl never.
#[local] Arguments store : simpl never.
#[local] Arguments readHdr : simpl never.
#[local] Arguments updHdr : simpl never.
#[local] Arguments setObj : simpl never.
#[local] Arguments getObj : simpl never.

(** The frame of a new page is not the frame of a pinned page, which stays
    where it is. *)
Lemma allocPage_new_frame f s0 z fr s1 p i :
  wf (bm s0) -> allocPage (Some f) s0 = Some ((OK, z, Some fr), s1) ->
  hashTable (bm s0) !! (f, p) = Some i -> 0 < pins (bm s0) f p ->
  i <> fr /\ z <> p /\ hashTable (bm s1) !! (f, p) = Some i.
Proof.
  intros Hwf Hal Hh Hpos.
  destruct (allocPage_post _ _ _ _ _ _ Hwf Hal) as (Hwf1 & _ & _ & Hkept & _).
  destruct (allocPage_fresh _ _ _ _ _ Hwf Hal) as (Hz0 & _ & Hh1 & _).
  assert (z <> p) as Hzp by (intros ->; lia).
  destruct (Hkept i (resident_pinned _ _ _ _ Hwf Hh Hpos))
    as (d & d' & Hd & Hd' & _ & _ & _ & _ & Hhash).
  destruct (proj1 (wf_hash _ Hwf f p i) Hh) as (d0 & Hd0 & _ & Hf0 & Hp0).
  simplify_eq. specialize (Hhash f Hf0). rewrite Hh in Hhash.
  split_and!; try done. intros ->.
  pose proof (wf_hash_inj _ _ _ _ _ _ Hwf1 Hhash Hh1). by simplify_eq.
Qed.

(** X20. The bookkeeping of [InsertFileScan::insertRecord] (first variant)
    on an object that holds its header page and, in another frame, its
    current page.  When it returns [OK], the record count of the header has
    gone up by one, [curRec] is the identifier returned and both dirty flags
    are set.  Either the record went to the current page: nothing else in
    the header changes and the pool keeps its descriptors, its hash table
    and the log of provider calls.  Or the current page was full: a page [z]
    was allocated, initialised and linked after the old current page, which
    was unpinned; [z] is the new current page, pinned, and the last page of
    the header, whose page count has gone up by one; the record is on [z]. *)
Theorem insertRecord4_bookkeeping rec rid h f hi ci hp r h' :
  wf (bm (sys h)) -> filePtr (obj h) = Some f ->
  headerPage (obj h) = Some hi ->
  hashTable (bm (sys h)) !! (f, headerPageNo (obj h)) = Some hi ->
  0 < pins (bm (sys h)) f (headerPageNo (obj h)) ->
  curPage (obj h) = Some ci ->
  hashTable (bm (sys h)) !! (f, curPageNo (obj h)) = Some ci ->
  0 < pins (bm (sys h)) f (curPageNo (obj h)) ->
  headerPageNo (obj h) <> curPageNo (obj h) ->
  bufPool (bm (sys h)) !! hi = Some hp ->
  Stage4.insertRecord rec rid h = Some ((OK, r), h') ->
  exists hp',
    bufPool (bm (sys h')) !! hi = Some hp' /\
    recCnt (hdrOf hp') = recCnt (hdrOf hp) + 1 /\
    fileName (hdrOf hp') = fileName (hdrOf hp) /\
    firstPage (hdrOf hp') = firstPage (hdrOf hp) /\
    curRec (obj h') = r /\ curDirtyFlag (obj h') = true /\ hdrDirtyFlag (obj h') = true /\
    ((curPage (obj h') = Some ci /\ curPageNo (obj h') = curPageNo (obj h) /\
      pageCnt (hdrOf hp') = pageCnt (hdrOf hp) /\ lastPage (hdrOf hp') = lastPage (hdrOf hp) /\
      bufTable (bm (sys h')) = bufTable (bm (sys h)) /\
      hashTable (bm (sys h')) = hashTable (bm (sys h)) /\
      calls (sys h') = calls (sys h) /\
      exists pg pg', bufPool (bm (sys h)) !! ci = Some pg /\
        pageInsertRecord rec pg = (OK, r, pg') /\ bufPool (bm (sys h')) !! ci = Some pg')
     \/
     (exists z fr, curPage (obj h') = Some fr /\ curPageNo (obj h') = z /\
        z <> curPageNo (obj h) /\ z <> headerPageNo (obj h) /\ fr <> ci /\ fr <> hi /\
        pageCnt (hdrOf hp') = pageCnt (hdrOf hp) + 1 /\ lastPage (hdrOf hp') = z /\
        hashTable (bm (sys h')) !! (f, z) = Some fr /\
        (forall g q, pins (bm (sys h')) g q =
           pins (bm (sys h)) g q
           + (if bool_decide (g = f /\ q = z) then 1 else 0)
           - (if bool_decide (g = f /\ q = curPageNo (obj h)) then 1 else 0)) /\
        (exists l, calls (sys h') = calls (sys h) ++ [CAllocatePage f] ++ l) /\
        exists pg r0 pgf old npg, bufPool (bm (sys h)) !! ci = Some pg /\
          pageInsertRecord rec pg = (NOSPACE, r0, pgf) /\
          bufPool (bm (sys h')) !! ci = Some (snd (pageSetNextPage z pgf)) /\
          pageInsertRecord rec (pageInit z old) = (OK, r, npg) /\
          bufPool (bm (sys h')) !! fr = Some npg)).
Proof.
  intros Hwf Hf Hhdr Hhi Hphdr Hcur Hci Hpcur Hne Hhp H.
  assert (hi <> ci) as Hic.
  { intros ->. pose proof (wf_hash_inj _ _ _ _ _ _ Hwf Hhi Hci). by simplify_eq. }
  assert (Hli : (hi < length (bufPool (bm (sys h))))%nat) by (by eapply lookup_lt_Some).
  unfold Stage4.insertRecord, updHdr in H. hinv; try (by bool_hyps); try congruence.
  all: bool_hyps; rewrite ?Hf in *; simplify_eq/=.
  - match type of H1 with allocPage _ ?s = _ => set (s0 := s) in * end.
    assert (Hwf0 : wf (bm s0)) by (by apply wf_putFrame).
    destruct (allocPage_post _ _ _ _ _ _ Hwf0 H1) as (Hwf7 & _ & Hpool7 & _ & Hp7 & _ & _).
    destruct (allocPage_fresh _ _ _ _ _ Hwf0 H1) as (_ & _ & Hh7 & _).
    destruct (allocPage_new_frame _ _ _ _ _ _ hi Hwf0 H1 Hhi Hphdr) as (Hhifr & Hzh & Hhi7).
    destruct (allocPage_new_frame _ _ _ _ _ _ ci Hwf0 H1 Hci Hpcur) as (Hcifr & Hzc & Hci7).
    apply allocPage_calls in H1 as (? & l & [= <-] & Hcalls7).
    simpl in Hpool7, Hcalls7, Hp7.
    assert (Hlc : (ci < length (bufPool (bm (sys h))))%nat) by (by eapply lookup_lt_Some).
    assert (Hlf : (x11 < length (bufPool (bm (sys h))))%nat).
    { apply lookup_lt_Some in H7. by rewrite Hpool7, length_insert in H7. }
    rewrite Hpool7 in *.
    norm_lookup H10. norm_lookup H9. simplify_eq.
    match type of H3 with unPinPage _ _ _ ?s = _ => set (sA := s) in * end.
    assert (HwfA : wf (bm sA)) by (by do 3 apply wf_putFrame).
    destruct (unPinPage_post _ _ _ _ _ _ HwfA H3)
      as (Hwf8 & _ & Hpool8 & Hh8 & _ & Hcalls8 & _ & _ & _ & _ & Hp8 & _).
    simpl in Hpool8, Hh8, Hcalls8, Hp8. rewrite Hpool8, Hpool7 in *.
    norm_lookup H13. norm_lookup H12. simplify_eq. norm_lookup H6. simplify_eq.
    eexists. split; [norm_goal|].
    rewrite !hdrOf_hdrSet. simpl.
    split_and!; try done; [by destruct r|]. right.
    exists z, x11. split_and!; try done.
    + by rewrite Hh8.
    + intros g q. unfold pins in *. simpl. specialize (Hp8 g q). specialize (Hp7 g q).
      simpl in *. rewrite Hp8, Hp7. pins_case.
    + exists l. by rewrite Hcalls8.
    + eexists _, _, _, _, _. split; [done|]. split; [done|]. rewrite Heqp0. simpl.
      split; [norm_goal|]. split; [done|]. norm_goal.
  - assert (Hlc : (ci < length (bufPool (bm (sys h))))%nat) by (by eapply lookup_lt_Some).
    norm_lookup H6. simplify_eq.
    eexists. split; [norm_goal|].
    rewrite !hdrOf_hdrSet. simpl.
    split_and!; try done; [by destruct r0|]. left.
    split_and!; try done. eexists _, _. split; [done|]. split; [done|]. norm_goal.
Qed.

End InsertBookkeeping.

(** ** More runs of the concrete instance *)

Section MoreRuns.
Import Sim.

Lemma halfPinned_wf : wf (bm halfPinned).
Proof. exact (reachable_wf _ halfPinned_reachable). Qed.

Lemma scan4_wf : wf (bm (sys scan4)).
Proof. apply wfb_sound. vm_compute. reflexivity. Qed.

Lemma loaded_wf : wf (bm (sys (fresh loaded))).
Proof. apply wfb_sound. vm_compute. reflexivity. Qed.


(** X2 on [halfPinned]: the second read of page 3 finds it in frame 0. *)
Lemma readPage_twice_same_frame_witness :
  wf (bm halfPinned) /\
  readPage (Some 1%nat) 3 halfPinned =
    Some ((OK, Some 0%nat), exec (readPage f1 3) halfPinned) /\
  exists s2, readPage (Some 1%nat) 3 (exec (readPage f1 3) halfPinned) =
               Some ((OK, Some 0%nat), s2) /\
    world s2 = world (exec (readPage f1 3) halfPinned) /\
    calls s2 = calls (exec (readPage f1 3) halfPinned) /\
    bufPool (bm s2) = bufPool (bm (exec (readPage f1 3) halfPinned)) /\
    hashTable (bm s2) = hashTable (bm (exec (readPage f1 3) halfPinned)) /\
    pins (bm s2) 1%nat 3 = pins (bm halfPinned) 1%nat 3 + 2.
Proof.
  assert (Hrd : readPage (Some 1%nat) 3 halfPinned =
                Some ((OK, Some 0%nat), exec (readPage f1 3) halfPinned))
    by (vm_compute; reflexivity).
  split; [exact halfPinned_wf|]. split; [exact Hrd|].
  exact (readPage_twice_same_frame 1%nat 3 halfPinned 0%nat _ halfPinned_wf Hrd).
Defined.

(** X3 on [halfPinned], for page 1, which is pinned. *)
Lemma unPinPage_cases_witness :
  wf (bm halfPinned) /\ 0 < pins (bm halfPinned) 1%nat 1 /\
  exists st s', unPinPage (Some 1%nat) 1 true halfPinned = Some (st, s') /\ st = OK /\
    forall g q, pins (bm s') g q =
      pins (bm halfPinned) g q - (if bool_decide (1%nat = g /\ 1 = q) then 1 else 0).
Proof.
  assert (Hpin : 0 < pins (bm halfPinned) 1%nat 1) by (vm_compute; reflexivity).
  split; [exact halfPinned_wf|]. split; [exact Hpin|].
  destruct (unPinPage_cases 1%nat 1 true halfPinned halfPinned_wf)
    as (st & s' & Hrun & _ & _ & Hok).
  destruct (Hok Hpin) as (Hst & _ & _ & _ & _ & _ & Hpins & _).
  exists st, s'. split; [exact Hrun|]. split; [exact Hst|]. exact Hpins.
Defined.

(** X4 on [halfPinned]: page 3 is read and released. *)
Lemma readPage_unPinPage_round_trip_witness :
  wf (bm halfPinned) /\
  readPage (Some 1%nat) 3 halfPinned =
    Some ((OK, Some 0%nat), exec (readPage f1 3) halfPinned) /\
  exists s2, unPinPage (Some 1%nat) 3 false (exec (readPage f1 3) halfPinned) = Some (OK, s2) /\
    (forall g q, pins (bm s2) g q = pins (bm halfPinned) g q) /\
    hashTable (bm s2) !! (1%nat, 3) = Some 0%nat /\
    bufPool (bm s2) = bufPool (bm (exec (readPage f1 3) halfPinned)) /\
    world s2 = world (exec (readPage f1 3) halfPinned) /\
    calls s2 = calls (exec (readPage f1 3) halfPinned).
Proof.
  assert (Hrd : readPage (Some 1%nat) 3 halfPinned =
                Some ((OK, Some 0%nat), exec (readPage f1 3) halfPinned))
    by (vm_compute; reflexivity).
  split; [exact halfPinned_wf|]. split; [exact Hrd|].
  exact (readPage_unPinPage_round_trip 1%nat 3 false halfPinned 0%nat _ halfPinned_wf Hrd).
Defined.

(** X5 on the pool of [scan4]: the provider hands out page 5. *)
Lemma allocPage_fresh_pin_witness :
  wf (bm (sys scan4)) /\
  allocPage (Some 2%nat) (sys scan4) =
    Some ((OK, 5, Some 1%nat), exec (allocPage (Some 2%nat)) (sys scan4)) /\
  wf (bm (exec (allocPage (Some 2%nat)) (sys scan4))) /\
  bufPool (bm (exec (allocPage (Some 2%nat)) (sys scan4))) = bufPool (bm (sys scan4)) /\
  exists fh l, Some 2%nat = Some fh /\
    calls (exec (allocPage (Some 2%nat)) (sys scan4)) =
      calls (sys scan4) ++ [CAllocatePage fh] ++ l /\
    (length l <= 1)%nat /\ Forall isWrite l.
Proof.
  assert (Hal : allocPage (Some 2%nat) (sys scan4) =
                Some ((OK, 5, Some 1%nat), exec (allocPage (Some 2%nat)) (sys scan4)))
    by (vm_compute; reflexivity).
  split; [exact scan4_wf|]. split; [exact Hal|].
  destruct (allocPage_fresh_pin (Some 2%nat) (sys scan4) OK 5 (Some 1%nat) _ scan4_wf Hal)
    as (Hwf' & Hpool & Hcalls & _).
  split; [exact Hwf'|]. split; [exact Hpool|]. exact Hcalls.
Defined.

(** X6 on [halfPinned]: page 1 is disposed of while it is pinned. *)
Lemma disposePage_drops_page_witness :
  wf (bm halfPinned) /\ 0 < pins (bm halfPinned) 1%nat 1 /\
  exists s', disposePage (Some 1%nat) 1 halfPinned =
               Some (fst (fpDisposePage 1%nat 1 (world halfPinned)), s') /\
    world s' = snd (fpDisposePage 1%nat 1 (world halfPinned)) /\
    calls s' = calls halfPinned ++ [CDisposePage 1%nat 1] /\
    bufPool (bm s') = bufPool (bm halfPinned) /\
    hashTable (bm s') = delete (1%nat, 1) (hashTable (bm halfPinned)) /\
    pins (bm s') 1%nat 1 = 0 /\
    (forall g q, (g, q) <> (1%nat, 1) -> pins (bm s') g q = pins (bm halfPinned) g q).
Proof.
  split; [exact halfPinned_wf|]. split; [vm_compute; reflexivity|].
  exact (disposePage_drops_page 1%nat 1 halfPinned halfPinned_wf).
Defined.

(** X7 on [halfPinned]: only frame 0 is dirty. *)
Lemma BufMgr_dtor_writes_dirty_frames_witness :
  wf (bm halfPinned) /\ length (dirtyWrites (bm halfPinned)) = 1%nat /\
  exists s', BufMgr_dtor halfPinned = Some (tt, s') /\ bm s' = bm halfPinned /\
    calls s' = calls halfPinned ++ dirtyWrites (bm halfPinned).
Proof.
  split; [exact halfPinned_wf|]. split; [vm_compute; reflexivity|].
  exact (BufMgr_dtor_writes_dirty_frames halfPinned halfPinned_wf).
Defined.

(** X8 on [halfPinned]. *)
Lemma pool_invariant_witness :
  reachable halfPinned /\
  length (bufTable (bm halfPinned)) = numBufs (bm halfPinned) /\
  length (bufPool (bm halfPinned)) = numBufs (bm halfPinned) /\
  forall f p, 0 <= pins (bm halfPinned) f p.
Proof.
  split; [exact halfPinned_reachable|].
  destruct (pool_invariant halfPinned halfPinned_reachable)
    as (Ht & Hp & _ & _ & _ & _ & Hpins).
  split; [exact Ht|]. split; [exact Hp|]. exact Hpins.
Defined.

(** X9 on a scan for the bytes greater than 12: the first record returned is
    the second of page 3, which holds 13. *)
Lemma scanNext_returns_matching_record_witness :
  next4 filtered4 = Some ((OK, mkRID 3 1), exec next4 filtered4) /\
  mkRID 3 1 = curRec (obj (exec next4 filtered4)) /\ onMatch (exec next4 filtered4).
Proof.
  assert (Hrun : next4 filtered4 = Some ((OK, mkRID 3 1), exec next4 filtered4))
    by (vm_compute; reflexivity).
  split; [exact Hrun|].
  exact (scanNext_returns_matching_record 10 NULLRID filtered4 _ _ (or_introl Hrun)).
Defined.

(** X11 on [scan4], whose current page is page 2 in frame 0. *)
Lemma endScan_releases_current_page_witness :
  wf (bm (sys scan4)) /\ filePtr (obj scan4) = Some 2%nat /\
  curPage (obj scan4) = Some 0%nat /\
  0 < pins (bm (sys scan4)) 2%nat (curPageNo (obj scan4)) /\
  exists h4 h2,
    Stage4.endScan scan4 = Some (OK, h4) /\ Var2.endScan scan4 = Some (OK, h2) /\
    sys h4 = sys h2 /\ curPageNo (obj h4) = 0 /\ curPageNo (obj h2) = -1 /\
    Stage4.endScan h4 = Some (OK, h4) /\ Var2.endScan h2 = Some (OK, h2).
Proof.
  assert (Hf : filePtr (obj scan4) = Some 2%nat) by (vm_compute; reflexivity).
  assert (Hc : curPage (obj scan4) = Some 0%nat) by (vm_compute; reflexivity).
  assert (Hp : 0 < pins (bm (sys scan4)) 2%nat (curPageNo (obj scan4)))
    by (vm_compute; reflexivity).
  split; [exact scan4_wf|]. split; [exact Hf|]. split; [exact Hc|]. split; [exact Hp|].
  destruct (endScan_releases_current_page scan4 2%nat 0%nat scan4_wf Hf Hc Hp)
    as (h4 & h2 & H4 & H2 & Hs & _ & _ & _ & Hn4 & _ & _ & Hn2 & _ & H4' & H2').
  exists h4, h2. repeat (split; [assumption|]). assumption.
Defined.

(** X12 on [scan4]: page 0 of the file does not exist. *)
Lemma getRecord4_after_endScan_witness :
  wf (bm (sys scan4)) /\
  Stage4.endScan scan4 = Some (OK, exec Stage4.endScan scan4) /\
  is_Some (curPage (obj scan4)) /\ filePtr (obj scan4) = Some 2%nat /\
  pins (bm (sys (exec Stage4.endScan scan4))) 2%nat 0 = 0 /\
  exists e, (e = HASHNOTFOUND \/ e = PAGENOTPINNED) /\
    (e = HASHNOTFOUND <-> hashTable (bm (sys (exec Stage4.endScan scan4))) !! (2%nat, 0) = None) /\
    Stage4.getRecord (mkRID 2 0) (rec1 0) (exec Stage4.endScan scan4) =
      Some ((e, rec1 0), exec Stage4.endScan scan4).
Proof.
  assert (Hend : Stage4.endScan scan4 = Some (OK, exec Stage4.endScan scan4))
    by (vm_compute; reflexivity).
  assert (Hc : is_Some (curPage (obj scan4))) by (eexists; vm_compute; reflexivity).
  assert (Hf : filePtr (obj scan4) = Some 2%nat) by (vm_compute; reflexivity).
  assert (Hp : pins (bm (sys (exec Stage4.endScan scan4))) 2%nat 0 = 0)
    by (vm_compute; reflexivity).
  split; [exact scan4_wf|]. split; [exact Hend|]. split; [exact Hc|]. split; [exact Hf|].
  split; [exact Hp|].
  exact (getRecord4_after_endScan scan4 OK _ 2%nat (mkRID 2 0) (rec1 0) scan4_wf Hend Hc Hf Hp).
Defined.

(** X13 on a scan of the second variant that has not been started. *)
Lemma startScan2_rewinds_witness :
  Var2.startScan 0 1 STRING (Some [12]) GT unstarted2 =
    Some (OK, exec (Var2.startScan 0 1 STRING (Some [12]) GT) unstarted2) /\
  markedPageNo (obj (exec (Var2.startScan 0 1 STRING (Some [12]) GT) unstarted2)) = -1 /\
  curRec (obj (exec (Var2.startScan 0 1 STRING (Some [12]) GT) unstarted2)) = NULLRID /\
  Var2.resetScan (exec (Var2.startScan 0 1 STRING (Some [12]) GT) unstarted2) =
    Some (BADSCANID, exec (Var2.startScan 0 1 STRING (Some [12]) GT) unstarted2).
Proof.
  assert (Hrun : Var2.startScan 0 1 STRING (Some [12]) GT unstarted2 =
                 Some (OK, exec (Var2.startScan 0 1 STRING (Some [12]) GT) unstarted2))
    by (vm_compute; reflexivity).
  split; [exact Hrun|].
  destruct (proj2 (startScan2_rewinds 0 1 STRING (Some [12]) GT unstarted2 OK _ Hrun) eq_refl)
    as (_ & _ & Hm & _ & Hr & _ & _ & Hreset).
  split; [exact Hm|]. split; [exact Hr|]. exact Hreset.
Defined.

(** X14 on a pool of one frame: the header page is allocated, the data page
    finds no frame. *)
Lemma createHeapFile2_no_pin_leak_witness :
  wf (bm (sys0 1)) /\
  Var2.createHeapFile "r" (sys0 1) =
    Some (BUFFEREXCEEDED, exec (Var2.createHeapFile "r") (sys0 1)) /\
  wf (bm (exec (Var2.createHeapFile "r") (sys0 1))) /\
  forall g q, pins (bm (exec (Var2.createHeapFile "r") (sys0 1))) g q = pins (bm (sys0 1)) g q.
Proof.
  assert (Hrun : Var2.createHeapFile "r" (sys0 1) =
                 Some (BUFFEREXCEEDED, exec (Var2.createHeapFile "r") (sys0 1)))
    by (vm_compute; reflexivity).
  split; [exact (wf_new 1)|]. split; [exact Hrun|].
  exact (createHeapFile2_no_pin_leak "r" (sys0 1) BUFFEREXCEEDED _ (wf_new 1) Hrun).
Defined.

(** X15 for an [InsertFileScan] of the first variant on the loaded file: it
    stands on page 4, the last page. *)
Lemma constructor_holds_pages_witness :
  wf (bm (sys (fresh loaded))) /\ curPage (obj (fresh loaded)) = None /\
  construct Stage4Impl AnInsertFileScan "r" (fresh loaded) =
    Some (OK, exec (construct Stage4Impl AnInsertFileScan "r") (fresh loaded)) /\
  curPageNo (obj (exec (construct Stage4Impl AnInsertFileScan "r") (fresh loaded))) = 4 /\
  curPinned (exec (construct Stage4Impl AnInsertFileScan "r") (fresh loaded)) /\
  exists f, holdsPages f (fresh loaded)
              (exec (construct Stage4Impl AnInsertFileScan "r") (fresh loaded)).
Proof.
  assert (Hrun : construct Stage4Impl AnInsertFileScan "r" (fresh loaded) =
                 Some (OK, exec (construct Stage4Impl AnInsertFileScan "r") (fresh loaded)))
    by (vm_compute; reflexivity).
  assert (Hnone : curPage (obj (fresh loaded)) = None) by reflexivity.
  split; [exact loaded_wf|]. split; [exact Hnone|]. split; [exact Hrun|].
  split; [vm_compute; reflexivity|].
  destruct (constructor_holds_pages Stage4Impl AnInsertFileScan "r" (fresh loaded) _
              loaded_wf Hnone Hrun)
    as (_ & Hinv & f & Hhold & _).
  split; [exact Hinv|]. exists f. exact Hhold.
Defined.

(** X16 for the same object. *)
Lemma open_close_round_trip_witness :
  wf (bm (sys (fresh loaded))) /\ curPage (obj (fresh loaded)) = None /\
  construct Stage4Impl AnInsertFileScan "r" (fresh loaded) =
    Some (OK, exec (construct Stage4Impl AnInsertFileScan "r") (fresh loaded)) /\
  exists f h2,
    destroy Stage4Impl AnInsertFileScan
      (exec (construct Stage4Impl AnInsertFileScan "r") (fresh loaded)) = Some (tt, h2) /\
    (forall g q, pins (bm (sys h2)) g q = pins (bm (sys (fresh loaded))) g q) /\
    calls (sys h2) =
      calls (sys (exec (construct Stage4Impl AnInsertFileScan "r") (fresh loaded))) ++
      [CCloseFile f].
Proof.
  assert (Hrun : construct Stage4Impl AnInsertFileScan "r" (fresh loaded) =
                 Some (OK, exec (construct Stage4Impl AnInsertFileScan "r") (fresh loaded)))
    by (vm_compute; reflexivity).
  assert (Hnone : curPage (obj (fresh loaded)) = None) by reflexivity.
  split; [exact loaded_wf|]. split; [exact Hnone|]. split; [exact Hrun|].
  destruct (open_close_round_trip Stage4Impl AnInsertFileScan "r" (fresh loaded) _
              loaded_wf Hnone Hrun)
    as (f & h2 & _ & Hd & _ & Hp & _ & _ & Hc & _).
  exists f, h2. split; [exact Hd|]. split; [exact Hp|]. exact Hc.
Defined.

Lemma scan4_curPinned : curPinned scan4.
Proof.
  split; [exact scan4_wf|]. exists 2%nat. split; [vm_compute; reflexivity|].
  intros i Hi. vm_compute in Hi. injection Hi as <-. split; vm_compute; reflexivity.
Qed.

(** X17 for the first [scanNext] of [scan4]. *)
Lemma calls_keep_current_page_pinned_witness :
  curPinned scan4 /\
  call Stage4Impl (CallScanNext 10 NULLRID) scan4 =
    Some (OK, exec (call Stage4Impl (CallScanNext 10 NULLRID)) scan4) /\
  curPinned (exec (call Stage4Impl (CallScanNext 10 NULLRID)) scan4).
Proof.
  assert (Hrun : call Stage4Impl (CallScanNext 10 NULLRID) scan4 =
                 Some (OK, exec (call Stage4Impl (CallScanNext 10 NULLRID)) scan4))
    by (vm_compute; reflexivity).
  split; [exact scan4_curPinned|]. split; [exact Hrun|].
  exact (proj1 (calls_keep_current_page_pinned Stage4Impl (CallScanNext 10 NULLRID) scan4
                  OK _ scan4_curPinned Hrun (or_introl eq_refl))).
Defined.

(** X18 for the second variant, on the first record of the file. *)
Lemma deleteRecord_counts_witness :
  exists hp pg,
    headerPage (obj (exec next2 scan2)) = Some 3%nat /\
    curPage (obj (exec next2 scan2)) = Some 0%nat /\ 3%nat <> 0%nat /\
    bufPool (bm (sys (exec next2 scan2))) !! 3%nat = Some hp /\
    bufPool (bm (sys (exec next2 scan2))) !! 0%nat = Some pg /\
    (Var2Impl = Var2Impl -> 0 <= ridPageNo (curRec (obj (exec next2 scan2)))) /\
    recCnt (hdrOf hp) = 5 /\
    fst (pageDeleteRecord (curRec (obj (exec next2 scan2))) pg) = OK /\
    exists h',
      call Var2Impl CallDeleteRecord (exec next2 scan2) =
        Some (fst (pageDeleteRecord (curRec (obj (exec next2 scan2))) pg), h') /\
      bufPool (bm (sys h')) !! 3%nat =
        Some (hdrSet (setRecCnt (recCnt (hdrOf hp) - 1) (hdrOf hp)) hp).
Proof.
  exists (default tZero (bufPool (bm (sys (exec next2 scan2))) !! 3%nat)),
         (default tZero (bufPool (bm (sys (exec next2 scan2))) !! 0%nat)).
  assert (Hh : headerPage (obj (exec next2 scan2)) = Some 3%nat) by (vm_compute; reflexivity).
  assert (Hc : curPage (obj (exec next2 scan2)) = Some 0%nat) by (vm_compute; reflexivity).
  assert (Hne : 3%nat <> 0%nat) by discriminate.
  assert (Hhp : bufPool (bm (sys (exec next2 scan2))) !! 3%nat =
                Some (default tZero (bufPool (bm (sys (exec next2 scan2))) !! 3%nat)))
    by (vm_compute; reflexivity).
  assert (Hpg : bufPool (bm (sys (exec next2 scan2))) !! 0%nat =
                Some (default tZero (bufPool (bm (sys (exec next2 scan2))) !! 0%nat)))
    by (vm_compute; reflexivity).
  assert (Hr : Var2Impl = Var2Impl -> 0 <= ridPageNo (curRec (obj (exec next2 scan2))))
    by (intros _; vm_compute; discriminate).
  assert (Hdel : fst (pageDeleteRecord (curRec (obj (exec next2 scan2)))
                        (default tZero (bufPool (bm (sys (exec next2 scan2))) !! 0%nat))) = OK)
    by (vm_compute; reflexivity).
  split; [exact Hh|]. split; [exact Hc|]. split; [exact Hne|].
  split; [exact Hhp|]. split; [exact Hpg|].
  split; [exact Hr|]. split; [vm_compute; reflexivity|]. split; [exact Hdel|].
  destruct (deleteRecord_counts Var2Impl (exec next2 scan2) 3%nat 0%nat _ _ Hh Hc Hne
              Hhp Hpg Hr) as (h' & Hrun & _ & _ & _ & _ & _ & _ & _ & _ & Hok & _).
  exists h'. split; [exact Hrun|]. exact (proj1 (Hok Hdel)).
Defined.

(** X20 on [fullPage]: the third record does not fit on page 2, and page 3
    is allocated for it. *)
Lemma insertRecord4_bookkeeping_witness :
  exists hp,
    wf (bm (sys fullPage)) /\ filePtr (obj fullPage) = Some 2%nat /\
    headerPage (obj fullPage) = Some 3%nat /\
    hashTable (bm (sys fullPage)) !! (2%nat, headerPageNo (obj fullPage)) = Some 3%nat /\
    0 < pins (bm (sys fullPage)) 2%nat (headerPageNo (obj fullPage)) /\
    curPage (obj fullPage) = Some 0%nat /\
    hashTable (bm (sys fullPage)) !! (2%nat, curPageNo (obj fullPage)) = Some 0%nat /\
    0 < pins (bm (sys fullPage)) 2%nat (curPageNo (obj fullPage)) /\
    headerPageNo (obj fullPage) <> curPageNo (obj fullPage) /\
    bufPool (bm (sys fullPage)) !! 3%nat = Some hp /\
    Stage4.insertRecord (rec1 12) NULLRID fullPage =
      Some ((OK, mkRID 3 0), exec (Stage4.insertRecord (rec1 12) NULLRID) fullPage) /\
    curPageNo (obj (exec (Stage4.insertRecord (rec1 12) NULLRID) fullPage)) = 3 /\
    exists hp',
      bufPool (bm (sys (exec (Stage4.insertRecord (rec1 12) NULLRID) fullPage))) !! 3%nat =
        Some hp' /\
      recCnt (hdrOf hp') = recCnt (hdrOf hp) + 1.
Proof.
  exists (default tZero (bufPool (bm (sys fullPage)) !! 3%nat)).
  assert (Hwf : wf (bm (sys fullPage))) by (apply wfb_sound; vm_compute; reflexivity).
  assert (Hf : filePtr (obj fullPage) = Some 2%nat) by (vm_compute; reflexivity).
  assert (Hh : headerPage (obj fullPage) = Some 3%nat) by (vm_compute; reflexivity).
  assert (Hhh : hashTable (bm (sys fullPage)) !! (2%nat, headerPageNo (obj fullPage)) =
                Some 3%nat) by (vm_compute; reflexivity).
  assert (Hph : 0 < pins (bm (sys fullPage)) 2%nat (headerPageNo (obj fullPage)))
    by (vm_compute; reflexivity).
  assert (Hc : curPage (obj fullPage) = Some 0%nat) by (vm_compute; reflexivity).
  assert (Hhc : hashTable (bm (sys fullPage)) !! (2%nat, curPageNo (obj fullPage)) =
                Some 0%nat) by (vm_compute; reflexivity).
  assert (Hpc : 0 < pins (bm (sys fullPage)) 2%nat (curPageNo (obj fullPage)))
    by (vm_compute; reflexivity).
  assert (Hne : headerPageNo (obj fullPage) <> curPageNo (obj fullPage))
    by (vm_compute; discriminate).
  assert (Hhp : bufPool (bm (sys fullPage)) !! 3%nat =
                Some (default tZero (bufPool (bm (sys fullPage)) !! 3%nat)))
    by (vm_compute; reflexivity).
  assert (Hrun : Stage4.insertRecord (rec1 12) NULLRID fullPage =
                 Some ((OK, mkRID 3 0), exec (Stage4.insertRecord (rec1 12) NULLRID) fullPage))
    by (vm_compute; reflexivity).
  repeat (split; [assumption|]).
  split; [vm_compute; reflexivity|].
  destruct (insertRecord4_bookkeeping (rec1 12) NULLRID fullPage 2%nat 3%nat 0%nat _ _ _
              Hwf Hf Hh Hhh Hph Hc Hhc Hpc Hne Hhp Hrun) as (hp' & Hl & Hcnt & _).
  exists hp'. split; [exact Hl|]. exact Hcnt.
Defined.

End MoreRuns.
